(** * kops: task lifecycle markers, the Terraform target, IAM policy
      documents and the AWS network model builder

    A shallow embedding of the Go sources
    - [upup/pkg/fi/cloudup/gcetasks] (generated [ForwardingRule] accessors),
    - [upup/pkg/fi/cloudup/terraform] ([TerraformTarget]),
    - [pkg/model/iam] ([Policy], [Statement], [PolicyResource]),
    - [pkg/model/awsmodel] ([NetworkModelBuilder.Build]),
    together with the wave planner and the structural dependency walk of the
    task-graph engine.  Go pointers that may be nil are [option]s, Go maps are
    [gmap]s, and a [range] over a map visits the entries in the order given
    by the class [Go.MapRange], since Go leaves that order open. *)

From Stdlib Require Import String Ascii List Bool Arith Lia Permutation.
From Stdlib Require Import ZArith DecimalString.
From stdpp Require Import base option list strings gmap fin_maps sorting.
Import ListNotations.
Local Open Scope string_scope.
Local Open Scope list_scope.
Set Warnings "-register-all".

(** ** Package [fi]: lifecycles and pointer helpers *)

Module Fi.

(** [type Lifecycle string]; the declaration lives in [upup/pkg/fi]. *)
Definition Lifecycle := string.

(** The four markers of the data model. *)
Definition LifecycleExistsAndManaged : Lifecycle := "ExistsAndManaged".
Definition LifecycleExistsAndWarnIfChanges : Lifecycle := "ExistsAndWarnIfChanges".
Definition LifecycleExistsAndWarnIfInsufficientAccess : Lifecycle :=
  "ExistsAndWarnIfInsufficientAccess".
Definition LifecycleWarnIfInsufficientAccess : Lifecycle := "WarnIfInsufficientAccess".

(** [fi.String(s)] returns a pointer to [s]; [fi.Bool] likewise. *)
Definition String (s : string) : option string := Some s.
Definition Bool (b : bool) : option bool := Some b.

(** [fi.StringValue(p)]: the pointee, or the empty string for nil. *)
Definition StringValue (p : option string) : string :=
  match p with
  | Some s => s
  | None => ""
  end.

(** [fi.BoolValue(p)]: the pointee, or false for nil. *)
Definition BoolValue (p : option bool) : bool :=
  match p with
  | Some b => b
  | None => false
  end.

End Fi.

(** ** Go runtime notions shared by the packages *)

Module Go.

(** A Go [error] built by [fmt.Errorf]: the format string, the string
    operands in order, and the wrapped error printed by the trailing [%v],
    if there is one.  Errors coming from the operating system or from other
    packages are values of the same type. *)
Inductive error : Type :=
| Errorf (format : string) (args : list string) (cause : option error).

(** [[]byte] *)
Definition bytes := list Byte.byte.

(** [for k, v := range m]: Go visits the keys of a map in an order it does
    not specify.  [range m] is the order chosen by the runtime; all that is
    known about it is that it lists every entry of [m] exactly once. *)
Class MapRange : Type := {
  range : forall {V : Type}, gmap string V -> list (string * V);
  range_perm : forall {V : Type} (m : gmap string V),
    Permutation (range m) (map_to_list m)
}.

(** One admissible runtime: the order of [map_to_list]. *)
Definition canonicalRange : MapRange :=
  {| range := fun V (m : gmap string V) => map_to_list m;
     range_perm := fun V m => Permutation_refl _ |}.

End Go.

(** ** Package [gcetasks]: the generated accessors of [ForwardingRule] *)

Module GceTasks.

(** The struct declaration is not part of the generated file; the accessors
    only touch [Name] and [Lifecycle], so every other field of the struct is
    kept together in [Other]. *)
Record ForwardingRule (Rest : Type) : Type := mkForwardingRule {
  Name : option string;
  Lifecycle : Fi.Lifecycle;
  Other : Rest
}.
Arguments mkForwardingRule {Rest} _ _ _.
Arguments Name {Rest} _.
Arguments Lifecycle {Rest} _.
Arguments Other {Rest} _.

(** [func (o *ForwardingRule) GetLifecycle() fi.Lifecycle] *)
Definition GetLifecycle {Rest} (o : ForwardingRule Rest) : Fi.Lifecycle :=
  Lifecycle o.

(** [func (o *ForwardingRule) SetLifecycle(lifecycle fi.Lifecycle)]: the
    receiver is a pointer, so the call yields the updated struct. *)
Definition SetLifecycle {Rest} (o : ForwardingRule Rest)
    (lifecycle : Fi.Lifecycle) : ForwardingRule Rest :=
  mkForwardingRule (Name o) lifecycle (Other o).

(** [func (o *ForwardingRule) GetName() *string] *)
Definition GetName {Rest} (o : ForwardingRule Rest) : option string := Name o.

End GceTasks.

(** ** Package [terraform]: the Terraform writer target *)

Module Terraform.
Import Go.

(** The operating system as [Finish] sees it: a file system state changed by
    [os.MkdirAll] and [ioutil.WriteFile], either of which may fail, and the
    pure path functions of package [path]. *)
Class OS : Type := {
  FS : Type;
  os_MkdirAll : string -> N -> FS -> option error * FS;
  ioutil_WriteFile : string -> bytes -> N -> FS -> option error * FS;
  path_Join : string -> string -> string;
  path_Dir : string -> string
}.

(** A system call made by [Finish], with the arguments it was made with. *)
Inductive SysCall : Type :=
| CallMkdirAll (dir : string) (perm : N)
| CallWriteFile (name : string) (data : bytes) (perm : N).

(** The world [Finish] acts on: the file system and the log of the system
    calls attempted so far, each with its outcome, oldest first. *)
Record World `{OS} : Type := mkWorld {
  fs : FS;
  calls : list (SysCall * option error)
}.

(** [os.MkdirAll(dir, perm)] on the world. *)
Definition MkdirAll `{OS} (dir : string) (perm : N) (w : World)
    : option error * World :=
  let '(err, fs') := os_MkdirAll dir perm (fs w) in
  (err, mkWorld _ fs' (calls w ++ [(CallMkdirAll dir perm, err)])).

(** [ioutil.WriteFile(name, data, perm)] on the world. *)
Definition WriteFile `{OS} (name : string) (data : bytes) (perm : N)
    (w : World) : option error * World :=
  let '(err, fs') := ioutil_WriteFile name data perm (fs w) in
  (err, mkWorld _ fs' (calls w ++ [(CallWriteFile name data perm, err)])).

(** [TerraformTarget].  [Files] is the map of the embedded
    [terraformWriter.TerraformWriter]; what else the writer holds (the
    resources, outputs and providers collected while rendering) is [Writer].
    [Cloud] and [clusterSpecTarget] are kept abstract. *)
Record TerraformTarget (W C S : Type) : Type := mkTerraformTarget {
  Writer : W;
  Files : gmap string bytes;
  Cloud : C;
  Project : string;
  ClusterName : string;
  outDir : string;
  clusterSpecTarget : S
}.
Arguments mkTerraformTarget {W C S} _ _ _ _ _ _ _.
Arguments Writer {W C S} _.
Arguments Files {W C S} _.
Arguments Cloud {W C S} _.
Arguments Project {W C S} _.
Arguments ClusterName {W C S} _.
Arguments outDir {W C S} _.
Arguments clusterSpecTarget {W C S} _.

(** What [Finish] uses of the rest of the program: the feature flag
    [featureflag.TerraformJSON] and the two renderers of the target, which
    put the rendered document into the target and may fail. *)
Class Renderer (W C S : Type) : Type := {
  TerraformJSON_Enabled : bool;
  finishJSON : TerraformTarget W C S -> option error * TerraformTarget W C S;
  finishHCL2 : TerraformTarget W C S -> option error * TerraformTarget W C S
}.

(** [os.FileMode(0755)] and [os.FileMode(0644)]: the octal literals. *)
Definition mode_0755 : N := 493%N.
Definition mode_0644 : N := 420%N.

(** [func (t *TerraformTarget) ProcessDeletions() bool] *)
Definition ProcessDeletions {W C S} (t : TerraformTarget W C S) : bool :=
  (* Terraform tracks & performs deletions itself *)
  false.

(** The body of [for relativePath, contents := range t.Files], over the
    entries in the order the runtime visits them. *)
Fixpoint writeFiles `{OS} (outDir : string) (files : list (string * bytes))
    (w : World) : option error * World :=
  match files with
  | [] => (None, w)
  | (relativePath, contents) :: rest =>
      let p := path_Join outDir relativePath in
      match MkdirAll (path_Dir p) mode_0755 w with
      | (Some err, w1) =>
          (Some (Errorf "error creating output directory %q: %v"
                   [path_Dir p] (Some err)), w1)
      | (None, w1) =>
          match WriteFile p contents mode_0644 w1 with
          | (Some err, w2) =>
              (Some (Errorf "error writing terraform data to output file %q: %v"
                       [p] (Some err)), w2)
          | (None, w2) => writeFiles outDir rest w2
          end
      end
  end.

(** [func (t *TerraformTarget) Finish(taskMap map[string]fi.Task) error].
    The task map is not used by the body.  The result is the returned error,
    the target as the renderer left it, and the world. *)
Definition Finish `{OS} `{MapRange} {W C S} `{Renderer W C S}
    (t : TerraformTarget W C S) (w : World)
    : option error * TerraformTarget W C S * World :=
  let '(err, t1) :=
    if TerraformJSON_Enabled then finishJSON t else finishHCL2 t in
  match err with
  | Some e => (Some e, t1, w)
  | None =>
      let '(r, w') := writeFiles (outDir t1) (range (Files t1)) w in
      (r, t1, w')
  end.

(** The calls [Finish] is to make for the entries [files], in order. *)
Definition plannedCalls `{OS} (outDir : string) (files : list (string * bytes))
    : list SysCall :=
  flat_map (fun '(relativePath, contents) =>
      let p := path_Join outDir relativePath in
      [CallMkdirAll (path_Dir p) mode_0755; CallWriteFile p contents mode_0644])
    files.

(** The error [Finish] returns when the system call [c] fails with [err]. *)
Definition wrapError (c : SysCall) (err : error) : error :=
  match c with
  | CallMkdirAll dir _ =>
      Errorf "error creating output directory %q: %v" [dir] (Some err)
  | CallWriteFile p _ _ =>
      Errorf "error writing terraform data to output file %q: %v" [p] (Some err)
  end.

(** A call that went through. *)
Definition succeeded (c : SysCall) : SysCall * option error := (c, None).

(** What the system answers to a call, and the file system it leaves. *)
Definition perform `{OS} (c : SysCall) (fs0 : FS) : option error * FS :=
  match c with
  | CallMkdirAll dir perm => os_MkdirAll dir perm fs0
  | CallWriteFile name data perm => ioutil_WriteFile name data perm fs0
  end.

(** The calls [cs] made one after the other on the file system [fs0]: each
    call with the answer of the system, and the file system after the last
    one. *)
Fixpoint performAll `{OS} (cs : list SysCall) (fs0 : FS)
    : list (SysCall * option error) * FS :=
  match cs with
  | [] => ([], fs0)
  | c :: rest =>
      let '(err, fs1) := perform c fs0 in
      let '(log, fs2) := performAll rest fs1 in
      ((c, err) :: log, fs2)
  end.

(** A small system for the examples.  The file system is the list of the
    files written; no directory can be created under [/ro]; paths are
    joined with a slash, and the directory of a path is what precedes its
    last slash. *)
Fixpoint dirOf (p : string) : option string :=
  match p with
  | EmptyString => None
  | String c rest =>
      match dirOf rest with
      | Some d => Some (String c d)
      | None => if Ascii.eqb c "/" then Some "" else None
      end
  end.

Definition exampleOS : OS :=
  {| FS := list (string * bytes);
     os_MkdirAll := fun dir _ fs =>
       if String.prefix "/ro" dir
       then (Some (Errorf "mkdir %s: read-only file system" [dir] None), fs)
       else (None, fs);
     ioutil_WriteFile := fun name data _ fs => (None, fs ++ [(name, data)]);
     path_Join := fun a b => a +:+ "/" +:+ b;
     path_Dir := fun p => default "." (dirOf p) |}.

(** A renderer for the examples: it stores a one-byte document under
    [kubernetes.tf]. *)
Definition exampleRenderer : Renderer unit unit unit :=
  let render := fun t : TerraformTarget unit unit unit =>
    (None, mkTerraformTarget (Writer t)
             (<["kubernetes.tf" := [Byte.x7b]]> (Files t))
             (Cloud t) (Project t) (ClusterName t) (outDir t)
             (clusterSpecTarget t)) in
  {| TerraformJSON_Enabled := false;
     finishJSON := render;
     finishHCL2 := render |}.

Definition exampleTarget (outDir : string) : TerraformTarget unit unit unit :=
  mkTerraformTarget tt ∅ tt "testproject" "minimal-gce.example.com" outDir tt.

End Terraform.

(** ** Go's [encoding/json], as far as the policy documents use it *)

Module Json.

(** The double quote and the backslash. *)
Definition dquote : ascii := ascii_of_nat 34.
Definition backslash : ascii := ascii_of_nat 92.

Definition hexDigit (n : nat) : ascii :=
  nth n ["0"; "1"; "2"; "3"; "4"; "5"; "6"; "7";
         "8"; "9"; "a"; "b"; "c"; "d"; "e"; "f"]%char "0"%char.

(** One ASCII byte of a string as the encoder writes it, HTML escaping on
    (the default of [json.Marshal]).  A control character other than the
    new line, the carriage return and the tab is written as [u00XX], as
    the encoder does in the Go releases before 1.22. *)
Definition escapeByte (c : ascii) : string :=
  let n := nat_of_ascii c in
  if (n =? 34)%nat || (n =? 92)%nat then String backslash (String c "")
  else if (n =? 10)%nat then String backslash "n"
  else if (n =? 13)%nat then String backslash "r"
  else if (n =? 9)%nat then String backslash "t"
  else if (n <? 32)%nat || (n =? 60)%nat || (n =? 62)%nat || (n =? 38)%nat then
    String backslash
      (String "u" (String "0" (String "0"
        (String (hexDigit (n / 16)%nat) (String (hexDigit (n mod 16)%nat) "")))))
  else String c "".

(** [utf8.DecodeRuneInString] on the bytes from 0x80 on: the encodings of
    two, three and four bytes it accepts.  The first byte gives the range
    of the second, and the bytes after it are continuation bytes. *)
Definition continuation (n : nat) : bool := (128 <=? n)%nat && (n <=? 191)%nat.

Definition rune2 (n1 n2 : nat) : bool :=
  (194 <=? n1)%nat && (n1 <=? 223)%nat && continuation n2.

Definition rune3 (n1 n2 n3 : nat) : bool :=
  ((n1 =? 224)%nat && (160 <=? n2)%nat && (n2 <=? 191)%nat
   || ((225 <=? n1)%nat && (n1 <=? 236)%nat
       || (238 <=? n1)%nat && (n1 <=? 239)%nat) && continuation n2
   || (n1 =? 237)%nat && (128 <=? n2)%nat && (n2 <=? 159)%nat)
  && continuation n3.

Definition rune4 (n1 n2 n3 n4 : nat) : bool :=
  ((n1 =? 240)%nat && (144 <=? n2)%nat && (n2 <=? 191)%nat
   || (241 <=? n1)%nat && (n1 <=? 243)%nat && continuation n2
   || (n1 =? 244)%nat && (128 <=? n2)%nat && (n2 <=? 143)%nat)
  && continuation n3 && continuation n4.

(** What the encoder writes for a byte that begins no valid encoding. *)
Definition replacement : string := String backslash "ufffd".

(** The bytes of a string as the encoder writes them.  An ASCII byte goes
    through [escapeByte].  A valid encoding of several bytes is copied,
    except those of U+2028 and U+2029, which are written as escapes.  A
    byte that begins no valid encoding is replaced, and the encoder goes on
    with the byte after it. *)
Fixpoint escape (s : string) : string :=
  match s with
  | EmptyString => ""
  | String c1 rest1 =>
      let n1 := nat_of_ascii c1 in
      if (n1 <? 128)%nat then escapeByte c1 +:+ escape rest1
      else
        match rest1 with
        | EmptyString => replacement
        | String c2 rest2 =>
            let n2 := nat_of_ascii c2 in
            if rune2 n1 n2 then String c1 (String c2 (escape rest2))
            else
              match rest2 with
              | EmptyString => replacement +:+ escape rest1
              | String c3 rest3 =>
                  let n3 := nat_of_ascii c3 in
                  if rune3 n1 n2 n3 then
                    if (n1 =? 226)%nat && (n2 =? 128)%nat
                       && ((n3 =? 168)%nat || (n3 =? 169)%nat)
                    then
                      String backslash
                        ("u202" +:+ String (hexDigit (n3 mod 16)%nat) "")
                      +:+ escape rest3
                    else String c1 (String c2 (String c3 (escape rest3)))
                  else
                    match rest3 with
                    | EmptyString => replacement +:+ escape rest1
                    | String c4 rest4 =>
                        if rune4 n1 n2 n3 (nat_of_ascii c4) then
                          String c1
                            (String c2 (String c3 (String c4 (escape rest4))))
                        else replacement +:+ escape rest1
                    end
              end
        end
  end.

(** [json.Marshal(s)] for a Go string: the quoted, escaped string. *)
Definition quote (s : string) : string :=
  String dquote (escape s +:+ String dquote "").

(** Values held behind [interface{}] in a [Condition].  Those the encoder
    accepts are taken as the JSON tree they encode to: nil, a boolean, an
    integer, a string, [[]string] and other slices as an array,
    [map[string]string] and [map[string]interface{}] as an object with its
    keys in increasing order.  [Unsupported] stands for a value of a type
    the encoder refuses, a channel, a function or a complex number, and
    carries the name of that type.  Floating point numbers are left out. *)
Inductive value : Type :=
| Null
| Bool (b : bool)
| Int (n : Z)
| Str (s : string)
| Arr (items : list value)
| Obj (fields : list (string * value))
| Unsupported (goType : string).

(** The compact encoding of a value the encoder accepts. *)
Fixpoint encode (v : value) : string :=
  match v with
  | Null => "null"
  | Bool b => if b then "true" else "false"
  | Int n => NilZero.string_of_int (Z.to_int n)
  | Str s => quote s
  | Arr items =>
      "[" +:+ String.concat "," (map encode items) +:+ "]"
  | Obj fields =>
      "{" +:+ String.concat ","
                (map (fun kv => quote (fst kv) +:+ ":" +:+ encode (snd kv)) fields)
          +:+ "}"
  | Unsupported _ => ""
  end.

(** The type of the first value, in the order of the encoding, that the
    encoder refuses. *)
Fixpoint unsupported (v : value) : option string :=
  match v with
  | Unsupported goType => Some goType
  | Arr items =>
      head (flat_map (fun item => match unsupported item with
                                  | Some goType => [goType]
                                  | None => []
                                  end) items)
  | Obj fields =>
      head (flat_map (fun kv => match unsupported (snd kv) with
                                | Some goType => [goType]
                                | None => []
                                end) fields)
  | Null | Bool _ | Int _ | Str _ => None
  end.

(** [json.Marshal(v)]: the encoding, or no bytes and the
    [UnsupportedTypeError] of the first value the encoder refuses. *)
Definition Marshal (v : value) : string * option Go.error :=
  match unsupported v with
  | Some goType =>
      ("", Some (Go.Errorf "json: unsupported type: %s" [goType] None))
  | None => (encode v, None)
  end.

(** Insignificant white space between JSON tokens. *)
Definition isSpace (c : ascii) : bool :=
  let n := nat_of_ascii c in
  (n =? 32)%nat || (n =? 9)%nat || (n =? 13)%nat || (n =? 10)%nat.

(** [json.Compact]: drops the white space outside string literals.
    [inStr] tells whether the scanner is inside a literal, [esc] whether the
    previous byte was a backslash inside it. *)
Fixpoint compactFrom (inStr esc : bool) (s : string) : string :=
  match s with
  | EmptyString => ""
  | String c rest =>
      if inStr then
        String c (if esc then compactFrom true false rest
                  else if Ascii.eqb c backslash then compactFrom true true rest
                  else if Ascii.eqb c dquote then compactFrom false false rest
                  else compactFrom true false rest)
      else if isSpace c then compactFrom false false rest
      else String c (compactFrom (Ascii.eqb c dquote) false rest)
  end.

Definition compact (s : string) : string := compactFrom false false s.

(** A new line followed by [depth] copies of the two-space indent. *)
Fixpoint spaces (depth : nat) : string :=
  match depth with
  | O => ""
  | S d => "  " +:+ spaces d
  end.

Definition newline (depth : nat) : string :=
  String (ascii_of_nat 10) (spaces depth).

(** [json.Indent(dst, src, "", "  ")], byte by byte.  [needIndent] delays
    the line break after an opening bracket, so that empty objects and
    arrays stay on one line. *)
Fixpoint indentFrom (depth : nat) (needIndent inStr esc : bool) (s : string)
    : string :=
  match s with
  | EmptyString => ""
  | String c rest =>
      if inStr then
        String c (if esc then indentFrom depth needIndent true false rest
                  else if Ascii.eqb c backslash
                       then indentFrom depth needIndent true true rest
                  else if Ascii.eqb c dquote
                       then indentFrom depth needIndent false false rest
                  else indentFrom depth needIndent true false rest)
      else if isSpace c then indentFrom depth needIndent false false rest
      else
        let closing := Ascii.eqb c "}" || Ascii.eqb c "]" in
        let opened := needIndent && negb closing in
        let depth1 := if opened then S depth else depth in
        let lead := if opened then newline depth1 else "" in
        lead +:+
        (if Ascii.eqb c "{" || Ascii.eqb c "[" then
           String c (indentFrom depth1 true false false rest)
         else if Ascii.eqb c "," then
           String c (newline depth1 +:+ indentFrom depth1 false false false rest)
         else if Ascii.eqb c ":" then
           String c (String " " (indentFrom depth1 false false false rest))
         else if closing then
           if needIndent then String c (indentFrom depth1 false false false rest)
           else newline (pred depth1) +:+
                String c (indentFrom (pred depth1) false false false rest)
         else
           String c (indentFrom depth1 false (Ascii.eqb c dquote) false rest))
  end.

Definition indent (s : string) : string := indentFrom 0 false false false s.

End Json.

(** ** The task-graph engine: dependency analysis and wave planning *)

Module Engine.

(** Modelled from the spec: the value of an exported field as the Dependency
    Analyzer walks it (the reflective walk of package [fi] is not among the
    sources).  A field is a plain value, a reference to another task, an
    ordered sequence of fields or a mapping containing fields; [R] is the
    type of task references. *)
Inductive Field (R : Type) : Type :=
| Plain
| Link (target : R)
| Seq (items : list (Field R))
| Mapping (entries : list (string * Field R)).
Arguments Plain {R}.
Arguments Link {R} _.
Arguments Seq {R} _.
Arguments Mapping {R} _.

(** Modelled from the spec: the references found by walking a field, in the
    order of the walk. *)
Fixpoint links {R : Type} (f : Field R) : list R :=
  match f with
  | Plain => []
  | Link target => [target]
  | Seq items => flat_map links items
  | Mapping entries => flat_map (fun kv => links (snd kv)) entries
  end.

(** Modelled from the spec: the references found in the exported fields of
    a task or resource, given with their names. *)
Definition fieldLinks {R : Type} (fields : list (string * Field R)) : list R :=
  flat_map (fun kv => links (snd kv)) fields.

(** Modelled from the spec: a task, with its lifecycle marker and its
    exported fields; another task is referred to by its name in the map. *)
Record Task : Type := mkTask {
  Lifecycle : Fi.Lifecycle;
  Fields : list (string * Field string)
}.

(** Modelled from the spec: the tasks a task directly depends on. *)
Definition dependencies (t : Task) : list string := fieldLinks (Fields t).

(** The names of the tasks of a Task Map. *)
Definition taskNames (m : gmap string Task) : list string :=
  (map_to_list m).*1.

(** Modelled from the spec: the edge [a -> b] of a Task Map, "a must render
    before b": both are tasks of the map and [b] holds a link to [a]. *)
Definition edge (m : gmap string Task) (a b : string) : Prop :=
  is_Some (m !! a) /\ exists t, m !! b = Some t /\ a ∈ dependencies t.

(** A Task Map is acyclic when no task reaches itself along edges. *)
Definition acyclic (m : gmap string Task) : Prop :=
  forall a, ~ tc (edge m) a a.

(** Modelled from the spec: a task of [unscheduled] is ready when none of
    its dependencies is still unscheduled. *)
Definition ready (m : gmap string Task) (unscheduled : list string)
    (name : string) : bool :=
  match m !! name with
  | Some t => forallb (fun d => negb (bool_decide (d ∈ unscheduled)))
                      (dependencies t)
  | None => true
  end.

(** Modelled from the spec: the outcome of planning, which is the waves in
    order, or the tasks left when no task is ready although some remain (a
    cycle). *)
Inductive Plan : Type :=
| Waves (waves : list (list string))
| Cycle (remaining : list string).

(** Modelled from the spec: iterative topological layering.  The ready
    tasks of [unscheduled] form the next wave; they are removed and the rest
    is layered in turn.  Every round schedules at least one task, so
    [length unscheduled] rounds are enough. *)
Fixpoint layers (rounds : nat) (m : gmap string Task)
    (unscheduled : list string) : Plan :=
  match unscheduled with
  | [] => Waves []
  | _ :: _ =>
      let wave := filter (fun n => ready m unscheduled n = true) unscheduled in
      let rest := filter (fun n => ~ ready m unscheduled n = true) unscheduled in
      match wave, rounds with
      | [], _ => Cycle unscheduled
      | _, O => Cycle unscheduled
      | _, S rounds' =>
          match layers rounds' m rest with
          | Waves waves => Waves (wave :: waves)
          | Cycle remaining => Cycle remaining
          end
      end
  end.

(** Modelled from the spec: the Execution Planner on a Task Map. *)
Definition plan (m : gmap string Task) : Plan :=
  layers (length (taskNames m)) m (taskNames m).

(** [name] is in the wave of index [i]. *)
Definition inWave (waves : list (list string)) (i : nat) (name : string)
    : Prop :=
  exists wave, waves !! i = Some wave /\ name ∈ wave.

(** Three tasks: a network, a subnet that links the network, an instance
    that links the subnet. *)
Definition scenarioChain : gmap string Task :=
  {[ "Network" := mkTask Fi.LifecycleExistsAndManaged [("CIDR", Plain)];
     "Subnet" := mkTask Fi.LifecycleExistsAndManaged
                   [("Network", Link "Network"); ("CIDR", Plain)];
     "Instance" := mkTask Fi.LifecycleExistsAndManaged
                     [("Subnets", Seq [Link "Subnet"])] ]}.

(** Two tasks that link each other. *)
Definition scenarioCycle : gmap string Task :=
  {[ "A" := mkTask Fi.LifecycleExistsAndManaged [("Peer", Link "B")];
     "B" := mkTask Fi.LifecycleExistsAndManaged [("Peer", Link "A")] ]}.

End Engine.

(** ** Package [stringorslice]: a string or a list of strings *)

Module StringOrSlice.

(** The package is used by [pkg/model/iam] through this interface: the three
    constructors, the emptiness test and the JSON encoding (which cannot
    fail: it encodes a string or a list of strings). *)
Class Ops : Type := {
  T : Type;
  Of : list string -> T;
  String : string -> T;
  Slice : list string -> T;
  IsEmpty : T -> bool;
  MarshalJSON : T -> string
}.

(** An implementation, after the package: the values, and whether a single
    value is still written as an array. *)
Record impl : Type := mkImpl {
  values : list string;
  forceEncodeAsArray : bool
}.

Definition implOps : Ops :=
  {| T := impl;
     Of := fun v =>
       match v with
       | [_] => mkImpl v false
       | _ => mkImpl v true
       end;
     String := fun s => mkImpl [s] false;
     Slice := fun v => mkImpl v true;
     IsEmpty := fun v => match values v with [] => true | _ => false end;
     MarshalJSON := fun v =>
       match values v, forceEncodeAsArray v with
       | [s], false => Json.quote s
       | l, _ => Json.encode (Json.Arr (map Json.Str l))
       end |}.

End StringOrSlice.

(** ** Package [iam]: policy documents *)

Module Iam.
Import Go.

(** [sets.String.List()]: the members in increasing order. *)
Definition sets_List (s : gset string) : list string :=
  merge_sort String.le (elements s).

(** [sort.Strings]. *)
Definition sort_Strings (l : list string) : list string :=
  merge_sort String.le l.

(** [bytes.Buffer.Write]: appends, and never returns an error. *)
Definition Buffer_Write (buf b : string) : string * option error :=
  (buf +:+ b, None).

(** [const PolicyDefaultVersion] *)
Definition PolicyDefaultVersion : string := "2012-10-17".

(** [type StatementEffect string] *)
Definition StatementEffect := string.
Definition StatementEffectAllow : StatementEffect := "Allow".
Definition StatementEffectDeny : StatementEffect := "Deny".

(** [type Principal struct] *)
Record Principal : Type := mkPrincipal {
  Federated : string;
  Service : string
}.

(** [func (p *Principal) IsEmpty() bool]: [*p == Principal{}]. *)
Definition Principal_IsEmpty (p : Principal) : bool :=
  String.eqb (Federated p) "" && String.eqb (Service p) "".

(** [type jsonWriter struct]: the buffer written to and the first error. *)
Record jsonWriter : Type := mkJsonWriter {
  w : string;
  err : option error
}.

(** [func (j *jsonWriter) Error() error] *)
Definition Error (j : jsonWriter) : option error := err j.

(** [func (j *jsonWriter) WriteLiteral(b []byte)] *)
Definition WriteLiteral (j : jsonWriter) (b : string) : jsonWriter :=
  match err j with
  | Some _ => j
  | None =>
      let '(buf, e) := Buffer_Write (w j) b in
      match e with
      | Some e' => mkJsonWriter buf (Some e')
      | None => mkJsonWriter buf (err j)
      end
  end.

Definition StartObject (j : jsonWriter) : jsonWriter := WriteLiteral j "{".
Definition EndObject (j : jsonWriter) : jsonWriter := WriteLiteral j "}".
Definition Comma (j : jsonWriter) : jsonWriter := WriteLiteral j ",".

(** A condition that holds no value the encoder refuses. *)
Definition encodable (c : gmap string Json.value) : Prop :=
  forall k v, c !! k = Some v -> Json.unsupported v = None.

Section WithStringOrSlice.
Context `{SOS : StringOrSlice.Ops}.

(** [type Condition map[string]interface{}], and [type Statement struct]. *)
Record Statement : Type := mkStatement {
  Effect : StatementEffect;
  Principal_ : Principal;
  Action : StringOrSlice.T;
  Resource : StringOrSlice.T;
  Condition : gmap string Json.value
}.

(** The values handed to [json.Marshal] behind [interface{}]. *)
Inductive Any : Type :=
| AnyString (s : string)
| AnyStringOrSlice (v : StringOrSlice.T)
| AnyCondition (c : gmap string Json.value)
| AnyEffect (e : StatementEffect)
| AnyPrincipal (p : Principal).

(** The entries of a map with their keys in increasing order, as
    [encoding/json] writes a map. *)
Definition sortedEntries (c : gmap string Json.value)
    : list (string * Json.value) :=
  merge_sort (fun a b => String.le (fst a) (fst b)) (map_to_list c).

(** A struct field tagged [omitempty]: left out when the string is empty. *)
Definition omitempty (k v : string) : list (string * Json.value) :=
  if String.eqb v "" then [] else [(k, Json.Str v)].

(** [json.Marshal(v)].  A string, a string or slice, an effect and a
    principal always encode; a condition encodes unless it holds a value
    the encoder refuses.  The output of a type's own [MarshalJSON] is
    compacted by the encoder. *)
Definition json_Marshal (v : Any) : string * option error :=
  match v with
  | AnyString s => (Json.quote s, None)
  | AnyStringOrSlice v => (Json.compact (StringOrSlice.MarshalJSON v), None)
  | AnyCondition c => Json.Marshal (Json.Obj (sortedEntries c))
  | AnyEffect e => (Json.quote e, None)
  | AnyPrincipal p =>
      (Json.encode (Json.Obj (omitempty "Federated" (Federated p)
                              ++ omitempty "Service" (Service p))),
       None)
  end.

(** [func (j *jsonWriter) Field(s string)] *)
Definition Field (j : jsonWriter) (s : string) : jsonWriter :=
  match err j with
  | Some _ => j
  | None =>
      let '(b, e) := json_Marshal (AnyString s) in
      match e with
      | Some e' => mkJsonWriter (w j) (Some e')
      | None => WriteLiteral (WriteLiteral j b) ": "
      end
  end.

(** [func (j *jsonWriter) Marshal(v interface{})] *)
Definition Marshal (j : jsonWriter) (v : Any) : jsonWriter :=
  match err j with
  | Some _ => j
  | None =>
      let '(b, e) := json_Marshal v in
      match e with
      | Some e' => mkJsonWriter (w j) (Some e')
      | None => WriteLiteral j b
      end
  end.

(** [func (s *Statement) MarshalJSON() ([]byte, error)] *)
Definition Statement_MarshalJSON (s : Statement) : string * option error :=
  let jw := mkJsonWriter "" None in
  let jw := StartObject jw in
  let jw :=
    if negb (StringOrSlice.IsEmpty (Action s)) then
      Comma (Marshal (Field jw "Action") (AnyStringOrSlice (Action s)))
    else jw in
  let jw :=
    if negb (size (Condition s) =? 0)%nat then
      Comma (Marshal (Field jw "Condition") (AnyCondition (Condition s)))
    else jw in
  let jw := Marshal (Field jw "Effect") (AnyEffect (Effect s)) in
  let jw :=
    if negb (Principal_IsEmpty (Principal_ s)) then
      Marshal (Field (Comma jw) "Principal") (AnyPrincipal (Principal_ s))
    else jw in
  let jw :=
    if negb (StringOrSlice.IsEmpty (Resource s)) then
      Marshal (Field (Comma jw) "Resource") (AnyStringOrSlice (Resource s))
    else jw in
  let jw := EndObject jw in
  (w jw, Error jw).

(** [func (l *Statement) Equal(r *Statement) bool] is not needed below. *)

(** [type Policy struct]; [Statement] is a nil slice when empty. *)
Record Policy : Type := mkPolicy {
  clusterName : string;
  unconditionalAction : gset string;
  clusterTaggedAction : gset string;
  Statement_ : list Statement;
  Version : string
}.

(** [func NewPolicy(clusterName string) *Policy] *)
Definition NewPolicy (clusterName : string) : Policy :=
  mkPolicy clusterName ∅ ∅ [] PolicyDefaultVersion.

(** The encoder on [[]*Statement]: each element through its own
    [MarshalJSON], compacted; the first error ends the encoding. *)
Fixpoint marshalStatements (l : list Statement) : list string * option error :=
  match l with
  | [] => ([], None)
  | s :: rest =>
      match Statement_MarshalJSON s with
      | (_, Some e) =>
          ([], Some (Errorf "json: error calling MarshalJSON for type %s: %v"
                       ["*iam.Statement"] (Some e)))
      | (b, None) =>
          match marshalStatements rest with
          | (_, Some e) => ([], Some e)
          | (bs, None) => (Json.compact b :: bs, None)
          end
      end
  end.

(** [json.MarshalIndent(p, "", "  ")] on a [*Policy]: the exported fields
    [Statement] and [Version] in the order of the declaration, encoded
    compactly and then indented. *)
Definition json_MarshalIndent_Policy (p : Policy) : string * option error :=
  match marshalStatements (Statement_ p) with
  | (_, Some e) => ("", Some e)
  | (items, None) =>
      let statements :=
        match items with
        | [] => "null"
        | _ => "[" +:+ String.concat "," items +:+ "]"
        end in
      (Json.indent
         ("{" +:+ Json.quote "Statement" +:+ ":" +:+ statements +:+ ","
              +:+ Json.quote "Version" +:+ ":" +:+ Json.quote (Version p) +:+ "}"),
       None)
  end.

(** The policy with [s] appended to its statements. *)
Definition appendStatement (p : Policy) (s : Statement) : Policy :=
  mkPolicy (clusterName p) (unconditionalAction p) (clusterTaggedAction p)
           (Statement_ p ++ [s]) (Version p).

(** [func (p *Policy) AsJSON() (string, error)].  The receiver is a pointer
    and the appends are stored in it: the result comes with the policy as
    the call leaves it. *)
Definition AsJSON (p : Policy) : (string * option error) * Policy :=
  let p :=
    if (0 <? size (unconditionalAction p))%nat then
      appendStatement p
        (mkStatement StatementEffectAllow (mkPrincipal "" "")
           (StringOrSlice.Of (sets_List (unconditionalAction p)))
           (StringOrSlice.String "*")
           ∅)
    else p in
  let p :=
    if (0 <? size (clusterTaggedAction p))%nat then
      appendStatement p
        (mkStatement StatementEffectAllow (mkPrincipal "" "")
           (StringOrSlice.Of (sets_List (clusterTaggedAction p)))
           (StringOrSlice.String "*")
           {[ "StringEquals" :=
                Json.Obj [("aws:ResourceTag/KubernetesCluster",
                           Json.Str (clusterName p))] ]})
    else p in
  match json_MarshalIndent_Policy p with
  | (_, Some e) =>
      (("", Some (Errorf "error marshaling policy to JSON: %v" [] (Some e))), p)
  | (j, None) => ((j, None), p)
  end.

(** [func (b *PolicyBuilder) buildS3GetStatements(p *Policy, iamS3Path string) error].
    [readable] is what [ReadableStatePaths(b.Cluster, b.Role)] returns and
    [iamPrefix] what [b.IAMPrefix()] returns. *)
Definition buildS3GetStatements (iamPrefix : string)
    (readable : list string * option error) (p : Policy) (iamS3Path : string)
    : option error * Policy :=
  let '(resources, err) := readable in
  match err with
  | Some e => (Some e, p)
  | None =>
      if negb (length resources =? 0)%nat then
        let resources := sort_Strings resources in
        (* Add the prefix for IAM *)
        let resources :=
          map (fun r => iamPrefix +:+ ":s3:::" +:+ iamS3Path +:+ r) resources in
        (None,
         appendStatement p
           (mkStatement StatementEffectAllow (mkPrincipal "" "")
              (StringOrSlice.Slice ["s3:Get*"])
              (StringOrSlice.Of resources)
              ∅))
      else (None, p)
  end.

(** What is read of [kops.Cluster] below: the two accessors of its object
    metadata, [GetName()] and [GetClusterName()], which read different
    fields of it, and, for every etcd cluster and member, its [KmsKeyId]. *)
Record EtcdMemberSpec : Type := mkEtcdMemberSpec {
  KmsKeyId : option string
}.

Record EtcdClusterSpec : Type := mkEtcdClusterSpec {
  Members : list EtcdMemberSpec
}.

Record Cluster : Type := mkCluster {
  Cluster_GetName : string;
  Cluster_GetClusterName : string;
  EtcdClusters : list EtcdClusterSpec
}.

(** [type PolicyBuilder struct]; [Role] is a value of the interface
    [Subject], whose implementations form the type [S]. *)
Record PolicyBuilder (S : Type) : Type := mkPolicyBuilder {
  Cluster_ : Cluster;
  HostedZoneID : string;
  KMSKeys : list string;
  Region : string;
  ResourceARN : option string;
  Role : S;
  UseServiceAccountIAM : bool
}.
#[global] Arguments mkPolicyBuilder {S} _ _ _ _ _ _ _.
#[global] Arguments Cluster_ {S} _.
#[global] Arguments HostedZoneID {S} _.
#[global] Arguments KMSKeys {S} _.
#[global] Arguments Region {S} _.
#[global] Arguments ResourceARN {S} _.
#[global] Arguments Role {S} _.
#[global] Arguments UseServiceAccountIAM {S} _.

(** The interface [Subject]: [BuildAWSPolicy], from a builder to a policy or an error.
    The implementations read the builder and leave it as it is. *)
Class Subject (S : Type) : Type := {
  Subject_BuildAWSPolicy : S -> PolicyBuilder S -> option Policy * option error
}.

(** [func (r *NodeRoleBastion) BuildAWSPolicy(b *PolicyBuilder)] *)
Definition NodeRoleBastion_BuildAWSPolicy {S} (b : PolicyBuilder S)
    : option Policy * option error :=
  let p := NewPolicy (Cluster_GetClusterName (Cluster_ b)) in
  (* Bastion hosts currently don't require any specific permissions.
     A trivial permission is granted, because empty policies are not allowed. *)
  let p := mkPolicy (clusterName p)
             (unconditionalAction p ∪ {[ "ec2:DescribeRegions" ]})
             (clusterTaggedAction p) (Statement_ p) (Version p) in
  (Some p, None).

(** The key ids appended by the two loops of [BuildAWSPolicy]. *)
Definition kmsKeysOf (c : Cluster) : list string :=
  flat_map (fun e =>
      flat_map (fun m =>
          match KmsKeyId m with
          | Some k => [k]
          | None => []
          end)
        (Members e))
    (EtcdClusters c).

(** [func (b *PolicyBuilder) BuildAWSPolicy()]; the builder
    comes back with the key ids appended to [KMSKeys]. *)
Definition BuildAWSPolicy {S} `{Subject S} (b : PolicyBuilder S)
    : (option Policy * option error) * PolicyBuilder S :=
  let b := mkPolicyBuilder (Cluster_ b) (HostedZoneID b)
             (KMSKeys b ++ kmsKeysOf (Cluster_ b)) (Region b) (ResourceARN b)
             (Role b) (UseServiceAccountIAM b) in
  match Subject_BuildAWSPolicy (Role b) b with
  | (_, Some err) =>
      ((None, Some (Errorf "failed to generate AWS IAM Policy: %v" [] (Some err))), b)
  | (p, None) => ((p, None), b)
  end.

(** The fields of the task [awstasks.DNSZone] used here.  [ZoneID] is nil
    until the task has found or created the zone. *)
Record DNSZone : Type := mkDNSZone {
  DNSZone_Name : option string;
  ZoneID : option string
}.

(** [type PolicyResource struct] *)
Record PolicyResource (S : Type) : Type := mkPolicyResource {
  Builder : PolicyBuilder S;
  DNSZone_ : option DNSZone
}.
#[global] Arguments mkPolicyResource {S} _ _.
#[global] Arguments Builder {S} _.
#[global] Arguments DNSZone_ {S} _.

(** [func (b *PolicyResource) GetDependencies(tasks map[string]fi.Task) []fi.Task];
    the only tasks it can return are [DNSZone] tasks. *)
Definition GetDependencies {S TaskT} (b : PolicyResource S)
    (tasks : gmap string TaskT) : list DNSZone :=
  let deps := [] in
  let deps :=
    match DNSZone_ b with
    | Some z => deps ++ [z]
    | None => deps
    end in
  deps.

(** The builder with [HostedZoneID] set: [pb.HostedZoneID = hostedZoneID]. *)
Definition withHostedZoneID {S} (pb : PolicyBuilder S) (hostedZoneID : string)
    : PolicyBuilder S :=
  mkPolicyBuilder (Cluster_ pb) hostedZoneID (KMSKeys pb) (Region pb)
                  (ResourceARN pb) (Role pb) (UseServiceAccountIAM pb).

(** The second half of [Open], from [pb.BuildAWSPolicy()] on: the bytes of
    the reader returned, or the error. *)
Definition buildDocument {S} `{Subject S} (pb : PolicyBuilder S)
    : option string * option error :=
  match fst (BuildAWSPolicy pb) with
  | (_, Some err) =>
      (None, Some (Errorf "error building IAM policy: %v" [] (Some err)))
  | (None, None) => (Some "", None)
  | (Some policy, None) =>
      match fst (AsJSON policy) with
      | (_, Some err) =>
          (None, Some (Errorf "error building IAM policy: %v" [] (Some err)))
      | (j, None) => (Some j, None)
      end
  end.

(** [func (b *PolicyResource) Open() (io.Reader, error)] *)
Definition Open {S} `{Subject S} (b : PolicyResource S)
    : option string * option error :=
  (* Defensive copy before mutation *)
  let pb := Builder b in
  match DNSZone_ b with
  | Some z =>
      let hostedZoneID := Fi.StringValue (ZoneID z) in
      if String.eqb hostedZoneID "" then
        (* Dependency analysis failure? *)
        (None, Some (Errorf "DNS ZoneID not set" [] None))
      else buildDocument (withHostedZoneID pb hostedZoneID)
  | None => buildDocument pb
  end.

(** The one role whose policy is written out above. *)
Inductive BastionOnly : Type := NodeRoleBastion.

Definition bastionSubject : Subject BastionOnly :=
  {| Subject_BuildAWSPolicy := fun _ b => NodeRoleBastion_BuildAWSPolicy b |}.

(** The fields a statement is to be written with, following the
    specification of [MarshalJSON] rather than its code: [Effect] always,
    and [Action],
    [Condition], [Principal] and [Resource] when they are not empty; each
    with its encoding. *)
Definition Statement_fields_spec (s : Statement) : list (string * string) :=
  (if StringOrSlice.IsEmpty (Action s) then []
   else [("Action", fst (json_Marshal (AnyStringOrSlice (Action s))))])
  ++ (if decide (size (Condition s) = 0) then []
      else [("Condition", fst (json_Marshal (AnyCondition (Condition s))))])
  ++ [("Effect", fst (json_Marshal (AnyEffect (Effect s))))]
  ++ (if Principal_IsEmpty (Principal_ s) then []
      else [("Principal", fst (json_Marshal (AnyPrincipal (Principal_ s))))])
  ++ (if StringOrSlice.IsEmpty (Resource s) then []
      else [("Resource", fst (json_Marshal (AnyStringOrSlice (Resource s))))]).

(** A JSON object written field by field: the quoted name, a colon and a
    space, the encoded value; commas between the fields. *)
Definition writeObject (fields : list (string * string)) : string :=
  "{" +:+ String.concat ","
            (map (fun kv => Json.quote (fst kv) +:+ ": " +:+ snd kv) fields)
      +:+ "}".

End WithStringOrSlice.

(** The policy of a bastion host of the cluster [bastion.example.com], as
    [NodeRoleBastion.BuildAWSPolicy] builds it. *)
Definition bastionPolicy : Policy (SOS := StringOrSlice.implOps) :=
  mkPolicy "bastion.example.com" {[ "ec2:DescribeRegions" ]} ∅ []
           PolicyDefaultVersion.

(** A statement whose condition compares a tag with a channel, a value
    the encoder refuses. *)
Definition channelStatement : Statement (SOS := StringOrSlice.implOps) :=
  mkStatement StatementEffectAllow (mkPrincipal "" "")
    (StringOrSlice.Slice ["s3:Get*"]) (StringOrSlice.String "*")
    {[ "StringEquals" :=
         Json.Obj [("aws:ResourceTag/KubernetesCluster",
                    Json.Unsupported "chan string")] ]}.

(** A statement as [AsJSON] writes it for the cluster-tagged actions. *)
Definition taggedStatement : Statement (SOS := StringOrSlice.implOps) :=
  mkStatement StatementEffectAllow (mkPrincipal "" "")
    (StringOrSlice.Slice ["ec2:AttachVolume"]) (StringOrSlice.String "*")
    {[ "StringEquals" :=
         Json.Obj [("aws:ResourceTag/KubernetesCluster",
                    Json.Str "bastion.example.com")] ]}.

(** The builder of that policy. *)
Definition bastionBuilder : PolicyBuilder BastionOnly :=
  mkPolicyBuilder (mkCluster "bastion.example.com" "bastion.example.com" [])
                  "" [] "us-test-1" None
                  NodeRoleBastion false.

End Iam.

(** ** Package [awstasks]: the tasks the network model builder creates *)

Module awstasks.

(** Each task is given with the fields [Build] sets; a field left out of a
    struct literal is nil.  A pointer to another task is the task pointed
    to, and a nil tag map is the empty map. *)

Module VPC.
Record t : Type := mk {
  Name : option string;
  Lifecycle : Fi.Lifecycle;
  Shared : option bool;
  EnableDNSSupport : option bool;
  Tags : gmap string string;
  EnableDNSHostnames : option bool;
  AmazonIPv6 : option bool;
  AssociateExtraCIDRBlocks : list string;
  ID : option string;
  CIDR : option string
}.
End VPC.

Module VPCAmazonIPv6CIDRBlock.
Record t : Type := mk {
  Name : option string;
  Lifecycle : Fi.Lifecycle;
  VPC : option VPC.t;
  Shared : option bool
}.
End VPCAmazonIPv6CIDRBlock.

Module VPCCIDRBlock.
Record t : Type := mk {
  Name : option string;
  Lifecycle : Fi.Lifecycle;
  VPC : option VPC.t;
  Shared : option bool;
  CIDRBlock : option string
}.
End VPCCIDRBlock.

Module DHCPOptions.
Record t : Type := mk {
  Name : option string;
  Lifecycle : Fi.Lifecycle;
  DomainNameServers : option string;
  Tags : gmap string string;
  Shared : option bool;
  DomainName : option string
}.
End DHCPOptions.

Module VPCDHCPOptionsAssociation.
Record t : Type := mk {
  Name : option string;
  Lifecycle : Fi.Lifecycle;
  VPC : option VPC.t;
  DHCPOptions : option DHCPOptions.t
}.
End VPCDHCPOptionsAssociation.

Module InternetGateway.
Record t : Type := mk {
  Name : option string;
  Lifecycle : Fi.Lifecycle;
  VPC : option VPC.t;
  Shared : option bool;
  Tags : gmap string string
}.
End InternetGateway.

Module RouteTable.
Record t : Type := mk {
  Name : option string;
  Lifecycle : Fi.Lifecycle;
  VPC : option VPC.t;
  Tags : gmap string string;
  Shared : option bool
}.
End RouteTable.

Module Subnet.
Record t : Type := mk {
  Name : option string;
  ShortName : option string;
  Lifecycle : Fi.Lifecycle;
  VPC : option VPC.t;
  AvailabilityZone : option string;
  CIDR : option string;
  Shared : option bool;
  Tags : gmap string string;
  AmazonIPv6CIDR : option VPCAmazonIPv6CIDRBlock.t;
  IPv6CIDR : option string;
  ID : option string
}.
End Subnet.

Module ElasticIP.
Record t : Type := mk {
  Name : option string;
  ID : option string;
  Lifecycle : Fi.Lifecycle;
  AssociatedNatGatewayRouteTable : option RouteTable.t;
  Shared : option bool;
  Tags : gmap string string;
  PublicIP : option string
}.
End ElasticIP.

Module NatGateway.
Record t : Type := mk {
  Name : option string;
  Lifecycle : Fi.Lifecycle;
  Subnet : option Subnet.t;
  ID : option string;
  ElasticIP : option ElasticIP.t;
  AssociatedRouteTable : option RouteTable.t;
  Shared : option bool;
  Tags : gmap string string
}.
End NatGateway.

Module Instance.
Record t : Type := mk {
  Name : option string;
  Lifecycle : Fi.Lifecycle;
  ID : option string;
  Shared : option bool;
  Tags : gmap string string
}.
End Instance.

Module Route.
Record t : Type := mk {
  Name : option string;
  Lifecycle : Fi.Lifecycle;
  CIDR : option string;
  IPv6CIDR : option string;
  RouteTable : option RouteTable.t;
  InternetGateway : option InternetGateway.t;
  Instance : option Instance.t;
  NatGateway : option NatGateway.t;
  TransitGatewayID : option string
}.
End Route.

Module RouteTableAssociation.
Record t : Type := mk {
  Name : option string;
  Lifecycle : Fi.Lifecycle;
  RouteTable : option RouteTable.t;
  Subnet : option Subnet.t
}.
End RouteTableAssociation.

(** [fi.Task], for the tasks above. *)
Inductive Task : Type :=
| TVPC (t : VPC.t)
| TVPCAmazonIPv6CIDRBlock (t : VPCAmazonIPv6CIDRBlock.t)
| TVPCCIDRBlock (t : VPCCIDRBlock.t)
| TDHCPOptions (t : DHCPOptions.t)
| TVPCDHCPOptionsAssociation (t : VPCDHCPOptionsAssociation.t)
| TInternetGateway (t : InternetGateway.t)
| TRouteTable (t : RouteTable.t)
| TRoute (t : Route.t)
| TSubnet (t : Subnet.t)
| TRouteTableAssociation (t : RouteTableAssociation.t)
| TNatGateway (t : NatGateway.t)
| TElasticIP (t : ElasticIP.t)
| TInstance (t : Instance.t).

End awstasks.

(** ** Package [awsmodel]: the network model builder *)

Module AwsModel.
Import Go awstasks.

(** Constants of the packages [kops], [awsup] and [aws]. *)
Definition EgressExternal : string := "External".
Definition SubnetTypePublic : string := "Public".
Definition SubnetTypePrivate : string := "Private".
Definition SubnetTypeUtility : string := "Utility".
Definition TopologyPublic : string := "public".
Definition TagNameKopsRole : string := "kubernetes.io/kops/role".
Definition TagNameSubnetPublicELB : string := "kubernetes.io/role/elb".
Definition TagNameSubnetInternalELB : string := "kubernetes.io/role/internal-elb".

(** [kops.ClusterSubnetSpec], with the fields [Build] reads. *)
Record ClusterSubnetSpec : Type := mkSubnetSpec {
  Name : string;
  Zone : string;
  CIDR : string;
  IPv6CIDR : string;
  ProviderID : string;
  Egress : string;
  Type_ : string;
  PublicIP : string
}.

(** [AWSModelContext], as [Build] uses it: the cluster spec fields it reads
    and the methods it calls, whose bodies are declared elsewhere. *)
Record AWSModelContext : Type := mkContext {
  SharedVPC : bool;
  ClusterName : string;
  Region : string;
  CloudTags : string -> bool -> gmap string string;
  NetworkID : string;
  NetworkCIDR : string;
  AdditionalNetworkCIDRs : list string;
  Subnets : list ClusterSubnetSpec;
  DisableSubnetTags : bool;
  TopologyNodes : string;
  LinkToVPC : VPC.t;
  LinkToAmazonVPCIPv6CIDR : VPCAmazonIPv6CIDRBlock.t;
  LinkToPrivateRouteTableInZone : string -> RouteTable.t;
  LinkToUtilitySubnetInZone : string -> Subnet.t + error;
  NamePrivateRouteTableInZone : string -> string
}.

(** [type NetworkModelBuilder struct] *)
Record NetworkModelBuilder : Type := mkBuilder {
  Context_ : AWSModelContext;
  Lifecycle : Fi.Lifecycle
}.

(** [type zoneInfo struct] *)
Record zoneInfo : Type := mkZoneInfo {
  PrivateSubnets : list ClusterSubnetSpec
}.

(** The private subnets recorded for a zone: [infoByZone[zone].PrivateSubnets],
    empty when the zone has no entry. *)
Definition recorded (infoByZone : gmap string zoneInfo) (zone : string)
    : list ClusterSubnetSpec :=
  default [] (PrivateSubnets <$> infoByZone !! zone).

(** [func isUnmanaged(subnet *kops.ClusterSubnetSpec) bool] *)
Definition isUnmanaged (subnet : ClusterSubnetSpec) : bool :=
  String.eqb (Egress subnet) EgressExternal.

(** [sharedSubnet := subnetSpec.ProviderID != ""] *)
Definition sharedSubnet (subnetSpec : ClusterSubnetSpec) : bool :=
  negb (String.eqb (ProviderID subnetSpec) "").

(** A non-empty string as a pointer, an empty one as nil: the pattern
    [if s != "" { t.F = fi.String(s) }]. *)
Definition stringIfSet (s : string) : option string :=
  if String.eqb s "" then None else Fi.String s.

Section Build.
Context (b : NetworkModelBuilder).

Let c : AWSModelContext := Context_ b.

(** The VPC task of the first block. *)
Definition vpcTask : VPC.t :=
  let sharedVPC := SharedVPC c in
  let vpcName := ClusterName c in
  let tags := CloudTags c vpcName sharedVPC in
  {| VPC.Name := Fi.String vpcName;
     VPC.Lifecycle := Lifecycle b;
     VPC.Shared := Fi.Bool sharedVPC;
     VPC.EnableDNSSupport := Fi.Bool true;
     VPC.Tags := if sharedVPC then ∅ else tags;
     VPC.EnableDNSHostnames := if sharedVPC then None else Fi.Bool true;
     VPC.AmazonIPv6 := if sharedVPC then None else Fi.Bool true;
     VPC.AssociateExtraCIDRBlocks :=
       if sharedVPC then [] else AdditionalNetworkCIDRs c;
     VPC.ID := stringIfSet (NetworkID c);
     VPC.CIDR := stringIfSet (NetworkCIDR c) |}.

(** The tasks of the two [if !sharedVPC] blocks: the IPv6 block, the
    additional CIDR blocks, the DHCP options and their association. *)
Definition vpcExtraTasks : list Task :=
  let sharedVPC := SharedVPC c in
  let tags := CloudTags c (ClusterName c) sharedVPC in
  if sharedVPC then []
  else
    let dhcp :=
      {| DHCPOptions.Name := Fi.String (ClusterName c);
         DHCPOptions.Lifecycle := Lifecycle b;
         DHCPOptions.DomainNameServers := Fi.String "AmazonProvidedDNS";
         DHCPOptions.Tags := tags;
         DHCPOptions.Shared := Fi.Bool sharedVPC;
         DHCPOptions.DomainName :=
           if String.eqb (Region c) "us-east-1" then Fi.String "ec2.internal"
           else Fi.String (Region c +:+ ".compute.internal") |} in
    [TVPCAmazonIPv6CIDRBlock
       {| VPCAmazonIPv6CIDRBlock.Name := Fi.String "AmazonIPv6";
          VPCAmazonIPv6CIDRBlock.Lifecycle := Lifecycle b;
          VPCAmazonIPv6CIDRBlock.VPC := Some (LinkToVPC c);
          VPCAmazonIPv6CIDRBlock.Shared := Fi.Bool false |}]
    ++ map (fun cidr =>
          TVPCCIDRBlock
            {| VPCCIDRBlock.Name := Fi.String cidr;
               VPCCIDRBlock.Lifecycle := Lifecycle b;
               VPCCIDRBlock.VPC := Some (LinkToVPC c);
               VPCCIDRBlock.Shared := Fi.Bool false;
               VPCCIDRBlock.CIDRBlock := Fi.String cidr |})
         (AdditionalNetworkCIDRs c)
    ++ [TDHCPOptions dhcp;
        TVPCDHCPOptionsAssociation
          {| VPCDHCPOptionsAssociation.Name := Fi.String (ClusterName c);
             VPCDHCPOptionsAssociation.Lifecycle := Lifecycle b;
             VPCDHCPOptionsAssociation.VPC := Some (LinkToVPC c);
             VPCDHCPOptionsAssociation.DHCPOptions := Some dhcp |}].

(** The three flags computed by the two loops over the subnets. *)
Definition allSubnetsUnmanaged : bool := forallb isUnmanaged (Subnets c).
Definition allSubnetsShared : bool := forallb sharedSubnet (Subnets c).

Definition allSubnetsSharedInZone : gmap string bool :=
  let m := foldl (fun m subnetSpec => <[Zone subnetSpec := true]> m)
                 ∅ (Subnets c) in
  foldl (fun m subnetSpec =>
           if sharedSubnet subnetSpec then m
           else <[Zone subnetSpec := false]> m)
        m (Subnets c).

(** The internet gateway, and the public route table when it is created. *)
Definition igwTask : InternetGateway.t :=
  {| InternetGateway.Name := Fi.String (ClusterName c);
     InternetGateway.Lifecycle := Lifecycle b;
     InternetGateway.VPC := Some (LinkToVPC c);
     InternetGateway.Shared := Fi.Bool (SharedVPC c);
     InternetGateway.Tags := CloudTags c (ClusterName c) (SharedVPC c) |}.

Definition publicRouteTableTask : RouteTable.t :=
  let sharedRouteTable := false in
  let routeTableTags := CloudTags c (ClusterName c) sharedRouteTable in
  let routeTableTags := <[TagNameKopsRole := "public"]> routeTableTags in
  {| RouteTable.Name := Fi.String (ClusterName c);
     RouteTable.Lifecycle := Lifecycle b;
     RouteTable.VPC := Some (LinkToVPC c);
     RouteTable.Tags := routeTableTags;
     RouteTable.Shared := Fi.Bool sharedRouteTable |}.

(** [var publicRouteTable *awstasks.RouteTable] after the block. *)
Definition publicRouteTable : option RouteTable.t :=
  if negb allSubnetsUnmanaged && negb allSubnetsShared
  then Some publicRouteTableTask else None.

Definition publicTasks : list Task :=
  if negb allSubnetsUnmanaged then
    TInternetGateway igwTask ::
    (if negb allSubnetsShared then
       [TRouteTable publicRouteTableTask;
        TRoute {| Route.Name := Fi.String "0.0.0.0/0";
                  Route.Lifecycle := Lifecycle b;
                  Route.CIDR := Fi.String "0.0.0.0/0";
                  Route.IPv6CIDR := None;
                  Route.RouteTable := Some publicRouteTableTask;
                  Route.InternetGateway := Some igwTask;
                  Route.Instance := None;
                  Route.NatGateway := None;
                  Route.TransitGatewayID := None |};
        TRoute {| Route.Name := Fi.String "::/0";
                  Route.Lifecycle := Lifecycle b;
                  Route.CIDR := None;
                  Route.IPv6CIDR := Fi.String "::/0";
                  Route.RouteTable := Some publicRouteTableTask;
                  Route.InternetGateway := Some igwTask;
                  Route.Instance := None;
                  Route.NatGateway := None;
                  Route.TransitGatewayID := None |}]
     else [])
  else [].

(** The tags of a subnet. *)
Definition subnetTags (subnetSpec : ClusterSubnetSpec) : gmap string string :=
  let subnetName := Name subnetSpec +:+ "." +:+ ClusterName c in
  if DisableSubnetTags c then ∅
  else
    let tags := CloudTags c subnetName (sharedSubnet subnetSpec) in
    let tags := <["SubnetType" := Type_ subnetSpec]> tags in
    if String.eqb (Type_ subnetSpec) SubnetTypePublic
       || String.eqb (Type_ subnetSpec) SubnetTypeUtility then
      let tags := <[TagNameSubnetPublicELB := "1"]> tags in
      if String.eqb (TopologyNodes c) TopologyPublic
      then <[TagNameSubnetInternalELB := "1"]> tags
      else tags
    else if String.eqb (Type_ subnetSpec) SubnetTypePrivate then
      <[TagNameSubnetInternalELB := "1"]> tags
    else tags.

(** The [Subnet] task created for a subnet spec. *)
Definition subnetTask (subnetSpec : ClusterSubnetSpec) : Subnet.t :=
  let subnetName := Name subnetSpec +:+ "." +:+ ClusterName c in
  {| Subnet.Name := Fi.String subnetName;
     Subnet.ShortName := Fi.String (Name subnetSpec);
     Subnet.Lifecycle := Lifecycle b;
     Subnet.VPC := Some (LinkToVPC c);
     Subnet.AvailabilityZone := Fi.String (Zone subnetSpec);
     Subnet.CIDR := Fi.String (CIDR subnetSpec);
     Subnet.Shared := Fi.Bool (sharedSubnet subnetSpec);
     Subnet.Tags := subnetTags subnetSpec;
     Subnet.AmazonIPv6CIDR :=
       if negb (String.eqb (IPv6CIDR subnetSpec) "") && negb (SharedVPC c)
       then Some (LinkToAmazonVPCIPv6CIDR c) else None;
     Subnet.IPv6CIDR := stringIfSet (IPv6CIDR subnetSpec);
     Subnet.ID := stringIfSet (ProviderID subnetSpec) |}.

(** [infoByZone[zone].PrivateSubnets = append(..., subnetSpec)], with the
    entry created when it is missing. *)
Definition addPrivateSubnet (infoByZone : gmap string zoneInfo)
    (subnetSpec : ClusterSubnetSpec) : gmap string zoneInfo :=
  let info := default (mkZoneInfo []) (infoByZone !! Zone subnetSpec) in
  <[Zone subnetSpec := mkZoneInfo (PrivateSubnets info ++ [subnetSpec])]>
    infoByZone.

(** The [switch subnetSpec.Type] of the subnet loop: the tasks it adds and
    the zone map, or the error it returns. *)
Definition subnetRouting (subnetSpec : ClusterSubnetSpec)
    (infoByZone : gmap string zoneInfo)
    : error + (list Task * gmap string zoneInfo) :=
  let subnet := subnetTask subnetSpec in
  if String.eqb (Type_ subnetSpec) SubnetTypePublic
     || String.eqb (Type_ subnetSpec) SubnetTypeUtility then
    if negb (sharedSubnet subnetSpec) && negb (isUnmanaged subnetSpec) then
      inr ([TRouteTableAssociation
              {| RouteTableAssociation.Name :=
                   Fi.String (Name subnetSpec +:+ "." +:+ ClusterName c);
                 RouteTableAssociation.Lifecycle := Lifecycle b;
                 RouteTableAssociation.RouteTable := publicRouteTable;
                 RouteTableAssociation.Subnet := Some subnet |}],
           infoByZone)
    else inr ([], infoByZone)
  else if String.eqb (Type_ subnetSpec) SubnetTypePrivate then
    if negb (sharedSubnet subnetSpec) && negb (isUnmanaged subnetSpec) then
      inr ([TRouteTableAssociation
              {| RouteTableAssociation.Name :=
                   Fi.String ("private-" +:+ Name subnetSpec +:+ "."
                              +:+ ClusterName c);
                 RouteTableAssociation.Lifecycle := Lifecycle b;
                 RouteTableAssociation.RouteTable :=
                   Some (LinkToPrivateRouteTableInZone c (Zone subnetSpec));
                 RouteTableAssociation.Subnet := Some subnet |}],
           addPrivateSubnet infoByZone subnetSpec)
    else inr ([], infoByZone)
  else
    inl (Errorf "subnet %q has unknown type %q"
           [Name subnetSpec; Type_ subnetSpec] None).

(** The loop over the subnets: the tasks added, and the zone map at the end
    or the error that ended the loop. *)
Fixpoint buildSubnets (subnets : list ClusterSubnetSpec)
    (infoByZone : gmap string zoneInfo)
    : list Task * (error + gmap string zoneInfo) :=
  match subnets with
  | [] => ([], inr infoByZone)
  | subnetSpec :: rest =>
      match subnetRouting subnetSpec infoByZone with
      | inl err => ([TSubnet (subnetTask subnetSpec)], inl err)
      | inr (tasks, infoByZone') =>
          let '(tasks', r) := buildSubnets rest infoByZone' in
          (TSubnet (subnetTask subnetSpec) :: tasks ++ tasks', r)
      end
  end.

(** The check of the zone loop that egress and public IP are the same for
    all private subnets of the zone. *)
Fixpoint checkMixed (egress publicIP : string)
    (subnets : list ClusterSubnetSpec) : option error :=
  match subnets with
  | [] => None
  | subnet :: rest =>
      if negb (String.eqb (Egress subnet) egress) then
        Some (Errorf "cannot mix egress values in private subnets" [] None)
      else if negb (String.eqb (PublicIP subnet) publicIP) then
        Some (Errorf "cannot mix publicIP values in private subnets" [] None)
      else checkMixed egress publicIP rest
  end.

(** What the egress block of the zone loop leaves: the tasks it added and
    the variables [ngw], [tgwID] and [in]. *)
Record egressResult : Type := mkEgress {
  egressTasks : list Task;
  ngw : option NatGateway.t;
  tgwID : option string;
  in_ : option Instance.t
}.

(** The egress block: [if egress != "" { ... } else { ... }]. *)
Definition buildEgress (zone egress publicIP : string)
    (utilitySubnet : Subnet.t) : error + egressResult :=
  let name := zone +:+ "." +:+ ClusterName c in
  if negb (String.eqb egress "") then
    if String.prefix "nat-" egress then
      let ngw :=
        {| NatGateway.Name := Fi.String name;
           NatGateway.Lifecycle := Lifecycle b;
           NatGateway.Subnet := Some utilitySubnet;
           NatGateway.ID := Fi.String egress;
           NatGateway.ElasticIP := None;
           NatGateway.AssociatedRouteTable :=
             Some (LinkToPrivateRouteTableInZone c zone);
           (* If we're here, it means this NatGateway was specified, so we
              are Shared *)
           NatGateway.Shared := Fi.Bool true;
           NatGateway.Tags := CloudTags c name true |} in
      inr (mkEgress [TNatGateway ngw] (Some ngw) None None)
    else if String.prefix "eipalloc-" egress then
      let eip :=
        {| ElasticIP.Name := Fi.String name;
           ElasticIP.ID := Fi.String egress;
           ElasticIP.Lifecycle := Lifecycle b;
           ElasticIP.AssociatedNatGatewayRouteTable :=
             Some (LinkToPrivateRouteTableInZone c zone);
           ElasticIP.Shared := Fi.Bool true;
           ElasticIP.Tags := CloudTags c name true;
           ElasticIP.PublicIP := None |} in
      let ngw :=
        {| NatGateway.Name := Fi.String name;
           NatGateway.Lifecycle := Lifecycle b;
           NatGateway.Subnet := Some utilitySubnet;
           NatGateway.ID := None;
           NatGateway.ElasticIP := Some eip;
           NatGateway.AssociatedRouteTable :=
             Some (LinkToPrivateRouteTableInZone c zone);
           NatGateway.Shared := None;
           NatGateway.Tags := CloudTags c name false |} in
      inr (mkEgress [TElasticIP eip; TNatGateway ngw] (Some ngw) None None)
    else if String.prefix "i-" egress then
      let in_ :=
        {| Instance.Name := Fi.String egress;
           Instance.Lifecycle := Lifecycle b;
           Instance.ID := Fi.String egress;
           Instance.Shared := Fi.Bool true;
           Instance.Tags := ∅ |} in
      inr (mkEgress [TInstance in_] None None (Some in_))
    else if String.prefix "tgw-" egress then
      inr (mkEgress [] None (Some egress) None)
    else if String.eqb egress "External" then
      (* Nothing to do here *)
      inr (mkEgress [] None None None)
    else
      inl (Errorf ("kops currently only supports re-use of either NAT EC2 "
                   +:+ "Instances or NAT Gateways. We will support more "
                   +:+ "eventually! Please see "
                   +:+ "https://github.com/kubernetes/kops/issues/1530")
             [] None)
  else
    let eip :=
      {| ElasticIP.Name := Fi.String name;
         ElasticIP.ID := None;
         ElasticIP.Lifecycle := Lifecycle b;
         ElasticIP.AssociatedNatGatewayRouteTable :=
           Some (LinkToPrivateRouteTableInZone c zone);
         ElasticIP.Shared := None;
         ElasticIP.Tags :=
           if negb (String.eqb publicIP "") then CloudTags c name true
           else CloudTags c name false;
         ElasticIP.PublicIP := stringIfSet publicIP |} in
    let ngw :=
      {| NatGateway.Name := Fi.String name;
         NatGateway.Lifecycle := Lifecycle b;
         NatGateway.Subnet := Some utilitySubnet;
         NatGateway.ID := None;
         NatGateway.ElasticIP := Some eip;
         NatGateway.AssociatedRouteTable :=
           Some (LinkToPrivateRouteTableInZone c zone);
         NatGateway.Shared := None;
         NatGateway.Tags := CloudTags c name false |} in
    inr (mkEgress [TElasticIP eip; TNatGateway ngw] (Some ngw) None None).

(** The private route table of a zone and the route through it. *)
Definition privateRouteTableTask (zone : string) : RouteTable.t :=
  let routeTableShared := default false (allSubnetsSharedInZone !! zone) in
  let routeTableTags :=
    CloudTags c (NamePrivateRouteTableInZone c zone) routeTableShared in
  let routeTableTags :=
    <[TagNameKopsRole := "private-" +:+ zone]> routeTableTags in
  {| RouteTable.Name := Fi.String (NamePrivateRouteTableInZone c zone);
     RouteTable.Lifecycle := Lifecycle b;
     RouteTable.VPC := Some (LinkToVPC c);
     RouteTable.Tags := routeTableTags;
     RouteTable.Shared := Fi.Bool routeTableShared |}.

Definition privateRouteTask (zone : string) (r : egressResult) : Route.t :=
  let rt := privateRouteTableTask zone in
  match in_ r with
  | Some i =>
      {| Route.Name := Fi.String ("private-" +:+ zone +:+ "-0.0.0.0/0");
         Route.Lifecycle := Lifecycle b;
         Route.CIDR := Fi.String "0.0.0.0/0";
         Route.IPv6CIDR := None;
         Route.RouteTable := Some rt;
         Route.InternetGateway := None;
         Route.Instance := Some i;
         Route.NatGateway := None;
         Route.TransitGatewayID := None |}
  | None =>
      {| Route.Name := Fi.String ("private-" +:+ zone +:+ "-0.0.0.0/0");
         Route.Lifecycle := Lifecycle b;
         Route.CIDR := Fi.String "0.0.0.0/0";
         Route.IPv6CIDR := None;
         Route.RouteTable := Some rt;
         Route.InternetGateway := None;
         Route.Instance := None;
         (* Only one of these will be not nil *)
         Route.NatGateway := ngw r;
         Route.TransitGatewayID := tgwID r |}
  end.

(** One round of the loop over [infoByZone]: the tasks it adds, and the
    error if it returns one. *)
Definition buildZone (zone : string) (info : zoneInfo)
    : list Task * option error :=
  match PrivateSubnets info with
  | [] => ([], None)
  | first :: _ =>
      match LinkToUtilitySubnetInZone c zone with
      | inr err => ([], Some err)
      | inl utilitySubnet =>
          let egress := Egress first in
          let publicIP := PublicIP first in
          let allUnmanaged := forallb isUnmanaged (PrivateSubnets info) in
          if allUnmanaged then ([], None)
          else
            (* Verify we don't have mixed values for egress/publicIP - the
               code doesn't handle it *)
            match checkMixed egress publicIP (PrivateSubnets info) with
            | Some err => ([], Some err)
            | None =>
                match buildEgress zone egress publicIP utilitySubnet with
                | inl err => ([], Some err)
                | inr r =>
                    (egressTasks r
                     ++ [TRouteTable (privateRouteTableTask zone);
                         TRoute (privateRouteTask zone r)],
                     None)
                end
            end
      end
  end.

(** The loop over [infoByZone], in the order the runtime visits it. *)
Fixpoint buildZones (zones : list (string * zoneInfo))
    : list Task * option error :=
  match zones with
  | [] => ([], None)
  | (zone, info) :: rest =>
      match buildZone zone info with
      | (tasks, Some err) => (tasks, Some err)
      | (tasks, None) =>
          let '(tasks', r) := buildZones rest in
          (tasks ++ tasks', r)
      end
  end.

(** [func (b *NetworkModelBuilder) Build(c *fi.ModelBuilderContext) error]:
    the tasks handed to [c.AddTask], in order, and the error returned. *)
Definition Build `{MapRange} : list Task * option error :=
  let early := [TVPC vpcTask] ++ vpcExtraTasks ++ publicTasks in
  match buildSubnets (Subnets c) ∅ with
  | (tasks, inl err) => (early ++ tasks, Some err)
  | (tasks, inr infoByZone) =>
      let '(tasks', r) := buildZones (range infoByZone) in
      (early ++ tasks ++ tasks', r)
  end.

(** A subnet type [Build] knows. *)
Definition knownType (s : ClusterSubnetSpec) : Prop :=
  Type_ s = SubnetTypePublic \/ Type_ s = SubnetTypeUtility
  \/ Type_ s = SubnetTypePrivate.

(** A managed private subnet: private and not unmanaged (in the sense of
    [isUnmanaged]: its egress is not [External]). *)
Definition managedPrivate (s : ClusterSubnetSpec) : Prop :=
  Type_ s = SubnetTypePrivate /\ Egress s <> EgressExternal.

(** The subnets the subnet loop records in [infoByZone]: the managed
    private subnets that are not shared (no [ProviderID]). *)
Definition recordedPrivate (s : ClusterSubnetSpec) : Prop :=
  Type_ s = SubnetTypePrivate /\ ProviderID s = ""
  /\ Egress s <> EgressExternal.

(** The zone has two subnets of the kind [P] that differ in [Egress] or in
    [PublicIP]. *)
Definition mixedZone (P : ClusterSubnetSpec -> Prop) (zone : string) : Prop :=
  exists s1 s2,
    s1 ∈ Subnets c /\ s2 ∈ Subnets c
    /\ P s1 /\ P s2
    /\ Zone s1 = zone /\ Zone s2 = zone
    /\ (Egress s1 <> Egress s2 \/ PublicIP s1 <> PublicIP s2).

(** The forms of egress the zone loop accepts. *)
Definition supportedEgress (egress : string) : bool :=
  String.eqb egress "" || String.prefix "nat-" egress
  || String.prefix "eipalloc-" egress || String.prefix "i-" egress
  || String.prefix "tgw-" egress || String.eqb egress "External".

(** The NAT gateway, elastic IP, private route table and private route of
    a zone, recognised as [Build] names and tags them. *)
Definition zoneTaskOf (zone : string) (t : Task) : Prop :=
  match t with
  | TNatGateway n =>
      NatGateway.Name n = Some (zone +:+ "." +:+ ClusterName c)
  | TElasticIP e =>
      ElasticIP.Name e = Some (zone +:+ "." +:+ ClusterName c)
  | TRouteTable rt =>
      RouteTable.Tags rt !! TagNameKopsRole = Some ("private-" +:+ zone)
  | TRoute r =>
      Route.Name r = Some ("private-" +:+ zone +:+ "-0.0.0.0/0")
  | _ => False
  end.

End Build.

(** The two errors of the check against mixed values. *)
Definition errMixedEgress : error :=
  Errorf "cannot mix egress values in private subnets" [] None.
Definition errMixedPublicIP : error :=
  Errorf "cannot mix publicIP values in private subnets" [] None.

(** A cluster for the examples: one VPC to create, a utility and a private
    subnet in zone [us-test-1a], and whatever further subnets are given. *)
Definition exampleContext (more : list ClusterSubnetSpec) : AWSModelContext :=
  let vpc := {| VPC.Name := Some "net.example.com";
                VPC.Lifecycle := ""; VPC.Shared := None;
                VPC.EnableDNSSupport := None; VPC.Tags := ∅;
                VPC.EnableDNSHostnames := None; VPC.AmazonIPv6 := None;
                VPC.AssociateExtraCIDRBlocks := [];
                VPC.ID := None; VPC.CIDR := None |} in
  {| SharedVPC := false;
     ClusterName := "net.example.com";
     Region := "us-test-1";
     CloudTags := fun name shared =>
       {[ "Name" := name;
          "KubernetesCluster" := "net.example.com" ]};
     NetworkID := "";
     NetworkCIDR := "172.20.0.0/16";
     AdditionalNetworkCIDRs := [];
     Subnets :=
       [mkSubnetSpec "utility-us-test-1a" "us-test-1a" "172.20.4.0/22" "" ""
                     "" SubnetTypeUtility "";
        mkSubnetSpec "us-test-1a" "us-test-1a" "172.20.32.0/19" "" ""
                     "" SubnetTypePrivate ""] ++ more;
     DisableSubnetTags := false;
     TopologyNodes := "private";
     LinkToVPC := vpc;
     LinkToAmazonVPCIPv6CIDR :=
       {| VPCAmazonIPv6CIDRBlock.Name := Some "AmazonIPv6";
          VPCAmazonIPv6CIDRBlock.Lifecycle := "";
          VPCAmazonIPv6CIDRBlock.VPC := None;
          VPCAmazonIPv6CIDRBlock.Shared := None |};
     LinkToPrivateRouteTableInZone := fun zone =>
       {| RouteTable.Name := Some ("private-" +:+ zone +:+ ".net.example.com");
          RouteTable.Lifecycle := ""; RouteTable.VPC := None;
          RouteTable.Tags := ∅; RouteTable.Shared := None |};
     LinkToUtilitySubnetInZone := fun zone =>
       inl {| Subnet.Name := Some ("utility-" +:+ zone +:+ ".net.example.com");
              Subnet.ShortName := None; Subnet.Lifecycle := "";
              Subnet.VPC := None; Subnet.AvailabilityZone := None;
              Subnet.CIDR := None; Subnet.Shared := None; Subnet.Tags := ∅;
              Subnet.AmazonIPv6CIDR := None; Subnet.IPv6CIDR := None;
              Subnet.ID := None |};
     NamePrivateRouteTableInZone := fun zone =>
       "private-" +:+ zone +:+ ".net.example.com" |}.

Definition exampleBuilder (more : list ClusterSubnetSpec)
    : NetworkModelBuilder :=
  mkBuilder (exampleContext more) "Sync".

(** A second private subnet in zone [us-test-1a], routed through an
    existing NAT gateway; a subnet of a type [Build] does not know; and a
    subnet that exists already. *)
Definition natSubnet : ClusterSubnetSpec :=
  mkSubnetSpec "nat-us-test-1a" "us-test-1a" "172.20.64.0/19" "" ""
               "nat-0123456789" SubnetTypePrivate "".

Definition oddSubnet : ClusterSubnetSpec :=
  mkSubnetSpec "odd" "us-test-1a" "172.20.96.0/19" "" "" "" "Isolated" "".

(** Two private subnets of zone [us-test-1b] that exist already, each
    routed through a NAT gateway of its own. *)
Definition sharedSubnetA : ClusterSubnetSpec :=
  mkSubnetSpec "a-us-test-1b" "us-test-1b" "172.20.160.0/20" ""
               "subnet-0aaaa" "nat-0aaaa" SubnetTypePrivate "".

Definition sharedSubnetB : ClusterSubnetSpec :=
  mkSubnetSpec "b-us-test-1b" "us-test-1b" "172.20.176.0/20" ""
               "subnet-0bbbb" "nat-0bbbb" SubnetTypePrivate "".


(** A second private subnet in zone [us-test-1a] whose egress is a VPC
    endpoint, a form [Build] does not support. *)
Definition vpceSubnet : ClusterSubnetSpec :=
  mkSubnetSpec "vpce-us-test-1a" "us-test-1a" "172.20.80.0/20" "" ""
               "vpce-0123456789" SubnetTypePrivate "".

(** A private subnet of zone [us-test-1c] whose egress is an internet
    gateway, a form [Build] does not support. *)
Definition igwSubnet : ClusterSubnetSpec :=
  mkSubnetSpec "igw-us-test-1c" "us-test-1c" "172.20.192.0/20" "" ""
               "igw-0123456789" SubnetTypePrivate "".

(** Two private subnets of zone [us-test-1c], each routed through a NAT
    gateway of its own; the zone has no utility subnet. *)
Definition natSubnetC1 : ClusterSubnetSpec :=
  mkSubnetSpec "a-us-test-1c" "us-test-1c" "172.20.208.0/20" "" ""
               "nat-0c1c1c1c1" SubnetTypePrivate "".

Definition natSubnetC2 : ClusterSubnetSpec :=
  mkSubnetSpec "b-us-test-1c" "us-test-1c" "172.20.224.0/20" "" ""
               "nat-0c2c2c2c2" SubnetTypePrivate "".

(** The example cluster with a [LinkToUtilitySubnetInZone] that finds a
    utility subnet only in a zone that has one among the subnets of the
    cluster. *)
Definition strictContext (more : list ClusterSubnetSpec) : AWSModelContext :=
  let c := exampleContext more in
  mkContext (SharedVPC c) (ClusterName c) (Region c) (CloudTags c)
    (NetworkID c) (NetworkCIDR c) (AdditionalNetworkCIDRs c) (Subnets c)
    (DisableSubnetTags c) (TopologyNodes c) (LinkToVPC c)
    (LinkToAmazonVPCIPv6CIDR c) (LinkToPrivateRouteTableInZone c)
    (fun zone =>
       if existsb (fun s => String.eqb (Type_ s) SubnetTypeUtility
                            && String.eqb (Zone s) zone) (Subnets c)
       then LinkToUtilitySubnetInZone c zone
       else inr (Errorf "could not find utility subnet in zone: %q" [zone]
                   None))
    (NamePrivateRouteTableInZone c).

Definition strictBuilder (more : list ClusterSubnetSpec)
    : NetworkModelBuilder :=
  mkBuilder (strictContext more) "Sync".

End AwsModel.

(** ** Package [iam]: the policies of the node roles *)

Module IamPolicies.
Import Go Iam.

(** [strings.HasSuffix], [strings.TrimSuffix] and [strings.TrimPrefix]. *)
Fixpoint HasSuffix (s suffix : string) : bool :=
  String.eqb s suffix
  || match s with
     | EmptyString => false
     | String _ rest => HasSuffix rest suffix
     end.

Definition TrimSuffix (s suffix : string) : string :=
  if HasSuffix s suffix
  then String.substring 0 (String.length s - String.length suffix) s
  else s.

Definition TrimPrefix (s prefix : string) : string :=
  if String.prefix prefix s
  then String.substring (String.length prefix)
         (String.length s - String.length prefix) s
  else s.

(** The implementations of [vfs.Path] that the type switches of
    [AddS3Permissions] tell apart, with what the code reads of each:
    [Bucket()] and [Key()], [Location()], [Path()]. *)
Inductive VfsPath : Type :=
| S3Path (Bucket Key : string)
| MemFSPath (Location : string)
| FSPath (Path : string)
| VaultPath
| OtherPath.

(** A partition of [endpoints.DefaultPartitions()]: [ID()], and the keys
    of [Regions()]. *)
Record Partition : Type := mkPartition {
  ID : string;
  Regions : gset string
}.

(** [kops.NetworkingSpec], with the fields the policies read.  Of
    [AmazonVPC], [LyftVPC] and [Kuberouter] only whether they are nil is
    read. *)
Record CiliumNetworkingSpec : Type := mkCilium {
  Ipam : string
}.

Record CalicoNetworkingSpec : Type := mkCalico {
  AWSSrcDstCheck : string
}.

Record NetworkingSpec : Type := mkNetworking {
  Calico : option CalicoNetworkingSpec;
  Kuberouter : option unit;
  AmazonVPC : option unit;
  Cilium : option CiliumNetworkingSpec;
  LyftVPC : option unit
}.

(** The components of the cluster spec with an [Enabled] flag. *)
Record SnapshotControllerConfig : Type := mkSnapshotController {
  SnapshotController_Enabled : option bool
}.

Record AWSLoadBalancerControllerConfig : Type := mkAWSLoadBalancerController {
  AWSLoadBalancerController_Enabled : option bool
}.

Record NodeTerminationHandlerConfig : Type := mkNodeTerminationHandler {
  NodeTerminationHandler_Enabled : option bool;
  EnableSQSTerminationDraining : option bool
}.

Record KubeAPIServerConfig : Type := mkKubeAPIServer {
  EnableBootstrapAuthToken : option bool
}.

Record EtcdBackupSpec : Type := mkEtcdBackup {
  BackupStore : string
}.

(** The fields of [b.Cluster.Spec] read by the policies, beside those of
    [Iam.Cluster].  [EtcdBackups] is the field [Backups] of each etcd
    cluster, in the order of [EtcdClusters]. *)
Record ClusterSpec : Type := mkClusterSpec {
  KeyStore : string;
  SecretStore : string;
  ConfigStore : string;
  AllowContainerRegistry : bool;
  Networking : option NetworkingSpec;
  SnapshotController : option SnapshotControllerConfig;
  AWSLoadBalancerController : option AWSLoadBalancerControllerConfig;
  NodeTerminationHandler : option NodeTerminationHandlerConfig;
  KubeAPIServer : option KubeAPIServerConfig;
  EtcdBackups : list (option EtcdBackupSpec)
}.

(** The node roles, the implementations of [Subject] whose policies are
    built here, with the fields their [BuildAWSPolicy] reads. *)
Inductive NodeRole : Type :=
| NodeRoleAPIServer (warmPool : bool)
| NodeRoleMaster
| NodeRoleNode (enableLifecycleHookPermissions : bool)
| NodeRoleBastion.

(** What the policies use of other packages: [vfs.Context.BuildVfsPath],
    how [fmt] prints a path, [endpoints.DefaultPartitions()], the constant
    [kops.CiliumIpamEni], and the two predicates of package [model]. *)
Class Externals : Type := {
  BuildVfsPath : string -> error + VfsPath;
  printPath : VfsPath -> string;
  DefaultPartitions : list Partition;
  CiliumIpamEni : string;
  UseKopsControllerForNodeBootstrap : Cluster -> ClusterSpec -> bool;
  UseCiliumEtcd : Cluster -> ClusterSpec -> bool
}.

(** [func useBootstrapTokens(cluster *kops.Cluster) bool] *)
Definition useBootstrapTokens (spec : ClusterSpec) : bool :=
  match KubeAPIServer spec with
  | None => false
  | Some k => Fi.BoolValue (EnableBootstrapAuthToken k)
  end.

(** [func ReadableStatePaths(cluster *kops.Cluster, role Subject) ([]string, error)] *)
Definition ReadableStatePaths `{Externals} (cluster : Cluster)
    (spec : ClusterSpec) (role : NodeRole) : list string * option error :=
  let paths := [] in
  let paths :=
    match role with
    | NodeRoleMaster | NodeRoleAPIServer _ => paths ++ ["/*"]
    | NodeRoleNode _ =>
        let paths :=
          paths ++ ["/addons/*";
                    "/cluster-completed.spec";
                    "/igconfig/node/*";
                    "/pki/ssh/*";
                    "/secrets/dockerconfig"] in
        (* Give access to keys for client certificates as needed. *)
        if negb (UseKopsControllerForNodeBootstrap cluster spec) then
          let paths := paths ++ ["/pki/private/kube-proxy/*"] in
          let paths :=
            if useBootstrapTokens spec
            then paths ++ ["/pki/private/node-authorizer-client/*"]
            else paths ++ ["/pki/private/kubelet/*"] in
          match Networking spec with
          | Some networkingSpec =>
              let paths :=
                match Kuberouter networkingSpec with
                | Some _ => paths ++ ["/pki/private/kube-router/*"]
                | None => paths
                end in
              match Cilium networkingSpec with
              | Some _ =>
                  if UseCiliumEtcd cluster spec
                  then paths ++ ["/pki/private/etcd-client-cilium/*"]
                  else paths
              | None => paths
              end
          | None => paths
          end
        else paths
    | NodeRoleBastion => paths
    end in
  (paths, None).

(** The loop of [WriteableVFSPaths] over the etcd clusters; [backupStores]
    is the set of the stores seen so far. *)
Fixpoint backupPaths `{Externals} (backups : list (option EtcdBackupSpec))
    (backupStores : gset string) : error + list VfsPath :=
  match backups with
  | [] => inr []
  | c :: rest =>
      match c with
      | None => backupPaths rest backupStores
      | Some bk =>
          if String.eqb (BackupStore bk) ""
             || bool_decide (BackupStore bk ∈ backupStores)
          then backupPaths rest backupStores
          else
            let backupStore := BackupStore bk in
            match BuildVfsPath backupStore with
            | inl err =>
                inl (Errorf "cannot parse VFS path %q: %v" [backupStore]
                       (Some err))
            | inr vfsPath =>
                match backupPaths rest (backupStores ∪ {[ backupStore ]}) with
                | inl err => inl err
                | inr paths => inr (vfsPath :: paths)
                end
            end
      end
  end.

(** [func WriteableVFSPaths(cluster *kops.Cluster, role Subject) ([]vfs.Path, error)] *)
Definition WriteableVFSPaths `{Externals} (spec : ClusterSpec)
    (role : NodeRole) : error + list VfsPath :=
  match role with
  | NodeRoleMaster =>
      (* etcd-manager needs write permissions to the backup store *)
      backupPaths (EtcdBackups spec) ∅
  | _ => inr []
  end.

(** [func (b *PolicyBuilder) IAMPrefix() string] *)
Definition IAMPrefix `{Externals} {S} (b : PolicyBuilder S) : string :=
  match List.find (fun p => bool_decide (Region b ∈ Regions p))
          DefaultPartitions with
  | Some p => "arn:" +:+ ID p
  | None => "arn:aws"
  end.

(** The first block of [AddS3Permissions]: the stores that are set, each
    ending in a slash. *)
Definition locationsOf (stores : list string) : list string :=
  flat_map (fun p =>
      if String.eqb p "" then []
      else [if negb (HasSuffix p "/") then p +:+ "/" else p])
    stores.

(** The inner loop: [isTopLevel] for the location [l] at index [i]. *)
Definition isTopLevel (locations : list string) (i : nat) (l : string)
    : bool :=
  forallb (fun jl => (i =? fst jl)%nat || negb (String.prefix (snd jl) l))
          (imap (fun j lj => (j, lj)) locations).

(** The outer loop: the locations that have no parent among the others. *)
Definition rootsOf (locations : list string) : list string :=
  omap (fun il =>
      if isTopLevel locations (fst il) (snd il) then Some (snd il) else None)
    (imap (fun i l => (i, l)) locations).

Section WithStringOrSlice.
Context `{SOS : StringOrSlice.Ops}.

(** [p.unconditionalAction.Insert(...)] and
    [p.clusterTaggedAction.Insert(...)]. *)
Definition insertUnconditional (p : Policy) (actions : list string)
    : Policy :=
  mkPolicy (clusterName p) (unconditionalAction p ∪ list_to_set actions)
           (clusterTaggedAction p) (Statement_ p) (Version p).

Definition insertClusterTagged (p : Policy) (actions : list string)
    : Policy :=
  mkPolicy (clusterName p) (unconditionalAction p)
           (clusterTaggedAction p ∪ list_to_set actions) (Statement_ p)
           (Version p).

(** A statement literal that sets [Effect], [Action], [Resource] and
    [Condition] and leaves [Principal] zero. *)
Definition allow (action resource : StringOrSlice.T)
    (condition : gmap string Json.value) : Statement :=
  mkStatement StatementEffectAllow (mkPrincipal "" "") action resource
              condition.

(** [Condition{"StringEquals": map[string]string{key: value}}] *)
Definition stringEquals (key value : string) : gmap string Json.value :=
  {[ "StringEquals" := Json.Obj [(key, Json.Str value)] ]}.

(** [func addECRPermissions(p *Policy)] *)
Definition addECRPermissions (p : Policy) : Policy :=
  insertUnconditional p
    ["ecr:GetAuthorizationToken";
     "ecr:BatchCheckLayerAvailability";
     "ecr:GetDownloadUrlForLayer";
     "ecr:GetRepositoryPolicy";
     "ecr:DescribeRepositories";
     "ecr:ListImages";
     "ecr:BatchGetImage"].

(** [func addCalicoSrcDstCheckPermissions(p *Policy)] *)
Definition addCalicoSrcDstCheckPermissions (p : Policy) : Policy :=
  insertUnconditional p
    ["ec2:DescribeInstances";
     "ec2:ModifyNetworkInterfaceAttribute"].

(** [func AddAWSLoadbalancerControllerPermissions(p *Policy)] *)
Definition AddAWSLoadbalancerControllerPermissions (p : Policy) : Policy :=
  let p :=
    insertUnconditional p
      ["ec2:DescribeAvailabilityZones";
       "ec2:DescribeNetworkInterfaces";
       "elasticloadbalancing:DescribeTags";
       "elasticloadbalancing:DescribeTargetGroupAttributes";
       "elasticloadbalancing:DescribeRules";
       "elasticloadbalancing:DescribeTargetHealth";
       "elasticloadbalancing:DescribeListenerCertificates";
       "elasticloadbalancing:CreateRule"] in
  appendStatement p
    (allow
       (StringOrSlice.Of
          ["ec2:AuthorizeSecurityGroupIngress";
           "ec2:DeleteSecurityGroup";
           "ec2:RevokeSecurityGroupIngress";
           "elasticloadbalancing:ModifyTargetGroupAttributes";
           "elasticloadbalancing:ModifyRule";
           "elasticloadbalancing:DeleteRule";
           "elasticloadbalancing:AddTags";
           "elasticloadbalancing:RemoveTags"])
       (StringOrSlice.String "*")
       (stringEquals "aws:ResourceTag/elbv2.k8s.aws/cluster" (clusterName p))).

(** [func AddClusterAutoscalerPermissions(p *Policy)] *)
Definition AddClusterAutoscalerPermissions (p : Policy) : Policy :=
  let p :=
    insertClusterTagged p
      ["autoscaling:SetDesiredCapacity";
       "autoscaling:TerminateInstanceInAutoScalingGroup"] in
  insertUnconditional p
    ["autoscaling:DescribeAutoScalingGroups";
     "autoscaling:DescribeAutoScalingInstances";
     "autoscaling:DescribeLaunchConfigurations"].

(** [func addSnapshotPersmissions(p *Policy)] *)
Definition addSnapshotPersmissions (p : Policy) : Policy :=
  let p :=
    insertUnconditional p
      ["ec2:CreateSnapshot";
       "ec2:DescribeAvailabilityZones";
       "ec2:DescribeSnapshots"] in
  insertClusterTagged p ["ec2:DeleteSnapshot"].

(** [func AddAWSEBSCSIDriverPermissions(p *Policy, appendSnapshotPermissions bool)] *)
Definition AddAWSEBSCSIDriverPermissions (p : Policy)
    (appendSnapshotPermissions : bool) : Policy :=
  let p := if appendSnapshotPermissions then addSnapshotPersmissions p else p in
  let p :=
    insertUnconditional p
      ["ec2:DescribeAccountAttributes";
       "ec2:DescribeInstances";
       "ec2:DescribeVolumes";
       "ec2:DescribeVolumesModifications";
       "ec2:DescribeTags"] in
  let p :=
    insertClusterTagged p
      ["ec2:ModifyVolume";
       "ec2:ModifyInstanceAttribute";
       "ec2:AttachVolume";
       "ec2:DeleteVolume";
       "ec2:DetachVolume"] in
  let p :=
    appendStatement p
      (allow (StringOrSlice.Slice ["ec2:CreateVolume"])
             (StringOrSlice.String "*")
             (stringEquals "aws:RequestTag/KubernetesCluster" (clusterName p))) in
  let p :=
    appendStatement p
      (allow (StringOrSlice.String "ec2:CreateTags")
             (StringOrSlice.Slice ["arn:aws:ec2:*:*:volume/*";
                                   "arn:aws:ec2:*:*:snapshot/*"])
             {[ "StringEquals" :=
                  Json.Obj [("ec2:CreateAction",
                             Json.Arr [Json.Str "CreateVolume";
                                       Json.Str "CreateSnapshot"])] ]}) in
  appendStatement p
    (allow (StringOrSlice.String "ec2:DeleteTags")
           (StringOrSlice.Slice ["arn:aws:ec2:*:*:volume/*";
                                 "arn:aws:ec2:*:*:snapshot/*"])
           (stringEquals "aws:ResourceTag/KubernetesCluster" (clusterName p))).

(** [func AddDNSControllerPermissions(b *PolicyBuilder, p *Policy)] *)
Definition AddDNSControllerPermissions `{Externals} {S} (b : PolicyBuilder S)
    (p : Policy) : Policy :=
  (* Permissions to mutate the specific zone *)
  if String.eqb (HostedZoneID b) "" then p
  else
    (* Remove /hostedzone/ prefix (if present) *)
    let hostedZoneID := TrimPrefix (HostedZoneID b) "/" in
    let hostedZoneID := TrimPrefix hostedZoneID "hostedzone/" in
    let p :=
      appendStatement p
        (allow (StringOrSlice.Of ["route53:ChangeResourceRecordSets";
                                  "route53:ListResourceRecordSets";
                                  "route53:GetHostedZone"])
               (StringOrSlice.Slice
                  [IAMPrefix b +:+ ":route53:::hostedzone/" +:+ hostedZoneID])
               ∅) in
    let p :=
      appendStatement p
        (allow (StringOrSlice.Slice ["route53:GetChange"])
               (StringOrSlice.Slice [IAMPrefix b +:+ ":route53:::change/*"])
               ∅) in
    let wildcard := StringOrSlice.Slice ["*"] in
    appendStatement p
      (allow (StringOrSlice.Slice ["route53:ListHostedZones"]) wildcard ∅).

(** [func addKMSIAMPolicies(p *Policy, resource stringorslice.StringOrSlice)];
    the body does not use [resource]. *)
Definition addKMSIAMPolicies (p : Policy) (resource : StringOrSlice.T)
    : Policy :=
  insertUnconditional p
    ["kms:CreateGrant";
     "kms:Decrypt";
     "kms:DescribeKey";
     "kms:Encrypt";
     "kms:GenerateDataKey*";
     "kms:ReEncrypt*"].

(** [func addKMSGenerateRandomPolicies(p *Policy)] *)
Definition addKMSGenerateRandomPolicies (p : Policy) : Policy :=
  (* For nodeup to seed the instance's random number generator. *)
  insertUnconditional p ["kms:GenerateRandom"].

(** [func addNodeEC2Policies(p *Policy)] *)
Definition addNodeEC2Policies (p : Policy) : Policy :=
  insertUnconditional p ["ec2:DescribeInstances"; "ec2:DescribeRegions"].

(** [func AddMasterEC2Policies(p *Policy)] *)
Definition AddMasterEC2Policies (p : Policy) : Policy :=
  let p :=
    insertUnconditional p
      ["ec2:DescribeAccountAttributes";
       "ec2:DescribeInstances";
       "ec2:DescribeInternetGateways";
       "ec2:DescribeRegions";
       "ec2:DescribeRouteTables";
       "ec2:DescribeSecurityGroups";
       "ec2:DescribeSubnets";
       "ec2:DescribeVolumes";
       "ec2:CreateSecurityGroup";
       "ec2:CreateTags";
       "ec2:ModifyInstanceAttribute"] in
  insertClusterTagged p
    ["ec2:AttachVolume";
     "ec2:AuthorizeSecurityGroupIngress";
     "ec2:CreateRoute";
     "ec2:DeleteRoute";
     "ec2:DeleteSecurityGroup";
     "ec2:RevokeSecurityGroupIngress"].

(** [func AddMasterELBPolicies(p *Policy)] *)
Definition AddMasterELBPolicies (p : Policy) : Policy :=
  insertUnconditional p
    ["ec2:DescribeVpcs";
     "elasticloadbalancing:DescribeLoadBalancers";
     "elasticloadbalancing:DescribeLoadBalancerAttributes";
     "elasticloadbalancing:DescribeListeners";
     "elasticloadbalancing:DescribeLoadBalancerPolicies";
     "elasticloadbalancing:DescribeTargetGroups";
     "elasticloadbalancing:DescribeTargetHealth";
     "elasticloadbalancing:CreateListener";
     "elasticloadbalancing:CreateTargetGroup";
     "elasticloadbalancing:CreateLoadBalancer";
     "elasticloadbalancing:CreateLoadBalancerPolicy";
     "elasticloadbalancing:CreateLoadBalancerListeners";
     "elasticloadbalancing:DeleteLoadBalancer";
     "elasticloadbalancing:DeleteLoadBalancerListeners";
     "elasticloadbalancing:DeleteListener";
     "elasticloadbalancing:DeleteTargetGroup";
     "elasticloadbalancing:AddTags";
     "elasticloadbalancing:ModifyLoadBalancerAttributes";
     "elasticloadbalancing:ModifyListener";
     "elasticloadbalancing:ModifyTargetGroup";
     "elasticloadbalancing:AttachLoadBalancerToSubnets";
     "elasticloadbalancing:ApplySecurityGroupsToLoadBalancer";
     "elasticloadbalancing:ConfigureHealthCheck";
     "elasticloadbalancing:DetachLoadBalancerFromSubnets";
     "elasticloadbalancing:DeregisterInstancesFromLoadBalancer";
     "elasticloadbalancing:RegisterInstancesWithLoadBalancer";
     "elasticloadbalancing:SetLoadBalancerPoliciesForBackendServer";
     "elasticloadbalancing:DeregisterTargets";
     "elasticloadbalancing:RegisterTargets";
     "elasticloadbalancing:SetLoadBalancerPoliciesOfListener"].

(** [func addMasterASPolicies(p *Policy)] *)
Definition addMasterASPolicies (p : Policy) : Policy :=
  let p :=
    insertUnconditional p
      ["autoscaling:DescribeAutoScalingGroups";
       "autoscaling:DescribeLaunchConfigurations";
       "autoscaling:DescribeTags";
       "ec2:DescribeLaunchTemplateVersions"] in
  insertClusterTagged p
    ["autoscaling:CompleteLifecycleAction";
     "autoscaling:DescribeAutoScalingInstances"].

(** [func addASLifecyclePolicies(p *Policy, enableHookSupport bool)] *)
Definition addASLifecyclePolicies (p : Policy) (enableHookSupport : bool)
    : Policy :=
  let p :=
    if enableHookSupport then
      let p := insertClusterTagged p ["autoscaling:CompleteLifecycleAction"] in
      insertUnconditional p ["autoscaling:DescribeLifecycleHooks"]
    else p in
  insertUnconditional p ["autoscaling:DescribeAutoScalingInstances"].

(** [func addCertIAMPolicies(p *Policy)] *)
Definition addCertIAMPolicies (p : Policy) : Policy :=
  insertUnconditional p
    ["iam:ListServerCertificates";
     "iam:GetServerCertificate"].

(** [func addLyftVPCPermissions(p *Policy)] *)
Definition addLyftVPCPermissions (p : Policy) : Policy :=
  insertUnconditional p
    ["ec2:AssignPrivateIpAddresses";
     "ec2:AttachNetworkInterface";
     "ec2:CreateNetworkInterface";
     "ec2:DeleteNetworkInterface";
     "ec2:DescribeInstanceTypes";
     "ec2:DescribeNetworkInterfaces";
     "ec2:DescribeSecurityGroups";
     "ec2:DescribeSubnets";
     "ec2:DescribeVpcPeeringConnections";
     "ec2:DescribeVpcs";
     "ec2:DetachNetworkInterface";
     "ec2:ModifyNetworkInterfaceAttribute";
     "ec2:UnassignPrivateIpAddresses"].

(** [func addCiliumEniPermissions(p *Policy)] *)
Definition addCiliumEniPermissions (p : Policy) : Policy :=
  insertUnconditional p
    ["ec2:DescribeSubnets";
     "ec2:AttachNetworkInterface";
     "ec2:AssignPrivateIpAddresses";
     "ec2:UnassignPrivateIpAddresses";
     "ec2:CreateNetworkInterface";
     "ec2:DescribeNetworkInterfaces";
     "ec2:DescribeVpcPeeringConnections";
     "ec2:DescribeSecurityGroups";
     "ec2:DetachNetworkInterface";
     "ec2:DeleteNetworkInterface";
     "ec2:ModifyNetworkInterfaceAttribute";
     "ec2:DescribeVpcs"].

(** [func addAmazonVPCCNIPermissions(p *Policy, iamPrefix string)] *)
Definition addAmazonVPCCNIPermissions (p : Policy) (iamPrefix : string)
    : Policy :=
  let p :=
    insertUnconditional p
      ["ec2:AssignPrivateIpAddresses";
       "ec2:AttachNetworkInterface";
       "ec2:CreateNetworkInterface";
       "ec2:DeleteNetworkInterface";
       "ec2:DescribeInstances";
       "ec2:DescribeInstanceTypes";
       "ec2:DescribeTags";
       "ec2:DescribeNetworkInterfaces";
       "ec2:DetachNetworkInterface";
       "ec2:ModifyNetworkInterfaceAttribute";
       "ec2:UnassignPrivateIpAddresses"] in
  appendStatement p
    (allow (StringOrSlice.Slice ["ec2:CreateTags"])
           (StringOrSlice.Slice
              [String.concat "" [iamPrefix; ":ec2:*:*:network-interface/*"]])
           ∅).

(** [func addNodeTerminationHandlerSQSPermissions(p *Policy)] *)
Definition addNodeTerminationHandlerSQSPermissions (p : Policy) : Policy :=
  insertUnconditional p
    ["autoscaling:CompleteLifecycleAction";
     "autoscaling:DescribeAutoScalingInstances";
     "sqs:DeleteMessage";
     "sqs:ReceiveMessage"].

(** [func (b *PolicyBuilder) buildS3WriteStatements(p *Policy, iamS3Path string)] *)
Definition buildS3WriteStatements `{Externals} {S} (b : PolicyBuilder S)
    (p : Policy) (iamS3Path : string) : Policy :=
  appendStatement p
    (allow (StringOrSlice.Slice ["s3:GetObject";
                                 "s3:DeleteObject";
                                 "s3:DeleteObjectVersion";
                                 "s3:PutObject"])
           (StringOrSlice.Of
              [String.concat "" [IAMPrefix b; ":s3:::"; iamS3Path; "/*"]])
           ∅).

Section AddS3Permissions.
Context `{Externals} (spec : ClusterSpec) (b : PolicyBuilder NodeRole).

(** [b.buildS3GetStatements(p, iamS3Path)], with what
    [ReadableStatePaths(b.Cluster, b.Role)] and [b.IAMPrefix()] return. *)
Definition getStatements (p : Policy) (iamS3Path : string)
    : option error * Policy :=
  buildS3GetStatements (IAMPrefix b)
    (ReadableStatePaths (Cluster_ b) spec (Role b)) p iamS3Path.

(** The loop over the roots: the policy and the buckets at its end, or the
    error it returns. *)
Fixpoint readStatements (roots : list string) (p : Policy)
    (s3Buckets : gset string) : error + (Policy * gset string) :=
  match roots with
  | [] => inr (p, s3Buckets)
  | root :: rest =>
      match BuildVfsPath root with
      | inl err =>
          inl (Errorf "cannot parse VFS path %q: %v" [root] (Some err))
      | inr vfsPath =>
          match vfsPath with
          | S3Path bucket key =>
              let iamS3Path := bucket +:+ "/" +:+ key in
              let iamS3Path := TrimSuffix iamS3Path "/" in
              let s3Buckets := s3Buckets ∪ {[ bucket ]} in
              match getStatements p iamS3Path with
              | (Some err, _) => inl err
              | (None, p) => readStatements rest p s3Buckets
              end
          | MemFSPath location =>
              (* Tests - we emulate the s3 permissions so that we can get
                 an idea of the full policy *)
              let iamS3Path := "placeholder-read-bucket/" +:+ location in
              let p := snd (getStatements p iamS3Path) in
              readStatements rest p (s3Buckets ∪ {[ "placeholder-read-bucket" ]})
          | FSPath path =>
              let iamS3path :=
                "placeholder-read-bucket/" +:+ TrimPrefix path "file://" in
              let p := snd (getStatements p iamS3path) in
              readStatements rest p (s3Buckets ∪ {[ "placeholder-read-bucket" ]})
          | VaultPath =>
              (* Vault access needs to come from somewhere else *)
              readStatements rest p s3Buckets
          | OtherPath =>
              inl (Errorf "path is not cluster readable: %v" [root] None)
          end
      end
  end.

(** The loop over the writeable paths. *)
Fixpoint writeStatements (writeablePaths : list VfsPath) (p : Policy)
    (s3Buckets : gset string) : error + (Policy * gset string) :=
  match writeablePaths with
  | [] => inr (p, s3Buckets)
  | vfsPath :: rest =>
      match vfsPath with
      | S3Path bucket key =>
          let iamS3Path := bucket +:+ "/" +:+ key in
          let iamS3Path := TrimSuffix iamS3Path "/" in
          let p := buildS3WriteStatements b p iamS3Path in
          writeStatements rest p (s3Buckets ∪ {[ bucket ]})
      | MemFSPath location =>
          let iamS3Path := "placeholder-write-bucket/" +:+ location in
          let p := buildS3WriteStatements b p iamS3Path in
          writeStatements rest p (s3Buckets ∪ {[ "placeholder-write-bucket" ]})
      | FSPath path =>
          let iamS3path :=
            "placeholder-read-bucket/" +:+ TrimPrefix path "file://" in
          let p := buildS3WriteStatements b p iamS3path in
          writeStatements rest p (s3Buckets ∪ {[ "placeholder-read-bucket" ]})
      | _ =>
          inl (Errorf "unknown writeable path, can't apply IAM policy: %q"
                 [printPath vfsPath] None)
      end
  end.

(** The statement added for a bucket by the last loop. *)
Definition bucketStatement (s3Bucket : string) : Statement :=
  allow (StringOrSlice.Of ["s3:GetBucketLocation";
                           "s3:GetEncryptionConfiguration";
                           "s3:ListBucket";
                           "s3:ListBucketVersions"])
        (StringOrSlice.Slice
           [String.concat "" [IAMPrefix b; ":s3:::"; s3Bucket]])
        ∅.

(** [func (b *PolicyBuilder) AddS3Permissions(p *Policy)]:
    the policy on success, the error otherwise (the policy returned is then
    nil). *)
Definition AddS3Permissions (p : Policy) : error + Policy :=
  (* For S3 IAM permissions we grant permissions to subtrees, so find the
     parents; we don't need to grant mypath and mypath/child. *)
  let roots :=
    rootsOf (locationsOf [KeyStore spec; SecretStore spec; ConfigStore spec]) in
  let roots := sort_Strings roots in
  match readStatements roots p ∅ with
  | inl err => inl err
  | inr (p, s3Buckets) =>
      match WriteableVFSPaths spec (Role b) with
      | inl err => inl err
      | inr writeablePaths =>
          match writeStatements writeablePaths p s3Buckets with
          | inl err => inl err
          | inr (p, s3Buckets) =>
              (* We need some permissions on the buckets themselves *)
              inr (foldl (fun p s3Bucket =>
                            appendStatement p (bucketStatement s3Bucket))
                         p (sets_List s3Buckets))
          end
      end
  end.

(** [if cond { f(p) }] *)
Definition when (cond : bool) (f : Policy -> Policy) (p : Policy) : Policy :=
  if cond then f p else p.

(** The conditions on the networking spec shared by the roles. *)
Definition hasAmazonVPC : bool :=
  match Networking spec with
  | Some n => match AmazonVPC n with Some _ => true | None => false end
  | None => false
  end.

Definition hasLyftVPC : bool :=
  match Networking spec with
  | Some n => match LyftVPC n with Some _ => true | None => false end
  | None => false
  end.

Definition hasCiliumEni : bool :=
  match Networking spec with
  | Some n =>
      match Cilium n with
      | Some c => String.eqb (Ipam c) CiliumIpamEni
      | None => false
      end
  | None => false
  end.

Definition hasCalicoSrcDstCheck : bool :=
  match Networking spec with
  | Some n =>
      match Calico n with
      | Some c => negb (String.eqb (AWSSrcDstCheck c) "DoNothing")
      | None => false
      end
  | None => false
  end.

Definition snapshotControllerEnabled : bool :=
  match SnapshotController spec with
  | Some s => Fi.BoolValue (SnapshotController_Enabled s)
  | None => false
  end.

(** [b.KMSKeys != nil && len(b.KMSKeys) != 0] *)
Definition hasKMSKeys : bool :=
  negb (length (KMSKeys b) =? 0)%nat.

(** The error of the roles when [AddS3Permissions] fails. *)
Definition s3Error (err : error) : option Policy * option error :=
  (None,
   Some (Errorf "failed to generate AWS IAM S3 access statements: %v" []
           (Some err))).

(** [func (r *NodeRoleAPIServer) BuildAWSPolicy(b *PolicyBuilder)] *)
Definition NodeRoleAPIServer_BuildAWSPolicy (warmPool : bool)
    : option Policy * option error :=
  let p := NewPolicy (Cluster_GetClusterName (Cluster_ b)) in
  let p := AddMasterEC2Policies p in
  let p := addASLifecyclePolicies p warmPool in
  let p := addCertIAMPolicies p in
  let p := addKMSGenerateRandomPolicies p in
  match AddS3Permissions p with
  | inl err => s3Error err
  | inr p =>
      let p :=
        when hasKMSKeys
          (fun p => addKMSIAMPolicies p (StringOrSlice.Slice (KMSKeys b))) p in
      let p := when (AllowContainerRegistry spec) addECRPermissions p in
      let p :=
        when hasAmazonVPC
          (fun p => addAmazonVPCCNIPermissions p (IAMPrefix b)) p in
      let p := when hasLyftVPC addLyftVPCPermissions p in
      let p := when hasCiliumEni addCiliumEniPermissions p in
      let p := when hasCalicoSrcDstCheck addCalicoSrcDstCheckPermissions p in
      (Some p, None)
  end.

(** [func (r *NodeRoleMaster) BuildAWSPolicy(b *PolicyBuilder)] *)
Definition NodeRoleMaster_BuildAWSPolicy : option Policy * option error :=
  let clusterName := Cluster_GetName (Cluster_ b) in
  let p := NewPolicy clusterName in
  let p := AddMasterEC2Policies p in
  let p := addASLifecyclePolicies p true in
  let p := addMasterASPolicies p in
  let p := AddMasterELBPolicies p in
  let p := addCertIAMPolicies p in
  let p := addKMSGenerateRandomPolicies p in
  match AddS3Permissions p with
  | inl err => s3Error err
  | inr p =>
      let p :=
        when hasKMSKeys
          (fun p => addKMSIAMPolicies p (StringOrSlice.Slice (KMSKeys b))) p in
      (* Protokube needs dns-controller permissions in instance role even
         if UseServiceAccountIAM. *)
      let p := AddDNSControllerPermissions b p in
      let p :=
        when (negb (UseServiceAccountIAM b))
          (fun p =>
             let esc := snapshotControllerEnabled in
             let p := AddAWSEBSCSIDriverPermissions p esc in
             let p :=
               when (match AWSLoadBalancerController spec with
                     | Some l =>
                         Fi.BoolValue (AWSLoadBalancerController_Enabled l)
                     | None => false
                     end)
                    AddAWSLoadbalancerControllerPermissions p in
             AddClusterAutoscalerPermissions p) p in
      let p := when (AllowContainerRegistry spec) addECRPermissions p in
      let p :=
        when hasAmazonVPC
          (fun p => addAmazonVPCCNIPermissions p (IAMPrefix b)) p in
      let p := when hasLyftVPC addLyftVPCPermissions p in
      let p := when hasCiliumEni addCiliumEniPermissions p in
      let p := when hasCalicoSrcDstCheck addCalicoSrcDstCheckPermissions p in
      let nth := NodeTerminationHandler spec in
      let p :=
        when (match nth with
              | Some n =>
                  Fi.BoolValue (NodeTerminationHandler_Enabled n)
                  && Fi.BoolValue (EnableSQSTerminationDraining n)
              | None => false
              end)
             addNodeTerminationHandlerSQSPermissions p in
      let p := when snapshotControllerEnabled addSnapshotPersmissions p in
      (Some p, None)
  end.

(** [func (r *NodeRoleNode) BuildAWSPolicy(b *PolicyBuilder)] *)
Definition NodeRoleNode_BuildAWSPolicy (enableLifecycleHookPermissions : bool)
    : option Policy * option error :=
  let p := NewPolicy (Cluster_GetClusterName (Cluster_ b)) in
  let p := addNodeEC2Policies p in
  let p := addASLifecyclePolicies p enableLifecycleHookPermissions in
  let p := addKMSGenerateRandomPolicies p in
  match AddS3Permissions p with
  | inl err => s3Error err
  | inr p =>
      let p := when (AllowContainerRegistry spec) addECRPermissions p in
      let p :=
        when hasAmazonVPC
          (fun p => addAmazonVPCCNIPermissions p (IAMPrefix b)) p in
      let p := when hasLyftVPC addLyftVPCPermissions p in
      let p := when hasCalicoSrcDstCheck addCalicoSrcDstCheckPermissions p in
      (Some p, None)
  end.

End AddS3Permissions.

(** The method [BuildAWSPolicy] of the interface [Subject], on the node
    roles. *)
Definition NodeRole_BuildAWSPolicy `{Externals} (spec : ClusterSpec)
    (r : NodeRole) (b : PolicyBuilder NodeRole)
    : option Policy * option error :=
  match r with
  | NodeRoleAPIServer warmPool =>
      NodeRoleAPIServer_BuildAWSPolicy spec b warmPool
  | NodeRoleMaster => NodeRoleMaster_BuildAWSPolicy spec b
  | NodeRoleNode hooks => NodeRoleNode_BuildAWSPolicy spec b hooks
  | NodeRoleBastion => NodeRoleBastion_BuildAWSPolicy b
  end.

Definition nodeRoleSubject `{Externals} (spec : ClusterSpec)
    : Subject NodeRole :=
  {| Subject_BuildAWSPolicy := NodeRole_BuildAWSPolicy spec |}.

End WithStringOrSlice.

End IamPolicies.

(** ** Views on the policies, and examples *)

Module IamPoliciesViews.
Import Go Iam IamPolicies.

Section WithStringOrSlice.
Context `{SOS : StringOrSlice.Ops}.

(** The statement allows. *)
Definition allows (s : Statement) : Prop := Effect s = StatementEffectAllow.

(** The statement allows, and its condition holds no value the encoder
    refuses. *)
Definition sound (s : Statement) : Prop :=
  allows s /\ encodable (Condition s).

(** The policy [q] is [p] with more in it: the same name and version, at
    least the actions of [p], and the statements of [p] followed by
    statements that are sound. *)
Definition extends (p q : Policy) : Prop :=
  clusterName q = clusterName p
  /\ Version q = Version p
  /\ unconditionalAction p ⊆ unconditionalAction q
  /\ clusterTaggedAction p ⊆ clusterTaggedAction q
  /\ exists added,
       Statement_ q = Statement_ p ++ added /\ Forall sound added.

(** The policy [q] is [p] with more statements, all of which are sound,
    and nothing else changed. *)
Definition appends (p q : Policy) : Prop :=
  clusterName q = clusterName p
  /\ Version q = Version p
  /\ unconditionalAction q = unconditionalAction p
  /\ clusterTaggedAction q = clusterTaggedAction p
  /\ exists added,
       Statement_ q = Statement_ p ++ added /\ Forall sound added.

(** The builder with other KMS keys. *)
Definition withKMSKeys {S} (b : PolicyBuilder S) (keys : list string)
    : PolicyBuilder S :=
  mkPolicyBuilder (Cluster_ b) (HostedZoneID b) keys (Region b)
                  (ResourceARN b) (Role b) (UseServiceAccountIAM b).

(** [AsJSON] called [n] times on the same policy: the policy as the last
    call leaves it. *)
Fixpoint AsJSON_times (n : nat) (p : Policy) : Policy :=
  match n with
  | 0 => p
  | S n => snd (AsJSON (AsJSON_times n p))
  end.

(** The statements one call of [AsJSON] appends to [p]. *)
Definition actionStatements (p : Policy) : list Statement :=
  (if (0 <? size (unconditionalAction p))%nat then
     [mkStatement StatementEffectAllow (mkPrincipal "" "")
        (StringOrSlice.Of (sets_List (unconditionalAction p)))
        (StringOrSlice.String "*") ∅]
   else [])
  ++ (if (0 <? size (clusterTaggedAction p))%nat then
        [mkStatement StatementEffectAllow (mkPrincipal "" "")
           (StringOrSlice.Of (sets_List (clusterTaggedAction p)))
           (StringOrSlice.String "*")
           {[ "StringEquals" :=
                Json.Obj [("aws:ResourceTag/KubernetesCluster",
                           Json.Str (clusterName p))] ]}]
      else []).

End WithStringOrSlice.

(** A small [vfs] for the examples: [s3://BUCKET/KEY], [memfs://LOCATION],
    absolute file paths and [vault://] are known, [gs://] is known but of
    another kind, and every other scheme is refused. *)
Fixpoint splitSlash (s : string) : string * string :=
  match s with
  | EmptyString => ("", "")
  | String c rest =>
      if Ascii.eqb c "/" then ("", rest)
      else let '(a, b) := splitSlash rest in (String c a, b)
  end.

Definition exampleBuildVfsPath (p : string) : error + VfsPath :=
  if String.prefix "s3://" p then
    let '(bucket, key) := splitSlash (TrimPrefix p "s3://") in
    inr (S3Path bucket key)
  else if String.prefix "memfs://" p then
    inr (MemFSPath (TrimPrefix p "memfs://"))
  else if String.prefix "/" p then inr (FSPath p)
  else if String.prefix "vault://" p then inr VaultPath
  else if String.prefix "gs://" p then inr OtherPath
  else inl (Errorf "unknown url scheme: %q" [p] None).

Definition exampleExternals : Externals :=
  {| BuildVfsPath := exampleBuildVfsPath;
     printPath := fun _ => "vfs.Path";
     DefaultPartitions :=
       [mkPartition "aws" {[ "us-east-1"; "us-test-1" ]};
        mkPartition "aws-cn" {[ "cn-north-1" ]}];
     CiliumIpamEni := "eni";
     UseKopsControllerForNodeBootstrap := fun _ _ => true;
     UseCiliumEtcd := fun _ _ => false |}.

(** A cluster for the examples: its stores under one S3 prefix, and two
    etcd clusters with their backups in the same bucket. *)
Definition exampleSpec : ClusterSpec :=
  {| KeyStore := "s3://state/c.example.com/pki";
     SecretStore := "s3://state/c.example.com/secrets";
     ConfigStore := "s3://state/c.example.com";
     AllowContainerRegistry := false;
     Networking := None;
     SnapshotController := None;
     AWSLoadBalancerController := None;
     NodeTerminationHandler := None;
     KubeAPIServer := None;
     EtcdBackups :=
       [Some (mkEtcdBackup "s3://state/c.example.com/backups/etcd/main");
        Some (mkEtcdBackup "s3://state/c.example.com/backups/etcd/events");
        Some (mkEtcdBackup "s3://state/c.example.com/backups/etcd/main");
        None] |}.

(** A builder for the examples.  The cluster is named [c.example.com];
    the [ClusterName] of its metadata is empty. *)
Definition exampleRoleBuilder (role : NodeRole) (hostedZoneID : string)
    (useServiceAccountIAM : bool) : PolicyBuilder NodeRole :=
  mkPolicyBuilder (mkCluster "c.example.com" "" [])
                  hostedZoneID [] "us-test-1"
                  None role useServiceAccountIAM.

(** The policy [BuildAWSPolicy] returns for a role of the example
    cluster. *)
Definition examplePolicy (role : NodeRole) (hostedZoneID : string)
    (useServiceAccountIAM : bool) : Policy (SOS := StringOrSlice.implOps) :=
  default (NewPolicy "")
    (fst (fst (BuildAWSPolicy (SOS := StringOrSlice.implOps)
                 (H := nodeRoleSubject (H := exampleExternals) exampleSpec)
                 (exampleRoleBuilder role hostedZoneID useServiceAccountIAM)))).

End IamPoliciesViews.


(** ** Package [commands]: unset instancegroup *)

Module Commands.
Import Go.

(** [type UnsetInstanceGroupOptions struct] *)
Record UnsetInstanceGroupOptions : Type := mkUnsetInstanceGroupOptions {
  Fields : list string;
  ClusterName : string;
  InstanceGroupName : string
}.

(** What the command uses of the rest of the program: the feature flag
    [featureflag.SpecOverrideFlag], [field.Required] on a path of one name,
    the factory and the client set, [ReadAllInstanceGroups] and
    [UpdateInstanceGroup] of this package, whose bodies are in other files,
    [GetName] of an instance group, and [reflectutils.Unset], which changes
    the instance group it is given and may fail. *)
Class Env : Type := {
  Cluster : Type;
  InstanceGroup : Type;
  Clientset : Type;
  SpecOverrideFlag_Enabled : bool;
  field_Required : string -> string -> error;
  Factory_Clientset : error + Clientset;
  GetCluster : Clientset -> string -> error + Cluster;
  ReadAllInstanceGroups : Clientset -> Cluster -> error + list InstanceGroup;
  GetName : InstanceGroup -> string;
  reflectutils_Unset : InstanceGroup -> string -> option error * InstanceGroup;
  UpdateInstanceGroup :
    Clientset -> Cluster -> list InstanceGroup -> InstanceGroup -> option error
}.

Section Run.
Context `{Env}.

(** The calls that reach the cluster or its state store, with their
    arguments. *)
Inductive Call : Type :=
| CallClientset
| CallGetCluster (clusterName : string)
| CallReadAllInstanceGroups (cluster : Cluster)
| CallUpdateInstanceGroup (cluster : Cluster)
    (instanceGroups : list InstanceGroup) (instanceGroupToUpdate : InstanceGroup).

(** A command: from the calls made so far to a result or an error, and
    the calls made then. *)
Definition M (A : Type) : Type := list Call -> (error + A) * list Call.

Definition ret {A : Type} (a : A) : M A := fun calls => (inr a, calls).

Definition fail {A : Type} (err : error) : M A := fun calls => (inl err, calls).

Definition bind {A B : Type} (m : M A) (k : A -> M B) : M B :=
  fun calls =>
    match m calls with
    | (inl err, calls') => (inl err, calls')
    | (inr a, calls') => k a calls'
    end.

(** A call of the given kind with the given outcome. *)
Definition call {A : Type} (c : Call) (r : error + A) : M A :=
  fun calls => (r, calls ++ [c]).

Notation "'do' x <- m ; k" := (bind m (fun x => k))
  (at level 10, x name, m at level 100, k at level 200).

(** [func UnsetInstancegroupFields(fields []string, instanceGroup *api.InstanceGroup) error]:
    the error, and the instance group as the call leaves it. *)
Fixpoint UnsetInstancegroupFields (fields : list string)
    (instanceGroup : InstanceGroup) : option error * InstanceGroup :=
  match fields with
  | [] => (None, instanceGroup)
  | field :: rest =>
      let key := IamPolicies.TrimPrefix field "instancegroup." in
      match reflectutils_Unset instanceGroup key with
      | (Some err, instanceGroup) => (Some err, instanceGroup)
      | (None, instanceGroup) => UnsetInstancegroupFields rest instanceGroup
      end
  end.

(** The loop that looks for the instance group: the index and the group
    of the last one with the name, since the loop does not stop at the
    first. *)
Fixpoint findInstanceGroup (name : string) (instanceGroups : list InstanceGroup)
    (i : nat) (found : option (nat * InstanceGroup))
    : option (nat * InstanceGroup) :=
  match instanceGroups with
  | [] => found
  | instanceGroup :: rest =>
      findInstanceGroup name rest (S i)
        (if String.eqb (GetName instanceGroup) name
         then Some (i, instanceGroup) else found)
  end.

(** [func RunUnsetInstancegroup(ctx, f, cmd, out, options) error].  The
    instance groups are held by pointer: the group that is changed is the
    one in the list handed to [UpdateInstanceGroup]. *)
Definition RunUnsetInstancegroup (options : UnsetInstanceGroupOptions)
    : M unit :=
  if negb SpecOverrideFlag_Enabled then
    fail (Errorf ("unset instancegroup is currently feature gated; set "
                  +:+ "`export KOPS_FEATURE_FLAGS=SpecOverrideFlag`") [] None)
  else if String.eqb (ClusterName options) "" then
    fail (field_Required "clusterName" "Cluster name is required")
  else if String.eqb (InstanceGroupName options) "" then
    fail (field_Required "instancegroupName" "Instance Group name is required")
  else
    do clientset <- call CallClientset Factory_Clientset;
    do cluster <- call (CallGetCluster (ClusterName options))
                       (GetCluster clientset (ClusterName options));
    do instanceGroups <- call (CallReadAllInstanceGroups cluster)
                              (ReadAllInstanceGroups clientset cluster);
    match findInstanceGroup (InstanceGroupName options) instanceGroups 0 None with
    | None =>
        fail (Errorf "unable to find instance group with name %q"
                [InstanceGroupName options] None)
    | Some (i, instanceGroupToUpdate) =>
        match UnsetInstancegroupFields (Fields options) instanceGroupToUpdate with
        | (Some err, _) => fail err
        | (None, instanceGroupToUpdate) =>
            let instanceGroups := <[i := instanceGroupToUpdate]> instanceGroups in
            call (CallUpdateInstanceGroup cluster instanceGroups
                    instanceGroupToUpdate)
                 (match UpdateInstanceGroup clientset cluster instanceGroups
                          instanceGroupToUpdate with
                  | Some err => inl err
                  | None => inr tt
                  end)
        end
    end.

End Run.

(** A small cluster for the examples: instance groups are a name and the
    fields that are set; [Unset] removes a field and fails on a field that
    is not set; the client hands out the groups [nodes] and [master]. *)
Definition exampleEnv (enabled : bool) : Env :=
  {| Cluster := string;
     InstanceGroup := string * list string;
     Clientset := unit;
     SpecOverrideFlag_Enabled := enabled;
     field_Required := fun name detail =>
       Errorf "%s: Required value: %s" [name; detail] None;
     Factory_Clientset := inr tt;
     GetCluster := fun _ name => inr name;
     ReadAllInstanceGroups := fun _ _ =>
       inr [("nodes", ["spec.maxSize"; "spec.minSize"]);
            ("master", ["spec.maxSize"])];
     GetName := fst;
     reflectutils_Unset := fun ig key =>
       if bool_decide (key ∈ snd ig)
       then (None, (fst ig, List.filter (fun k => negb (String.eqb k key)) (snd ig)))
       else (Some (Errorf "field %s not found" [key] None), ig);
     UpdateInstanceGroup := fun _ _ _ _ => None |}.

End Commands.

(** ** Package [model] of nodeup: the containerd builder *)

Module NodeupModel.
Import Go.

(** The double quote and the line feed. *)
Definition dq : string := String (ascii_of_nat 34) "".
Definition nl : string := String (ascii_of_nat 10) "".

(** [distributions.Distribution]: the two distributions the builder
    names, and the others. *)
Inductive Distribution : Type :=
| DistributionFlatcar
| DistributionContainerOS
| DistributionOther (name : string).

(** [kops.ContainerdConfig] and [kops.DockerConfig], with the fields read
    here. *)
Record ContainerdConfig : Type := mkContainerdConfig {
  SkipInstall : bool;
  Version : option string
}.

Record DockerConfig : Type := mkDockerConfig {
  SelinuxEnabled : option bool;
  Docker_Version : option string
}.

(** [fi.Resource]: a string resource, or a resource of the asset store. *)
Inductive Resource (Asset : Type) : Type :=
| NewStringResource (s : string)
| AssetResource (a : Asset).
#[global] Arguments NewStringResource {Asset} _.
#[global] Arguments AssetResource {Asset} _.

(** [nodetasks.File] and [nodetasks.Service], with the fields set here. *)
Record File (Asset : Type) : Type := mkFile {
  Path : string;
  Contents : Resource Asset;
  Type_ : string;
  Mode : option string;
  AfterFiles : list string;
  OnChangeExecute : list (list string)
}.
#[global] Arguments mkFile {Asset} _ _ _ _ _ _.
#[global] Arguments Path {Asset} _.
#[global] Arguments Contents {Asset} _.
#[global] Arguments Type_ {Asset} _.
#[global] Arguments Mode {Asset} _.
#[global] Arguments AfterFiles {Asset} _.
#[global] Arguments OnChangeExecute {Asset} _.

Record Service : Type := mkService {
  Name : string;
  Definition_ : option string
}.

(** [systemd.Manifest]: the entries in the order they were set. *)
Definition Manifest : Type := list (string * string * string).

Definition Manifest_Set (manifest : Manifest) (section key value : string)
    : Manifest :=
  manifest ++ [(section, key, value)].

(** What the builder uses of other packages: the asset store and
    [FindMatches] on it with the source of the pattern, [filepath.Join],
    [semver.ParseTolerant] and [GTE] against a parsed constant,
    [flagbuilder.BuildFlags], [Manifest.Render], [Service.InitDefaults],
    [components.UsesKubenet], [Distribution.IsRHELFamily], and the constants
    [nodetasks.FileType_File] and [resources.ContainerdApache2License]. *)
Class Externals : Type := {
  Asset : Type;
  Assets : Type;
  NetworkingSpec : Type;
  SemVersion : Type;
  FindMatches : Assets -> string -> gmap string Asset;
  filepath_Join : string -> string -> string;
  ParseTolerant : string -> error + SemVersion;
  GTE : SemVersion -> string -> bool;
  BuildFlags : ContainerdConfig -> error + string;
  Render : Manifest -> string;
  InitDefaults : Service -> Service;
  UsesKubenet : option NetworkingSpec -> bool;
  IsRHELFamily : Distribution -> bool;
  FileType_File : string;
  ContainerdApache2License : string
}.

(** [NodeupModelContext], with what the builder reads of it. *)
Record NodeupModelContext `{Externals} : Type := mkNodeupModelContext {
  Distribution_ : Distribution;
  ContainerRuntime : string;
  Networking : option NetworkingSpec;
  Containerd : option ContainerdConfig;
  Docker : option DockerConfig;
  NonMasqueradeCIDR : string;
  NodeupConfig_ContainerdConfig : string;
  Assets_ : Assets
}.

(** The tasks the builder adds. *)
Inductive Task `{Externals} : Type :=
| TFile (f : File Asset)
| TService (s : Service).

(** [strings.ReplaceAll(s, old, new)] for a non-empty [old]. *)
Fixpoint replaceAll (fuel : nat) (s old new : string) : string :=
  match fuel with
  | 0 => s
  | S fuel =>
      match s with
      | EmptyString => EmptyString
      | String c rest =>
          if String.prefix old s then
            new +:+ replaceAll fuel
                      (String.substring (String.length old)
                         (String.length s - String.length old) s)
                      old new
          else String c (replaceAll fuel rest old new)
      end
  end.

Definition ReplaceAll (s old new : string) : string :=
  replaceAll (String.length s) s old new.

(** The literals of the builder. *)
Definition ipMasqueradeScript : string :=
  "#!/bin/bash
# Built by kOps - do not edit

iptables -w -t nat -N IP-MASQ
iptables -w -t nat -A POSTROUTING -m comment --comment " +:+ dq +:+ "ip-masq: ensure nat POSTROUTING directs all non-LOCAL destination traffic to our custom IP-MASQ chain" +:+ dq +:+ " -m addrtype ! --dst-type LOCAL -j IP-MASQ
iptables -w -t nat -A IP-MASQ -d {{.NonMasqueradeCIDR}} -m comment --comment " +:+ dq +:+ "ip-masq: pod cidr is not subject to MASQUERADE" +:+ dq +:+ " -j RETURN
iptables -w -t nat -A IP-MASQ -m comment --comment " +:+ dq +:+ "ip-masq: outbound traffic is subject to MASQUERADE (must be last in chain)" +:+ dq +:+ " -j MASQUERADE
".

Definition cniConfigTemplate : string :=
  "{
    " +:+ dq +:+ "cniVersion" +:+ dq +:+ ": " +:+ dq +:+ "0.4.0" +:+ dq +:+ ",
    " +:+ dq +:+ "name" +:+ dq +:+ ": " +:+ dq +:+ "k8s-pod-network" +:+ dq +:+ ",
    " +:+ dq +:+ "plugins" +:+ dq +:+ ": [
        {
            " +:+ dq +:+ "type" +:+ dq +:+ ": " +:+ dq +:+ "ptp" +:+ dq +:+ ",
            " +:+ dq +:+ "ipam" +:+ dq +:+ ": {
                " +:+ dq +:+ "type" +:+ dq +:+ ": " +:+ dq +:+ "host-local" +:+ dq +:+ ",
                " +:+ dq +:+ "ranges" +:+ dq +:+ ": [[{" +:+ dq +:+ "subnet" +:+ dq +:+ ": " +:+ dq +:+ "{{.PodCIDR}}" +:+ dq +:+ "}]],
                " +:+ dq +:+ "routes" +:+ dq +:+ ": [{ " +:+ dq +:+ "dst" +:+ dq +:+ ": " +:+ dq +:+ "0.0.0.0/0" +:+ dq +:+ " }]
            }
        },
        {
            " +:+ dq +:+ "type" +:+ dq +:+ ": " +:+ dq +:+ "portmap" +:+ dq +:+ ",
            " +:+ dq +:+ "capabilities" +:+ dq +:+ ": {" +:+ dq +:+ "portMappings" +:+ dq +:+ ": true}
        }
    ]
}
".

Definition crictlConf : string :=
  "
runtime-endpoint: unix:///run/containerd/containerd.sock
".

(** The commands run when an override of the service has changed. *)
Definition overrideOnChangeExecute : list (list string) :=
  [["systemctl"; "daemon-reload"];
   ["systemctl"; "restart"; "containerd.service"];
   (* We need to restart kops-configuration service since nodeup needs to
      load images into containerd with the new config. *)
   ["systemctl"; "restart"; "kops-configuration.service"; "&"]].

Section Builder.
Context `{Externals} `{MapRange} (b : NodeupModelContext).

(** [func (b *ContainerdBuilder) containerdConfigFilePath() string] *)
Definition containerdConfigFilePath : string :=
  match Distribution_ b with
  | DistributionContainerOS => "/etc/containerd/config.toml"
  | _ => "/etc/containerd/config-kops.toml"
  end.

(** [func (b *ContainerdBuilder) skipInstall() bool] *)
Definition skipInstall : bool :=
  match Containerd b with
  | None => false
  | Some d => SkipInstall d
  end.

(** [func (b *ContainerdBuilder) buildSystemdServiceOverrideContainerOS(c)] *)
Definition buildSystemdServiceOverrideContainerOS : list Task :=
  let lines := ["[Service]";
                "EnvironmentFile=/etc/environment";
                "TasksMax=infinity"] in
  let contents := String.concat nl lines in
  [TFile (mkFile "/etc/systemd/system/containerd.service.d/10-kops.conf"
            (NewStringResource contents) FileType_File None
            [containerdConfigFilePath] overrideOnChangeExecute)].

(** [func (b *ContainerdBuilder) buildSystemdServiceOverrideFlatcar(c)] *)
Definition buildSystemdServiceOverrideFlatcar : list Task :=
  let lines := ["[Service]";
                "Environment=CONTAINERD_CONFIG=" +:+ containerdConfigFilePath;
                "EnvironmentFile=/etc/environment"] in
  let contents := String.concat nl lines in
  [TFile (mkFile "/etc/systemd/system/containerd.service.d/10-kops.conf"
            (NewStringResource contents) FileType_File None
            [containerdConfigFilePath] overrideOnChangeExecute)].

(** [func (b *ContainerdBuilder) buildCNIConfigTemplateFile(c)] *)
Definition buildCNIConfigTemplateFile : list Task :=
  [TFile (mkFile "/etc/containerd/config-cni.template"
            (NewStringResource cniConfigTemplate) FileType_File None [] [])].

(** The manifest of the unit that sets up iptables. *)
Definition ipMasqueradeManifest : Manifest :=
  let manifest := [] in
  let manifest :=
    Manifest_Set manifest "Unit" "Description"
                 "Configure iptables for kubernetes CNI" in
  let manifest :=
    Manifest_Set manifest "Unit" "Documentation"
                 "https://github.com/kubernetes/kops" in
  let manifest := Manifest_Set manifest "Unit" "Before" "network.target" in
  let manifest := Manifest_Set manifest "Service" "Type" "oneshot" in
  let manifest := Manifest_Set manifest "Service" "RemainAfterExit" "yes" in
  let manifest :=
    Manifest_Set manifest "Service" "ExecStart"
                 "/opt/kops/bin/cni-iptables-setup" in
  Manifest_Set manifest "Install" "WantedBy" "basic.target".

(** [func (b *ContainerdBuilder) buildIPMasqueradeRules(c) error] *)
Definition buildIPMasqueradeRules : list Task * option error :=
  if String.eqb (NonMasqueradeCIDR b) "" then
    (* We could fall back to the pod CIDR, that is likely more correct
       anyway *)
    ([], Some (Errorf "NonMasqueradeCIDR is not set" [] None))
  else
    let script :=
      ReplaceAll ipMasqueradeScript "{{.NonMasqueradeCIDR}}"
                 (NonMasqueradeCIDR b) in
    ([TFile (mkFile "/opt/kops/bin/cni-iptables-setup"
               (NewStringResource script) FileType_File (Fi.String "0755")
               [] []);
      TService (InitDefaults
                  (mkService "cni-iptables-setup.service"
                     (Fi.String (Render ipMasqueradeManifest))))],
     None).

(** [func (b *ContainerdBuilder) buildConfigFile(c)] *)
Definition buildConfigFile : list Task :=
  [TFile (mkFile containerdConfigFilePath
            (NewStringResource (NodeupConfig_ContainerdConfig b))
            FileType_File None [] [])].

(** [func (b *ContainerdBuilder) addCrictlConfig(c)] *)
Definition addCrictlConfig : list Task :=
  [TFile (mkFile "/etc/crictl.yaml" (NewStringResource crictlConf)
            FileType_File None [] [])].

(** [func (b *ContainerdBuilder) buildSysconfigFile(c) error] *)
Definition buildSysconfigFile : list Task * option error :=
  let containerd :=
    match Containerd b with
    | Some c => c
    | None => mkContainerdConfig false None
    end in
  match BuildFlags containerd with
  | inl err =>
      ([], Some (Errorf "error building containerd flags: %v" [] (Some err)))
  | inr flagsString =>
      let lines := ["CONTAINERD_OPTS=" +:+ flagsString] in
      let contents := String.concat nl lines in
      ([TFile (mkFile "/etc/sysconfig/containerd"
                 (NewStringResource contents) FileType_File None [] [])],
       None)
  end.

(** The manifest of [containerd.service]. *)
Definition systemdManifest (sv : SemVersion) : Manifest :=
  let manifest := [] in
  let manifest :=
    Manifest_Set manifest "Unit" "Description" "containerd container runtime" in
  let manifest :=
    Manifest_Set manifest "Unit" "Documentation" "https://containerd.io" in
  let manifest :=
    Manifest_Set manifest "Unit" "After" "network.target local-fs.target" in
  (* Restore the default SELinux security contexts for the containerd and
     runc binaries *)
  let manifest :=
    if IsRHELFamily (Distribution_ b)
       && match Docker b with
          | Some d => Fi.BoolValue (SelinuxEnabled d)
          | None => false
          end
    then
      let manifest :=
        Manifest_Set manifest "Service" "ExecStartPre"
                     "/bin/sh -c 'restorecon -v /usr/bin/runc'" in
      Manifest_Set manifest "Service" "ExecStartPre"
                   "/bin/sh -c 'restorecon -v /usr/bin/containerd*'"
    else manifest in
  let manifest :=
    Manifest_Set manifest "Service" "EnvironmentFile"
                 "/etc/sysconfig/containerd" in
  let manifest :=
    Manifest_Set manifest "Service" "EnvironmentFile" "/etc/environment" in
  let manifest :=
    Manifest_Set manifest "Service" "ExecStartPre" "-/sbin/modprobe overlay" in
  let manifest :=
    Manifest_Set manifest "Service" "ExecStart"
      ("/usr/bin/containerd -c " +:+ containerdConfigFilePath +:+ " "
       +:+ dq +:+ "$CONTAINERD_OPTS" +:+ dq) in
  (* notify the daemon's readiness to systemd *)
  let manifest :=
    if (String.eqb (ContainerRuntime b) "containerd" && GTE sv "1.3.4")
       || GTE sv "19.3.13"
    then Manifest_Set manifest "Service" "Type" "notify"
    else manifest in
  (* set delegate yes so that systemd does not reset the cgroups of
     containerd containers *)
  let manifest := Manifest_Set manifest "Service" "Delegate" "yes" in
  (* kill only the containerd process, not all processes in the cgroup *)
  let manifest := Manifest_Set manifest "Service" "KillMode" "process" in
  let manifest := Manifest_Set manifest "Service" "Restart" "always" in
  let manifest := Manifest_Set manifest "Service" "RestartSec" "5" in
  let manifest := Manifest_Set manifest "Service" "LimitNPROC" "infinity" in
  let manifest := Manifest_Set manifest "Service" "LimitCORE" "infinity" in
  let manifest := Manifest_Set manifest "Service" "LimitNOFILE" "infinity" in
  let manifest := Manifest_Set manifest "Service" "TasksMax" "infinity" in
  (* make killing of processes of this unit under memory pressure very
     unlikely *)
  let manifest := Manifest_Set manifest "Service" "OOMScoreAdjust" "-999" in
  Manifest_Set manifest "Install" "WantedBy" "multi-user.target".

(** [func (b *ContainerdBuilder) buildSystemdService(sv semver.Version) *nodetasks.Service] *)
Definition buildSystemdService (sv : SemVersion) : Service :=
  let manifestString := Render (systemdManifest sv) in
  InitDefaults (mkService "containerd.service" (Fi.String manifestString)).

(** The binaries [installContainerd] takes from the assets. *)
Definition containerdBinaries : gmap string Asset :=
  let f :=
    FindMatches (Assets_ b)
      "^(\./)?usr/local/(bin/containerd|bin/crictl|bin/ctr|sbin/runc)" in
  if (size f =? 0)%nat
  then FindMatches (Assets_ b) "^docker/(containerd|ctr|runc)"
  else f.

(** The task of a binary. *)
Definition binaryTask (k : string) (v : Asset) : Task :=
  TFile (mkFile (filepath_Join "/usr/bin" k) (AssetResource v) FileType_File
           (Fi.String "0755") [] []).

(** The block of [installContainerd] that finds the version of the
    runtime. *)
Definition containerRuntimeVersion : error + string :=
  if String.eqb (ContainerRuntime b) "containerd" then
    match Containerd b with
    | Some c => inr (Fi.StringValue (Version c))
    | None => inl (Errorf "error finding contained version" [] None)
    end
  else
    match Docker b with
    | Some d => inr (Fi.StringValue (Docker_Version d))
    | None => inl (Errorf "error finding Docker version" [] None)
    end.

(** [func (b *ContainerdBuilder) installContainerd(c) error]: the tasks
    added, and the error. *)
Definition installContainerd : list Task * option error :=
  (* Add Apache2 license *)
  let tasks :=
    [TFile (mkFile "/usr/share/doc/containerd/apache.txt"
              (NewStringResource ContainerdApache2License) FileType_File
              None [] [])] in
  (* Add binaries from assets *)
  let binaries :=
    if String.eqb (ContainerRuntime b) "containerd" then
      let f := containerdBinaries in
      if (size f =? 0)%nat then
        inl (Errorf "unable to find any containerd binaries in assets" [] None)
      else
        inr (map (fun kv => binaryTask (fst kv) (snd kv)) (range f)
             (* Add configuration file for easier use of crictl *)
             ++ addCrictlConfig)
    else inr [] in
  match binaries with
  | inl err => (tasks, Some err)
  | inr more =>
      let tasks := tasks ++ more in
      match containerRuntimeVersion with
      | inl err => (tasks, Some err)
      | inr containerRuntimeVersion =>
          match ParseTolerant containerRuntimeVersion with
          | inl err =>
              (tasks,
               Some (Errorf "error parsing container runtime version %q: %v"
                       [containerRuntimeVersion] (Some err)))
          | inr sv =>
              let tasks := tasks ++ [TService (buildSystemdService sv)] in
              let '(more, r) := buildSysconfigFile in
              (tasks ++ more, r)
          end
      end
  end.

(** [func (b *ContainerdBuilder) Build(c *fi.ModelBuilderContext) error]:
    the tasks handed to [c.AddTask], in order, and the error. *)
Definition Build : list Task * option error :=
  if skipInstall then ([], None)
  else
    (* neither flatcar nor containeros need provision containerd.service,
       just the containerd daemon options *)
    let '(installContainerd_, tasks) :=
      match Distribution_ b with
      | DistributionFlatcar =>
          (false,
           if String.eqb (ContainerRuntime b) "containerd"
           then buildSystemdServiceOverrideFlatcar else [])
      | DistributionContainerOS =>
          (false, buildSystemdServiceOverrideContainerOS)
      | DistributionOther _ => (true, [])
      end in
    let '(more, r) :=
      if String.eqb (ContainerRuntime b) "containerd"
         && UsesKubenet (Networking b)
      then
        (* Using containerd with Kubenet requires special configuration. *)
        let '(more, r) := buildIPMasqueradeRules in
        (buildCNIConfigTemplateFile ++ more, r)
      else ([], None) in
    match r with
    | Some err => (tasks ++ more, Some err)
    | None =>
        (* If there are containerd configuration overrides, apply them *)
        let tasks := tasks ++ more ++ buildConfigFile in
        if installContainerd_ then
          let '(more, r) := installContainerd in
          (tasks ++ more, r)
        else (tasks, None)
    end.

End Builder.

(** A node for the examples: assets are named by their contents, the
    store holds the containerd binaries under [usr/local], versions are
    their strings and none is newer than another, and the flags are
    empty. *)
Definition exampleNodeExternals : Externals :=
  {| Asset := string;
     Assets := gmap string string;
     NetworkingSpec := bool;
     SemVersion := string;
     FindMatches := fun assets re =>
       if String.prefix "^docker" re then ∅ else assets;
     filepath_Join := fun a b => a +:+ "/" +:+ b;
     ParseTolerant := fun v =>
       if String.eqb v "" then inl (Errorf "Version string empty" [] None)
       else inr v;
     GTE := fun _ _ => false;
     BuildFlags := fun _ => inr "";
     Render := fun manifest =>
       String.concat nl
         (map (fun e => fst (fst e) +:+ "/" +:+ snd (fst e) +:+ "=" +:+ snd e)
              manifest);
     InitDefaults := fun s => s;
     UsesKubenet := fun n => default false n;
     IsRHELFamily := fun _ => false;
     FileType_File := "file";
     ContainerdApache2License := "Apache License" |}.

Definition exampleNode (distribution : Distribution) (kubenet : bool)
    (cidr : string) : NodeupModelContext (H := exampleNodeExternals) :=
  @mkNodeupModelContext exampleNodeExternals
    distribution
    "containerd"
    (Some kubenet)
    (Some (mkContainerdConfig false (Some "1.4.3")))
    None
    cidr
    "version = 2"
    {[ "containerd" := "testing containerd content";
       "runc" := "testing containerd content" ]}.

End NodeupModel.

(** ** Views on the tasks of the containerd builder *)

Module NodeupModelViews.
Import Go NodeupModel.

Section Views.
Context `{Externals} (b : NodeupModelContext).

(** The error of [buildIPMasqueradeRules]. *)
Definition cidrError : error := Errorf "NonMasqueradeCIDR is not set" [] None.

(** The condition under which [Build] configures kubenet. *)
Definition kubenet : bool :=
  String.eqb (ContainerRuntime b) "containerd" && UsesKubenet (Networking b).

(** The distributions on which [Build] does not install containerd. *)
Definition immutable : bool :=
  match Distribution_ b with
  | DistributionFlatcar | DistributionContainerOS => true
  | DistributionOther _ => false
  end.

(** The override of the service that [Build] writes for the distribution. *)
Definition overrides : list Task :=
  match Distribution_ b with
  | DistributionFlatcar =>
      if String.eqb (ContainerRuntime b) "containerd"
      then buildSystemdServiceOverrideFlatcar b else []
  | DistributionContainerOS => buildSystemdServiceOverrideContainerOS b
  | DistributionOther _ => []
  end.

(** The service of [buildIPMasqueradeRules]. *)
Definition cniService : Service :=
  InitDefaults
    (mkService "cni-iptables-setup.service"
       (Fi.String (Render ipMasqueradeManifest))).

(** A task that only configures containerd: a file with literal contents
    at one of the four paths of the override, the kubenet template, the
    iptables script and the configuration, or the iptables service. *)
Definition configures (t : Task) : Prop :=
  match t with
  | TFile f =>
      Path f ∈ ["/etc/systemd/system/containerd.service.d/10-kops.conf";
                "/etc/containerd/config-cni.template";
                "/opt/kops/bin/cni-iptables-setup";
                containerdConfigFilePath b]
      /\ exists s, Contents f = NewStringResource s
  | TService s => s = cniService
  end.

(** The two searches of [installContainerd] in the assets. *)
Definition localBinaries : gmap string Asset :=
  FindMatches (Assets_ b)
    "^(\./)?usr/local/(bin/containerd|bin/crictl|bin/ctr|sbin/runc)".

Definition dockerBinaries : gmap string Asset :=
  FindMatches (Assets_ b) "^docker/(containerd|ctr|runc)".

End Views.

End NodeupModelViews.

(** ** Views on the tasks of the network model builder *)

Module AwsModelViews.
Import Go awstasks AwsModel.

(** The [Subnet] tasks among the tasks, in order. *)
Definition subnetTasksOf (tasks : list Task) : list Subnet.t :=
  omap (fun t => match t with TSubnet s => Some s | _ => None end) tasks.

(** One for a pointer that is set, zero for nil. *)
Definition isSet {A : Type} (p : option A) : nat :=
  match p with
  | Some _ => 1
  | None => 0
  end.

(** The number of targets a route has: internet gateway, instance, NAT
    gateway, transit gateway. *)
Definition routeTargets (r : Route.t) : nat :=
  isSet (Route.InternetGateway r) + isSet (Route.Instance r)
  + isSet (Route.NatGateway r) + isSet (Route.TransitGatewayID r).

(** The tasks that exist only for routing: gateways, elastic IPs, NAT
    instances, route tables, routes and route table associations. *)
Definition routingTask (t : Task) : bool :=
  match t with
  | TInternetGateway _ | TRouteTable _ | TRoute _
  | TRouteTableAssociation _ | TNatGateway _ | TElasticIP _
  | TInstance _ => true
  | _ => false
  end.

(** The tasks created only for a VPC the cluster owns. *)
Definition ownedVPCTask (t : Task) : bool :=
  match t with
  | TVPCAmazonIPv6CIDRBlock _ | TVPCCIDRBlock _ | TDHCPOptions _
  | TVPCDHCPOptionsAssociation _ => true
  | _ => false
  end.

(** The example cluster with its subnets replaced, in a VPC of its own or
    in a shared one. *)
Definition exampleWith (sharedVPC : bool) (subnets : list ClusterSubnetSpec)
    : NetworkModelBuilder :=
  let c := exampleContext [] in
  mkBuilder
    (mkContext sharedVPC (ClusterName c) (Region c) (CloudTags c)
       (if sharedVPC then "vpc-12345" else NetworkID c) (NetworkCIDR c)
       (AdditionalNetworkCIDRs c) subnets
       (DisableSubnetTags c) (TopologyNodes c) (LinkToVPC c)
       (LinkToAmazonVPCIPv6CIDR c) (LinkToPrivateRouteTableInZone c)
       (LinkToUtilitySubnetInZone c) (NamePrivateRouteTableInZone c))
    "Sync".

(** The two subnets of the example cluster. *)
Definition utilitySubnet : ClusterSubnetSpec :=
  mkSubnetSpec "utility-us-test-1a" "us-test-1a" "172.20.4.0/22" "" ""
               "" SubnetTypeUtility "".

Definition privateSubnet : ClusterSubnetSpec :=
  mkSubnetSpec "us-test-1a" "us-test-1a" "172.20.32.0/19" "" ""
               "" SubnetTypePrivate "".

(** A utility and a private subnet whose egress is left to the user, and a
    private subnet with an egress [Build] does not know. *)
Definition externalUtility : ClusterSubnetSpec :=
  mkSubnetSpec "utility-us-test-1c" "us-test-1c" "172.20.8.0/22" "" ""
               "External" SubnetTypeUtility "".

Definition externalPrivate : ClusterSubnetSpec :=
  mkSubnetSpec "us-test-1c" "us-test-1c" "172.20.192.0/19" "" ""
               "External" SubnetTypePrivate "".

Definition endpointSubnet : ClusterSubnetSpec :=
  mkSubnetSpec "us-test-1a" "us-test-1a" "172.20.32.0/19" "" ""
               "vpce-0123456789" SubnetTypePrivate "".

(** The tasks of the egress block of the zone loop. *)
Definition egressTask (t : Task) : bool :=
  match t with
  | TNatGateway _ | TElasticIP _ | TInstance _ => true
  | _ => false
  end.

End AwsModelViews.

(** ** Theorems *)

Module StringFacts.

Lemma append_assoc (a b c : string) : (a +:+ b) +:+ c = a +:+ (b +:+ c).
Proof.
  induction a as [|x a IH]; [reflexivity|].
  change (String x ((a +:+ b) +:+ c) = String x (a +:+ (b +:+ c))).
  by rewrite IH.
Qed.

Lemma append_nil_l (a : string) : "" +:+ a = a.
Proof. reflexivity. Qed.

Lemma append_nil_r (a : string) : a +:+ "" = a.
Proof.
  induction a as [|x a IH]; [reflexivity|].
  change (String x (a +:+ "") = String x a). by rewrite IH.
Qed.

Lemma length_append (a b : string) :
  String.length (a +:+ b) = String.length a + String.length b.
Proof.
  induction a as [|x a IH]; [reflexivity|].
  change (S (String.length (a +:+ b)) = S (String.length a + String.length b)).
  by rewrite IH.
Qed.

(** Appending the same suffix to two strings tells them apart. *)
Lemma append_inj_r (a b c : string) : a +:+ c = b +:+ c -> a = b.
Proof.
  revert b. induction a as [|x a IH]; intros [|y b] Heq.
  - reflexivity.
  - change (c = String y (b +:+ c)) in Heq.
    apply (f_equal String.length) in Heq.
    simpl in Heq. rewrite length_append in Heq. lia.
  - change (String x (a +:+ c) = c) in Heq.
    apply (f_equal String.length) in Heq.
    simpl in Heq. rewrite length_append in Heq. lia.
  - change (String x (a +:+ c) = String y (b +:+ c)) in Heq.
    injection Heq as -> Heq. f_equal. by apply IH.
Qed.

End StringFacts.

Module GceTasksFacts.
Import GceTasks.

(** C6: for every task carrying the lifecycle marker (here [ForwardingRule])
    and every lifecycle value [L], [GetLifecycle] after [SetLifecycle L]
    returns exactly [L], and [SetLifecycle] leaves every other field of the
    task (the name and all the remaining fields) as it was. *)
Theorem SetLifecycle_GetLifecycle {Rest : Type} (o : ForwardingRule Rest)
    (L : Fi.Lifecycle) :
  GetLifecycle (SetLifecycle o L) = L
  /\ Name (SetLifecycle o L) = Name o
  /\ Other (SetLifecycle o L) = Other o
  /\ GetName (SetLifecycle o L) = GetName o.
Proof.
  repeat split.
Qed.

End GceTasksFacts.

Module TerraformFacts.
Import Go Terraform.

(** Calls made one after the other. *)
Lemma performAll_app `{OS} (cs1 cs2 : list SysCall) (fs0 : FS) :
  performAll (cs1 ++ cs2) fs0
  = (fst (performAll cs1 fs0)
     ++ fst (performAll cs2 (snd (performAll cs1 fs0))),
     snd (performAll cs2 (snd (performAll cs1 fs0)))).
Proof.
  revert fs0. induction cs1 as [|c rest IH]; intros fs0; simpl.
  - by destruct (performAll cs2 fs0).
  - destruct (perform c fs0) as [err fs1]. rewrite IH.
    destruct (performAll rest fs1) as [log fs2]. reflexivity.
Qed.

(** The loop makes a prefix of the planned calls on the file system, each
    on what the one before has left: all of them, each successful, when it
    returns nil; otherwise the successful ones up to the first failing call,
    that call, and nothing after it.  The log holds these calls with the
    answers of the system, and the file system at the end is the one the
    last call made has left. *)
Lemma writeFiles_log `{OS} (out : string) (files : list (string * bytes)) :
  forall w : World,
    exists done : list (SysCall * option error),
      calls (snd (writeFiles out files w)) = calls w ++ done
      /\ performAll (map fst done) (fs w)
         = (done, fs (snd (writeFiles out files w)))
      /\ match fst (writeFiles out files w) with
         | None => done = map succeeded (plannedCalls out files)
         | Some e =>
             exists pre c err rest,
               plannedCalls out files = pre ++ c :: rest
               /\ done = map succeeded pre ++ [(c, Some err)]
               /\ e = wrapError c err
         end.
Proof.
  induction files as [|[relativePath contents] rest IH]; intros w.
  - exists []. simpl. split; [by rewrite app_nil_r|]. split; reflexivity.
  - simpl. unfold MkdirAll.
    destruct (os_MkdirAll _ _ (fs w)) as [[err|] fs1] eqn:Hmk; simpl.
    + eexists. split; [reflexivity|]. split; [simpl; by rewrite Hmk|].
      exists [], (CallMkdirAll (path_Dir (path_Join out relativePath)) mode_0755),
        err. eexists. repeat split.
    + unfold WriteFile. simpl.
      destruct (ioutil_WriteFile _ _ _ fs1) as [[err|] fs2] eqn:Hwr; simpl.
      * eexists. split; [by rewrite <- app_assoc|].
        split; [simpl; by rewrite Hmk, Hwr|].
        exists [CallMkdirAll (path_Dir (path_Join out relativePath)) mode_0755],
          (CallWriteFile (path_Join out relativePath) contents mode_0644), err.
        eexists. repeat split.
      * match goal with |- context [writeFiles out rest ?w2] =>
          destruct (IH w2) as (done & Hc & Hp & Hr) end.
        simpl in Hc, Hp. rewrite Hc.
        eexists. split; [by rewrite <- !app_assoc|].
        split; [simpl; by rewrite Hmk, Hwr, Hp|].
        destruct (fst (writeFiles out rest _)) as [e|].
        -- destruct Hr as (pre & c & err & rest' & Hpl & Hd & He).
           exists (CallMkdirAll (path_Dir (path_Join out relativePath)) mode_0755
                   :: CallWriteFile (path_Join out relativePath) contents mode_0644
                   :: pre), c, err, rest'.
           rewrite Hpl, Hd. repeat split; done.
        -- rewrite Hr. reflexivity.
Qed.

(** C9: [ProcessDeletions] returns false for every state of the target;
    deletions are left to Terraform. *)
Theorem ProcessDeletions_false {W C S : Type} (t : TerraformTarget W C S) :
  ProcessDeletions t = false.
Proof.
  destruct t. reflexivity.
Qed.

(** C7: [Finish] first renders the document, then visits the entries of
    [Files].  The calls it makes are made on the file system, each on what
    the one before has left: the log holds them with the answers of the
    system, and the file system at the end is the one the last call has
    left.  [Finish] returns nil exactly when the rendering succeeded and
    every planned [MkdirAll] and [WriteFile] was made and answered without
    an error; in that case every entry [k, v] of [Files] was written to
    [path.Join(outDir, k)], and the file system is the one all the planned
    calls leave.  When it returns an error, either the rendering failed, no
    call was made and the file system is untouched, or the calls made are
    the successful ones before the first failing call followed by that call
    alone, whose error is the one returned. *)
Theorem Finish_writes_all_or_stops `{OS} `{MapRange} {W C S : Type}
    `{Renderer W C S} (t : TerraformTarget W C S) (w : World) :
  let rendered := if TerraformJSON_Enabled then finishJSON t else finishHCL2 t in
  let t1 := snd rendered in
  let planned := plannedCalls (outDir t1) (range (Files t1)) in
  let '(r, t', w') := Finish t w in
  t' = t1
  /\ exists done : list (SysCall * option error),
       calls w' = calls w ++ done
       /\ performAll (map fst done) (fs w) = (done, fs w')
       /\ (r = None <->
             fst rendered = None /\ done = map succeeded planned)
       /\ (r = None ->
             performAll planned (fs w) = (map succeeded planned, fs w'))
       /\ (r = None -> forall k v, Files t1 !! k = Some v ->
             In (succeeded (CallMkdirAll
                    (path_Dir (path_Join (outDir t1) k)) mode_0755)) done
             /\ In (succeeded (CallWriteFile
                    (path_Join (outDir t1) k) v mode_0644)) done)
       /\ (forall e, r = Some e ->
             (fst rendered = Some e /\ done = [] /\ fs w' = fs w)
             \/ (fst rendered = None
                 /\ exists pre c err rest,
                      planned = pre ++ c :: rest
                      /\ done = map succeeded pre ++ [(c, Some err)]
                      /\ performAll (pre ++ [c]) (fs w)
                         = (map succeeded pre ++ [(c, Some err)], fs w')
                      /\ e = wrapError c err)).
Proof.
  assert (Hfst : forall cs : list SysCall, map fst (map succeeded cs) = cs).
  { intros cs. rewrite map_map. apply map_id. }
  unfold Finish.
  destruct (if TerraformJSON_Enabled then finishJSON t else finishHCL2 t)
    as [rerr t1] eqn:Hr; simpl.
  destruct rerr as [e0|].
  - split; [reflexivity|]. exists []. rewrite app_nil_r.
    repeat split; try done.
    + intros [? _]; done.
    + intros e [= <-]. by left.
  - pose proof (writeFiles_log (outDir t1) (range (Files t1)) w)
      as (done & Hc & Hp & Hres).
    destruct (writeFiles (outDir t1) (range (Files t1)) w) as [r w'] eqn:Hw.
    simpl in *. split; [reflexivity|]. exists done. split; [exact Hc|].
    split; [exact Hp|].
    destruct r as [e|].
    + destruct Hres as (pre & c & err & rest & Hpl & Hd & He).
      split; [|split; [|split]].
      * split; [done|]. intros [_ Hall]. exfalso.
        rewrite Hd in Hall.
        assert (Hin : In (c, Some err) (map succeeded (plannedCalls (outDir t1)
                  (range (Files t1))))).
        { rewrite <- Hall. apply in_or_app. right. by left. }
        apply in_map_iff in Hin as (c' & Hc' & _). discriminate Hc'.
      * done.
      * done.
      * intros e' [= <-]. right. split; [done|].
        exists pre, c, err, rest. repeat split; try done.
        rewrite Hd, map_app, Hfst in Hp. exact Hp.
    + split; [|split; [|split]].
      * split; done.
      * intros _. rewrite Hres, Hfst in Hp. exact Hp.
      * intros _ k v Hkv. rewrite Hres.
        assert (Hin : In (k, v) (range (Files t1))).
        { eapply Permutation_in; [symmetry; apply range_perm|].
          apply list_elem_of_In, elem_of_map_to_list, Hkv. }
        split; apply in_map, in_flat_map; exists (k, v);
          (split; [exact Hin|]); simpl; auto.
      * intros e' [=].
Qed.

#[local] Existing Instance exampleOS.
#[local] Existing Instance exampleRenderer.
#[local] Existing Instance canonicalRange.

(** Into [out], the rendered document is written after its directory has
    been made; into [/ro], the first call fails and is the only one. *)
Example Finish_example_out :
  let '(r, _, w) := Finish (exampleTarget "out") (mkWorld _ [] []) in
  r = None
  /\ fs w = [("out/kubernetes.tf", [Byte.x7b])]
  /\ calls w = [succeeded (CallMkdirAll "out" mode_0755);
                succeeded (CallWriteFile "out/kubernetes.tf" [Byte.x7b]
                             mode_0644)].
Proof. vm_compute. repeat split. Qed.

Example Finish_example_readonly :
  let '(r, _, w) := Finish (exampleTarget "/ro") (mkWorld _ [] []) in
  r = Some (Errorf "error creating output directory %q: %v" ["/ro"]
              (Some (Errorf "mkdir %s: read-only file system" ["/ro"] None)))
  /\ fs w = []
  /\ length (calls w) = 1.
Proof. vm_compute. repeat split. Qed.

(** In the example system, [Finish] into [out] returns nil, and the file
    system then holds the rendered document where the planned calls have
    put it. *)
Lemma Finish_writes_all_or_stops_witness :
  let '(r, _, w) := Finish (exampleTarget "out") (mkWorld _ [] []) in
  r = None
  /\ performAll
       [CallMkdirAll "out" mode_0755;
        CallWriteFile "out/kubernetes.tf" [Byte.x7b] mode_0644] []
     = ([succeeded (CallMkdirAll "out" mode_0755);
         succeeded (CallWriteFile "out/kubernetes.tf" [Byte.x7b] mode_0644)],
        fs w)
  /\ fs w = [("out/kubernetes.tf", [Byte.x7b])].
Proof.
  pose proof (Finish_writes_all_or_stops (exampleTarget "out")
                (mkWorld _ [] [])) as Hthm.
  cbv zeta in Hthm.
  match goal with
  | |- context [Finish ?t ?w0] =>
      destruct (Finish t w0) as [[r t'] w'] eqn:HF
  end.
  assert (Hr : r = None).
  { apply (f_equal (fun x => fst (fst x))) in HF. cbn [fst] in HF.
    rewrite <- HF. vm_compute. reflexivity. }
  destruct Hthm as (_ & done & _ & _ & _ & Hfs & _ & _).
  specialize (Hfs Hr). split; [exact Hr|].
  assert (Hplanned :
    plannedCalls (outDir (snd (finishHCL2 (exampleTarget "out"))))
      (range (Files (snd (finishHCL2 (exampleTarget "out")))))
    = [CallMkdirAll "out" mode_0755;
       CallWriteFile "out/kubernetes.tf" [Byte.x7b] mode_0644])
    by (vm_compute; reflexivity).
  cbn [TerraformJSON_Enabled exampleRenderer] in Hfs.
  rewrite Hplanned in Hfs. cbn [fs] in Hfs.
  split; [exact Hfs|].
  apply (f_equal snd) in Hfs. cbn [snd] in Hfs. rewrite <- Hfs.
  vm_compute. reflexivity.
Defined.

End TerraformFacts.

Module EngineFacts.
Import Engine.

Section Planner.
Context (m : gmap string Task).

Lemma taskNames_spec (name : string) : name ∈ taskNames m <-> is_Some (m !! name).
Proof.
  unfold taskNames. rewrite list_elem_of_fmap. split.
  - intros ([k t] & -> & Hin). apply elem_of_map_to_list in Hin. by exists t.
  - intros [t Ht]. exists (name, t). split; [done|].
    by apply elem_of_map_to_list.
Qed.

Lemma ready_true (U : list string) (name : string) (t : Task) :
  m !! name = Some t ->
  ready m U name = true <-> (forall d, d ∈ dependencies t -> d ∉ U).
Proof.
  intros Ht. unfold ready. rewrite Ht, forallb_forall. split.
  - intros Hall d Hd HdU. apply list_elem_of_In, Hall in Hd.
    apply negb_true_iff, bool_decide_eq_false in Hd. done.
  - intros Hall d Hd. apply negb_true_iff, bool_decide_eq_false, Hall.
    by apply list_elem_of_In.
Qed.

(** A task that is not ready has a dependency among the unscheduled. *)
Lemma not_ready_blocked (U : list string) (name : string) (t : Task) :
  m !! name = Some t ->
  ready m U name <> true ->
  exists d, d ∈ dependencies t /\ d ∈ U.
Proof.
  intros Ht Hnr. unfold ready in Hnr. rewrite Ht in Hnr.
  induction (dependencies t) as [|d ds IH]; simpl in Hnr; [done|].
  destruct (bool_decide (d ∈ U)) eqn:Hd; simpl in Hnr.
  - exists d. apply bool_decide_eq_true in Hd. split; [left | done].
  - destruct (IH Hnr) as (d' & Hd' & HU). exists d'. split; [by right | done].
Qed.

(** "Depends on" is the converse of the edge relation; along it, a task
    only reaches tasks of the map, and in an acyclic map never itself. *)
Lemma tc_flip_edge (a b : string) : tc (flip (edge m)) a b -> tc (edge m) b a.
Proof.
  induction 1 as [x y Hxy | x y z Hxy _ IH].
  - by apply tc_once.
  - eapply tc_r; [exact IH | exact Hxy].
Qed.

Lemma tc_flip_edge_names (a b : string) :
  tc (flip (edge m)) a b -> b ∈ taskNames m.
Proof.
  induction 1 as [x y Hxy | x y z Hxy _ IH]; [|done].
  apply taskNames_spec. by destruct Hxy.
Qed.

Lemma acyclic_sn (name : string) : acyclic m -> sn (flip (edge m)) name.
Proof.
  intros Hac. apply tc_finite_sn.
  - intros a Ha. apply (Hac a). by apply tc_flip_edge.
  - exists (taskNames m). intros b. apply tc_flip_edge_names.
Qed.

(** Progress: among unscheduled tasks of an acyclic map, one is ready. *)
Lemma exists_ready (U : list string) (u : string) :
  acyclic m ->
  (forall n, n ∈ U -> is_Some (m !! n)) ->
  u ∈ U ->
  exists n, n ∈ U /\ ready m U n = true.
Proof.
  intros Hac Hsub. pose proof (acyclic_sn u Hac) as Hsn.
  induction Hsn as [u _ IH]. intros Hu.
  destruct (ready m U u) eqn:Hr; [by exists u|].
  destruct (Hsub u Hu) as [t Ht].
  destruct (not_ready_blocked U u t Ht) as (d & Hd & HdU); [congruence|].
  apply (IH d); [|done].
  split; [by apply Hsub | by exists t].
Qed.

(** What the layering yields on unscheduled tasks [U] of an acyclic map:
    waves that partition [U], in which a task comes strictly after each of
    its dependencies that was still unscheduled. *)
Lemma layers_waves (rounds : nat) :
  forall U : list string,
    acyclic m ->
    NoDup U ->
    (forall n, n ∈ U -> is_Some (m !! n)) ->
    length U <= rounds ->
    exists waves,
      layers rounds m U = Waves waves
      /\ concat waves ≡ₚ U
      /\ (forall i b, inWave waves i b ->
            forall t a, m !! b = Some t -> a ∈ dependencies t -> a ∈ U ->
              exists j, j < i /\ inWave waves j a).
Proof.
  induction rounds as [|rounds IH]; intros U Hac Hnd Hsub Hlen.
  - destruct U; [|simpl in Hlen; lia].
    exists []. repeat split; [done|].
    intros i b (wave & Hw & _). by rewrite lookup_nil in Hw.
  - destruct U as [|u U'] eqn:HU.
    { exists []. repeat split; [done|].
      intros i b (wave & Hw & _). by rewrite lookup_nil in Hw. }
    rewrite <- HU in *.
    destruct (exists_ready U u Hac Hsub) as (r & HrU & Hr);
      [rewrite HU; left|].
    set (wave := filter (fun n => ready m U n = true) U).
    set (rest := filter (fun n => ~ ready m U n = true) U).
    assert (Hrw : r ∈ wave) by (apply list_elem_of_filter; done).
    assert (Hlt : length rest < length U).
    { apply (length_filter_lt _ _ r); [done|]. intros Hn. by apply Hn. }
    destruct (IH rest Hac) as (waves & Hl & Hperm & Hord).
    { by apply NoDup_filter. }
    { intros n Hn. apply list_elem_of_filter in Hn. apply Hsub, Hn. }
    { lia. }
    exists (wave :: waves).
    assert (Hlayers : layers (S rounds) m U = Waves (wave :: waves)).
    { rewrite HU. simpl. rewrite <- HU. fold wave rest. rewrite Hl.
      destruct wave; [by apply elem_of_nil in Hrw | done]. }
    split; [exact Hlayers|]. split.
    + simpl. rewrite Hperm. apply filter_app_complement.
    + intros i b (wv & Hw & Hb) t a Ht Ha HaU.
      destruct i as [|i]; simpl in Hw.
      * injection Hw as <-. apply list_elem_of_filter in Hb as [Hb _].
        exfalso. by apply (proj1 (ready_true U b t Ht) Hb a).
      * destruct (decide (ready m U a = true)) as [Hra|Hra].
        -- exists 0. split; [lia|]. exists wave. split; [done|].
           by apply list_elem_of_filter.
        -- destruct (Hord i b) with (t := t) (a := a) as (j & Hj & Hin);
             [by exists wv | done | done | by apply list_elem_of_filter |].
           exists (S j). split; [lia|]. exact Hin.
Qed.

(** In waves without repeated names, a name has one wave index. *)
Lemma inWave_unique (waves : list (list string)) (i j : nat) (name : string) :
  NoDup (concat waves) -> inWave waves i name -> inWave waves j name -> i = j.
Proof.
  revert i j. induction waves as [|wv waves IH]; intros i j Hnd Hi Hj.
  - destruct Hi as (? & Hw & _). by rewrite lookup_nil in Hw.
  - simpl in Hnd. apply NoDup_app in Hnd as (Hnd1 & Hdisj & Hnd2).
    assert (Hlater : forall k, inWave (wv :: waves) (S k) name ->
              name ∈ concat waves).
    { intros k (w' & Hw & Hn). simpl in Hw.
      apply list_elem_of_In, in_concat. exists w'.
      split; apply list_elem_of_In; [|done].
      by eapply list_elem_of_lookup_2. }
    destruct i as [|i], j as [|j]; [done| | |].
    + destruct Hi as (? & [= <-] & Hn). exfalso.
      by apply (Hdisj name Hn), (Hlater j).
    + destruct Hj as (? & [= <-] & Hn). exfalso.
      by apply (Hdisj name Hn), (Hlater i).
    + f_equal. apply IH; [done| |].
      * destruct Hi as (w' & Hw & Hn). by exists w'.
      * destruct Hj as (w' & Hw & Hn). by exists w'.
Qed.

Lemma inWave_concat (waves : list (list string)) (name : string) :
  name ∈ concat waves <-> exists i, inWave waves i name.
Proof.
  rewrite list_elem_of_In, in_concat. split.
  - intros (wv & Hw & Hn). apply list_elem_of_In, list_elem_of_lookup in Hw.
    destruct Hw as [i Hi]. exists i, wv. split; [done|].
    by apply list_elem_of_In.
  - intros (i & wv & Hw & Hn). exists wv.
    split; apply list_elem_of_In; [|done]. by eapply list_elem_of_lookup_2.
Qed.

(** C1: for every acyclic Task Map the planner produces a wave sequence;
    the waves list exactly the tasks of the map, every task is in exactly
    one wave (and once in it), and for every edge from [a] to [b] the wave
    index of [a] is strictly less than the wave index of [b]. *)
Theorem plan_waves_respect_edges (Hacyclic : acyclic m) :
  exists waves,
    plan m = Waves waves
    /\ concat waves ≡ₚ taskNames m
    /\ NoDup (concat waves)
    /\ (forall name, is_Some (m !! name) ->
          exists i, inWave waves i name
                    /\ forall j, inWave waves j name -> j = i)
    /\ (forall a b, edge m a b ->
          exists i j, inWave waves i a /\ inWave waves j b /\ i < j).
Proof.
  pose proof (NoDup_fst_map_to_list m) as Hnd. fold (taskNames m) in Hnd.
  destruct (layers_waves (length (taskNames m)) (taskNames m))
    as (waves & Hplan & Hperm & Hord); [done | done | | done |].
  { intros n. apply taskNames_spec. }
  assert (Hndw : NoDup (concat waves)) by by rewrite Hperm.
  assert (Hex : forall name, is_Some (m !! name) -> exists i, inWave waves i name).
  { intros name Hn. apply inWave_concat. rewrite Hperm.
    by apply taskNames_spec. }
  exists waves. repeat split; [done | done | done | |].
  - intros name Hn. destruct (Hex name Hn) as [i Hi]. exists i.
    split; [done|]. intros j Hj. by apply (inWave_unique waves j i name).
  - intros a b [Ha (t & Hb & Hdep)].
    destruct (Hex b) as [j Hj]; [by exists t|].
    destruct (Hord j b Hj t a Hb Hdep) as (i & Hij & Hi).
    { by apply taskNames_spec. }
    exists i, j. done.
Qed.

(** A numbering of the tasks that increases along every edge shows that the
    map is acyclic. *)
Lemma ranked_acyclic (rank : string -> nat) :
  (forall a b, edge m a b -> rank a < rank b) -> acyclic m.
Proof.
  intros Hrank a Ha.
  assert (Hlt : forall x y, tc (edge m) x y -> rank x < rank y).
  { induction 1 as [x y Hxy | x y z Hxy _ IH]; [by apply Hrank|].
    specialize (Hrank x y Hxy). lia. }
  specialize (Hlt a a Ha). lia.
Qed.

End Planner.

Example plan_scenarioChain :
  plan scenarioChain = Waves [["Network"]; ["Subnet"]; ["Instance"]].
Proof. vm_compute. reflexivity. Qed.

Example plan_scenarioCycle :
  exists remaining, plan scenarioCycle = Cycle remaining
                    /\ remaining ≡ₚ ["A"; "B"].
Proof.
  eexists. split; [vm_compute; reflexivity|].
  apply Permutation_swap || reflexivity.
Qed.

Lemma scenarioChain_acyclic : acyclic scenarioChain.
Proof.
  apply (ranked_acyclic _
           (fun n => if decide (n = "Network") then 0
                     else if decide (n = "Subnet") then 1 else 2)).
  intros a b [_ (t & Hb & Ha)]. unfold scenarioChain in Hb.
  apply lookup_insert_Some in Hb as [[<- <-] | [_ Hb]];
    [by apply elem_of_nil in Ha|].
  apply lookup_insert_Some in Hb as [[<- <-] | [_ Hb]].
  { apply list_elem_of_singleton in Ha as ->. simpl. lia. }
  apply lookup_singleton_Some in Hb as [<- <-].
  apply list_elem_of_singleton in Ha as ->. simpl. lia.
Qed.

(** The planner on the chain of three tasks. *)
Lemma plan_waves_respect_edges_witness :
  acyclic scenarioChain
  /\ exists waves,
       plan scenarioChain = Waves waves
       /\ concat waves ≡ₚ taskNames scenarioChain
       /\ NoDup (concat waves)
       /\ (forall name, is_Some (scenarioChain !! name) ->
             exists i, inWave waves i name
                       /\ forall j, inWave waves j name -> j = i)
       /\ (forall a b, edge scenarioChain a b ->
             exists i j, inWave waves i a /\ inWave waves j b /\ i < j).
Proof.
  split; [exact scenarioChain_acyclic|].
  exact (plan_waves_respect_edges scenarioChain scenarioChain_acyclic).
Defined.

End EngineFacts.

Module IamFacts.
Import Go Iam StringFacts.

Section WithStringOrSlice.
Context `{SOS : StringOrSlice.Ops}.

(** On a writer without an error, each method appends its bytes and leaves
    the writer without an error. *)
Lemma WriteLiteral_ok (buf b : string) :
  WriteLiteral (mkJsonWriter buf None) b = mkJsonWriter (buf +:+ b) None.
Proof. reflexivity. Qed.

Lemma Field_ok (buf k : string) :
  Field (mkJsonWriter buf None) k
  = mkJsonWriter (buf +:+ (Json.quote k +:+ ": ")) None.
Proof.
  unfold Field. simpl. rewrite !WriteLiteral_ok. by rewrite append_assoc.
Qed.

Lemma Marshal_ok (buf : string) (v : Any) :
  snd (json_Marshal v) = None ->
  Marshal (mkJsonWriter buf None) v
  = mkJsonWriter (buf +:+ fst (json_Marshal v)) None.
Proof.
  intros Hv. unfold Marshal. cbn [err w].
  destruct (json_Marshal v) as [b e]. cbn [snd] in Hv. subst e.
  by rewrite WriteLiteral_ok.
Qed.

Lemma Marshal_StringOrSlice_ok (buf : string) (v : StringOrSlice.T) :
  Marshal (mkJsonWriter buf None) (AnyStringOrSlice v)
  = mkJsonWriter (buf +:+ fst (json_Marshal (AnyStringOrSlice v))) None.
Proof. by apply Marshal_ok. Qed.

Lemma Marshal_Effect_ok (buf : string) (e : StatementEffect) :
  Marshal (mkJsonWriter buf None) (AnyEffect e)
  = mkJsonWriter (buf +:+ fst (json_Marshal (AnyEffect e))) None.
Proof. by apply Marshal_ok. Qed.

Lemma Marshal_Principal_ok (buf : string) (p : Principal) :
  Marshal (mkJsonWriter buf None) (AnyPrincipal p)
  = mkJsonWriter (buf +:+ fst (json_Marshal (AnyPrincipal p))) None.
Proof. by apply Marshal_ok. Qed.

Lemma Comma_ok (buf : string) :
  Comma (mkJsonWriter buf None) = mkJsonWriter (buf +:+ ",") None.
Proof. reflexivity. Qed.

(** When the encoder refuses the value, [Marshal] writes nothing and keeps
    the error. *)
Lemma Marshal_error (buf : string) (v : Any) (e : error) :
  snd (json_Marshal v) = Some e ->
  Marshal (mkJsonWriter buf None) v = mkJsonWriter buf (Some e).
Proof.
  intros Hv. unfold Marshal. cbn [err w].
  destruct (json_Marshal v) as [b e']. cbn [snd] in Hv. by subst e'.
Qed.

(** The values of an object that the encoder refuses. *)
Lemma unsupported_fields (fields : list (string * Json.value)) :
  Json.unsupported (Json.Obj fields) = None
  <-> forall kv, kv ∈ fields -> Json.unsupported (snd kv) = None.
Proof.
  cbn [Json.unsupported]. induction fields as [|kv rest IH].
  - split; [|done]. intros _ kv Hkv. by apply elem_of_nil in Hkv.
  - cbn [flat_map]. destruct (Json.unsupported (snd kv)) as [goType|] eqn:Hkv.
    + split; [discriminate|]. intros Hall.
      specialize (Hall kv ltac:(left)). congruence.
    + cbn [app]. rewrite IH. split.
      * intros Hall kv' Hin. apply elem_of_cons in Hin as [-> | Hin]; auto.
      * intros Hall kv' Hin. apply Hall. by right.
Qed.

(** The entries the encoder writes are the entries of the condition. *)
Lemma elem_of_sortedEntries (c : gmap string Json.value) (k : string)
    (v : Json.value) :
  (k, v) ∈ sortedEntries c <-> c !! k = Some v.
Proof.
  unfold sortedEntries. rewrite merge_sort_Permutation.
  apply elem_of_map_to_list.
Qed.

(** The encoder accepts a condition exactly when it accepts each of its
    values; an empty condition is accepted. *)
Lemma unsupported_condition (c : gmap string Json.value) :
  Json.unsupported (Json.Obj (sortedEntries c)) = None <-> encodable c.
Proof.
  rewrite unsupported_fields. unfold encodable. split.
  - intros Hall k v Hkv. apply (Hall (k, v)). by apply elem_of_sortedEntries.
  - intros Hall [k v] Hkv. apply (Hall k v). by apply elem_of_sortedEntries.
Qed.

Lemma json_Marshal_condition (c : gmap string Json.value) :
  encodable c -> snd (json_Marshal (AnyCondition c)) = None.
Proof.
  intros Hc. apply unsupported_condition in Hc.
  unfold json_Marshal, Json.Marshal. by rewrite Hc.
Qed.

Lemma unsupported_size (c : gmap string Json.value) (goType : string) :
  Json.unsupported (Json.Obj (sortedEntries c)) = Some goType ->
  size c <> 0.
Proof.
  intros Hu Hsize. apply map_size_empty_iff in Hsize. subst c.
  assert (Hnone : Json.unsupported (Json.Obj (sortedEntries ∅)) = None).
  { apply unsupported_condition. intros k v Hkv.
    by rewrite lookup_empty in Hkv. }
  congruence.
Qed.

(** The names of the fields of the specification. *)
Lemma Statement_fields_spec_names (s : Statement) :
  map fst (Statement_fields_spec s)
  = (if StringOrSlice.IsEmpty (Action s) then [] else ["Action"])
    ++ (if decide (size (Condition s) = 0) then [] else ["Condition"])
    ++ ["Effect"]
    ++ (if Principal_IsEmpty (Principal_ s) then [] else ["Principal"])
    ++ (if StringOrSlice.IsEmpty (Resource s) then [] else ["Resource"]).
Proof.
  unfold Statement_fields_spec. rewrite !map_app.
  destruct (StringOrSlice.IsEmpty (Action s));
    destruct (decide (size (Condition s) = 0));
    destruct (Principal_IsEmpty (Principal_ s));
    destruct (StringOrSlice.IsEmpty (Resource s)); reflexivity.
Qed.

(** The bytes of a quoted name are not looked at below. *)
#[local] Opaque Json.quote.

(** [MarshalJSON] on a statement whose condition the encoder accepts. *)
Lemma Statement_MarshalJSON_encodable (s : Statement) :
  encodable (Condition s) ->
  Statement_MarshalJSON s = (writeObject (Statement_fields_spec s), None).
Proof.
  intros Henc. apply json_Marshal_condition in Henc.
  unfold Statement_MarshalJSON, Statement_fields_spec, writeObject,
    StartObject, EndObject.
  rewrite WriteLiteral_ok.
  destruct (StringOrSlice.IsEmpty (Action s));
    destruct (decide (size (Condition s) = 0)) as [Hc|Hc];
    [ rewrite Hc | apply Nat.eqb_neq in Hc; rewrite Hc
    | rewrite Hc | apply Nat.eqb_neq in Hc; rewrite Hc ];
    destruct (Principal_IsEmpty (Principal_ s));
    destruct (StringOrSlice.IsEmpty (Resource s)); simpl negb; cbv iota;
    repeat first [ rewrite Field_ok
                 | rewrite Marshal_StringOrSlice_ok
                 | rewrite Marshal_Effect_ok
                 | rewrite Marshal_Principal_ok
                 | rewrite (Marshal_ok _ _ Henc)
                 | rewrite Comma_ok
                 | rewrite WriteLiteral_ok ];
    cbn [map String.concat fst snd app w err Error];
    rewrite ?append_assoc, ?append_nil_l; reflexivity.
Qed.

(** C10: on a statement whose condition holds only values the encoder
    accepts, [MarshalJSON] does not fail and writes the statement as one
    JSON object whose fields are, in this order, [Action] if and only if the
    action list is not empty, [Condition] if and only if the condition map
    is not empty, [Effect] in every case, [Principal] if and only if the
    principal is not empty and [Resource] if and only if the resource list is
    not empty; an empty one is left out, not written as an empty value.
    When the condition holds a value the encoder refuses, [MarshalJSON]
    returns the error of the encoder, and the bytes it returns end after
    the name of the field [Condition]: what comes after the condition,
    [Effect] included, is not written. *)
Theorem MarshalJSON_fields (s : Statement) :
  (encodable (Condition s) ->
   Statement_MarshalJSON s = (writeObject (Statement_fields_spec s), None)
   /\ In "Effect" (map fst (Statement_fields_spec s))
   /\ (In "Action" (map fst (Statement_fields_spec s))
         <-> StringOrSlice.IsEmpty (Action s) = false)
   /\ (In "Condition" (map fst (Statement_fields_spec s))
         <-> size (Condition s) <> 0)
   /\ (In "Principal" (map fst (Statement_fields_spec s))
         <-> Principal_IsEmpty (Principal_ s) = false)
   /\ (In "Resource" (map fst (Statement_fields_spec s))
         <-> StringOrSlice.IsEmpty (Resource s) = false)
   /\ NoDup (map fst (Statement_fields_spec s)))
  /\ (forall goType,
        Json.unsupported (Json.Obj (sortedEntries (Condition s)))
        = Some goType ->
        Statement_MarshalJSON s
        = ("{"
           +:+ (if StringOrSlice.IsEmpty (Action s) then ""
                else Json.quote "Action" +:+ ": "
                     +:+ fst (json_Marshal (AnyStringOrSlice (Action s)))
                     +:+ ",")
           +:+ Json.quote "Condition" +:+ ": ",
           Some (Errorf "json: unsupported type: %s" [goType] None))).
Proof.
  split.
  - intros Henc. split; [by apply Statement_MarshalJSON_encodable|].
    rewrite Statement_fields_spec_names. clear Henc.
    destruct (StringOrSlice.IsEmpty (Action s));
      destruct (decide (size (Condition s) = 0));
      destruct (Principal_IsEmpty (Principal_ s));
      destruct (StringOrSlice.IsEmpty (Resource s)); simpl;
      (split; [tauto|]);
      do 4 (split; [split; [try done; intuition discriminate
                           | try done; intuition congruence]|]);
      apply (bool_decide_unpack _); vm_compute; exact I.
  - intros goType Hu.
    assert (Hsize : (size (Condition s) =? 0)%nat = false)
      by (apply Nat.eqb_neq; by eapply unsupported_size).
    assert (Herr : snd (json_Marshal (AnyCondition (Condition s)))
                   = Some (Errorf "json: unsupported type: %s" [goType] None)).
    { unfold json_Marshal, Json.Marshal. by rewrite Hu. }
    unfold Statement_MarshalJSON, StartObject, EndObject.
    rewrite WriteLiteral_ok, Hsize. cbn [negb].
    destruct (StringOrSlice.IsEmpty (Action s)); cbn [negb];
      repeat first [ rewrite Field_ok
                   | rewrite Marshal_StringOrSlice_ok
                   | rewrite Comma_ok ];
      rewrite (Marshal_error _ _ _ Herr);
      destruct (Principal_IsEmpty (Principal_ s));
      destruct (StringOrSlice.IsEmpty (Resource s)); cbn [negb];
      cbn [Comma Field Marshal WriteLiteral EndObject err w Error];
      rewrite ?append_assoc, ?append_nil_l; reflexivity.
Qed.

#[local] Transparent Json.quote.

(** What a call of [AsJSON] leaves in the policy: the statements it found,
    followed by one statement for each action set that is not empty. *)
Lemma AsJSON_appends (p : Policy) :
  exists added,
    Statement_ (snd (AsJSON p)) = Statement_ p ++ added
    /\ length added
       = (if decide (size (unconditionalAction p) = 0) then 0 else 1)
         + (if decide (size (clusterTaggedAction p) = 0) then 0 else 1)
    /\ unconditionalAction (snd (AsJSON p)) = unconditionalAction p
    /\ clusterTaggedAction (snd (AsJSON p)) = clusterTaggedAction p.
Proof.
  unfold AsJSON. cbv zeta.
  destruct (decide (size (unconditionalAction p) = 0)) as [Hu|Hu];
    [ assert (Hu' : (0 <? size (unconditionalAction p))%nat = false)
        by (apply Nat.ltb_ge; lia)
    | assert (Hu' : (0 <? size (unconditionalAction p))%nat = true)
        by (apply Nat.ltb_lt; lia) ];
    rewrite Hu'; cbn [clusterTaggedAction appendStatement];
    (destruct (decide (size (clusterTaggedAction p) = 0)) as [Hc|Hc];
     [ assert (Hc' : (0 <? size (clusterTaggedAction p))%nat = false)
         by (apply Nat.ltb_ge; lia)
     | assert (Hc' : (0 <? size (clusterTaggedAction p))%nat = true)
         by (apply Nat.ltb_lt; lia) ];
     rewrite Hc';
     match goal with |- context [json_MarshalIndent_Policy ?q] =>
       destruct (json_MarshalIndent_Policy q) as [? [?|]] end;
     cbn [snd Statement_ appendStatement unconditionalAction
          clusterTaggedAction]).
  1-2: exists []; by rewrite app_nil_r.
  1-4: eexists [_]; done.
  1-2: eexists [_; _]; by rewrite <- app_assoc.
Qed.

(** A policy whose two action sets are empty is left as it is by [AsJSON],
    and a second call returns what the first returned. *)
Lemma AsJSON_twice_without_actions (p : Policy) :
  size (unconditionalAction p) = 0 ->
  size (clusterTaggedAction p) = 0 ->
  snd (AsJSON p) = p /\ fst (AsJSON (snd (AsJSON p))) = fst (AsJSON p).
Proof.
  intros Hu Hc.
  assert (Hp : snd (AsJSON p) = p).
  { unfold AsJSON. cbv zeta. rewrite Hu.
    change (0 <? 0)%nat with false. cbv iota. rewrite Hc.
    change (0 <? 0)%nat with false. cbv iota.
    by destruct (json_MarshalIndent_Policy p) as [? [?|]]. }
  by rewrite Hp.
Qed.

(** Sorting makes the order in which the readable paths are listed
    irrelevant: the statement added is the same for any order. *)
Lemma sort_Strings_Permutation (l1 l2 : list string) :
  l1 ≡ₚ l2 -> sort_Strings l1 = sort_Strings l2.
Proof.
  intros Hperm. unfold sort_Strings.
  apply (Sorted_unique String.le); try apply Sorted_merge_sort; try apply _.
  by rewrite !merge_sort_Permutation.
Qed.

Lemma buildS3GetStatements_order (iamPrefix : string) (r1 r2 : list string)
    (p : Policy) (iamS3Path : string) :
  r1 ≡ₚ r2 ->
  buildS3GetStatements iamPrefix (r1, None) p iamS3Path
  = buildS3GetStatements iamPrefix (r2, None) p iamS3Path.
Proof.
  intros Hperm. unfold buildS3GetStatements.
  rewrite (Permutation_length Hperm).
  by rewrite (sort_Strings_Permutation r1 r2 Hperm).
Qed.

(** C4: the link of a [PolicyResource] to its [DNSZone] task is
    dereferenced by [Open].  While the task has not set its [ZoneID] (nil or
    empty), [Open] returns the error "DNS ZoneID not set" and no document.
    Once the task has set it, the document is the one built from the builder
    whose [HostedZoneID] is that very value, and this is the value the role
    finds in the builder. *)
Theorem Open_dereferences_ZoneID {S : Type} `{Subject S}
    (b : PolicyResource S) (z : DNSZone) (Hlink : DNSZone_ b = Some z) :
  (Fi.StringValue (ZoneID z) = "" ->
     Open b = (None, Some (Errorf "DNS ZoneID not set" [] None)))
  /\ (forall id, ZoneID z = Some id -> id <> "" ->
        Open b = buildDocument (withHostedZoneID (Builder b) id)
        /\ HostedZoneID (snd (BuildAWSPolicy (withHostedZoneID (Builder b) id)))
           = id).
Proof.
  split.
  - intros Hunset. unfold Open. rewrite Hlink, Hunset. reflexivity.
  - intros id Hid Hne. split.
    + unfold Open. rewrite Hlink, Hid. simpl.
      destruct (String.eqb id "") eqn:He; [|reflexivity].
      by apply String.eqb_eq in He.
    + unfold BuildAWSPolicy. simpl.
      by destruct (Subject_BuildAWSPolicy _ _) as [? [?|]].
Qed.

End WithStringOrSlice.

#[local] Existing Instance StringOrSlice.implOps.
#[local] Existing Instance bastionSubject.

(** The document of the bastion policy, as a first call of [AsJSON]
    returns it. *)
Example AsJSON_bastionPolicy :
  fst (fst (AsJSON bastionPolicy))
  = Json.indent
      (Json.encode
         (Json.Obj
            [("Statement",
              Json.Arr [Json.Obj [("Action", Json.Str "ec2:DescribeRegions");
                                  ("Effect", Json.Str "Allow");
                                  ("Resource", Json.Str "*")]]);
             ("Version", Json.Str "2012-10-17")])).
Proof. vm_compute. reflexivity. Qed.

(** C2: on the bastion policy, a second call of [AsJSON] does not return
    the string of the first call.  The first call stores the statement it
    appends in the policy, and the second call appends it again: one
    statement in the first document, two in the second. *)
Theorem AsJSON_second_call_differs :
  let first := AsJSON bastionPolicy in
  let second := AsJSON (snd first) in
  snd (fst first) = None
  /\ snd (fst second) = None
  /\ length (Statement_ (snd first)) = 1
  /\ length (Statement_ (snd second)) = 2
  /\ fst (fst first) <> fst (fst second).
Proof.
  vm_compute. repeat split. intros Heq. discriminate Heq.
Qed.

(** A statement whose condition holds a channel: the encoder refuses the
    channel, [MarshalJSON] returns its error, and the bytes it returns stop
    after the name of the field [Condition]; they do not hold the field
    [Effect]. *)
Lemma MarshalJSON_fields_counterexample :
  Statement_MarshalJSON channelStatement
  = ("{" +:+ Json.quote "Action" +:+ ": [" +:+ Json.quote "s3:Get*" +:+ "],"
     +:+ Json.quote "Condition" +:+ ": ",
     Some (Errorf "json: unsupported type: %s" ["chan string"] None))
  /\ String.index 0 (Json.quote "Effect")
                  (fst (Statement_MarshalJSON channelStatement)) = None.
Proof. split; vm_compute; reflexivity. Qed.

(** The statement of the cluster-tagged actions is written with its four
    fields that are not empty; the statement with the channel is not. *)
Lemma MarshalJSON_fields_witness :
  (Statement_MarshalJSON taggedStatement
   = (writeObject (Statement_fields_spec taggedStatement), None)
   /\ map fst (Statement_fields_spec taggedStatement)
      = ["Action"; "Condition"; "Effect"; "Resource"])
  /\ snd (Statement_MarshalJSON channelStatement)
     = Some (Errorf "json: unsupported type: %s" ["chan string"] None).
Proof.
  split.
  - destruct (MarshalJSON_fields taggedStatement) as [Hok _].
    destruct Hok as [Hbytes _].
    { intros k v Hkv. unfold taggedStatement in Hkv. cbn [Condition] in Hkv.
      by apply lookup_singleton_Some in Hkv as [_ <-]. }
    split; [exact Hbytes | reflexivity].
  - destruct (MarshalJSON_fields channelStatement) as [_ Herr].
    rewrite (Herr "chan string" eq_refl). reflexivity.
Defined.

(** The two cases of [Open] on a bastion resource whose zone task has not
    set, respectively has set, its [ZoneID]. *)
Lemma Open_dereferences_ZoneID_witness :
  Open (mkPolicyResource bastionBuilder (Some (mkDNSZone (Some "zone") None)))
  = (None, Some (Errorf "DNS ZoneID not set" [] None))
  /\ Open (mkPolicyResource bastionBuilder
             (Some (mkDNSZone (Some "zone") (Some "Z1AB"))))
     = buildDocument (withHostedZoneID bastionBuilder "Z1AB").
Proof.
  split.
  - apply (Open_dereferences_ZoneID
             (mkPolicyResource bastionBuilder (Some (mkDNSZone (Some "zone") None)))
             (mkDNSZone (Some "zone") None) eq_refl).
    reflexivity.
  - apply (Open_dereferences_ZoneID
             (mkPolicyResource bastionBuilder
                (Some (mkDNSZone (Some "zone") (Some "Z1AB"))))
             (mkDNSZone (Some "zone") (Some "Z1AB")) eq_refl).
    + reflexivity.
    + discriminate.
Defined.

End IamFacts.

Module AwsModelFacts.
Import Go awstasks AwsModel.

Section Build.
Context (b : NetworkModelBuilder).




Lemma recorded_addPrivateSubnet (infoByZone : gmap string zoneInfo)
    (s0 : ClusterSubnetSpec) (zone : string) :
  recorded (addPrivateSubnet infoByZone s0) zone
  = if decide (Zone s0 = zone) then recorded infoByZone zone ++ [s0]
    else recorded infoByZone zone.
Proof.
  unfold recorded, addPrivateSubnet.
  destruct (decide (Zone s0 = zone)) as [<-|Hne].
  - rewrite lookup_insert_eq. simpl. by destruct (infoByZone !! Zone s0).
  - by rewrite lookup_insert_ne.
Qed.

Lemma recordedPrivate_test (s : ClusterSubnetSpec) :
  recordedPrivate s
  <-> String.eqb (Type_ s) SubnetTypePrivate = true
      /\ negb (sharedSubnet s) && negb (isUnmanaged s) = true.
Proof.
  unfold recordedPrivate, sharedSubnet, isUnmanaged.
  rewrite String.eqb_eq, andb_true_iff, !negb_true_iff, negb_false_iff,
    String.eqb_eq, String.eqb_neq. tauto.
Qed.

(** What one round of the subnet loop records: the subnet, in its zone, when
    it is a managed private one; nothing otherwise. *)
Lemma subnetRouting_recorded (s0 : ClusterSubnetSpec)
    (infoByZone info' : gmap string zoneInfo) (tasks : list Task)
    (zone : string) (s : ClusterSubnetSpec) :
  subnetRouting b s0 infoByZone = inr (tasks, info') ->
  s ∈ recorded info' zone
  <-> s ∈ recorded infoByZone zone
      \/ (s = s0 /\ recordedPrivate s0 /\ Zone s0 = zone).
Proof.
  unfold subnetRouting. rewrite (recordedPrivate_test s0).
  destruct (String.eqb (Type_ s0) SubnetTypePublic
            || String.eqb (Type_ s0) SubnetTypeUtility) eqn:Hpu.
  - assert (Hnp : String.eqb (Type_ s0) SubnetTypePrivate = false).
    { apply orb_true_iff in Hpu as [Hp|Hp]; apply String.eqb_eq in Hp;
        rewrite Hp; reflexivity. }
    rewrite Hnp.
    destruct (negb (sharedSubnet s0) && negb (isUnmanaged s0));
      intros [= <- <-]; intuition discriminate.
  - destruct (String.eqb (Type_ s0) SubnetTypePrivate); [|discriminate].
    destruct (negb (sharedSubnet s0) && negb (isUnmanaged s0)).
    + intros [= <- <-]. rewrite recorded_addPrivateSubnet.
      destruct (decide (Zone s0 = zone)) as [Hz|Hz].
      * rewrite elem_of_app, list_elem_of_singleton. intuition.
      * intuition.
    + intros [= <- <-]. intuition discriminate.
Qed.

(** The subnets recorded when the subnet loop completes. *)
Lemma buildSubnets_recorded (subnets : list ClusterSubnetSpec) :
  forall (infoByZone info : gmap string zoneInfo) (tasks : list Task)
         (zone : string) (s : ClusterSubnetSpec),
    buildSubnets b subnets infoByZone = (tasks, inr info) ->
    s ∈ recorded info zone
    <-> s ∈ recorded infoByZone zone
        \/ (s ∈ subnets /\ recordedPrivate s /\ Zone s = zone).
Proof.
  induction subnets as [|s0 rest IH]; intros infoByZone info tasks zone s Hb.
  - simpl in Hb. injection Hb as _ ->. rewrite elem_of_nil. tauto.
  - simpl in Hb.
    destruct (subnetRouting b s0 infoByZone) as [err|[ts info']] eqn:Hr;
      [discriminate|].
    destruct (buildSubnets b rest info') as [tasks' r] eqn:Hrest.
    injection Hb as _ ->.
    rewrite (IH info' info tasks' zone s Hrest).
    rewrite (subnetRouting_recorded s0 infoByZone info' ts zone s Hr).
    rewrite elem_of_cons. split.
    + intros [[?|(-> & ? & ?)]|(? & ? & ?)]; auto.
    + intros [?|([->|?] & ? & ?)]; auto.
Qed.

(** The subnet loop adds subnets and route table associations only. *)
Lemma buildSubnets_tasks (subnets : list ClusterSubnetSpec) :
  forall (infoByZone : gmap string zoneInfo) (t : Task) (zone : string),
    t ∈ fst (buildSubnets b subnets infoByZone) -> ~ zoneTaskOf b zone t.
Proof.
  induction subnets as [|s0 rest IH]; intros infoByZone t zone Ht.
  - by apply elem_of_nil in Ht.
  - simpl in Ht.
    destruct (subnetRouting b s0 infoByZone) as [err|[ts info']] eqn:Hr.
    + apply list_elem_of_singleton in Ht as ->. simpl. tauto.
    + specialize (IH info' t zone).
      destruct (buildSubnets b rest info') as [tasks' r]. simpl in Ht.
      apply elem_of_cons in Ht as [-> | Ht]; [simpl; tauto|].
      apply elem_of_app in Ht as [Ht|Ht]; [|by apply IH].
      unfold subnetRouting in Hr.
      repeat match type of Hr with
             | (if ?x then _ else _) = _ => destruct x
             end; try discriminate; injection Hr as <- _;
        try (by apply elem_of_nil in Ht);
        apply list_elem_of_singleton in Ht as ->; simpl; tauto.
Qed.

(** The tasks before the subnet loop are none of a zone's four tasks. *)
Lemma early_tasks (t : Task) (zone : string) :
  t ∈ [TVPC (vpcTask b)] ++ vpcExtraTasks b ++ publicTasks b ->
  ~ zoneTaskOf b zone t.
Proof.
  rewrite !elem_of_app, list_elem_of_singleton.
  intros [-> | [Ht | Ht]]; [simpl; tauto | |].
  - unfold vpcExtraTasks in Ht.
    destruct (SharedVPC (Context_ b)); [by apply elem_of_nil in Ht|].
    rewrite !elem_of_app, list_elem_of_fmap in Ht.
    destruct Ht as [Ht | [(cidr & -> & _) | Ht]]; [| simpl; tauto |].
    + apply list_elem_of_singleton in Ht as ->. simpl. tauto.
    + apply elem_of_cons in Ht as [-> | Ht]; [simpl; tauto|].
      apply list_elem_of_singleton in Ht as ->. simpl. tauto.
  - unfold publicTasks in Ht.
    destruct (negb (allSubnetsUnmanaged b)); [|by apply elem_of_nil in Ht].
    apply elem_of_cons in Ht as [-> | Ht]; [simpl; tauto|].
    destruct (negb (allSubnetsShared b)); [|by apply elem_of_nil in Ht].
    repeat (apply elem_of_cons in Ht as [-> | Ht]); simpl.
    + unfold publicRouteTableTask. simpl. rewrite lookup_insert_eq.
      intros Heq. discriminate Heq.
    + intros Heq. discriminate Heq.
    + intros Heq. discriminate Heq.
    + by apply elem_of_nil in Ht.
Qed.

(** The check finds a subnet that differs from the first. *)
Lemma checkMixed_finds (egress publicIP : string)
    (subnets : list ClusterSubnetSpec) (s : ClusterSubnetSpec) :
  s ∈ subnets ->
  Egress s <> egress \/ PublicIP s <> publicIP ->
  checkMixed egress publicIP subnets = Some errMixedEgress
  \/ checkMixed egress publicIP subnets = Some errMixedPublicIP.
Proof.
  intros Hs Hdiff. induction subnets as [|s0 rest IH];
    [by apply elem_of_nil in Hs|].
  simpl.
  destruct (String.eqb (Egress s0) egress) eqn:He; simpl; [|by left].
  destruct (String.eqb (PublicIP s0) publicIP) eqn:Hp; simpl; [|by right].
  apply elem_of_cons in Hs as [-> | Hs]; [|by apply IH].
  apply String.eqb_eq in He, Hp. tauto.
Qed.

(** The only errors of the check are its two errors. *)
Lemma checkMixed_errors (egress publicIP : string)
    (subnets : list ClusterSubnetSpec) (e : error) :
  checkMixed egress publicIP subnets = Some e ->
  e = errMixedEgress \/ e = errMixedPublicIP.
Proof.
  induction subnets as [|s0 rest IH]; simpl; [discriminate|].
  destruct (String.eqb (Egress s0) egress); simpl;
    [|intros [= <-]; by left].
  destruct (String.eqb (PublicIP s0) publicIP); simpl;
    [exact IH | intros [= <-]; by right].
Qed.

(** A round of the zone loop for a zone whose recorded subnets are managed
    and differ in egress or public IP: it adds no task and returns an
    error, which is one of the two errors of the check unless the utility
    subnet of the zone could not be found. *)
Lemma buildZone_mixed (zone : string) (info : zoneInfo)
    (s1 s2 : ClusterSubnetSpec) :
  (forall s, s ∈ PrivateSubnets info -> isUnmanaged s = false) ->
  s1 ∈ PrivateSubnets info ->
  s2 ∈ PrivateSubnets info ->
  Egress s1 <> Egress s2 \/ PublicIP s1 <> PublicIP s2 ->
  exists e,
    buildZone b zone info = ([], Some e)
    /\ (e = errMixedEgress \/ e = errMixedPublicIP
        \/ LinkToUtilitySubnetInZone (Context_ b) zone = inr e).
Proof.
  intros Hmanaged H1 H2 Hdiff. unfold buildZone.
  destruct (PrivateSubnets info) as [|first rest] eqn:Hps;
    [by apply elem_of_nil in H1|].
  destruct (LinkToUtilitySubnetInZone (Context_ b) zone) as [u|err];
    [|exists err; auto].
  assert (Hf : isUnmanaged first = false) by (apply Hmanaged; left).
  simpl forallb. rewrite Hf. simpl andb. cbv iota.
  assert (Hex : exists s, s ∈ first :: rest
                 /\ (Egress s <> Egress first \/ PublicIP s <> PublicIP first)).
  { destruct (decide (Egress s1 = Egress first)) as [E1|E1];
      [|exists s1; auto].
    destruct (decide (PublicIP s1 = PublicIP first)) as [P1|P1];
      [|exists s1; auto].
    exists s2. split; [done|]. rewrite <- E1, <- P1.
    destruct Hdiff; [left | right]; congruence. }
  destruct Hex as (s & Hs & Hd).
  destruct (checkMixed_finds (Egress first) (PublicIP first) (first :: rest)
              s Hs Hd) as [-> | ->]; eexists; eauto.
Qed.

(** A round that returns an error has added no task; and when the utility
    subnet is found and the egress of the recorded subnets is of a supported
    form, the error is one of the two errors of the check. *)
Lemma buildZone_error (zone : string) (info : zoneInfo) (tasks : list Task)
    (e : error) :
  buildZone b zone info = (tasks, Some e) ->
  tasks = []
  /\ ((forall s, s ∈ PrivateSubnets info ->
         (exists u, LinkToUtilitySubnetInZone (Context_ b) zone = inl u)
         /\ supportedEgress (Egress s) = true) ->
      e = errMixedEgress \/ e = errMixedPublicIP).
Proof.
  unfold buildZone.
  destruct (PrivateSubnets info) as [|first rest] eqn:Hps; [discriminate|].
  destruct (LinkToUtilitySubnetInZone (Context_ b) zone) as [u|err] eqn:Hu.
  - destruct (forallb isUnmanaged (first :: rest)); [discriminate|].
    destruct (checkMixed _ _ _) as [err|] eqn:Hc.
    + intros [= <- <-]. split; [done|]. intros _.
      by eapply checkMixed_errors.
    + destruct (buildEgress b zone (Egress first) (PublicIP first) u)
        as [err|r] eqn:He; [|discriminate].
      intros [= <- <-]. split; [done|]. intros Hsup. exfalso.
      destruct (Hsup first ltac:(left)) as [_ Hs].
      unfold supportedEgress in Hs. unfold buildEgress in He.
      destruct (String.eqb (Egress first) ""); [discriminate|].
      destruct (String.prefix "nat-" (Egress first)); [discriminate|].
      destruct (String.prefix "eipalloc-" (Egress first)); [discriminate|].
      destruct (String.prefix "i-" (Egress first)); [discriminate|].
      destruct (String.prefix "tgw-" (Egress first)); [discriminate|].
      destruct (String.eqb (Egress first) "External"); discriminate.
  - intros [= <- <-]. split; [done|]. intros Hsup.
    destruct (Hsup first ltac:(left)) as [[u' Hu'] _]. discriminate.
Qed.

(** A round that returns an error when the utility subnet of its zone is
    found: the error is one of the two errors of the check, unless the
    recorded subnets all have the egress and the public IP of the first and
    that egress is of no supported form. *)
Lemma buildZone_error_kind (zone : string) (info : zoneInfo)
    (tasks : list Task) (e : error) :
  buildZone b zone info = (tasks, Some e) ->
  (exists u, LinkToUtilitySubnetInZone (Context_ b) zone = inl u) ->
  (forall s, s ∈ PrivateSubnets info ->
     (exists s1 s2, s1 ∈ PrivateSubnets info /\ s2 ∈ PrivateSubnets info
                    /\ (Egress s1 <> Egress s2 \/ PublicIP s1 <> PublicIP s2))
     \/ supportedEgress (Egress s) = true) ->
  e = errMixedEgress \/ e = errMixedPublicIP.
Proof.
  unfold buildZone.
  destruct (PrivateSubnets info) as [|first rest] eqn:Hps; [discriminate|].
  intros Hb [u Hu]. rewrite Hu in Hb.
  destruct (forallb isUnmanaged (first :: rest)); [discriminate|].
  destruct (checkMixed _ _ _) as [err|] eqn:Hc.
  - injection Hb as <- <-. intros _. by eapply checkMixed_errors.
  - intros Hsup. exfalso.
    destruct (Hsup first ltac:(left)) as [(s1 & s2 & H1 & H2 & Hdiff) | Hs].
    + assert (Hex : exists s, s ∈ first :: rest
                     /\ (Egress s <> Egress first
                         \/ PublicIP s <> PublicIP first)).
      { destruct (decide (Egress s1 = Egress first)) as [E1|E1];
          [|exists s1; auto].
        destruct (decide (PublicIP s1 = PublicIP first)) as [P1|P1];
          [|exists s1; auto].
        exists s2. split; [done|]. rewrite <- E1, <- P1.
        destruct Hdiff; [left | right]; congruence. }
      destruct Hex as (s & Hs & Hd).
      destruct (checkMixed_finds (Egress first) (PublicIP first)
                  (first :: rest) s Hs Hd) as [Hf | Hf];
        rewrite Hf in Hc; discriminate.
    + destruct (buildEgress b zone (Egress first) (PublicIP first) u)
        as [err|r] eqn:He; [|discriminate].
      unfold supportedEgress in Hs. unfold buildEgress in He.
      destruct (String.eqb (Egress first) ""); [discriminate|].
      destruct (String.prefix "nat-" (Egress first)); [discriminate|].
      destruct (String.prefix "eipalloc-" (Egress first)); [discriminate|].
      destruct (String.prefix "i-" (Egress first)); [discriminate|].
      destruct (String.prefix "tgw-" (Egress first)); [discriminate|].
      destruct (String.eqb (Egress first) "External"); discriminate.
Qed.

(** The zone of a task named or tagged after a zone. *)
Lemma zone_of_name (zone zone' : string) :
  Some (zone' +:+ "." +:+ ClusterName (Context_ b))
  = Some (zone +:+ "." +:+ ClusterName (Context_ b)) ->
  zone = zone'.
Proof.
  intros Heq.
  assert (Hs : zone' +:+ "." +:+ ClusterName (Context_ b)
               = zone +:+ "." +:+ ClusterName (Context_ b)) by congruence.
  symmetry. by eapply StringFacts.append_inj_r.
Qed.

Lemma zone_of_role (zone zone' : string) :
  Some ("private-" +:+ zone') = Some ("private-" +:+ zone) -> zone = zone'.
Proof.
  intros Heq.
  assert (Hs : "private-" +:+ zone' = "private-" +:+ zone) by congruence.
  symmetry. by apply (inj (String.app "private-")) in Hs.
Qed.

Lemma zone_of_route (zone zone' : string) :
  Some ("private-" +:+ zone' +:+ "-0.0.0.0/0")
  = Some ("private-" +:+ zone +:+ "-0.0.0.0/0") ->
  zone = zone'.
Proof.
  intros Heq.
  assert (Hs : "private-" +:+ zone' +:+ "-0.0.0.0/0"
               = "private-" +:+ zone +:+ "-0.0.0.0/0") by congruence.
  apply (inj (String.app "private-")) in Hs.
  symmetry. by eapply StringFacts.append_inj_r.
Qed.

(** The tasks of a round of the zone loop are tasks of its own zone. *)
Lemma buildEgress_tasks (zone' egress publicIP : string) (u : Subnet.t)
    (r : egressResult) (t : Task) (zone : string) :
  buildEgress b zone' egress publicIP u = inr r ->
  t ∈ egressTasks r -> zoneTaskOf b zone t -> zone = zone'.
Proof.
  unfold buildEgress.
  repeat match goal with
         | |- (if ?x then _ else _) = _ -> _ => destruct x
         end; intros [= <-]; simpl egressTasks; intros Ht;
    repeat (apply elem_of_cons in Ht as [-> | Ht]);
    try (by apply elem_of_nil in Ht); simpl;
    try tauto; apply zone_of_name.
Qed.

Lemma buildZone_tasks (zone' : string) (info : zoneInfo) (t : Task)
    (zone : string) :
  t ∈ fst (buildZone b zone' info) -> zoneTaskOf b zone t -> zone = zone'.
Proof.
  unfold buildZone.
  destruct (PrivateSubnets info) as [|first rest];
    [intros Ht; by apply elem_of_nil in Ht|].
  destruct (LinkToUtilitySubnetInZone (Context_ b) zone') as [u|err];
    [|intros Ht; by apply elem_of_nil in Ht].
  destruct (forallb isUnmanaged (first :: rest));
    [intros Ht; by apply elem_of_nil in Ht|].
  destruct (checkMixed _ _ _); [intros Ht; by apply elem_of_nil in Ht|].
  destruct (buildEgress b zone' (Egress first) (PublicIP first) u)
    as [err|r] eqn:He; [intros Ht; by apply elem_of_nil in Ht|].
  cbn [fst]. rewrite elem_of_app. intros [Ht | Ht].
  - by eapply buildEgress_tasks.
  - apply elem_of_cons in Ht as [-> | Ht].
    + simpl. unfold privateRouteTableTask. simpl. rewrite lookup_insert_eq.
      apply zone_of_role.
    + apply list_elem_of_singleton in Ht as ->. simpl.
      unfold privateRouteTask. destruct (in_ r); simpl; apply zone_of_route.
Qed.

(** The zone loop: where its tasks and its error come from, and that it
    fails when one of its rounds does. *)
Lemma buildZones_tasks (zones : list (string * zoneInfo)) (t : Task) :
  t ∈ fst (buildZones b zones) ->
  exists zone info, (zone, info) ∈ zones /\ t ∈ fst (buildZone b zone info).
Proof.
  induction zones as [|[zone info] rest IH]; simpl.
  - intros Ht. by apply elem_of_nil in Ht.
  - destruct (buildZone b zone info) as [tasks [err|]] eqn:Hz.
    + intros Ht. exists zone, info. rewrite Hz. split; [left | done].
    + destruct (buildZones b rest) as [tasks' r]. cbn [fst] in *.
      rewrite elem_of_app. intros [Ht | Ht].
      * exists zone, info. rewrite Hz. split; [left | done].
      * destruct (IH Ht) as (z & i & Hin & Hti). exists z, i.
        split; [by right | done].
Qed.

Lemma buildZones_error (zones : list (string * zoneInfo)) (e : error) :
  snd (buildZones b zones) = Some e ->
  exists zone info tasks,
    (zone, info) ∈ zones /\ buildZone b zone info = (tasks, Some e).
Proof.
  induction zones as [|[zone info] rest IH]; simpl; [discriminate|].
  destruct (buildZone b zone info) as [tasks [err|]] eqn:Hz.
  - intros [= <-]. exists zone, info, tasks. split; [left | done].
  - destruct (buildZones b rest) as [tasks' r]. cbn [snd] in *.
    intros He. destruct (IH He) as (z & i & ts & Hin & Hzi).
    exists z, i, ts. split; [by right | done].
Qed.

Lemma buildZones_fails (zones : list (string * zoneInfo)) (zone : string)
    (info : zoneInfo) :
  (zone, info) ∈ zones ->
  is_Some (snd (buildZone b zone info)) ->
  is_Some (snd (buildZones b zones)).
Proof.
  induction zones as [|[zone0 info0] rest IH]; intros Hin Hfail.
  - by apply elem_of_nil in Hin.
  - simpl. destruct (buildZone b zone0 info0) as [tasks [err|]] eqn:Hz;
      [by eexists|].
    apply elem_of_cons in Hin as [[= <- <-] | Hin].
    + rewrite Hz in Hfail. by destruct Hfail.
    + specialize (IH Hin Hfail).
      by destruct (buildZones b rest) as [tasks' r].
Qed.

(** The subnet loop completes when every subnet has a known type. *)
Lemma buildSubnets_known (subnets : list ClusterSubnetSpec) :
  forall infoByZone : gmap string zoneInfo,
    (forall s, s ∈ subnets -> knownType s) ->
    exists tasks info, buildSubnets b subnets infoByZone = (tasks, inr info).
Proof.
  induction subnets as [|s0 rest IH]; intros infoByZone Hknown; simpl.
  - by eexists _, _.
  - assert (Hr : exists ts info', subnetRouting b s0 infoByZone = inr (ts, info')).
    { unfold subnetRouting.
      destruct (Hknown s0 ltac:(left)) as [Hk | [Hk | Hk]]; rewrite Hk; simpl;
        destruct (negb (sharedSubnet s0) && negb (isUnmanaged s0));
        by eexists _, _. }
    destruct Hr as (ts & info' & ->).
    destruct (IH info') as (tasks' & info & ->).
    { intros s Hs. apply Hknown. by right. }
    by eexists _, _.
Qed.

(** The entries the runtime visits are the entries of the map. *)
Lemma range_lookup `{MapRange} {V : Type} (m : gmap string V) (k : string)
    (v : V) :
  (k, v) ∈ range m <-> m !! k = Some v.
Proof.
  rewrite <- elem_of_map_to_list. by rewrite (range_perm m).
Qed.

(** C8: when a zone has private subnets that are managed (egress not
    [External]) and not shared (no [ProviderID]) and that differ in [Egress]
    or in [PublicIP], [Build] returns an error and has added no NAT gateway,
    no elastic IP, no private route table and no private route for that
    zone.  The error is "cannot mix egress values in private subnets" or
    "cannot mix publicIP values in private subnets" when no check that
    [Build] makes before the one against mixed values can fail: every
    subnet has a known type; the utility subnet is found for the zone and
    for every other zone with such subnets; and every other zone with such
    subnets, which the loop may visit first, is mixed itself or has an
    egress of a supported form.  Nothing is asked of the egress of the
    subnets of the mixed zone: the check against mixed values comes before
    the egress is looked at. *)
Theorem Build_mixed_zone_fails `{MapRange} (zone : string)
    (Hmixed : mixedZone b recordedPrivate zone) :
  exists tasks err,
    Build b = (tasks, Some err)
    /\ (forall t, t ∈ tasks -> ~ zoneTaskOf b zone t)
    /\ ((forall s, s ∈ Subnets (Context_ b) -> knownType s) ->
        (forall s, s ∈ Subnets (Context_ b) -> recordedPrivate s ->
           (exists u, LinkToUtilitySubnetInZone (Context_ b) (Zone s) = inl u)
           /\ (mixedZone b recordedPrivate (Zone s)
               \/ supportedEgress (Egress s) = true)) ->
        err = errMixedEgress \/ err = errMixedPublicIP).
Proof.
  destruct Hmixed as (s1 & s2 & Hin1 & Hin2 & Hm1 & Hm2 & Hz1 & Hz2 & Hdiff).
  unfold Build.
  destruct (buildSubnets b (Subnets (Context_ b)) ∅)
    as [tasks [err|info]] eqn:Hb.
  - exists (([TVPC (vpcTask b)] ++ vpcExtraTasks b ++ publicTasks b) ++ tasks),
      err.
    split; [reflexivity|]. split.
    + intros t Ht. apply elem_of_app in Ht as [Ht | Ht].
      * by apply early_tasks.
      * apply (buildSubnets_tasks (Subnets (Context_ b)) ∅). by rewrite Hb.
    + intros Hknown _.
      destruct (buildSubnets_known (Subnets (Context_ b)) ∅ Hknown)
        as (? & ? & Heq). congruence.
  - assert (Hrec : forall z s, s ∈ recorded info z
              <-> s ∈ Subnets (Context_ b) /\ recordedPrivate s /\ Zone s = z).
    { intros z s.
      rewrite (buildSubnets_recorded _ ∅ info tasks z s Hb).
      unfold recorded at 1. rewrite lookup_empty. simpl.
      rewrite elem_of_nil. tauto. }
    assert (Hps : forall z zi s, info !! z = Some zi ->
              s ∈ PrivateSubnets zi
              <-> s ∈ Subnets (Context_ b) /\ recordedPrivate s /\ Zone s = z).
    { intros z zi s Hzi. rewrite <- Hrec. unfold recorded. by rewrite Hzi. }
    assert (Hzi : exists zi, info !! zone = Some zi).
    { assert (Hr1 : s1 ∈ recorded info zone) by (apply Hrec; auto).
      unfold recorded in Hr1. destruct (info !! zone) as [zi|]; [by exists zi|].
      by apply elem_of_nil in Hr1. }
    destruct Hzi as [zi Hzi].
    destruct (buildZone_mixed zone zi s1 s2) as (e & Hze & _);
      [ | by apply (Hps zone zi) | by apply (Hps zone zi) | done | ].
    { intros s Hs. apply (Hps zone zi s Hzi) in Hs as (_ & (_ & _ & Hs) & _).
      by apply String.eqb_neq. }
    destruct (buildZones_fails (range info) zone zi) as [e' He'].
    { by apply range_lookup. }
    { rewrite Hze. by eexists. }
    destruct (buildZones b (range info)) as [tasks' r] eqn:Hzs.
    simpl in He'. subst r.
    exists (([TVPC (vpcTask b)] ++ vpcExtraTasks b ++ publicTasks b)
            ++ tasks ++ tasks'), e'.
    split; [reflexivity|]. split.
    + intros t Ht. rewrite !elem_of_app in Ht.
      destruct Ht as [Ht | [Ht | Ht]].
      * apply early_tasks. by rewrite !elem_of_app.
      * apply (buildSubnets_tasks (Subnets (Context_ b)) ∅). by rewrite Hb.
      * intros Hzt.
        destruct (buildZones_tasks (range info) t) as (z' & i' & Hin & Hti);
          [by rewrite Hzs|].
        assert (zone = z') as <- by by eapply buildZone_tasks.
        apply range_lookup in Hin. assert (i' = zi) as -> by congruence.
        rewrite Hze in Hti. by apply elem_of_nil in Hti.
    + intros _ Hchecks.
      destruct (buildZones_error (range info) e') as (z' & i' & ts & Hin & Hzi');
        [by rewrite Hzs|].
      apply range_lookup in Hin.
      assert (Hfirst : exists s, s ∈ PrivateSubnets i').
      { unfold buildZone in Hzi'.
        destruct (PrivateSubnets i') as [|first rest]; [discriminate|].
        exists first. left. }
      destruct Hfirst as [s0 Hs0].
      apply (buildZone_error_kind z' i' ts e' Hzi').
      * apply (Hps z' i' s0 Hin) in Hs0 as (Hs0 & Hm0 & <-).
        by apply Hchecks.
      * intros s Hs. apply (Hps z' i' s Hin) in Hs as (Hs & Hm & <-).
        destruct (Hchecks s Hs Hm) as [_ [Hmix | Hsup]]; [left | by right].
        destruct Hmix as (a1 & a2 & Ha1 & Ha2 & Hr1 & Hr2 & Hz1' & Hz2' & Hd).
        exists a1, a2. repeat split; [| |exact Hd].
        -- by apply (Hps (Zone s) i' a1 Hin).
        -- by apply (Hps (Zone s) i' a2 Hin).
Qed.

End Build.

#[local] Existing Instance canonicalRange.

(** In the example cluster with [natSubnet] added, zone [us-test-1a] has
    two managed private subnets with different egress. *)
Lemma example_mixedZone (more : list ClusterSubnetSpec) :
  mixedZone (exampleBuilder (natSubnet :: more)) recordedPrivate "us-test-1a".
Proof.
  exists (mkSubnetSpec "us-test-1a" "us-test-1a" "172.20.32.0/19" "" ""
                       "" SubnetTypePrivate ""), natSubnet.
  repeat split; try discriminate.
  - simpl. right. left.
  - simpl. do 2 right. left.
  - left. discriminate.
Qed.

Example Build_example_mixed :
  snd (Build (exampleBuilder [natSubnet])) = Some errMixedEgress.
Proof. vm_compute. reflexivity. Qed.

(** Five clusters with a zone whose managed private subnets differ in
    egress.  In the first the two subnets are shared (they have a
    [ProviderID]): [Build] does not record them and returns no error.  In
    the second there is also a subnet of unknown type: [Build] returns the
    error about the type.  In the third the zone has no utility subnet:
    [Build] returns the error of the lookup, which it makes before it
    compares the subnets.  In the fourth another zone, visited first, has
    an egress [Build] does not support: [Build] returns the error about
    that.  In the fifth another zone, visited first, has no utility subnet:
    [Build] returns the error of the lookup.  In the last four the error is
    neither of the two errors about mixed values. *)
Lemma Build_mixed_zone_counterexample :
  (mixedZone (exampleBuilder [sharedSubnetA; sharedSubnetB]) managedPrivate
             "us-test-1b"
   /\ snd (Build (exampleBuilder [sharedSubnetA; sharedSubnetB])) = None)
  /\ (mixedZone (exampleBuilder [natSubnet; oddSubnet]) managedPrivate
                "us-test-1a"
      /\ snd (Build (exampleBuilder [natSubnet; oddSubnet]))
         = Some (Errorf "subnet %q has unknown type %q" ["odd"; "Isolated"]
                   None)
      /\ snd (Build (exampleBuilder [natSubnet; oddSubnet]))
         <> Some errMixedEgress
      /\ snd (Build (exampleBuilder [natSubnet; oddSubnet]))
         <> Some errMixedPublicIP)
  /\ (mixedZone (strictBuilder [natSubnetC1; natSubnetC2]) recordedPrivate
                "us-test-1c"
      /\ snd (Build (strictBuilder [natSubnetC1; natSubnetC2]))
         = Some (Errorf "could not find utility subnet in zone: %q"
                   ["us-test-1c"] None)
      /\ snd (Build (strictBuilder [natSubnetC1; natSubnetC2]))
         <> Some errMixedEgress
      /\ snd (Build (strictBuilder [natSubnetC1; natSubnetC2]))
         <> Some errMixedPublicIP)
  /\ (mixedZone (exampleBuilder [natSubnet; igwSubnet]) recordedPrivate
                "us-test-1a"
      /\ (exists u, LinkToUtilitySubnetInZone
                      (Context_ (exampleBuilder [natSubnet; igwSubnet]))
                      "us-test-1a" = inl u)
      /\ snd (Build (exampleBuilder [natSubnet; igwSubnet]))
         = Some (Errorf ("kops currently only supports re-use of either NAT "
                         +:+ "EC2 Instances or NAT Gateways. We will support "
                         +:+ "more eventually! Please see "
                         +:+ "https://github.com/kubernetes/kops/issues/1530")
                   [] None)
      /\ snd (Build (exampleBuilder [natSubnet; igwSubnet]))
         <> Some errMixedEgress
      /\ snd (Build (exampleBuilder [natSubnet; igwSubnet]))
         <> Some errMixedPublicIP)
  /\ (mixedZone (strictBuilder [natSubnet; natSubnetC1]) recordedPrivate
                "us-test-1a"
      /\ (exists u, LinkToUtilitySubnetInZone
                      (Context_ (strictBuilder [natSubnet; natSubnetC1]))
                      "us-test-1a" = inl u)
      /\ supportedEgress (Egress natSubnetC1) = true
      /\ snd (Build (strictBuilder [natSubnet; natSubnetC1]))
         = Some (Errorf "could not find utility subnet in zone: %q"
                   ["us-test-1c"] None)
      /\ snd (Build (strictBuilder [natSubnet; natSubnetC1]))
         <> Some errMixedEgress
      /\ snd (Build (strictBuilder [natSubnet; natSubnetC1]))
         <> Some errMixedPublicIP).
Proof.
  split; [split|split; [split|split; [split|split; [split; [|split]
                                                   |split; [|split; [|split]]]]]].
  - exists sharedSubnetA, sharedSubnetB.
    repeat split; try discriminate.
    + simpl. do 2 right. left.
    + simpl. do 3 right. left.
    + left. discriminate.
  - vm_compute. reflexivity.
  - destruct (example_mixedZone [oddSubnet])
      as (s1 & s2 & ? & ? & (? & ? & ?) & (? & ? & ?) & ? & ? & ?).
    exists s1, s2. repeat split; assumption.
  - assert (Herr : snd (Build (exampleBuilder [natSubnet; oddSubnet]))
                   = Some (Errorf "subnet %q has unknown type %q"
                             ["odd"; "Isolated"] None))
      by (vm_compute; reflexivity).
    rewrite Herr. repeat split; intros Heq; discriminate Heq.
  - exists natSubnetC1, natSubnetC2.
    repeat split; try discriminate.
    + simpl. do 2 right. left.
    + simpl. do 3 right. left.
    + left. discriminate.
  - assert (Herr : snd (Build (strictBuilder [natSubnetC1; natSubnetC2]))
                   = Some (Errorf "could not find utility subnet in zone: %q"
                             ["us-test-1c"] None))
      by (vm_compute; reflexivity).
    rewrite Herr. repeat split; intros Heq; discriminate Heq.
  - exact (example_mixedZone [igwSubnet]).
  - eexists. reflexivity.
  - assert (Herr : snd (Build (exampleBuilder [natSubnet; igwSubnet]))
                   = Some (Errorf
                             ("kops currently only supports re-use of either "
                              +:+ "NAT EC2 Instances or NAT Gateways. We will "
                              +:+ "support more eventually! Please see "
                              +:+ "https://github.com/kubernetes/kops/issues/1530")
                             [] None))
      by (vm_compute; reflexivity).
    rewrite Herr. repeat split; intros Heq; vm_compute in Heq;
      discriminate Heq.
  - exists (mkSubnetSpec "us-test-1a" "us-test-1a" "172.20.32.0/19" "" ""
                         "" SubnetTypePrivate ""), natSubnet.
    repeat split; try discriminate.
    + simpl. right. left.
    + simpl. do 2 right. left.
    + left. discriminate.
  - eexists. reflexivity.
  - reflexivity.
  - assert (Herr : snd (Build (strictBuilder [natSubnet; natSubnetC1]))
                   = Some (Errorf "could not find utility subnet in zone: %q"
                             ["us-test-1c"] None))
      by (vm_compute; reflexivity).
    rewrite Herr. repeat split; intros Heq; discriminate Heq.
Qed.

(** The example cluster with [vpceSubnet]: zone [us-test-1a] is mixed,
    the egress of one of its two private subnets is of no supported form,
    no earlier check fails, and [Build] returns one of the two errors about
    mixed values. *)
Lemma Build_mixed_zone_fails_witness :
  mixedZone (exampleBuilder [vpceSubnet]) recordedPrivate "us-test-1a"
  /\ supportedEgress (Egress vpceSubnet) = false
  /\ exists tasks err,
       Build (exampleBuilder [vpceSubnet]) = (tasks, Some err)
       /\ (forall t, t ∈ tasks ->
             ~ zoneTaskOf (exampleBuilder [vpceSubnet]) "us-test-1a" t)
       /\ (err = errMixedEgress \/ err = errMixedPublicIP).
Proof.
  assert (Hmixed : mixedZone (exampleBuilder [vpceSubnet]) recordedPrivate
                             "us-test-1a").
  { exists (mkSubnetSpec "us-test-1a" "us-test-1a" "172.20.32.0/19" "" ""
                         "" SubnetTypePrivate ""), vpceSubnet.
    repeat split; try discriminate.
    - simpl. right. left.
    - simpl. do 2 right. left.
    - left. discriminate. }
  split; [exact Hmixed|]. split; [reflexivity|].
  destruct (Build_mixed_zone_fails (exampleBuilder [vpceSubnet]) "us-test-1a"
              Hmixed)
    as (tasks & err & Hbuild & Hnone & Hkind).
  exists tasks, err. split; [exact Hbuild|]. split; [exact Hnone|].
  clear Hbuild Hnone. apply Hkind; clear Hkind.
  - intros s Hs. simpl in Hs.
    repeat (apply elem_of_cons in Hs as [-> | Hs]).
    + right. left. reflexivity.
    + right. right. reflexivity.
    + right. right. reflexivity.
    + apply elem_of_nil in Hs. destruct Hs.
  - intros s Hs Hrec. split; [eexists; reflexivity|]. left.
    assert (Hzone : Zone s = "us-test-1a").
    { simpl in Hs.
      repeat (apply elem_of_cons in Hs as [-> | Hs]); try reflexivity.
      apply elem_of_nil in Hs. destruct Hs. }
    rewrite Hzone. exact Hmixed.
Defined.


End AwsModelFacts.

Module AwsModelMore.
Import Go awstasks AwsModel AwsModelViews AwsModelFacts.

Section Build.
Context (b : NetworkModelBuilder).

(** The tasks before the subnet loop hold no subnet and no association. *)
Lemma early_kinds (t : Task) :
  t ∈ [TVPC (vpcTask b)] ++ vpcExtraTasks b ++ publicTasks b ->
  match t with
  | TSubnet _ | TRouteTableAssociation _ | TNatGateway _ | TElasticIP _
  | TInstance _ => False
  | TRoute r => routeTargets r = 1 /\ allSubnetsUnmanaged b = false
  | TVPC v => v = vpcTask b
  | TInternetGateway _ | TRouteTable _ =>
      allSubnetsUnmanaged b = false
  | _ => SharedVPC (Context_ b) = false
  end.
Proof.
  rewrite !elem_of_app, list_elem_of_singleton.
  intros [-> | [Ht | Ht]]; [reflexivity | |].
  - unfold vpcExtraTasks in Ht.
    destruct (SharedVPC (Context_ b)); [by apply elem_of_nil in Ht|].
    rewrite !elem_of_app, list_elem_of_fmap in Ht.
    destruct Ht as [Ht | [(cidr & -> & _) | Ht]]; [| reflexivity |].
    + by apply list_elem_of_singleton in Ht as ->.
    + apply elem_of_cons in Ht as [-> | Ht]; [reflexivity|].
      by apply list_elem_of_singleton in Ht as ->.
  - unfold publicTasks in Ht.
    destruct (allSubnetsUnmanaged b); [by apply elem_of_nil in Ht|].
    apply elem_of_cons in Ht as [-> | Ht]; [reflexivity|].
    destruct (negb (allSubnetsShared b)); [|by apply elem_of_nil in Ht].
    repeat (apply elem_of_cons in Ht as [-> | Ht]);
      try reflexivity; try (split; reflexivity).
    by apply elem_of_nil in Ht.
Qed.

(** What the subnet loop adds for the subnets it goes through: for each,
    its [Subnet] task, and a route table association only when the subnet is
    neither shared nor unmanaged. *)
Lemma buildSubnets_kinds (subnets : list ClusterSubnetSpec) :
  forall (infoByZone : gmap string zoneInfo) (t : Task),
    t ∈ fst (buildSubnets b subnets infoByZone) ->
    match t with
    | TSubnet st => exists s, s ∈ subnets /\ st = subnetTask b s
    | TRouteTableAssociation a =>
        exists s, s ∈ subnets
          /\ sharedSubnet s = false /\ isUnmanaged s = false
          /\ RouteTableAssociation.Subnet a = Some (subnetTask b s)
          /\ (RouteTableAssociation.RouteTable a = publicRouteTable b
              \/ is_Some (RouteTableAssociation.RouteTable a))
    | _ => False
    end.
Proof.
  induction subnets as [|s0 rest IH]; intros infoByZone t Ht.
  - by apply elem_of_nil in Ht.
  - simpl in Ht.
    destruct (subnetRouting b s0 infoByZone) as [err|[ts info']] eqn:Hr.
    + apply list_elem_of_singleton in Ht as ->. exists s0. split; [left|done].
    + specialize (IH info' t).
      destruct (buildSubnets b rest info') as [tasks' r]. simpl in Ht.
      apply elem_of_cons in Ht as [-> | Ht].
      { exists s0. split; [left | done]. }
      apply elem_of_app in Ht as [Ht|Ht].
      * unfold subnetRouting in Hr.
        destruct (String.eqb (Type_ s0) SubnetTypePublic
                  || String.eqb (Type_ s0) SubnetTypeUtility);
          [|destruct (String.eqb (Type_ s0) SubnetTypePrivate);
            [|discriminate]];
          destruct (sharedSubnet s0) eqn:Hsh;
          destruct (isUnmanaged s0) eqn:Hun; simpl in Hr;
          injection Hr as <- _;
          try (by apply elem_of_nil in Ht);
          apply list_elem_of_singleton in Ht as ->;
          exists s0; (split; [left|]); simpl; eauto 10.
      * specialize (IH Ht). destruct t; try done.
        -- destruct IH as (s & Hs & ?). exists s. split; [by right | done].
        -- destruct IH as (s & Hs & ?). exists s. split; [by right | done].
Qed.

(** The zone loop adds egress tasks, private route tables and routes. *)
Lemma buildZone_kinds (zone : string) (info : zoneInfo) (t : Task) :
  t ∈ fst (buildZone b zone info) ->
  match t with
  | TNatGateway _ | TElasticIP _ | TInstance _ | TRouteTable _ => True
  | TRoute r => routeTargets r = 1
  | _ => False
  end.
Proof.
  unfold buildZone.
  destruct (PrivateSubnets info) as [|first rest] eqn:Hps;
    [intros Ht; by apply elem_of_nil in Ht|].
  destruct (LinkToUtilitySubnetInZone (Context_ b) zone) as [u|err];
    [|intros Ht; by apply elem_of_nil in Ht].
  destruct (forallb isUnmanaged (first :: rest)) eqn:Hall;
    [intros Ht; by apply elem_of_nil in Ht|].
  destruct (checkMixed _ _ _) eqn:Hc;
    [intros Ht; by apply elem_of_nil in Ht|].
  destruct (buildEgress b zone (Egress first) (PublicIP first) u)
    as [err|r] eqn:He; [intros Ht; by apply elem_of_nil in Ht|].
  assert (Hfirst : String.eqb (Egress first) "External" = false).
  { destruct (String.eqb (Egress first) "External") eqn:Hx; [|done].
    exfalso. apply String.eqb_eq in Hx.
    assert (Hsame : forall l, checkMixed (Egress first) (PublicIP first) l = None ->
              forall s, s ∈ l -> Egress s = Egress first).
    { induction l as [|s0 l IHl]; intros Hl s Hs;
        [by apply elem_of_nil in Hs|].
      simpl in Hl.
      destruct (String.eqb (Egress s0) (Egress first)) eqn:E0;
        [|discriminate].
      destruct (String.eqb (PublicIP s0) (PublicIP first)); [|discriminate].
      simpl in Hl. apply elem_of_cons in Hs as [-> | Hs].
      - by apply String.eqb_eq.
      - by apply IHl. }
    assert (Hallt : forallb isUnmanaged (first :: rest) = true).
    { apply forallb_forall. intros s Hs. unfold isUnmanaged.
      apply String.eqb_eq. rewrite (Hsame _ Hc s); [done|].
      by apply list_elem_of_In. }
    congruence. }
  cbn [fst]. rewrite elem_of_app. intros [Ht | Ht].
  - unfold buildEgress in He.
    repeat match type of He with
           | (if ?x then _ else _) = _ => destruct x
           end; try discriminate; injection He as <-; simpl in Ht;
      repeat (apply elem_of_cons in Ht as [-> | Ht]);
      try (by apply elem_of_nil in Ht); done.
  - apply elem_of_cons in Ht as [-> | Ht]; [done|].
    apply list_elem_of_singleton in Ht as ->.
    unfold privateRouteTask, routeTargets.
    unfold buildEgress in He. rewrite Hfirst in He.
    repeat match type of He with
           | (if ?x then _ else _) = _ => destruct x
           end; try discriminate; injection He as <-; reflexivity.
Qed.

Lemma buildZones_kinds (zones : list (string * zoneInfo)) (t : Task) :
  t ∈ fst (buildZones b zones) ->
  match t with
  | TNatGateway _ | TElasticIP _ | TInstance _ | TRouteTable _ => True
  | TRoute r => routeTargets r = 1
  | _ => False
  end.
Proof.
  intros Ht. destruct (buildZones_tasks b zones t Ht) as (z & i & _ & Hti).
  by eapply buildZone_kinds.
Qed.

(** Where a task of [Build] comes from. *)
Lemma Build_tasks `{MapRange} (t : Task) :
  t ∈ fst (Build b) ->
  t ∈ [TVPC (vpcTask b)] ++ vpcExtraTasks b ++ publicTasks b
  \/ t ∈ fst (buildSubnets b (Subnets (Context_ b)) ∅)
  \/ exists info, snd (buildSubnets b (Subnets (Context_ b)) ∅) = inr info
                  /\ t ∈ fst (buildZones b (range info)).
Proof.
  unfold Build.
  destruct (buildSubnets b (Subnets (Context_ b)) ∅) as [tasks [err|info]].
  - cbn [fst snd]. rewrite elem_of_app. tauto.
  - destruct (buildZones b (range info)) as [tasks' r] eqn:Hz.
    cbn [fst snd]. rewrite !elem_of_app. intros [Ht | [Ht | Ht]]; auto.
    right. right. exists info. by rewrite Hz.
Qed.

(** X1: a route table association is only ever created for a subnet of the
    spec that is neither shared nor unmanaged; it points to the [Subnet] task
    of that subnet, which is not marked shared and carries no ID, and its
    route table is never nil. *)
Theorem Build_associations `{MapRange} (a : RouteTableAssociation.t) :
  TRouteTableAssociation a ∈ fst (Build b) ->
  is_Some (RouteTableAssociation.RouteTable a)
  /\ exists s,
       s ∈ Subnets (Context_ b)
       /\ ProviderID s = "" /\ Egress s <> EgressExternal
       /\ RouteTableAssociation.Subnet a = Some (subnetTask b s)
       /\ Subnet.Shared (subnetTask b s) = Some false
       /\ Subnet.ID (subnetTask b s) = None.
Proof.
  intros Ha. apply Build_tasks in Ha as [Ha | [Ha | (info & _ & Ha)]].
  - by apply early_kinds in Ha.
  - apply buildSubnets_kinds in Ha as (s & Hs & Hsh & Hun & Hsub & Hrt).
    assert (Hid : String.eqb (ProviderID s) "" = true).
    { unfold sharedSubnet in Hsh. by apply negb_false_iff in Hsh. }
    split.
    + destruct Hrt as [-> | Hrt]; [|done].
      unfold publicRouteTable.
      assert (allSubnetsUnmanaged b = false) as ->.
      { apply not_true_is_false. intros Hall.
        unfold allSubnetsUnmanaged in Hall. rewrite forallb_forall in Hall.
        rewrite Hall in Hun; [done|]. by apply list_elem_of_In. }
      assert (allSubnetsShared b = false) as ->.
      { apply not_true_is_false. intros Hall.
        unfold allSubnetsShared in Hall. rewrite forallb_forall in Hall.
        rewrite Hall in Hsh; [done|]. by apply list_elem_of_In. }
      by eexists.
    + exists s. split; [done|]. split; [by apply String.eqb_eq|].
      split; [by apply String.eqb_neq|]. split; [done|].
      unfold subnetTask, sharedSubnet, stringIfSet. simpl.
      by rewrite Hid.
  - by apply buildZones_kinds in Ha.
Qed.

(** X2: every route [Build] creates has exactly one target: the internet
    gateway for the two public routes, and for the route of a zone one of
    NAT gateway, instance and transit gateway. *)
Theorem Build_routes_one_target `{MapRange} (r : Route.t) :
  TRoute r ∈ fst (Build b) -> routeTargets r = 1.
Proof.
  intros Hr. apply Build_tasks in Hr as [Hr | [Hr | (info & _ & Hr)]].
  - by apply early_kinds in Hr as [? _].
  - by apply buildSubnets_kinds in Hr.
  - by apply buildZones_kinds in Hr.
Qed.

(** Lists without subnet tasks. *)
Lemma subnetTasksOf_none (l : list Task) :
  (forall t, t ∈ l -> match t with TSubnet _ => False | _ => True end) ->
  subnetTasksOf l = [].
Proof.
  induction l as [|t l IH]; intros Hl; [reflexivity|].
  pose proof (Hl t (list_elem_of_here _ _)) as Ht.
  assert (IH' : subnetTasksOf l = [])
    by (apply IH; intros t' Ht'; apply Hl; by right).
  unfold subnetTasksOf in *. by destruct t; simpl; rewrite ?IH'.
Qed.

Lemma subnetTasksOf_app (l1 l2 : list Task) :
  subnetTasksOf (l1 ++ l2) = subnetTasksOf l1 ++ subnetTasksOf l2.
Proof. apply omap_app. Qed.

Lemma subnetTasksOf_early :
  subnetTasksOf ([TVPC (vpcTask b)] ++ vpcExtraTasks b ++ publicTasks b) = [].
Proof.
  apply subnetTasksOf_none. intros t Ht. apply early_kinds in Ht.
  by destruct t.
Qed.

Lemma subnetTasksOf_zones (zones : list (string * zoneInfo)) :
  subnetTasksOf (fst (buildZones b zones)) = [].
Proof.
  apply subnetTasksOf_none. intros t Ht. apply buildZones_kinds in Ht.
  by destruct t.
Qed.

Lemma subnetRouting_subnetTasks (s : ClusterSubnetSpec)
    (infoByZone info : gmap string zoneInfo) (ts : list Task) :
  subnetRouting b s infoByZone = inr (ts, info) -> subnetTasksOf ts = [].
Proof.
  unfold subnetRouting. intros Hr.
  repeat match type of Hr with
         | (if ?x then _ else _) = _ => destruct x
         end; try discriminate; by injection Hr as <- _.
Qed.

(** When the subnet loop ends without an error it has added the [Subnet]
    task of every subnet, in the order of the spec. *)
Lemma buildSubnets_subnetTasks (subnets : list ClusterSubnetSpec) :
  forall (infoByZone info : gmap string zoneInfo) (tasks : list Task),
    buildSubnets b subnets infoByZone = (tasks, inr info) ->
    subnetTasksOf tasks = map (subnetTask b) subnets.
Proof.
  induction subnets as [|s rest IH]; intros infoByZone info tasks Hb.
  - simpl in Hb. by injection Hb as <- _.
  - simpl in Hb.
    destruct (subnetRouting b s infoByZone) as [err|[ts info']] eqn:Hr;
      [discriminate|].
    destruct (buildSubnets b rest info') as [tasks' r] eqn:Hrest.
    injection Hb as <- ->.
    pose proof (subnetRouting_subnetTasks _ _ _ _ Hr) as Hts.
    pose proof (IH _ _ _ Hrest) as IH'.
    unfold subnetTasksOf in *. simpl. rewrite omap_app, Hts. simpl.
    by f_equal.
Qed.

(** A subnet of a known type passes the [switch] of the subnet loop. *)
Lemma subnetRouting_known (s : ClusterSubnetSpec)
    (infoByZone : gmap string zoneInfo) :
  knownType s ->
  exists ts info, subnetRouting b s infoByZone = inr (ts, info).
Proof.
  unfold subnetRouting. intros [Ht | [Ht | Ht]]; rewrite Ht; simpl;
    destruct (negb (sharedSubnet s) && negb (isUnmanaged s)); eauto.
Qed.

Lemma subnetRouting_unknown (s : ClusterSubnetSpec)
    (infoByZone : gmap string zoneInfo) :
  ~ knownType s ->
  subnetRouting b s infoByZone
  = inl (Errorf "subnet %q has unknown type %q" [Name s; Type_ s] None).
Proof.
  unfold subnetRouting, knownType. intros Hk.
  destruct (String.eqb_spec (Type_ s) SubnetTypePublic); [tauto|].
  destruct (String.eqb_spec (Type_ s) SubnetTypeUtility); [tauto|].
  destruct (String.eqb_spec (Type_ s) SubnetTypePrivate); [tauto|].
  reflexivity.
Qed.

(** The subnet loop stops at the first subnet of unknown type. *)
Lemma buildSubnets_unknown (pre post : list ClusterSubnetSpec)
    (s : ClusterSubnetSpec) :
  (forall s', s' ∈ pre -> knownType s') ->
  ~ knownType s ->
  forall infoByZone : gmap string zoneInfo,
    exists tasks,
      buildSubnets b (pre ++ s :: post) infoByZone
      = (tasks,
         inl (Errorf "subnet %q has unknown type %q" [Name s; Type_ s] None))
      /\ subnetTasksOf tasks = map (subnetTask b) (pre ++ [s]).
Proof.
  intros Hpre Hs. induction pre as [|s0 pre IH]; intros infoByZone.
  - simpl. rewrite subnetRouting_unknown by done. eauto.
  - simpl.
    destruct (subnetRouting_known s0 infoByZone) as (ts & info' & Hr);
      [apply Hpre; left|].
    rewrite Hr.
    destruct (IH (fun s' Hs' => Hpre s' (list_elem_of_further _ _ _ Hs')) info')
      as (tasks & Hb & Hst).
    rewrite Hb. eexists. split; [reflexivity|].
    unfold subnetTasksOf in *. simpl. rewrite omap_app.
    pose proof (subnetRouting_subnetTasks _ _ _ _ Hr) as Hts.
    unfold subnetTasksOf in Hts. rewrite Hts. simpl. by f_equal.
Qed.

(** X3: when [Build] returns no error it has created one [Subnet] task for
    each subnet of the cluster spec, in the order of the spec, and no
    other. *)
Theorem Build_subnet_tasks `{MapRange} :
  snd (Build b) = None ->
  subnetTasksOf (fst (Build b)) = map (subnetTask b) (Subnets (Context_ b)).
Proof.
  unfold Build.
  destruct (buildSubnets b (Subnets (Context_ b)) ∅) as [tasks [err|info]]
    eqn:Hb; [discriminate|].
  pose proof (subnetTasksOf_zones (range info)) as Hz.
  destruct (buildZones b (range info)) as [tasks' r]. intros _.
  cbn [fst snd] in *.
  rewrite subnetTasksOf_app, subnetTasksOf_early, subnetTasksOf_app, Hz,
    app_nil_r.
  by eapply buildSubnets_subnetTasks.
Qed.

(** X4: [Build] stops at the first subnet whose type is none of Public,
    Utility and Private: it returns the error naming that subnet, after
    creating the [Subnet] tasks of the subnets up to and including it, none
    for the later ones, and no NAT gateway, elastic IP or instance. *)
Theorem Build_unknown_type `{MapRange} (pre post : list ClusterSubnetSpec)
    (s : ClusterSubnetSpec) :
  Subnets (Context_ b) = pre ++ s :: post ->
  (forall s', s' ∈ pre -> knownType s') ->
  ~ knownType s ->
  snd (Build b)
  = Some (Errorf "subnet %q has unknown type %q" [Name s; Type_ s] None)
  /\ subnetTasksOf (fst (Build b)) = map (subnetTask b) (pre ++ [s])
  /\ forall t, t ∈ fst (Build b) -> egressTask t = false.
Proof.
  intros Hsub Hpre Hs.
  destruct (buildSubnets_unknown pre post s Hpre Hs ∅) as (tasks & Hb & Hst).
  assert (Hk : forall t, t ∈ tasks -> egressTask t = false).
  { intros t Ht.
    pose proof (buildSubnets_kinds (pre ++ s :: post) ∅ t) as Hkind.
    rewrite Hb in Hkind. specialize (Hkind Ht). by destruct t. }
  unfold Build. rewrite Hsub, Hb. cbn [fst snd].
  split; [reflexivity|]. split.
  - by rewrite subnetTasksOf_app, subnetTasksOf_early.
  - intros t Ht. apply elem_of_app in Ht as [Ht | Ht]; [|by apply Hk].
    apply early_kinds in Ht. by destruct t.
Qed.

(** X5: in a shared VPC [Build] creates none of the tasks that change the
    VPC (IPv6 block, additional CIDR blocks, DHCP options and their
    association); the VPC task is marked shared and has no tags, no DNS
    hostnames flag, no IPv6 flag and no additional CIDR blocks; and no
    subnet task refers to the IPv6 block. *)
Theorem Build_shared_vpc `{MapRange} (t : Task) :
  SharedVPC (Context_ b) = true ->
  t ∈ fst (Build b) ->
  ownedVPCTask t = false
  /\ match t with
     | TVPC v =>
         VPC.Shared v = Some true /\ VPC.Tags v = ∅
         /\ VPC.EnableDNSHostnames v = None /\ VPC.AmazonIPv6 v = None
         /\ VPC.AssociateExtraCIDRBlocks v = []
     | TSubnet st => Subnet.AmazonIPv6CIDR st = None
     | _ => True
     end.
Proof.
  intros Hshared Ht.
  apply Build_tasks in Ht as [Ht | [Ht | (info & _ & Ht)]].
  - apply early_kinds in Ht. destruct t; try done; try congruence.
    subst. unfold vpcTask. rewrite Hshared. done.
  - apply buildSubnets_kinds in Ht. destruct t; try done.
    destruct Ht as (s & _ & ->). split; [done|].
    unfold subnetTask. simpl. rewrite Hshared.
    by rewrite andb_false_r.
  - apply buildZones_kinds in Ht. by destruct t.
Qed.

(** With every subnet unmanaged the subnet loop adds the [Subnet] tasks
    only and records no zone. *)
Lemma buildSubnets_unmanaged (subnets : list ClusterSubnetSpec) :
  (forall s, s ∈ subnets -> Egress s = EgressExternal) ->
  (forall s, s ∈ subnets -> knownType s) ->
  forall infoByZone : gmap string zoneInfo,
    buildSubnets b subnets infoByZone
    = (map (fun s => TSubnet (subnetTask b s)) subnets, inr infoByZone).
Proof.
  induction subnets as [|s rest IH]; intros Hext Hknown infoByZone;
    [reflexivity|].
  simpl.
  assert (Hr : subnetRouting b s infoByZone = inr ([], infoByZone)).
  { unfold subnetRouting, isUnmanaged.
    rewrite (Hext s) by left. rewrite String.eqb_refl, andb_false_r.
    destruct (Hknown s) as [Ht | [Ht | Ht]]; [left| | |]; by rewrite Ht. }
  rewrite Hr, IH; [reflexivity | |]; intros s' Hs'; [apply Hext | apply Hknown];
    by right.
Qed.

(** X6: when the egress of every subnet is External (and every subnet has a
    known type), [Build] succeeds and creates the VPC tasks and one
    [Subnet] task per subnet, and nothing else: no internet gateway, route
    table, route, association, NAT gateway or elastic IP. *)
Theorem Build_all_unmanaged `{MapRange} :
  (forall s, s ∈ Subnets (Context_ b) -> Egress s = EgressExternal) ->
  (forall s, s ∈ Subnets (Context_ b) -> knownType s) ->
  Build b
  = ([TVPC (vpcTask b)] ++ vpcExtraTasks b
     ++ map (fun s => TSubnet (subnetTask b s)) (Subnets (Context_ b)),
     None).
Proof.
  intros Hext Hknown. unfold Build.
  rewrite buildSubnets_unmanaged by done.
  assert (Hrange : range (∅ : gmap string zoneInfo) = []).
  { apply Permutation_nil_r. rewrite range_perm. by rewrite map_to_list_empty. }
  rewrite Hrange. simpl.
  assert (Hpub : publicTasks b = []).
  { unfold publicTasks.
    assert (allSubnetsUnmanaged b = true) as ->; [|reflexivity].
    apply forallb_forall. intros s Hs. unfold isUnmanaged.
    apply String.eqb_eq, Hext. by apply list_elem_of_In. }
  by rewrite Hpub, !app_nil_r.
Qed.

(** The zone map at the end of the subnet loop of [Build]. *)
Lemma Build_zone_map (tasks : list Task) (info : gmap string zoneInfo) :
  buildSubnets b (Subnets (Context_ b)) ∅ = (tasks, inr info) ->
  (forall z zi s, info !! z = Some zi ->
     s ∈ PrivateSubnets zi
     <-> s ∈ Subnets (Context_ b) /\ recordedPrivate s /\ Zone s = z)
  /\ (forall s, s ∈ Subnets (Context_ b) -> recordedPrivate s ->
        exists zi, info !! Zone s = Some zi).
Proof.
  intros Hb.
  assert (Hrec : forall z s, s ∈ recorded info z
            <-> s ∈ Subnets (Context_ b) /\ recordedPrivate s /\ Zone s = z).
  { intros z s.
    rewrite (buildSubnets_recorded b _ ∅ info tasks z s Hb).
    unfold recorded at 1. rewrite lookup_empty. simpl.
    rewrite elem_of_nil. tauto. }
  split.
  - intros z zi s Hzi. rewrite <- Hrec. unfold recorded. by rewrite Hzi.
  - intros s Hs Hp.
    assert (Hr : s ∈ recorded info (Zone s)) by (apply Hrec; auto).
    unfold recorded in Hr.
    destruct (info !! Zone s) as [zi|]; [by exists zi|].
    by apply elem_of_nil in Hr.
Qed.

(** The check against mixed values passes only when every subnet has the
    egress and the public IP compared with. *)
Lemma checkMixed_same (egress publicIP : string)
    (subnets : list ClusterSubnetSpec) (s : ClusterSubnetSpec) :
  checkMixed egress publicIP subnets = None ->
  s ∈ subnets -> Egress s = egress /\ PublicIP s = publicIP.
Proof.
  induction subnets as [|s0 l IH]; intros Hc Hs;
    [by apply elem_of_nil in Hs|].
  simpl in Hc.
  destruct (String.eqb_spec (Egress s0) egress); [|discriminate].
  destruct (String.eqb_spec (PublicIP s0) publicIP); [|discriminate].
  simpl in Hc. apply elem_of_cons in Hs as [-> | Hs]; [done | by apply IH].
Qed.

(** A round of the zone loop that returns no error for a zone with a
    managed subnet: the utility subnet was found, the egress block accepted
    the egress of that subnet, and the round added the egress tasks, the
    private route table and the private route. *)
Lemma buildZone_success (zone : string) (info : zoneInfo)
    (s : ClusterSubnetSpec) :
  s ∈ PrivateSubnets info ->
  isUnmanaged s = false ->
  snd (buildZone b zone info) = None ->
  exists u r,
    LinkToUtilitySubnetInZone (Context_ b) zone = inl u
    /\ (exists publicIP, buildEgress b zone (Egress s) publicIP u = inr r)
    /\ fst (buildZone b zone info)
       = egressTasks r ++ [TRouteTable (privateRouteTableTask b zone);
                           TRoute (privateRouteTask b zone r)].
Proof.
  intros Hs Hun. unfold buildZone.
  destruct (PrivateSubnets info) as [|first rest] eqn:Hps;
    [by apply elem_of_nil in Hs|].
  destruct (LinkToUtilitySubnetInZone (Context_ b) zone) as [u|err];
    [|discriminate].
  assert (forallb isUnmanaged (first :: rest) = false) as ->.
  { apply not_true_is_false. intros Hall. rewrite forallb_forall in Hall.
    rewrite Hall in Hun; [done|]. by apply list_elem_of_In. }
  destruct (checkMixed _ _ _) eqn:Hc; [discriminate|].
  destruct (checkMixed_same _ _ _ s Hc Hs) as [-> _].
  destruct (buildEgress b zone (Egress first) (PublicIP first) u)
    as [err|r] eqn:He; [discriminate|].
  intros _. exists u, r. eauto.
Qed.

(** A zone loop that returns no error has returned none in any round, and
    holds the tasks of every round. *)
Lemma buildZones_success (zones : list (string * zoneInfo)) (zone : string)
    (info : zoneInfo) :
  snd (buildZones b zones) = None ->
  (zone, info) ∈ zones ->
  snd (buildZone b zone info) = None
  /\ forall t, t ∈ fst (buildZone b zone info) ->
               t ∈ fst (buildZones b zones).
Proof.
  induction zones as [|[z i] rest IH]; intros Hnone Hin;
    [by apply elem_of_nil in Hin|].
  simpl in *.
  destruct (buildZone b z i) as [ts [e|]] eqn:Hz; [discriminate|].
  destruct (buildZones b rest) as [ts' r] eqn:Hrest. simpl in *.
  apply elem_of_cons in Hin as [[= -> ->] | Hin].
  - rewrite Hz. split; [done|]. intros t Ht. apply elem_of_app. by left.
  - destruct (IH Hnone Hin) as [Hn Hts]. split; [done|].
    intros t Ht. apply elem_of_app. right. by apply Hts.
Qed.

(** X7: when [Build] returns no error, the zones for which it has created a
    private route table (one tagged with the role private-ZONE) are exactly
    the zones of the private subnets that are neither shared nor
    unmanaged. *)
Theorem Build_private_route_tables `{MapRange} (zone : string) :
  snd (Build b) = None ->
  (exists rt, TRouteTable rt ∈ fst (Build b)
              /\ RouteTable.Tags rt !! TagNameKopsRole
                 = Some ("private-" +:+ zone))
  <-> (exists s, s ∈ Subnets (Context_ b) /\ recordedPrivate s
                 /\ Zone s = zone).
Proof.
  intros Hnone.
  assert (Hsplit : exists tasks info,
            buildSubnets b (Subnets (Context_ b)) ∅ = (tasks, inr info)
            /\ snd (buildZones b (range info)) = None
            /\ forall t, t ∈ fst (buildZones b (range info)) ->
                         t ∈ fst (Build b)).
  { unfold Build in *.
    destruct (buildSubnets b (Subnets (Context_ b)) ∅) as [tasks [err|info]];
      [discriminate|].
    exists tasks, info. destruct (buildZones b (range info)) as [tasks' r].
    cbn [fst snd] in *. split; [done|]. split; [done|].
    intros t Ht. rewrite !elem_of_app. auto. }
  destruct Hsplit as (tasks & info & Hb & Hzn & Hsub).
  destruct (Build_zone_map tasks info Hb) as [Hps Hzi].
  split.
  - intros (rt & Hrt & Htag).
    apply Build_tasks in Hrt as [Hrt | [Hrt | (info' & Hinfo & Hrt)]].
    + by apply (early_tasks b _ zone) in Hrt.
    + by apply (buildSubnets_tasks b _ _ _ zone) in Hrt.
    + rewrite Hb in Hinfo. injection Hinfo as <-.
      apply buildZones_tasks in Hrt as (z' & i' & Hin & Hti).
      assert (zone = z') as <- by by eapply buildZone_tasks.
      apply range_lookup in Hin.
      destruct (PrivateSubnets i') as [|first rest] eqn:Hp.
      { unfold buildZone in Hti. rewrite Hp in Hti.
        by apply elem_of_nil in Hti. }
      exists first. apply (Hps zone i' first Hin). rewrite Hp. left.
  - intros (s & Hs & Hrec & <-).
    destruct (Hzi s Hs Hrec) as [zi Hlook].
    assert (Hin : (Zone s, zi) ∈ range info) by by apply range_lookup.
    destruct (buildZones_success _ _ _ Hzn Hin) as [Hok Hts].
    destruct (buildZone_success (Zone s) zi s) as (u & r & _ & _ & Heq);
      [by apply (Hps (Zone s) zi s Hlook)
      | apply String.eqb_neq; apply Hrec | done |].
    exists (privateRouteTableTask b (Zone s)). split.
    + apply Hsub, Hts. rewrite Heq, elem_of_app. right. left.
    + unfold privateRouteTableTask. simpl. by rewrite lookup_insert_eq.
Qed.

(** X8: when [Build] returns no error and a private subnet that is not
    shared names an existing NAT gateway as its egress, the NAT gateway
    task of its zone is marked shared, carries that ID and no elastic IP,
    the private route of the zone goes through it, and no elastic IP is
    created for the zone. *)
Theorem Build_existing_nat_gateway `{MapRange} (s : ClusterSubnetSpec) :
  snd (Build b) = None ->
  s ∈ Subnets (Context_ b) ->
  recordedPrivate s ->
  String.prefix "nat-" (Egress s) = true ->
  (exists ngw r,
     TNatGateway ngw ∈ fst (Build b) /\ TRoute r ∈ fst (Build b)
     /\ NatGateway.Name ngw
        = Some (Zone s +:+ "." +:+ ClusterName (Context_ b))
     /\ NatGateway.ID ngw = Some (Egress s)
     /\ NatGateway.Shared ngw = Some true
     /\ NatGateway.ElasticIP ngw = None
     /\ Route.RouteTable r = Some (privateRouteTableTask b (Zone s))
     /\ Route.NatGateway r = Some ngw
     /\ routeTargets r = 1)
  /\ forall e, TElasticIP e ∈ fst (Build b) ->
       ElasticIP.Name e
       <> Some (Zone s +:+ "." +:+ ClusterName (Context_ b)).
Proof.
  intros Hnone Hs Hrec Hnat.
  assert (Hsplit : exists tasks info,
            buildSubnets b (Subnets (Context_ b)) ∅ = (tasks, inr info)
            /\ snd (buildZones b (range info)) = None
            /\ forall t, t ∈ fst (buildZones b (range info)) ->
                         t ∈ fst (Build b)).
  { unfold Build in *.
    destruct (buildSubnets b (Subnets (Context_ b)) ∅) as [tasks [err|info]];
      [discriminate|].
    exists tasks, info. destruct (buildZones b (range info)) as [tasks' r].
    cbn [fst snd] in *. split; [done|]. split; [done|].
    intros t Ht. rewrite !elem_of_app. auto. }
  destruct Hsplit as (tasks & info & Hb & Hzn & Hsub).
  destruct (Build_zone_map tasks info Hb) as [Hps Hzi].
  destruct (Hzi s Hs Hrec) as [zi Hlook].
  assert (Hin : (Zone s, zi) ∈ range info) by by apply range_lookup.
  destruct (buildZones_success _ _ _ Hzn Hin) as [Hok Hts].
  destruct (buildZone_success (Zone s) zi s) as (u & r & _ & [ip He] & Heq);
    [by apply (Hps (Zone s) zi s Hlook)
    | apply String.eqb_neq; apply Hrec | done |].
  assert (Hne : String.eqb (Egress s) "" = false).
  { destruct (Egress s); [discriminate | reflexivity]. }
  unfold buildEgress in He. rewrite Hne, Hnat in He. simpl in He.
  injection He as <-. simpl in Heq. split.
  - eexists _, _. split; [apply Hsub, Hts; rewrite Heq; left|].
    split; [apply Hsub, Hts; rewrite Heq; right; right; left|].
    simpl. repeat split; reflexivity.
  - intros e He Hname.
    assert (Hzt : zoneTaskOf b (Zone s) (TElasticIP e)) by exact Hname.
    apply Build_tasks in He as [He | [He | (info' & Hinfo & He)]].
    + by apply (early_tasks b _ (Zone s)) in He.
    + by apply (buildSubnets_tasks b _ _ _ (Zone s)) in He.
    + rewrite Hb in Hinfo. injection Hinfo as <-.
      apply buildZones_tasks in He as (z' & i' & Hin' & Hti).
      assert (Zone s = z') as <- by by eapply buildZone_tasks.
      apply range_lookup in Hin'. assert (i' = zi) as -> by congruence.
      rewrite Heq in Hti.
      repeat (apply elem_of_cons in Hti as [Hti | Hti]; [discriminate|]).
      by apply elem_of_nil in Hti.
Qed.

(** X9: [Build] fails when a private subnet that is neither shared nor
    unmanaged has an egress of a form the zone loop does not know (not
    empty, and none of nat-, eipalloc-, i-, tgw-); it then has created no NAT
    gateway, elastic IP, private route table or private route for the zone
    of that subnet. *)
Theorem Build_unsupported_egress `{MapRange} (s : ClusterSubnetSpec) :
  s ∈ Subnets (Context_ b) ->
  recordedPrivate s ->
  supportedEgress (Egress s) = false ->
  is_Some (snd (Build b))
  /\ forall t, t ∈ fst (Build b) -> ~ zoneTaskOf b (Zone s) t.
Proof.
  intros Hs Hrec Hsup.
  assert (Hzone : forall zi : zoneInfo,
            (forall s', s' ∈ PrivateSubnets zi <->
               s' ∈ Subnets (Context_ b) /\ recordedPrivate s'
               /\ Zone s' = Zone s) ->
            exists e, buildZone b (Zone s) zi = ([], Some e)).
  { intros zi Hps. unfold buildZone.
    assert (Hsin : s ∈ PrivateSubnets zi) by (apply Hps; auto).
    destruct (PrivateSubnets zi) as [|first rest] eqn:Hp;
      [by apply elem_of_nil in Hsin|].
    destruct (LinkToUtilitySubnetInZone (Context_ b) (Zone s)) as [u|err];
      [|by eexists].
    assert (forallb isUnmanaged (first :: rest) = false) as ->.
    { apply not_true_is_false. intros Hall. rewrite forallb_forall in Hall.
      specialize (Hall s). unfold isUnmanaged in Hall.
      rewrite String.eqb_eq in Hall. destruct Hrec as (_ & _ & Hne).
      apply Hne, Hall. by apply list_elem_of_In. }
    destruct (checkMixed _ _ _) eqn:Hc; [by eexists|].
    destruct (checkMixed_same _ _ _ s Hc Hsin) as [<- _].
    unfold supportedEgress in Hsup.
    apply orb_false_elim in Hsup as [Hsup H6].
    apply orb_false_elim in Hsup as [Hsup H5].
    apply orb_false_elim in Hsup as [Hsup H4].
    apply orb_false_elim in Hsup as [Hsup H3].
    apply orb_false_elim in Hsup as [H1 H2].
    unfold buildEgress. rewrite H1, H2, H3, H4, H5, H6. simpl.
    by eexists. }
  unfold Build.
  destruct (buildSubnets b (Subnets (Context_ b)) ∅)
    as [tasks [err|info]] eqn:Hb.
  - cbn [fst snd]. split; [by eexists|].
    intros t Ht. apply elem_of_app in Ht as [Ht | Ht].
    + by apply early_tasks.
    + apply (buildSubnets_tasks b (Subnets (Context_ b)) ∅). by rewrite Hb.
  - destruct (Build_zone_map tasks info Hb) as [Hps Hzi].
    destruct (Hzi s Hs Hrec) as [zi Hlook].
    destruct (Hzone zi (fun s' => Hps (Zone s) zi s' Hlook)) as [e Hze].
    destruct (buildZones_fails b (range info) (Zone s) zi) as [e' He'].
    { by apply range_lookup. }
    { rewrite Hze. by eexists. }
    destruct (buildZones b (range info)) as [tasks' r] eqn:Hzs.
    cbn [fst snd] in *. subst r. split; [by eexists|].
    intros t Ht. rewrite !elem_of_app in Ht.
    destruct Ht as [Ht | [Ht | Ht]].
    + apply early_tasks. by rewrite !elem_of_app.
    + apply (buildSubnets_tasks b (Subnets (Context_ b)) ∅). by rewrite Hb.
    + intros Hzt.
      destruct (buildZones_tasks b (range info) t) as (z' & i' & Hin & Hti);
        [by rewrite Hzs|].
      assert (Zone s = z') as <- by by eapply buildZone_tasks.
      apply range_lookup in Hin. assert (i' = zi) as -> by congruence.
      rewrite Hze in Hti. by apply elem_of_nil in Hti.
Qed.

End Build.

#[local] Existing Instance canonicalRange.

(** The association of the private subnet of the example cluster. *)
Lemma Build_associations_witness :
  let b := exampleBuilder [] in
  let a :=
    {| RouteTableAssociation.Name :=
         Some "private-us-test-1a.net.example.com";
       RouteTableAssociation.Lifecycle := "Sync";
       RouteTableAssociation.RouteTable :=
         Some (LinkToPrivateRouteTableInZone (Context_ b) "us-test-1a");
       RouteTableAssociation.Subnet := Some (subnetTask b privateSubnet) |} in
  TRouteTableAssociation a ∈ fst (Build b)
  /\ is_Some (RouteTableAssociation.RouteTable a)
  /\ exists s,
       s ∈ Subnets (Context_ b)
       /\ ProviderID s = "" /\ Egress s <> EgressExternal
       /\ RouteTableAssociation.Subnet a = Some (subnetTask b s)
       /\ Subnet.Shared (subnetTask b s) = Some false
       /\ Subnet.ID (subnetTask b s) = None.
Proof.
  intros b a.
  assert (Hin : TRouteTableAssociation a ∈ fst (Build b))
    by exact (list_elem_of_lookup_2 (fst (Build b)) 11
                (TRouteTableAssociation a) eq_refl).
  split; [exact Hin|].
  exact (Build_associations b a Hin).
Defined.

(** The IPv4 route of the public route table of the example cluster. *)
Lemma Build_routes_one_target_witness :
  let b := exampleBuilder [] in
  let r :=
    {| Route.Name := Some "0.0.0.0/0";
       Route.Lifecycle := "Sync";
       Route.CIDR := Some "0.0.0.0/0";
       Route.IPv6CIDR := None;
       Route.RouteTable := Some (publicRouteTableTask b);
       Route.InternetGateway := Some (igwTask b);
       Route.Instance := None;
       Route.NatGateway := None;
       Route.TransitGatewayID := None |} in
  TRoute r ∈ fst (Build b) /\ routeTargets r = 1.
Proof.
  intros b r.
  assert (Hin : TRoute r ∈ fst (Build b))
    by exact (list_elem_of_lookup_2 (fst (Build b)) 6 (TRoute r) eq_refl).
  split; [exact Hin|].
  exact (Build_routes_one_target b r Hin).
Defined.

(** The example cluster: [Build] returns no error. *)
Lemma Build_subnet_tasks_witness :
  snd (Build (exampleBuilder [])) = None
  /\ subnetTasksOf (fst (Build (exampleBuilder [])))
     = map (subnetTask (exampleBuilder []))
           (Subnets (Context_ (exampleBuilder []))).
Proof.
  assert (Hnone : snd (Build (exampleBuilder [])) = None)
    by (vm_compute; reflexivity).
  split; [exact Hnone|].
  exact (Build_subnet_tasks (exampleBuilder []) Hnone).
Defined.

(** The example cluster with [oddSubnet] before [natSubnet]. *)
Lemma Build_unknown_type_witness :
  let b := exampleBuilder [oddSubnet; natSubnet] in
  snd (Build b)
  = Some (Errorf "subnet %q has unknown type %q" ["odd"; "Isolated"] None)
  /\ subnetTasksOf (fst (Build b))
     = map (subnetTask b) [utilitySubnet; privateSubnet; oddSubnet]
  /\ forall t, t ∈ fst (Build b) -> egressTask t = false.
Proof.
  intros b.
  apply (Build_unknown_type b [utilitySubnet; privateSubnet] [natSubnet]
           oddSubnet).
  - reflexivity.
  - intros s' Hs'.
    repeat (apply elem_of_cons in Hs' as [-> | Hs']).
    + right. left. reflexivity.
    + right. right. reflexivity.
    + apply elem_of_nil in Hs'. destruct Hs'.
  - intros [Ht | [Ht | Ht]]; discriminate Ht.
Defined.

(** The example cluster in a shared VPC, and its VPC task. *)
Lemma Build_shared_vpc_witness :
  let b := exampleWith true [utilitySubnet; privateSubnet] in
  TVPC (vpcTask b) ∈ fst (Build b)
  /\ VPC.Shared (vpcTask b) = Some true /\ VPC.Tags (vpcTask b) = ∅
  /\ VPC.EnableDNSHostnames (vpcTask b) = None
  /\ VPC.AmazonIPv6 (vpcTask b) = None
  /\ VPC.AssociateExtraCIDRBlocks (vpcTask b) = [].
Proof.
  intros b.
  assert (Hin : TVPC (vpcTask b) ∈ fst (Build b))
    by exact (list_elem_of_lookup_2 (fst (Build b)) 0 (TVPC (vpcTask b))
                eq_refl).
  split; [exact Hin|].
  exact (proj2 (Build_shared_vpc b (TVPC (vpcTask b)) eq_refl Hin)).
Defined.

(** A cluster whose two subnets leave egress to the user. *)
Lemma Build_all_unmanaged_witness :
  let b := exampleWith false [externalUtility; externalPrivate] in
  Build b
  = ([TVPC (vpcTask b)] ++ vpcExtraTasks b
     ++ [TSubnet (subnetTask b externalUtility);
         TSubnet (subnetTask b externalPrivate)],
     None).
Proof.
  intros b. apply (Build_all_unmanaged b).
  - intros s Hs.
    repeat (apply elem_of_cons in Hs as [-> | Hs]); try reflexivity.
    apply elem_of_nil in Hs. destruct Hs.
  - intros s Hs.
    repeat (apply elem_of_cons in Hs as [-> | Hs]).
    + right. left. reflexivity.
    + right. right. reflexivity.
    + apply elem_of_nil in Hs. destruct Hs.
Defined.

(** The example cluster and its zone. *)
Lemma Build_private_route_tables_witness :
  let b := exampleBuilder [] in
  snd (Build b) = None
  /\ ((exists rt, TRouteTable rt ∈ fst (Build b)
                  /\ RouteTable.Tags rt !! TagNameKopsRole
                     = Some "private-us-test-1a")
      <-> (exists s, s ∈ Subnets (Context_ b) /\ recordedPrivate s
                     /\ Zone s = "us-test-1a")).
Proof.
  intros b.
  assert (Hnone : snd (Build b) = None) by (vm_compute; reflexivity).
  split; [exact Hnone|].
  exact (Build_private_route_tables b "us-test-1a" Hnone).
Defined.

(** A cluster whose private subnet goes through an existing NAT gateway. *)
Lemma Build_existing_nat_gateway_witness :
  let b := exampleWith false [utilitySubnet; natSubnet] in
  snd (Build b) = None
  /\ (exists ngw r,
        TNatGateway ngw ∈ fst (Build b) /\ TRoute r ∈ fst (Build b)
        /\ NatGateway.Name ngw = Some "us-test-1a.net.example.com"
        /\ NatGateway.ID ngw = Some "nat-0123456789"
        /\ NatGateway.Shared ngw = Some true
        /\ NatGateway.ElasticIP ngw = None
        /\ Route.RouteTable r = Some (privateRouteTableTask b "us-test-1a")
        /\ Route.NatGateway r = Some ngw
        /\ routeTargets r = 1)
  /\ forall e, TElasticIP e ∈ fst (Build b) ->
       ElasticIP.Name e <> Some "us-test-1a.net.example.com".
Proof.
  intros b.
  assert (Hnone : snd (Build b) = None) by (vm_compute; reflexivity).
  split; [exact Hnone|].
  apply (Build_existing_nat_gateway b natSubnet Hnone).
  - right. left.
  - repeat split. discriminate.
  - reflexivity.
Defined.

(** A cluster whose private subnet names a VPC endpoint as its egress. *)
Lemma Build_unsupported_egress_witness :
  let b := exampleWith false [utilitySubnet; endpointSubnet] in
  is_Some (snd (Build b))
  /\ forall t, t ∈ fst (Build b) -> ~ zoneTaskOf b "us-test-1a" t.
Proof.
  intros b. apply (Build_unsupported_egress b endpointSubnet).
  - right. left.
  - repeat split. discriminate.
  - reflexivity.
Defined.

End AwsModelMore.

Module IamPoliciesFacts.
Import Go Iam IamPolicies IamPoliciesViews.

(** *** Prefixes *)

Lemma prefix_refl (s : string) : String.prefix s s = true.
Proof.
  induction s as [|a s IH]; [reflexivity|].
  simpl. destruct (ascii_dec a a); [exact IH | congruence].
Qed.

Lemma prefix_nil (s : string) : String.prefix "" s = true.
Proof. by destruct s. Qed.

Lemma prefix_cons (a1 a2 : ascii) (s1 s2 : string) :
  String.prefix (String a1 s1) (String a2 s2) = true
  <-> a1 = a2 /\ String.prefix s1 s2 = true.
Proof.
  simpl. destruct (ascii_dec a1 a2); split; try tauto; discriminate.
Qed.

Lemma prefix_trans (s1 s2 s3 : string) :
  String.prefix s1 s2 = true -> String.prefix s2 s3 = true ->
  String.prefix s1 s3 = true.
Proof.
  revert s2 s3. induction s1 as [|a1 s1 IH]; intros s2 s3 H12 H23;
    [apply prefix_nil|].
  destruct s2 as [|a2 s2]; [discriminate|].
  destruct s3 as [|a3 s3]; [discriminate|].
  apply prefix_cons in H12 as [-> H12]. apply prefix_cons in H23 as [-> H23].
  apply prefix_cons. split; [reflexivity|]. by eapply IH.
Qed.

Lemma prefix_length (s1 s2 : string) :
  String.prefix s1 s2 = true -> String.length s1 <= String.length s2.
Proof.
  revert s2. induction s1 as [|a1 s1 IH]; intros s2 H12; simpl; [lia|].
  destruct s2 as [|a2 s2]; [discriminate|].
  apply prefix_cons in H12 as [_ H12]. apply IH in H12. simpl. lia.
Qed.

Lemma prefix_same_length (s1 s2 : string) :
  String.prefix s1 s2 = true -> String.length s1 = String.length s2 ->
  s1 = s2.
Proof.
  revert s2. induction s1 as [|a1 s1 IH]; intros s2 H12 Hlen.
  - destruct s2; [reflexivity | discriminate].
  - destruct s2 as [|a2 s2]; [discriminate|].
    apply prefix_cons in H12 as [-> H12]. f_equal. apply IH; [done|].
    simpl in Hlen. lia.
Qed.

Lemma prefix_app (s t : string) : String.prefix s (s +:+ t) = true.
Proof.
  induction s as [|a s IH]; [apply prefix_nil|].
  change (String a s +:+ t) with (String a (s +:+ t)).
  apply prefix_cons. done.
Qed.

Lemma substring_all (s : string) :
  String.substring 0 (String.length s) s = s.
Proof. induction s as [|a s IH]; simpl; [reflexivity | by rewrite IH]. Qed.

(** [strings.TrimPrefix] takes off a prefix that was put on. *)
Lemma TrimPrefix_app (pre s : string) : TrimPrefix (pre +:+ s) pre = s.
Proof.
  unfold TrimPrefix. rewrite prefix_app.
  rewrite StringFacts.length_append.
  replace (String.length pre + String.length s - String.length pre)
    with (String.length s) by lia.
  induction pre as [|a pre IH]; [apply substring_all|].
  change (String a pre +:+ s) with (String a (pre +:+ s)). simpl. exact IH.
Qed.

(** [strings.TrimPrefix] leaves a string without the prefix as it is. *)
Lemma TrimPrefix_none (pre s : string) :
  String.prefix pre s = false -> TrimPrefix s pre = s.
Proof. unfold TrimPrefix. by intros ->. Qed.

(** *** The roots of [AddS3Permissions] *)

(** A root is a location that has no other location as a prefix. *)
Lemma rootsOf_spec (locations : list string) (l : string) :
  l ∈ rootsOf locations
  <-> exists i,
        locations !! i = Some l
        /\ forall j lj, locations !! j = Some lj -> j <> i ->
                        String.prefix lj l = false.
Proof.
  unfold rootsOf. rewrite list_elem_of_omap. split.
  - intros ([i l'] & Hin & Hroot). simpl in Hroot.
    destruct (isTopLevel locations i l') eqn:Htop; [|discriminate].
    injection Hroot as ->.
    apply elem_of_lookup_imap in Hin as (i' & y & [= -> ->] & Hi).
    exists i'. split; [done|]. intros j lj Hj Hne.
    unfold isTopLevel in Htop. rewrite forallb_forall in Htop.
    specialize (Htop (j, lj)). simpl in Htop.
    assert (Hjl : In (j, lj) (imap (fun j lj => (j, lj)) locations)).
    { apply list_elem_of_In. by apply (elem_of_lookup_imap_2 (fun j lj => (j, lj))). }
    specialize (Htop Hjl). apply orb_true_iff in Htop as [Heq | Hp].
    + apply Nat.eqb_eq in Heq. congruence.
    + by apply negb_true_iff in Hp.
  - intros (i & Hi & Hroot). exists (i, l). split.
    + by apply (elem_of_lookup_imap_2 (fun i l => (i, l))).
    + simpl. assert (isTopLevel locations i l = true) as ->; [|done].
      unfold isTopLevel. apply forallb_forall. intros [j lj] Hin. simpl.
      apply list_elem_of_In, elem_of_lookup_imap in Hin
        as (j' & y & [= -> ->] & Hj).
      destruct (Nat.eqb_spec i j') as [|Hne]; [done|]. simpl.
      apply negb_true_iff. apply (Hroot j' y Hj). congruence.
Qed.

Lemma isTopLevel_false (locations : list string) (i : nat) (l : string) :
  isTopLevel locations i l = false ->
  exists j lj, locations !! j = Some lj /\ j <> i
               /\ String.prefix lj l = true.
Proof.
  unfold isTopLevel. intros Hf.
  assert (Hex : exists x, x ∈ imap (fun j lj => (j, lj)) locations
              /\ ((i =? fst x)%nat || negb (String.prefix (snd x) l)) = false).
  { induction (imap (fun j lj => (j, lj)) locations) as [|x xs IH];
      [discriminate|].
    simpl in Hf. apply andb_false_iff in Hf as [Hx | Hxs].
    - exists x. split; [left | done].
    - destruct (IH Hxs) as (y & Hy & Hfy). exists y. split; [by right | done]. }
  destruct Hex as ([j lj] & Hin & Hx). simpl in Hx.
  apply orb_false_iff in Hx as [Hne Hp].
  apply elem_of_lookup_imap in Hin as (j' & y & [= -> ->] & Hj).
  exists j', y. split; [done|]. split.
  - apply Nat.eqb_neq in Hne. congruence.
  - by apply negb_false_iff in Hp.
Qed.

Lemma rootsOf_top (locations : list string) (i : nat) (l : string) :
  locations !! i = Some l -> isTopLevel locations i l = true ->
  l ∈ rootsOf locations.
Proof.
  intros Hi Htop. unfold rootsOf. apply list_elem_of_omap.
  exists (i, l). split.
  - by apply (elem_of_lookup_imap_2 (fun i l => (i, l))).
  - simpl. by rewrite Htop.
Qed.

Lemma elem_of_sort_Strings (l : list string) (x : string) :
  x ∈ sort_Strings l <-> x ∈ l.
Proof. unfold sort_Strings. by rewrite merge_sort_Permutation. Qed.

(** X10: the roots cover the locations.  When the locations are pairwise
    different, every location has a root that is a prefix of it, so the
    statements for the roots reach every store. *)
Theorem roots_cover (locations : list string) (l : string) :
  NoDup locations ->
  l ∈ locations ->
  exists r, r ∈ sort_Strings (rootsOf locations)
            /\ String.prefix r l = true.
Proof.
  intros Hnd Hl.
  assert (Hn : forall n l, String.length l <= n -> l ∈ locations ->
            exists r, r ∈ rootsOf locations /\ String.prefix r l = true).
  { clear l Hl. induction n as [|n IH]; intros l Hlen Hl;
      apply list_elem_of_lookup in Hl as [i Hi];
      destruct (isTopLevel locations i l) eqn:Htop;
      try (exists l; split; [by eapply rootsOf_top | apply prefix_refl]);
      apply isTopLevel_false in Htop as (j & lj & Hj & Hne & Hp);
      pose proof (prefix_length _ _ Hp) as Hle;
      assert (Hlt : String.length lj <> String.length l)
        by (intros Heq; apply prefix_same_length in Hp; [|done]; subst lj;
            apply Hne; by eapply NoDup_lookup).
    - lia.
    - destruct (IH lj) as (r & Hr & Hpr); [lia | by eapply list_elem_of_lookup_2 |].
      exists r. split; [done|]. by eapply prefix_trans. }
  destruct (Hn (String.length l) l (le_n _) Hl) as (r & Hr & Hp).
  exists r. split; [by apply elem_of_sort_Strings | done].
Qed.

(** X11: the roots are independent and in order: after [sort.Strings]
    they are sorted, and none is a prefix of another. *)
Theorem roots_independent (locations : list string) :
  let roots := sort_Strings (rootsOf locations) in
  StronglySorted String.le roots
  /\ forall r1 r2, r1 ∈ roots -> r2 ∈ roots ->
       String.prefix r1 r2 = true -> r1 = r2.
Proof.
  split.
  - apply StronglySorted_merge_sort; apply _.
  - intros r1 r2 H1 H2 Hp.
    apply elem_of_sort_Strings, rootsOf_spec in H1 as (i1 & Hi1 & _).
    apply elem_of_sort_Strings, rootsOf_spec in H2 as (i2 & Hi2 & Hroot2).
    destruct (decide (i1 = i2)) as [->|Hne]; [congruence|].
    rewrite (Hroot2 i1 r1 Hi1 Hne) in Hp. discriminate.
Qed.

(** X12: a location that occurs twice is no root: each occurrence has
    the other as a parent.  Two stores that differ only in a trailing
    slash are such a pair. *)
Theorem duplicate_location_dropped (locations : list string) (i j : nat)
    (l : string) :
  locations !! i = Some l ->
  locations !! j = Some l ->
  i <> j ->
  l ∉ sort_Strings (rootsOf locations).
Proof.
  intros Hi Hj Hne Hin.
  apply elem_of_sort_Strings, rootsOf_spec in Hin as (k & Hk & Hroot).
  destruct (decide (i = k)) as [->|Hik].
  - pose proof (Hroot j l Hj ltac:(congruence)) as Hp.
    rewrite prefix_refl in Hp. discriminate.
  - pose proof (Hroot i l Hi Hik) as Hp. rewrite prefix_refl in Hp.
    discriminate.
Qed.

(** The key store below the config store, and the secret store given as
    the config store without its slash. *)
Lemma roots_cover_witness :
  exists r,
    r ∈ sort_Strings
          (rootsOf (locationsOf ["s3://state/c.example.com/pki";
                                 "s3://state/c.example.com/secrets";
                                 "s3://state/c.example.com"]))
    /\ String.prefix r "s3://state/c.example.com/pki/" = true.
Proof.
  apply (roots_cover
           (locationsOf ["s3://state/c.example.com/pki";
                         "s3://state/c.example.com/secrets";
                         "s3://state/c.example.com"])).
  - apply (bool_decide_unpack _). vm_compute. exact I.
  - left.
Defined.

Lemma duplicate_location_dropped_witness :
  "s3://state/c.example.com/"
    ∉ sort_Strings
        (rootsOf (locationsOf ["s3://state/c.example.com/";
                               "";
                               "s3://state/c.example.com"])).
Proof.
  apply (duplicate_location_dropped _ 0 1); [reflexivity | reflexivity | lia].
Defined.

(** *** The paths a role reads and writes *)

(** Membership in a list that is written out. *)
#[local] Ltac notin_list H :=
  repeat (apply elem_of_cons in H as [H | H]; [discriminate H|]);
  apply elem_of_nil in H; destruct H.

#[local] Ltac in_list := repeat first [ left | right ].

(** X13: what a node reads of the state store.  It never reads the whole
    store; it reads private keys exactly when nodes are not bootstrapped
    by kops-controller, and then the key of the kubelet or, with bootstrap
    tokens, that of the node authorizer client, never both. *)
Theorem ReadableStatePaths_node `{Externals} (cluster : Cluster)
    (spec : ClusterSpec) (hooks : bool) :
  let paths := fst (ReadableStatePaths cluster spec (NodeRoleNode hooks)) in
  snd (ReadableStatePaths cluster spec (NodeRoleNode hooks)) = None
  /\ ("/*" ∉ paths)
  /\ ((exists p, p ∈ paths /\ String.prefix "/pki/private/" p = true)
      <-> UseKopsControllerForNodeBootstrap cluster spec = false)
  /\ ("/pki/private/kubelet/*" ∈ paths
      <-> UseKopsControllerForNodeBootstrap cluster spec = false
          /\ useBootstrapTokens spec = false)
  /\ ("/pki/private/node-authorizer-client/*" ∈ paths
      <-> UseKopsControllerForNodeBootstrap cluster spec = false
          /\ useBootstrapTokens spec = true).
Proof.
  unfold ReadableStatePaths.
  destruct (UseKopsControllerForNodeBootstrap cluster spec);
    destruct (useBootstrapTokens spec);
    destruct (Networking spec) as [[calico [kr|] vpc [cilium|] lyft]|];
    destruct (UseCiliumEtcd cluster spec);
    cbn [negb fst snd app Kuberouter Cilium];
    repeat split;
    first
      [ reflexivity
      | discriminate
      | solve [intros Hin; notin_list Hin]
      | solve [match goal with Hin : _ ∈ _ |- _ => notin_list Hin end]
      | solve [intros; split; reflexivity]
      | solve [intros; reflexivity]
      | solve [intros [? ?]; discriminate]
      | solve [intros ?; discriminate]
      | solve [intros; in_list]
      | solve [intros; eexists; split; [do 5 right; left | reflexivity]]
      | solve [intros (p & Hin & Hp);
               repeat (apply elem_of_cons in Hin as [-> | Hin];
                       [discriminate Hp|]);
               apply elem_of_nil in Hin; destruct Hin] ].
Qed.

(** The loop of [WriteableVFSPaths]: the stores it has parsed, one by
    one, each once. *)
Lemma backupPaths_stores `{Externals} (backups : list (option EtcdBackupSpec)) :
  forall (seen : gset string) (paths : list VfsPath),
    backupPaths backups seen = inr paths ->
    exists stores,
      Forall2 (fun s p => BuildVfsPath s = inr p) stores paths
      /\ NoDup stores
      /\ forall s, s ∈ stores
           <-> (s ∉ seen) /\ s <> "" /\ Some (mkEtcdBackup s) ∈ backups.
Proof.
  induction backups as [|c rest IH]; intros seen paths Hb.
  - injection Hb as <-. exists []. split; [constructor|].
    split; [constructor|]. intros s. rewrite !elem_of_nil. tauto.
  - simpl in Hb. destruct c as [[s0]|].
    + cbn [BackupStore] in Hb.
      destruct (String.eqb_spec s0 "") as [Hempty|Hne]; simpl in Hb.
      { destruct (IH _ _ Hb) as (stores & Hf & Hnd & Hin).
        exists stores. split; [done|]. split; [done|]. intros s.
        rewrite Hin, elem_of_cons. split; [tauto|].
        intros (? & ? & [[= ->] | ?]); tauto. }
      destruct (bool_decide_reflect (s0 ∈ seen)) as [Hseen|Hnew].
      { destruct (IH _ _ Hb) as (stores & Hf & Hnd & Hin).
        exists stores. split; [done|]. split; [done|]. intros s.
        rewrite Hin, elem_of_cons. split; [tauto|].
        intros (? & ? & [[= ->] | ?]); tauto. }
      destruct (BuildVfsPath s0) as [err|v] eqn:Hv; [discriminate|].
      destruct (backupPaths rest (seen ∪ {[s0]})) as [err|paths'] eqn:Hrest;
        [discriminate|].
      injection Hb as <-.
      destruct (IH _ _ Hrest) as (stores & Hf & Hnd & Hin).
      exists (s0 :: stores). split; [by constructor|]. split.
      * constructor; [|done]. rewrite Hin. intros (Hnin & _).
        apply Hnin, elem_of_union. right. by apply elem_of_singleton.
      * intros s. rewrite !elem_of_cons, Hin.
        destruct (decide (s = s0)) as [->|Hs]; [tauto|].
        rewrite elem_of_union, elem_of_singleton. split.
        -- intros [? | (Hnin & ? & ?)]; [done|]. tauto.
        -- intros (? & ? & [[= ?] | ?]); [done|]. right. tauto.
    + destruct (IH _ _ Hb) as (stores & Hf & Hnd & Hin).
      exists stores. split; [done|]. split; [done|]. intros s.
      rewrite Hin, elem_of_cons. split; [tauto|].
      intros (? & ? & [? | ?]); [discriminate | tauto].
Qed.

(** X14: only a master writes to the state store, and what it writes to
    are the backup stores of the etcd clusters: each store that is set, once
    however many etcd clusters name it, parsed by [BuildVfsPath]. *)
Theorem WriteableVFSPaths_stores `{Externals} (spec : ClusterSpec)
    (role : NodeRole) (paths : list VfsPath) :
  WriteableVFSPaths spec role = inr paths ->
  exists stores,
    Forall2 (fun s p => BuildVfsPath s = inr p) stores paths
    /\ NoDup stores
    /\ forall s, s ∈ stores
         <-> role = NodeRoleMaster /\ s <> ""
             /\ Some (mkEtcdBackup s) ∈ EtcdBackups spec.
Proof.
  intros Hw. unfold WriteableVFSPaths in Hw.
  destruct role;
    try (injection Hw as <-; exists []; split; [constructor|];
         split; [constructor|]; intros s; rewrite elem_of_nil;
         split; [tauto | intros [? _]; discriminate]).
  destruct (backupPaths_stores _ _ _ Hw) as (stores & Hf & Hnd & Hin).
  exists stores. split; [done|]. split; [done|]. intros s.
  rewrite Hin, elem_of_empty. tauto.
Qed.

(** *** The permissions of the DNS controller *)

(** X15: [AddDNSControllerPermissions] takes the hosted zone with or
    without the prefixes [/] and [hostedzone/]: all four forms give the
    policy of the bare id, which has three more statements, the first on
    that zone alone. *)
Theorem AddDNSControllerPermissions_prefix `{SOS : StringOrSlice.Ops}
    `{Externals} {S : Type} (b : PolicyBuilder S) (p : Policy)
    (zone : string) :
  zone <> "" ->
  String.prefix "/" zone = false ->
  String.prefix "hostedzone/" zone = false ->
  let bare := AddDNSControllerPermissions (withHostedZoneID b zone) p in
  AddDNSControllerPermissions (withHostedZoneID b ("/" +:+ zone)) p = bare
  /\ AddDNSControllerPermissions
       (withHostedZoneID b ("hostedzone/" +:+ zone)) p = bare
  /\ AddDNSControllerPermissions
       (withHostedZoneID b ("/hostedzone/" +:+ zone)) p = bare
  /\ Statement_ bare
     = Statement_ p
       ++ [allow (StringOrSlice.Of ["route53:ChangeResourceRecordSets";
                                    "route53:ListResourceRecordSets";
                                    "route53:GetHostedZone"])
                 (StringOrSlice.Slice
                    [IAMPrefix b +:+ ":route53:::hostedzone/" +:+ zone])
                 ∅;
           allow (StringOrSlice.Slice ["route53:GetChange"])
                 (StringOrSlice.Slice [IAMPrefix b +:+ ":route53:::change/*"])
                 ∅;
           allow (StringOrSlice.Slice ["route53:ListHostedZones"])
                 (StringOrSlice.Slice ["*"]) ∅].
Proof.
  intros Hne Hslash Hzone.
  assert (Hbare : forall id,
            id <> "" ->
            TrimPrefix (TrimPrefix id "/") "hostedzone/" = zone ->
            AddDNSControllerPermissions (withHostedZoneID b id) p
            = appendStatement
                (appendStatement
                   (appendStatement p
                      (allow (StringOrSlice.Of
                                ["route53:ChangeResourceRecordSets";
                                 "route53:ListResourceRecordSets";
                                 "route53:GetHostedZone"])
                         (StringOrSlice.Slice
                            [IAMPrefix b +:+ ":route53:::hostedzone/"
                             +:+ zone])
                         ∅))
                   (allow (StringOrSlice.Slice ["route53:GetChange"])
                      (StringOrSlice.Slice
                         [IAMPrefix b +:+ ":route53:::change/*"])
                      ∅))
                (allow (StringOrSlice.Slice ["route53:ListHostedZones"])
                   (StringOrSlice.Slice ["*"]) ∅)).
  { intros id Hid Htrim. unfold AddDNSControllerPermissions.
    cbn [withHostedZoneID HostedZoneID].
    destruct (String.eqb_spec id ""); [done|]. by rewrite Htrim. }
  assert (H0 : TrimPrefix (TrimPrefix zone "/") "hostedzone/" = zone)
    by (by rewrite (TrimPrefix_none "/" zone Hslash),
              (TrimPrefix_none "hostedzone/" zone Hzone)).
  assert (H1 : TrimPrefix (TrimPrefix ("/" +:+ zone) "/") "hostedzone/" = zone)
    by (by rewrite TrimPrefix_app, (TrimPrefix_none "hostedzone/" zone Hzone)).
  assert (H2 : TrimPrefix (TrimPrefix ("hostedzone/" +:+ zone) "/")
                 "hostedzone/" = zone)
    by (rewrite (TrimPrefix_none "/" ("hostedzone/" +:+ zone) eq_refl);
        apply TrimPrefix_app).
  assert (H3 : TrimPrefix (TrimPrefix ("/hostedzone/" +:+ zone) "/")
                 "hostedzone/" = zone).
  { change ("/hostedzone/" +:+ zone) with ("/" +:+ ("hostedzone/" +:+ zone)).
    by rewrite !TrimPrefix_app. }
  assert (N1 : "/" +:+ zone <> "")
    by (change ("/" +:+ zone) with (String "/" zone); discriminate).
  assert (N2 : "hostedzone/" +:+ zone <> "")
    by (change ("hostedzone/" +:+ zone)
          with (String "h" ("ostedzone/" +:+ zone)); discriminate).
  assert (N3 : "/hostedzone/" +:+ zone <> "")
    by (change ("/hostedzone/" +:+ zone)
          with (String "/" ("hostedzone/" +:+ zone)); discriminate).
  cbv zeta.
  rewrite (Hbare _ Hne H0), (Hbare _ N1 H1), (Hbare _ N2 H2),
    (Hbare _ N3 H3).
  repeat split. unfold appendStatement. cbn [Statement_].
  by rewrite <- !app_assoc.
Qed.

(** *** Policies only grow *)

#[local] Ltac split5 := split; [|split; [|split; [|split]]].

(** Conditions written with strings. *)
Lemma encodable_empty : encodable ∅.
Proof. intros k v Hkv. by rewrite lookup_empty in Hkv. Qed.

Lemma encodable_singleton (k : string) (v : Json.value) :
  Json.unsupported v = None -> encodable {[ k := v ]}.
Proof.
  intros Hv k' v' Hkv. by apply lookup_singleton_Some in Hkv as [_ <-].
Qed.

(** A statement literal of the builder is sound. *)
#[local] Ltac sound_statement :=
  split;
  [ reflexivity
  | unfold allow, stringEquals; cbn [Condition];
    first [ apply encodable_empty
          | apply encodable_singleton; reflexivity ] ].

Section Growth.
Context `{SOS : StringOrSlice.Ops}.

Lemma appends_refl (p : Policy) : appends p p.
Proof.
  split5; try reflexivity.
  exists []. split; [by rewrite app_nil_r | constructor].
Qed.

Lemma appends_trans (p q r : Policy) :
  appends p q -> appends q r -> appends p r.
Proof.
  intros (Hn1 & Hv1 & Hu1 & Ht1 & a1 & Hs1 & Ha1)
         (Hn2 & Hv2 & Hu2 & Ht2 & a2 & Hs2 & Ha2).
  split5; try congruence.
  exists (a1 ++ a2). split.
  - by rewrite Hs2, Hs1, app_assoc.
  - by apply Forall_app.
Qed.

Lemma appends_appendStatement (p : Policy) (s : Statement) :
  sound s -> appends p (appendStatement p s).
Proof.
  intros Hs. split5; try reflexivity. exists [s]. split; [reflexivity|].
  constructor; [exact Hs | constructor].
Qed.

Lemma appends_extends (p q : Policy) : appends p q -> extends p q.
Proof.
  intros (Hn & Hv & Hu & Ht & Hs). split5; try done.
  - by rewrite Hu.
  - by rewrite Ht.
Qed.

Lemma ext_refl (p : Policy) : extends p p.
Proof. apply appends_extends, appends_refl. Qed.

Lemma ext_trans (p q r : Policy) :
  extends p q -> extends q r -> extends p r.
Proof.
  intros (Hn1 & Hv1 & Hu1 & Ht1 & a1 & Hs1 & Ha1)
         (Hn2 & Hv2 & Hu2 & Ht2 & a2 & Hs2 & Ha2).
  split5; try congruence; try (by etrans).
  exists (a1 ++ a2). split.
  - by rewrite Hs2, Hs1, app_assoc.
  - by apply Forall_app.
Qed.

Lemma ext_insertUnconditional (p : Policy) (l : list string) :
  extends p (insertUnconditional p l).
Proof.
  split5; try reflexivity; cbn.
  - apply union_subseteq_l.
  - exists []. split; [by rewrite app_nil_r | constructor].
Qed.

Lemma ext_insertClusterTagged (p : Policy) (l : list string) :
  extends p (insertClusterTagged p l).
Proof.
  split5; try reflexivity; cbn.
  - apply union_subseteq_l.
  - exists []. split; [by rewrite app_nil_r | constructor].
Qed.

Lemma ext_appendStatement (p : Policy) (s : Statement) :
  sound s -> extends p (appendStatement p s).
Proof. intros Hs. by apply appends_extends, appends_appendStatement. Qed.

Lemma ext_when (c : bool) (f : Policy -> Policy) (p : Policy) :
  (forall p, extends p (f p)) -> extends p (when c f p).
Proof. intros Hf. destruct c; [apply Hf | apply ext_refl]. Qed.

Lemma in_insertUnconditional (p : Policy) (l : list string) (a : string) :
  a ∈ l -> a ∈ unconditionalAction (insertUnconditional p l).
Proof.
  intros Ha. unfold insertUnconditional. cbn [unconditionalAction].
  apply elem_of_union. right. by apply elem_of_list_to_set.
Qed.

Lemma in_insertClusterTagged (p : Policy) (l : list string) (a : string) :
  a ∈ l -> a ∈ clusterTaggedAction (insertClusterTagged p l).
Proof.
  intros Ha. unfold insertClusterTagged. cbn [clusterTaggedAction].
  apply elem_of_union. right. by apply elem_of_list_to_set.
Qed.

Lemma ext_unconditional (p q : Policy) (a : string) :
  extends p q -> a ∈ unconditionalAction p -> a ∈ unconditionalAction q.
Proof. intros (_ & _ & Hu & _) Ha. by apply Hu. Qed.

Lemma ext_tagged (p q : Policy) (a : string) :
  extends p q -> a ∈ clusterTaggedAction p -> a ∈ clusterTaggedAction q.
Proof. intros (_ & _ & _ & Ht & _) Ha. by apply Ht. Qed.

Lemma ext_statement (p q : Policy) (s : Statement) :
  extends p q -> s ∈ Statement_ p -> s ∈ Statement_ q.
Proof.
  intros (_ & _ & _ & _ & added & -> & _) Hs. apply elem_of_app. by left.
Qed.

Lemma ext_statements (p q : Policy) :
  extends p q -> exists after, Statement_ q = Statement_ p ++ after.
Proof. intros (_ & _ & _ & _ & added & -> & _). by exists added. Qed.

Lemma ext_allows (p q : Policy) :
  extends p q -> Forall allows (Statement_ p) -> Forall allows (Statement_ q).
Proof.
  intros (_ & _ & _ & _ & added & -> & Ha) Hp. apply Forall_app.
  split; [exact Hp|]. eapply Forall_impl; [exact Ha|]. by intros s [Hs _].
Qed.

Lemma ext_encodable (p q : Policy) :
  extends p q ->
  Forall (fun s => encodable (Condition s)) (Statement_ p) ->
  Forall (fun s => encodable (Condition s)) (Statement_ q).
Proof.
  intros (_ & _ & _ & _ & added & -> & Ha) Hp. apply Forall_app.
  split; [exact Hp|]. eapply Forall_impl; [exact Ha|]. by intros s [_ Hs].
Qed.

End Growth.

(** A chain of insertions and appended statements. *)
#[local] Ltac steps :=
  repeat first
    [ apply ext_refl
    | eapply ext_trans;
      [| first [ apply ext_insertUnconditional
               | apply ext_insertClusterTagged
               | apply ext_appendStatement; sound_statement ] ] ].

Section Steps.
Context `{SOS : StringOrSlice.Ops}.

Lemma ext_addECRPermissions p : extends p (addECRPermissions p).
Proof. unfold addECRPermissions. steps. Qed.

Lemma ext_addCalicoSrcDstCheckPermissions p :
  extends p (addCalicoSrcDstCheckPermissions p).
Proof. unfold addCalicoSrcDstCheckPermissions. steps. Qed.

Lemma ext_AddAWSLoadbalancerControllerPermissions p :
  extends p (AddAWSLoadbalancerControllerPermissions p).
Proof. unfold AddAWSLoadbalancerControllerPermissions. cbv zeta. steps. Qed.

Lemma ext_AddClusterAutoscalerPermissions p :
  extends p (AddClusterAutoscalerPermissions p).
Proof. unfold AddClusterAutoscalerPermissions. cbv zeta. steps. Qed.

Lemma ext_addSnapshotPersmissions p : extends p (addSnapshotPersmissions p).
Proof. unfold addSnapshotPersmissions. cbv zeta. steps. Qed.

Lemma ext_AddAWSEBSCSIDriverPermissions p esc :
  extends p (AddAWSEBSCSIDriverPermissions p esc).
Proof.
  unfold AddAWSEBSCSIDriverPermissions. cbv zeta.
  destruct esc; steps; apply ext_addSnapshotPersmissions.
Qed.

Lemma ext_AddDNSControllerPermissions `{Externals} {S : Type}
    (b : PolicyBuilder S) p :
  extends p (AddDNSControllerPermissions b p).
Proof.
  unfold AddDNSControllerPermissions. cbv zeta.
  destruct (String.eqb (HostedZoneID b) ""); steps.
Qed.

(** With a hosted zone, [AddDNSControllerPermissions] appends three
    statements. *)
Lemma AddDNSControllerPermissions_statements `{Externals} {S : Type}
    (b : PolicyBuilder S) p :
  HostedZoneID b <> "" ->
  Statement_ (AddDNSControllerPermissions b p)
  = Statement_ p
    ++ [allow (StringOrSlice.Of ["route53:ChangeResourceRecordSets";
                                 "route53:ListResourceRecordSets";
                                 "route53:GetHostedZone"])
              (StringOrSlice.Slice
                 [IAMPrefix b +:+ ":route53:::hostedzone/"
                  +:+ TrimPrefix (TrimPrefix (HostedZoneID b) "/")
                                 "hostedzone/"])
              ∅;
        allow (StringOrSlice.Slice ["route53:GetChange"])
              (StringOrSlice.Slice [IAMPrefix b +:+ ":route53:::change/*"])
              ∅;
        allow (StringOrSlice.Slice ["route53:ListHostedZones"])
              (StringOrSlice.Slice ["*"]) ∅].
Proof.
  intros Hz. unfold AddDNSControllerPermissions.
  destruct (String.eqb_spec (HostedZoneID b) ""); [done|].
  cbv zeta. unfold appendStatement. cbn [Statement_].
  by rewrite <- !app_assoc.
Qed.

Lemma ext_addKMSIAMPolicies p r : extends p (addKMSIAMPolicies p r).
Proof. unfold addKMSIAMPolicies. steps. Qed.

Lemma ext_addKMSGenerateRandomPolicies p :
  extends p (addKMSGenerateRandomPolicies p).
Proof. unfold addKMSGenerateRandomPolicies. steps. Qed.

Lemma ext_addNodeEC2Policies p : extends p (addNodeEC2Policies p).
Proof. unfold addNodeEC2Policies. steps. Qed.

Lemma ext_AddMasterEC2Policies p : extends p (AddMasterEC2Policies p).
Proof. unfold AddMasterEC2Policies. cbv zeta. steps. Qed.

Lemma ext_AddMasterELBPolicies p : extends p (AddMasterELBPolicies p).
Proof. unfold AddMasterELBPolicies. steps. Qed.

Lemma ext_addMasterASPolicies p : extends p (addMasterASPolicies p).
Proof. unfold addMasterASPolicies. cbv zeta. steps. Qed.

Lemma ext_addASLifecyclePolicies p hooks :
  extends p (addASLifecyclePolicies p hooks).
Proof. unfold addASLifecyclePolicies. cbv zeta. destruct hooks; steps. Qed.

Lemma ext_addCertIAMPolicies p : extends p (addCertIAMPolicies p).
Proof. unfold addCertIAMPolicies. steps. Qed.

Lemma ext_addLyftVPCPermissions p : extends p (addLyftVPCPermissions p).
Proof. unfold addLyftVPCPermissions. steps. Qed.

Lemma ext_addCiliumEniPermissions p : extends p (addCiliumEniPermissions p).
Proof. unfold addCiliumEniPermissions. steps. Qed.

Lemma ext_addAmazonVPCCNIPermissions p iamPrefix :
  extends p (addAmazonVPCCNIPermissions p iamPrefix).
Proof. unfold addAmazonVPCCNIPermissions. cbv zeta. steps. Qed.

Lemma ext_addNodeTerminationHandlerSQSPermissions p :
  extends p (addNodeTerminationHandlerSQSPermissions p).
Proof. unfold addNodeTerminationHandlerSQSPermissions. steps. Qed.

End Steps.

(** A chain of the steps of a role, peeled from the outside. *)
#[local] Ltac chain :=
  lazymatch goal with
  | |- extends ?p ?q =>
      first
        [ constr_eq p q; apply ext_refl
        | lazymatch q with
          | addECRPermissions ?x =>
              apply (ext_trans p x); [chain | apply ext_addECRPermissions]
          | addCalicoSrcDstCheckPermissions ?x =>
              apply (ext_trans p x);
              [chain | apply ext_addCalicoSrcDstCheckPermissions]
          | AddAWSLoadbalancerControllerPermissions ?x =>
              apply (ext_trans p x);
              [chain | apply ext_AddAWSLoadbalancerControllerPermissions]
          | AddClusterAutoscalerPermissions ?x =>
              apply (ext_trans p x);
              [chain | apply ext_AddClusterAutoscalerPermissions]
          | addSnapshotPersmissions ?x =>
              apply (ext_trans p x); [chain | apply ext_addSnapshotPersmissions]
          | AddAWSEBSCSIDriverPermissions ?x _ =>
              apply (ext_trans p x);
              [chain | apply ext_AddAWSEBSCSIDriverPermissions]
          | AddDNSControllerPermissions _ ?x =>
              apply (ext_trans p x);
              [chain | apply ext_AddDNSControllerPermissions]
          | addKMSIAMPolicies ?x _ =>
              apply (ext_trans p x); [chain | apply ext_addKMSIAMPolicies]
          | addKMSGenerateRandomPolicies ?x =>
              apply (ext_trans p x);
              [chain | apply ext_addKMSGenerateRandomPolicies]
          | addNodeEC2Policies ?x =>
              apply (ext_trans p x); [chain | apply ext_addNodeEC2Policies]
          | AddMasterEC2Policies ?x =>
              apply (ext_trans p x); [chain | apply ext_AddMasterEC2Policies]
          | AddMasterELBPolicies ?x =>
              apply (ext_trans p x); [chain | apply ext_AddMasterELBPolicies]
          | addMasterASPolicies ?x =>
              apply (ext_trans p x); [chain | apply ext_addMasterASPolicies]
          | addASLifecyclePolicies ?x _ =>
              apply (ext_trans p x); [chain | apply ext_addASLifecyclePolicies]
          | addCertIAMPolicies ?x =>
              apply (ext_trans p x); [chain | apply ext_addCertIAMPolicies]
          | addLyftVPCPermissions ?x =>
              apply (ext_trans p x); [chain | apply ext_addLyftVPCPermissions]
          | addCiliumEniPermissions ?x =>
              apply (ext_trans p x); [chain | apply ext_addCiliumEniPermissions]
          | addAmazonVPCCNIPermissions ?x _ =>
              apply (ext_trans p x);
              [chain | apply ext_addAmazonVPCCNIPermissions]
          | addNodeTerminationHandlerSQSPermissions ?x =>
              apply (ext_trans p x);
              [chain | apply ext_addNodeTerminationHandlerSQSPermissions]
          | when _ _ ?x =>
              apply (ext_trans p x);
              [chain | apply ext_when; intros; cbv beta zeta; chain]
          end ]
  end.

(** *** The S3 statements *)

Lemma appends_buildS3GetStatements `{SOS : StringOrSlice.Ops}
    (iamPrefix : string)
    (readable : list string * option error) (p : Policy) (path : string) :
  appends p (snd (buildS3GetStatements iamPrefix readable p path)).
Proof.
  unfold buildS3GetStatements. destruct readable as [resources [e|]];
    [apply appends_refl|].
  destruct (negb (length resources =? 0)%nat); [|apply appends_refl].
  apply appends_appendStatement. split; [reflexivity | apply encodable_empty].
Qed.

Section S3.
Context `{SOS : StringOrSlice.Ops} `{Externals} (spec : ClusterSpec)
        (b : PolicyBuilder NodeRole).

Lemma appends_getStatements (p : Policy) (path : string) :
  appends p (snd (getStatements spec b p path)).
Proof. apply appends_buildS3GetStatements. Qed.

Lemma appends_readStatements (roots : list string) :
  forall (p q : Policy) (buckets buckets' : gset string),
    readStatements spec b roots p buckets = inr (q, buckets') ->
    appends p q.
Proof.
  induction roots as [|root rest IH]; intros p q buckets buckets' Hr.
  - injection Hr as <- _. apply appends_refl.
  - simpl in Hr. destruct (BuildVfsPath root) as [err|[bucket key|loc|path| |]];
      try discriminate.
    + pose proof (appends_getStatements p (TrimSuffix (bucket +:+ "/" +:+ key) "/"))
        as Hg.
      destruct (getStatements spec b p _) as [[e|] p']; [discriminate|].
      eapply appends_trans; [exact Hg | by eapply IH].
    + eapply appends_trans; [apply appends_getStatements | by eapply IH].
    + eapply appends_trans; [apply appends_getStatements | by eapply IH].
    + by eapply IH.
Qed.

Lemma appends_writeStatements (paths : list VfsPath) :
  forall (p q : Policy) (buckets buckets' : gset string),
    writeStatements b paths p buckets = inr (q, buckets') ->
    appends p q.
Proof.
  induction paths as [|path rest IH]; intros p q buckets buckets' Hw.
  - injection Hw as <- _. apply appends_refl.
  - simpl in Hw. destruct path; try discriminate;
      (eapply appends_trans; [|by eapply IH]);
      apply appends_appendStatement; sound_statement.
Qed.

Lemma appends_buckets (buckets : list string) :
  forall p : Policy,
    appends p (foldl (fun p s3Bucket =>
                        appendStatement p (bucketStatement b s3Bucket))
                     p buckets).
Proof.
  induction buckets as [|bucket rest IH]; intros p; [apply appends_refl|].
  simpl. eapply appends_trans; [|apply IH].
  apply appends_appendStatement. unfold bucketStatement. sound_statement.
Qed.

(** [AddS3Permissions] appends statements that allow, and changes nothing
    else of the policy. *)
Lemma appends_AddS3Permissions (p q : Policy) :
  AddS3Permissions spec b p = inr q -> appends p q.
Proof.
  unfold AddS3Permissions. cbv zeta.
  destruct (readStatements spec b _ p ∅) as [err|[p1 b1]] eqn:Hr;
    [discriminate|].
  destruct (WriteableVFSPaths spec (Role b)) as [err|paths]; [discriminate|].
  destruct (writeStatements b paths p1 b1) as [err|[p2 b2]] eqn:Hw;
    [discriminate|].
  intros [= <-].
  eapply appends_trans; [by eapply appends_readStatements|].
  eapply appends_trans; [by eapply appends_writeStatements|].
  apply appends_buckets.
Qed.

(** The policy of a role extends the empty policy of the cluster. *)
Lemma role_extends (r : NodeRole) (p : Policy) :
  NodeRole_BuildAWSPolicy spec r b = (Some p, None) ->
  extends (NewPolicy (match r with
                      | NodeRoleMaster => Cluster_GetName (Cluster_ b)
                      | _ => Cluster_GetClusterName (Cluster_ b)
                      end)) p.
Proof.
  destruct r as [warmPool| |hooks|]; simpl;
    [unfold NodeRoleAPIServer_BuildAWSPolicy
    |unfold NodeRoleMaster_BuildAWSPolicy
    |unfold NodeRoleNode_BuildAWSPolicy
    |unfold NodeRoleBastion_BuildAWSPolicy]; cbv zeta.
  4: { intros [= <-]. split5; try reflexivity; cbn.
       - apply union_subseteq_l.
       - exists []. split; [reflexivity | constructor]. }
  all: match goal with
       | |- context [AddS3Permissions spec b ?p0] =>
           destruct (AddS3Permissions spec b p0) as [err|q] eqn:Hs3;
             [discriminate|];
           apply appends_AddS3Permissions, appends_extends in Hs3
       end;
    intros [= <-];
    (apply (ext_trans _ q); [eapply ext_trans; [|exact Hs3] |]); chain.
Qed.

End S3.

(** *** What [AsJSON] appends *)

Section Documents.
Context `{SOS : StringOrSlice.Ops}.

(** One call of [AsJSON] appends the statements of the two action sets
    and leaves the rest of the policy as it is. *)
Lemma AsJSON_statements (p : Policy) :
  Statement_ (snd (AsJSON p)) = Statement_ p ++ actionStatements p
  /\ unconditionalAction (snd (AsJSON p)) = unconditionalAction p
  /\ clusterTaggedAction (snd (AsJSON p)) = clusterTaggedAction p
  /\ clusterName (snd (AsJSON p)) = clusterName p.
Proof.
  unfold AsJSON, actionStatements. cbv zeta.
  destruct (0 <? size (unconditionalAction p))%nat;
    cbn [clusterTaggedAction appendStatement clusterName];
    destruct (0 <? size (clusterTaggedAction p))%nat;
    match goal with |- context [json_MarshalIndent_Policy ?q] =>
      destruct (json_MarshalIndent_Policy q) as [? [?|]] end;
    cbn [snd Statement_ appendStatement unconditionalAction
         clusterTaggedAction clusterName];
    rewrite <- ?app_assoc, ?app_nil_r; done.
Qed.

Lemma actionStatements_allow (p : Policy) :
  Forall allows (actionStatements p).
Proof.
  unfold actionStatements.
  destruct (0 <? size (unconditionalAction p))%nat;
    destruct (0 <? size (clusterTaggedAction p))%nat;
    by repeat constructor.
Qed.

Lemma actionStatements_same (p q : Policy) :
  unconditionalAction q = unconditionalAction p ->
  clusterTaggedAction q = clusterTaggedAction p ->
  clusterName q = clusterName p ->
  actionStatements q = actionStatements p.
Proof. unfold actionStatements. by intros -> -> ->. Qed.

(** X16: [AsJSON] is not idempotent, and by how much: called [n] times
    on a policy, it leaves the statements of the policy followed by [n]
    copies of the statements of the two action sets. *)
Theorem AsJSON_times_statements (n : nat) (p : Policy) :
  Statement_ (AsJSON_times n p)
  = Statement_ p ++ concat (replicate n (actionStatements p)).
Proof.
  assert (Hn : Statement_ (AsJSON_times n p)
               = Statement_ p ++ concat (replicate n (actionStatements p))
               /\ unconditionalAction (AsJSON_times n p)
                  = unconditionalAction p
               /\ clusterTaggedAction (AsJSON_times n p)
                  = clusterTaggedAction p
               /\ clusterName (AsJSON_times n p) = clusterName p).
  { induction n as [|n (IHs & IHu & IHt & IHn)].
    - simpl. by rewrite app_nil_r.
    - cbn [AsJSON_times].
      destruct (AsJSON_statements (AsJSON_times n p)) as (Hs & Hu & Ht & Hc).
      rewrite Hs, Hu, Ht, Hc, IHs.
      rewrite (actionStatements_same p (AsJSON_times n p)) by done.
      repeat split; try done.
      rewrite <- app_assoc. f_equal.
      change (S n) with (1 + n).
      rewrite <- (Nat.add_comm n 1), replicate_add, concat_app. simpl.
      by rewrite app_nil_r. }
  apply Hn.
Qed.

End Documents.

(** *** The policies of the roles *)

Section Roles.
Context `{SOS : StringOrSlice.Ops} `{Externals} (spec : ClusterSpec).

(** What [PolicyBuilder.BuildAWSPolicy] hands to the role: the builder
    with the KMS keys of the etcd members appended. *)
Lemma BuildAWSPolicy_role (b : PolicyBuilder NodeRole)
    (r : option Policy * option error) :
  fst (BuildAWSPolicy (H := nodeRoleSubject spec) b) = r ->
  (exists e, r = (None, Some e))
  \/ NodeRole_BuildAWSPolicy spec (Role b)
       (withKMSKeys b (KMSKeys b ++ kmsKeysOf (Cluster_ b)))
     = r /\ snd r = None.
Proof.
  unfold BuildAWSPolicy. cbn [Role Subject_BuildAWSPolicy nodeRoleSubject].
  unfold withKMSKeys.
  destruct (NodeRole_BuildAWSPolicy spec (Role b) _) as [p' [e|]];
    intros <-; [left; by eexists | right; done].
Qed.

Lemma BuildAWSPolicy_role_ok (b : PolicyBuilder NodeRole) (p : Policy) :
  fst (BuildAWSPolicy (H := nodeRoleSubject spec) b) = (Some p, None) ->
  NodeRole_BuildAWSPolicy spec (Role b)
    (withKMSKeys b (KMSKeys b ++ kmsKeysOf (Cluster_ b)))
  = (Some p, None).
Proof.
  intros Hb. apply BuildAWSPolicy_role in Hb as [[e [=]] | [Hb _]]. exact Hb.
Qed.

(** X17: a policy built for a node role never denies.  It is named
    after the cluster, by [GetName()] for a master and by [GetClusterName()]
    for the three other roles, and has the default version; each of its
    statements allows, and so does each statement of the document [AsJSON]
    makes of it. *)
Theorem BuildAWSPolicy_allows (b : PolicyBuilder NodeRole) (p : Policy) :
  fst (BuildAWSPolicy (H := nodeRoleSubject spec) b) = (Some p, None) ->
  clusterName p = match Role b with
                  | NodeRoleMaster => Cluster_GetName (Cluster_ b)
                  | NodeRoleAPIServer _ | NodeRoleNode _ | NodeRoleBastion =>
                      Cluster_GetClusterName (Cluster_ b)
                  end
  /\ Version p = PolicyDefaultVersion
  /\ Forall allows (Statement_ p)
  /\ Forall allows (Statement_ (snd (AsJSON p))).
Proof.
  intros Hb. apply BuildAWSPolicy_role_ok, role_extends in Hb.
  destruct Hb as (Hn & Hv & _ & _ & added & Hs & Ha).
  cbn in Hn, Hv, Hs. subst added.
  assert (Hallow : Forall allows (Statement_ p)).
  { eapply Forall_impl; [exact Ha|]. by intros s [Hs _]. }
  split; [done|]. split; [done|]. split; [done|].
  destruct (AsJSON_statements p) as (-> & _).
  apply Forall_app. split; [done | apply actionStatements_allow].
Qed.

(** X18: every node role may call [ec2:DescribeRegions], which is what
    finding the state store needs: the action is among the unconditional
    actions of every policy built. *)
Theorem BuildAWSPolicy_DescribeRegions (b : PolicyBuilder NodeRole)
    (p : Policy) :
  fst (BuildAWSPolicy (H := nodeRoleSubject spec) b) = (Some p, None) ->
  "ec2:DescribeRegions" ∈ unconditionalAction p.
Proof.
  intros Hb. apply BuildAWSPolicy_role_ok in Hb.
  remember (withKMSKeys b (KMSKeys b ++ kmsKeysOf (Cluster_ b))) as b'
    eqn:Hb'.
  clear Hb'.
  destruct (Role b) as [warmPool| |hooks|]; simpl in Hb;
    [unfold NodeRoleAPIServer_BuildAWSPolicy in Hb
    |unfold NodeRoleMaster_BuildAWSPolicy in Hb
    |unfold NodeRoleNode_BuildAWSPolicy in Hb
    |unfold NodeRoleBastion_BuildAWSPolicy in Hb]; cbv zeta in Hb.
  4: { injection Hb as <-. cbn. apply elem_of_union. right.
       by apply elem_of_singleton. }
  all: match type of Hb with
       | context [AddS3Permissions spec ?b0 ?p0] =>
           destruct (AddS3Permissions spec b0 p0) as [err|q] eqn:Hs3;
             [discriminate|];
           apply appends_AddS3Permissions, appends_extends in Hs3
       end;
    injection Hb as <-;
    (apply (ext_unconditional q); [chain|]);
    (eapply ext_unconditional; [exact Hs3|]).
  1: apply (ext_unconditional
              (AddMasterEC2Policies
                 (NewPolicy (Cluster_GetClusterName (Cluster_ b')))));
     [chain|].
  2: apply (ext_unconditional
              (AddMasterEC2Policies (NewPolicy (Cluster_GetName (Cluster_ b')))));
     [chain|].
  3: apply (ext_unconditional
              (addNodeEC2Policies
                 (NewPolicy (Cluster_GetClusterName (Cluster_ b')))));
     [chain|].
  1, 2: unfold AddMasterEC2Policies; cbv zeta;
        eapply ext_unconditional; [apply ext_insertClusterTagged|].
  all: apply in_insertUnconditional; in_list.
Qed.

End Roles.

(** *** The cluster-tagged actions *)

Section Tagged.
Context `{SOS : StringOrSlice.Ops}.

Lemma tagged_insertClusterTagged (p : Policy) (l : list string) (a : string) :
  a ∈ clusterTaggedAction (insertClusterTagged p l)
  <-> a ∈ clusterTaggedAction p \/ a ∈ l.
Proof.
  unfold insertClusterTagged. cbn [clusterTaggedAction].
  by rewrite elem_of_union, elem_of_list_to_set.
Qed.

Lemma tagged_insertUnconditional (p : Policy) (l : list string) :
  clusterTaggedAction (insertUnconditional p l) = clusterTaggedAction p.
Proof. reflexivity. Qed.

Lemma tagged_NewPolicy (name a : string) :
  a ∉ clusterTaggedAction (NewPolicy name).
Proof. unfold NewPolicy. cbn [clusterTaggedAction]. apply not_elem_of_empty. Qed.

Lemma tagged_when (c : bool) (f : Policy -> Policy) (p : Policy) :
  clusterTaggedAction (when c f p)
  = if c then clusterTaggedAction (f p) else clusterTaggedAction p.
Proof. by destruct c. Qed.

Lemma tagged_when_keep (c : bool) (f : Policy -> Policy) (p : Policy) :
  (forall p, clusterTaggedAction (f p) = clusterTaggedAction p) ->
  clusterTaggedAction (when c f p) = clusterTaggedAction p.
Proof. intros Hf. destruct c; [apply Hf | reflexivity]. Qed.

Lemma tagged_AddDNSControllerPermissions `{Externals} {S : Type}
    (b : PolicyBuilder S) (p : Policy) :
  clusterTaggedAction (AddDNSControllerPermissions b p)
  = clusterTaggedAction p.
Proof.
  unfold AddDNSControllerPermissions.
  by destruct (String.eqb (HostedZoneID b) "").
Qed.

Lemma tagged_addASLifecyclePolicies (p : Policy) (hooks : bool) :
  clusterTaggedAction (addASLifecyclePolicies p hooks)
  = if hooks
    then clusterTaggedAction p
         ∪ list_to_set ["autoscaling:CompleteLifecycleAction"]
    else clusterTaggedAction p.
Proof. by destruct hooks. Qed.

(** The steps that leave the cluster-tagged actions as they are. *)
Lemma keep_addECRPermissions p :
  clusterTaggedAction (addECRPermissions p) = clusterTaggedAction p.
Proof. reflexivity. Qed.

Lemma keep_addCalicoSrcDstCheckPermissions p :
  clusterTaggedAction (addCalicoSrcDstCheckPermissions p)
  = clusterTaggedAction p.
Proof. reflexivity. Qed.

Lemma keep_addKMSIAMPolicies r p :
  clusterTaggedAction (addKMSIAMPolicies p r) = clusterTaggedAction p.
Proof. reflexivity. Qed.

Lemma keep_addLyftVPCPermissions p :
  clusterTaggedAction (addLyftVPCPermissions p) = clusterTaggedAction p.
Proof. reflexivity. Qed.

Lemma keep_addCiliumEniPermissions p :
  clusterTaggedAction (addCiliumEniPermissions p) = clusterTaggedAction p.
Proof. reflexivity. Qed.

Lemma keep_addAmazonVPCCNIPermissions iamPrefix p :
  clusterTaggedAction (addAmazonVPCCNIPermissions p iamPrefix)
  = clusterTaggedAction p.
Proof. reflexivity. Qed.

Lemma keep_addNodeTerminationHandlerSQSPermissions p :
  clusterTaggedAction (addNodeTerminationHandlerSQSPermissions p)
  = clusterTaggedAction p.
Proof. reflexivity. Qed.

End Tagged.

(** The steps after [AddS3Permissions] that keep the cluster-tagged
    actions, taken off. *)
#[local] Ltac keep_tagged :=
  repeat first
    [ rewrite (tagged_when_keep _ _ _ keep_addECRPermissions)
    | rewrite (tagged_when_keep _ _ _ keep_addCalicoSrcDstCheckPermissions)
    | rewrite (tagged_when_keep _ _ _ keep_addLyftVPCPermissions)
    | rewrite (tagged_when_keep _ _ _ keep_addCiliumEniPermissions)
    | rewrite (tagged_when_keep _ _ _
                 keep_addNodeTerminationHandlerSQSPermissions)
    | rewrite (tagged_when_keep _ _ _ (keep_addAmazonVPCCNIPermissions _))
    | rewrite (tagged_when_keep _ _ _ (keep_addKMSIAMPolicies _))
    | rewrite tagged_AddDNSControllerPermissions ].

Section RolesTagged.
Context `{SOS : StringOrSlice.Ops} `{Externals} (spec : ClusterSpec).

(** X19: a master's policy holds the permissions of the EBS CSI driver
    and of the cluster autoscaler exactly when the cluster does not use
    service accounts for them; the permissions of the DNS controller are in
    it either way: when a hosted zone is set, the three statements of
    [AddDNSControllerPermissions] follow one another among the statements
    of the policy, the first on the records of that zone alone, the second
    on the changes, the third on the list of the zones. *)
Theorem master_service_account_iam (b : PolicyBuilder NodeRole)
    (p : Policy) :
  Role b = NodeRoleMaster ->
  fst (BuildAWSPolicy (H := nodeRoleSubject spec) b) = (Some p, None) ->
  ("ec2:ModifyVolume" ∈ clusterTaggedAction p
   <-> UseServiceAccountIAM b = false)
  /\ ("autoscaling:SetDesiredCapacity" ∈ clusterTaggedAction p
      <-> UseServiceAccountIAM b = false)
  /\ (HostedZoneID b <> "" ->
      exists before after,
        Statement_ p
        = before
          ++ [allow (StringOrSlice.Of ["route53:ChangeResourceRecordSets";
                                       "route53:ListResourceRecordSets";
                                       "route53:GetHostedZone"])
                    (StringOrSlice.Slice
                       [IAMPrefix b +:+ ":route53:::hostedzone/"
                        +:+ TrimPrefix (TrimPrefix (HostedZoneID b) "/")
                                       "hostedzone/"])
                    ∅;
              allow (StringOrSlice.Slice ["route53:GetChange"])
                    (StringOrSlice.Slice
                       [IAMPrefix b +:+ ":route53:::change/*"])
                    ∅;
              allow (StringOrSlice.Slice ["route53:ListHostedZones"])
                    (StringOrSlice.Slice ["*"]) ∅]
          ++ after).
Proof.
  intros Hrole Hb. apply BuildAWSPolicy_role_ok in Hb. rewrite Hrole in Hb.
  remember (withKMSKeys b (KMSKeys b ++ kmsKeysOf (Cluster_ b))) as b'
    eqn:Hb'.
  assert (Hsa : UseServiceAccountIAM b' = UseServiceAccountIAM b)
    by (by subst b').
  assert (Hzone : HostedZoneID b' = HostedZoneID b) by (by subst b').
  assert (Hprefix : IAMPrefix b' = IAMPrefix b) by (by subst b').
  clear Hb'. rewrite <- Hsa, <- Hzone, <- Hprefix.
  clear Hsa Hzone Hprefix Hrole.
  simpl in Hb. unfold NodeRoleMaster_BuildAWSPolicy in Hb. cbv zeta in Hb.
  match type of Hb with
  | context [AddS3Permissions spec ?b0 ?p0] =>
      destruct (AddS3Permissions spec b0 p0) as [err|q] eqn:Hs3;
        [discriminate|];
      apply appends_AddS3Permissions in Hs3
  end.
  injection Hb as <-.
  assert (Hq : forall a,
            a ∈ clusterTaggedAction q ->
            a ∈ ["ec2:AttachVolume"; "ec2:AuthorizeSecurityGroupIngress";
                 "ec2:CreateRoute"; "ec2:DeleteRoute";
                 "ec2:DeleteSecurityGroup"; "ec2:RevokeSecurityGroupIngress";
                 "autoscaling:CompleteLifecycleAction";
                 "autoscaling:DescribeAutoScalingInstances";
                 "ec2:DeleteSnapshot"]).
  { intros a. destruct Hs3 as (_ & _ & _ & -> & _).
    unfold addKMSGenerateRandomPolicies, addCertIAMPolicies,
      AddMasterELBPolicies, addMasterASPolicies, addASLifecyclePolicies,
      AddMasterEC2Policies.
    cbv zeta.
    repeat first [ rewrite tagged_insertUnconditional
                 | rewrite tagged_insertClusterTagged ].
    intros [[[Hin | Hin] | Hin] | Hin].
    - by apply tagged_NewPolicy in Hin.
    - repeat (apply elem_of_cons in Hin as [-> | Hin]; [in_list|]).
      apply elem_of_nil in Hin. destruct Hin.
    - repeat (apply elem_of_cons in Hin as [-> | Hin]; [in_list|]).
      apply elem_of_nil in Hin. destruct Hin.
    - repeat (apply elem_of_cons in Hin as [-> | Hin]; [in_list|]).
      apply elem_of_nil in Hin. destruct Hin. }
  clear Hs3.
  assert (Hnot : forall a,
            a ∉ ["ec2:AttachVolume"; "ec2:AuthorizeSecurityGroupIngress";
                 "ec2:CreateRoute"; "ec2:DeleteRoute";
                 "ec2:DeleteSecurityGroup"; "ec2:RevokeSecurityGroupIngress";
                 "autoscaling:CompleteLifecycleAction";
                 "autoscaling:DescribeAutoScalingInstances";
                 "ec2:DeleteSnapshot"] ->
            UseServiceAccountIAM b' = true ->
            a ∉ clusterTaggedAction
                  (when (snapshotControllerEnabled spec) addSnapshotPersmissions
                     (when
                        match NodeTerminationHandler spec with
                        | Some n =>
                            Fi.BoolValue (NodeTerminationHandler_Enabled n)
                            && Fi.BoolValue (EnableSQSTerminationDraining n)
                        | None => false
                        end addNodeTerminationHandlerSQSPermissions
                        (when (hasCalicoSrcDstCheck spec)
                           addCalicoSrcDstCheckPermissions
                           (when (hasCiliumEni spec) addCiliumEniPermissions
                              (when (hasLyftVPC spec) addLyftVPCPermissions
                                 (when (hasAmazonVPC spec)
                                    (fun p => addAmazonVPCCNIPermissions p
                                                (IAMPrefix b'))
                                    (when (AllowContainerRegistry spec)
                                       addECRPermissions
                                       (AddDNSControllerPermissions b'
                                          (when (hasKMSKeys b')
                                             (fun p =>
                                                addKMSIAMPolicies p
                                                  (StringOrSlice.Slice
                                                     (KMSKeys b')))
                                             q)))))))))).
  { intros a Ha Htrue. rewrite tagged_when. keep_tagged.
    assert (Hbase : a ∉ clusterTaggedAction q)
      by (intros Hin; exact (Ha (Hq a Hin))).
    destruct (snapshotControllerEnabled spec); [|exact Hbase].
    unfold addSnapshotPersmissions. cbv zeta.
    rewrite tagged_insertClusterTagged, tagged_insertUnconditional.
    keep_tagged.
    intros [Hin | Hin]; [exact (Hbase Hin)|]. apply Ha.
    apply list_elem_of_singleton in Hin as ->. in_list. }
  clear Hq.
  destruct (UseServiceAccountIAM b') eqn:Hsa; cbn [negb].
  - cbn [when] in *. split; [|split].
    + split; [|discriminate]. intros Hin. exfalso. revert Hin.
      apply Hnot; [|done]. intros Hin. notin_list Hin.
    + split; [|discriminate]. intros Hin. exfalso. revert Hin.
      apply Hnot; [|done]. intros Hin. notin_list Hin.
    + intros Hz.
      match goal with
      | |- exists before after, Statement_ ?whole = _ =>
          match whole with
          | context [AddDNSControllerPermissions ?b0 ?x] =>
              destruct (ext_statements (AddDNSControllerPermissions b0 x)
                          whole) as [after ->]; [chain|];
              rewrite (AddDNSControllerPermissions_statements b0 x Hz);
              exists (Statement_ x), after; by rewrite <- app_assoc
          end
      end.
  - clear Hnot. cbn [when]. cbv zeta. split; [|split].
    + split; [done|]. intros _.
      match goal with
      | |- context [AddAWSEBSCSIDriverPermissions ?x ?esc] =>
          apply (ext_tagged (AddAWSEBSCSIDriverPermissions x esc)); [chain|]
      end.
      unfold AddAWSEBSCSIDriverPermissions. cbv zeta.
      match goal with
      | |- context [insertClusterTagged ?x ?l] =>
          apply (ext_tagged (insertClusterTagged x l)); [steps|]
      end.
      apply in_insertClusterTagged. in_list.
    + split; [done|]. intros _.
      match goal with
      | |- context [AddClusterAutoscalerPermissions ?x] =>
          apply (ext_tagged (AddClusterAutoscalerPermissions x)); [chain|]
      end.
      unfold AddClusterAutoscalerPermissions. cbv zeta.
      eapply ext_tagged; [apply ext_insertUnconditional|].
      apply in_insertClusterTagged. in_list.
    + intros Hz.
      match goal with
      | |- exists before after, Statement_ ?whole = _ =>
          match whole with
          | context [AddDNSControllerPermissions ?b0 ?x] =>
              destruct (ext_statements (AddDNSControllerPermissions b0 x)
                          whole) as [after ->]; [chain|];
              rewrite (AddDNSControllerPermissions_statements b0 x Hz);
              exists (Statement_ x), after; by rewrite <- app_assoc
          end
      end.
Qed.

End RolesTagged.

Section RolesMore.
Context `{SOS : StringOrSlice.Ops} `{Externals} (spec : ClusterSpec).

(** X20: a node's policy has no cluster-tagged action, except the one
    that completes a lifecycle action when lifecycle hooks are enabled for
    the role. *)
Theorem node_cluster_tagged_actions (b : PolicyBuilder NodeRole)
    (hooks : bool) (p : Policy) (a : string) :
  Role b = NodeRoleNode hooks ->
  fst (BuildAWSPolicy (H := nodeRoleSubject spec) b) = (Some p, None) ->
  a ∈ clusterTaggedAction p
  <-> hooks = true /\ a = "autoscaling:CompleteLifecycleAction".
Proof.
  intros Hrole Hb. apply BuildAWSPolicy_role_ok in Hb. rewrite Hrole in Hb.
  remember (withKMSKeys b (KMSKeys b ++ kmsKeysOf (Cluster_ b))) as b'
    eqn:Hb'.
  clear Hb' Hrole.
  simpl in Hb. unfold NodeRoleNode_BuildAWSPolicy in Hb. cbv zeta in Hb.
  match type of Hb with
  | context [AddS3Permissions spec ?b0 ?p0] =>
      destruct (AddS3Permissions spec b0 p0) as [err|q] eqn:Hs3;
        [discriminate|];
      apply appends_AddS3Permissions in Hs3
  end.
  injection Hb as <-. keep_tagged.
  destruct Hs3 as (_ & _ & _ & -> & _).
  unfold addKMSGenerateRandomPolicies, addNodeEC2Policies.
  rewrite tagged_insertUnconditional, tagged_addASLifecyclePolicies.
  destruct hooks.
  - rewrite elem_of_union, elem_of_list_to_set, tagged_insertUnconditional,
      list_elem_of_singleton.
    split; [|tauto]. intros [Hin | ->]; [|done].
    by apply tagged_NewPolicy in Hin.
  - rewrite tagged_insertUnconditional. split; [|intros [? _]; discriminate].
    intros Hin. by apply tagged_NewPolicy in Hin.
Qed.

(** The S3 statements do not depend on the KMS keys of the builder. *)
Lemma AddS3Permissions_withKMSKeys (b : PolicyBuilder NodeRole)
    (keys : list string) (p : Policy) :
  AddS3Permissions spec (withKMSKeys b keys) p = AddS3Permissions spec b p.
Proof. reflexivity. Qed.

Lemma role_withKMSKeys (r : NodeRole) (b : PolicyBuilder NodeRole)
    (keys1 keys2 : list string) :
  (keys1 = [] <-> keys2 = []) ->
  NodeRole_BuildAWSPolicy spec r (withKMSKeys b keys1)
  = NodeRole_BuildAWSPolicy spec r (withKMSKeys b keys2).
Proof.
  intros Hsame.
  assert (Hhas : hasKMSKeys (withKMSKeys b keys1)
                 = hasKMSKeys (withKMSKeys b keys2)).
  { unfold hasKMSKeys, withKMSKeys. cbn [KMSKeys].
    destruct keys1, keys2; try reflexivity.
    - destruct Hsame as [Hsame _]. by specialize (Hsame eq_refl).
    - destruct Hsame as [_ Hsame]. by specialize (Hsame eq_refl). }
  destruct r as [warmPool| |hooks|]; simpl; [| | reflexivity | reflexivity].
  - unfold NodeRoleAPIServer_BuildAWSPolicy. cbv zeta.
    rewrite !AddS3Permissions_withKMSKeys, Hhas. reflexivity.
  - unfold NodeRoleMaster_BuildAWSPolicy. cbv zeta.
    rewrite !AddS3Permissions_withKMSKeys, Hhas. reflexivity.
Qed.

(** X21: the KMS keys reach the policy only as a yes or no.  Two
    builders that differ in their keys alone get the same policy, as long as
    both or neither have a key (their own or one of an etcd member): the key
    ids are never written into the policy. *)
Theorem BuildAWSPolicy_kms_keys (b : PolicyBuilder NodeRole)
    (keys1 keys2 : list string) :
  (keys1 ++ kmsKeysOf (Cluster_ b) = []
   <-> keys2 ++ kmsKeysOf (Cluster_ b) = []) ->
  fst (BuildAWSPolicy (H := nodeRoleSubject spec) (withKMSKeys b keys1))
  = fst (BuildAWSPolicy (H := nodeRoleSubject spec) (withKMSKeys b keys2)).
Proof.
  intros Hsame. unfold BuildAWSPolicy.
  cbn [Role Subject_BuildAWSPolicy nodeRoleSubject withKMSKeys Cluster_
       HostedZoneID KMSKeys Region ResourceARN UseServiceAccountIAM].
  pose proof (role_withKMSKeys (Role b) b _ _ Hsame) as Hr.
  unfold withKMSKeys in Hr. rewrite Hr.
  match goal with |- context [NodeRole_BuildAWSPolicy spec ?r0 ?b0] =>
    destruct (NodeRole_BuildAWSPolicy spec r0 b0) as [p [e|]]
  end; reflexivity.
Qed.

(** [MarshalJSON] of a statement whose condition the encoder accepts, and
    with it [AsJSON] of a policy of such statements, returns no error. *)
Lemma Statement_MarshalJSON_ok (s : Statement) :
  encodable (Condition s) -> snd (Statement_MarshalJSON s) = None.
Proof.
  intros Hs. by rewrite (IamFacts.Statement_MarshalJSON_encodable s Hs).
Qed.

Lemma marshalStatements_ok (l : list Statement) :
  Forall (fun s => encodable (Condition s)) l ->
  snd (marshalStatements l) = None.
Proof.
  induction 1 as [|s rest Hs _ IH]; [reflexivity|].
  cbn [marshalStatements].
  apply Statement_MarshalJSON_ok in Hs.
  destruct (Statement_MarshalJSON s) as [j e]. cbn [snd] in Hs. subst e.
  destruct (marshalStatements rest) as [js e]. cbn [snd] in IH. subst e.
  reflexivity.
Qed.

(** The statements [AsJSON] appends are written with strings. *)
Lemma actionStatements_encodable (p : Policy) :
  Forall (fun s => encodable (Condition s)) (actionStatements p).
Proof.
  unfold actionStatements. apply Forall_app. split.
  - destruct (0 <? size (unconditionalAction p))%nat; [|constructor].
    constructor; [apply encodable_empty | constructor].
  - destruct (0 <? size (clusterTaggedAction p))%nat; [|constructor].
    constructor; [|constructor]. cbn [Condition].
    by apply encodable_singleton.
Qed.

(** What [AsJSON] returns, from the policy it leaves. *)
Lemma AsJSON_result (p : Policy) :
  fst (AsJSON p)
  = match json_MarshalIndent_Policy (snd (AsJSON p)) with
    | (_, Some e) =>
        ("", Some (Errorf "error marshaling policy to JSON: %v" [] (Some e)))
    | (j, None) => (j, None)
    end.
Proof.
  unfold AsJSON. cbv zeta.
  match goal with |- context [json_MarshalIndent_Policy ?q] =>
    destruct (json_MarshalIndent_Policy q) as [j [e|]] eqn:Hm
  end; cbn [fst snd]; rewrite Hm; reflexivity.
Qed.

Lemma AsJSON_ok (p : Policy) :
  Forall (fun s => encodable (Condition s)) (Statement_ p) ->
  snd (fst (AsJSON p)) = None.
Proof.
  intros Hp.
  assert (Hq : Forall (fun s => encodable (Condition s))
                 (Statement_ (snd (AsJSON p)))).
  { destruct (AsJSON_statements p) as (-> & _).
    apply Forall_app. split; [exact Hp | apply actionStatements_encodable]. }
  rewrite AsJSON_result.
  assert (Hm : snd (json_MarshalIndent_Policy (snd (AsJSON p))) = None).
  { unfold json_MarshalIndent_Policy.
    pose proof (marshalStatements_ok _ Hq) as Hl.
    destruct (marshalStatements (Statement_ (snd (AsJSON p)))) as [js e].
    cbn [snd] in Hl. subst e. reflexivity. }
  destruct (json_MarshalIndent_Policy (snd (AsJSON p))) as [j e].
  cbn [snd] in Hm. subst e. reflexivity.
Qed.

(** X22: what [Open] returns for a node role: the document, or one of
    two errors.  It fails when the DNS zone it was given has no id yet, and
    when the S3 statements cannot be built; the error of the latter comes
    wrapped three times, by the role, by [BuildAWSPolicy] and by [Open].
    Writing the document never fails, and a bastion has no S3 statements to
    fail on. *)
Theorem Open_errors (r : PolicyResource NodeRole) :
  (exists document, Open (H := nodeRoleSubject spec) r = (Some document, None))
  \/ (Open (H := nodeRoleSubject spec) r
      = (None, Some (Errorf "DNS ZoneID not set" [] None))
      /\ exists zone, DNSZone_ r = Some zone
                      /\ Fi.StringValue (ZoneID zone) = "")
  \/ (exists err,
        Open (H := nodeRoleSubject spec) r
        = (None,
           Some (Errorf "error building IAM policy: %v" []
              (Some (Errorf "failed to generate AWS IAM Policy: %v" []
                 (Some (Errorf
                    "failed to generate AWS IAM S3 access statements: %v" []
                    (Some err)))))))
        /\ Role (Builder r) <> NodeRoleBastion).
Proof.
  assert (Hdoc : forall pb : PolicyBuilder NodeRole,
            (exists document,
               buildDocument (H := nodeRoleSubject spec) pb
               = (Some document, None))
            \/ (exists err,
                  buildDocument (H := nodeRoleSubject spec) pb
                  = (None,
                     Some (Errorf "error building IAM policy: %v" []
                        (Some (Errorf "failed to generate AWS IAM Policy: %v" []
                           (Some (Errorf
                              "failed to generate AWS IAM S3 access statements: %v"
                              [] (Some err)))))))
                  /\ Role pb <> NodeRoleBastion)).
  { intros pb. unfold buildDocument, BuildAWSPolicy.
    cbn [fst Role Subject_BuildAWSPolicy nodeRoleSubject].
    match goal with |- context [NodeRole_BuildAWSPolicy spec (Role pb) ?b0] =>
      assert (Hshape :
                (exists p, NodeRole_BuildAWSPolicy spec (Role pb) b0
                           = (Some p, None))
                \/ (exists err,
                      NodeRole_BuildAWSPolicy spec (Role pb) b0
                      = s3Error err /\ Role pb <> NodeRoleBastion));
      [|destruct Hshape as [[p Hp] | (err & -> & Hrole)];
        [pose proof (role_extends spec b0 (Role pb) p Hp) as Hext;
         rewrite Hp|]]
    end.
    - destruct (Role pb) as [warmPool| |hooks|]; simpl;
        [unfold NodeRoleAPIServer_BuildAWSPolicy
        |unfold NodeRoleMaster_BuildAWSPolicy
        |unfold NodeRoleNode_BuildAWSPolicy
        |left; by eexists]; cbv zeta;
        match goal with |- context [AddS3Permissions spec ?b0 ?p0] =>
          destruct (AddS3Permissions spec b0 p0) as [err|q]
        end;
        try (left; by eexists); right; by eexists.
    - left. cbn [fst].
      assert (Hok : snd (fst (AsJSON p)) = None).
      { apply AsJSON_ok. apply (ext_encodable _ _ Hext). constructor. }
      clear Hext Hp.
      destruct (AsJSON p) as [[j e] p']. cbn [fst snd] in *. subst e.
      by eexists.
    - right. exists err. done. }
  unfold Open. destruct (DNSZone_ r) as [zone|].
  - destruct (String.eqb_spec (Fi.StringValue (ZoneID zone)) "") as [Hz|Hz].
    + right. left. split; [reflexivity|]. by exists zone.
    + destruct (Hdoc (withHostedZoneID (Builder r)
                        (Fi.StringValue (ZoneID zone)))) as [Hd | Hd];
        [by left | right; right; exact Hd].
  - destruct (Hdoc (Builder r)) as [Hd | Hd];
      [by left | right; right; exact Hd].
Qed.

End RolesMore.

#[local] Existing Instance StringOrSlice.implOps.
#[local] Existing Instance exampleExternals.

(** The example cluster: three etcd clusters with backups, two of them
    in the same store, and one without. *)
Lemma WriteableVFSPaths_stores_witness :
  WriteableVFSPaths exampleSpec NodeRoleMaster
  = inr [S3Path "state" "c.example.com/backups/etcd/main";
         S3Path "state" "c.example.com/backups/etcd/events"]
  /\ exists stores,
       Forall2 (fun s p => BuildVfsPath s = inr p) stores
         [S3Path "state" "c.example.com/backups/etcd/main";
          S3Path "state" "c.example.com/backups/etcd/events"]
       /\ NoDup stores
       /\ forall s, s ∈ stores
            <-> NodeRoleMaster = NodeRoleMaster /\ s <> ""
                /\ Some (mkEtcdBackup s) ∈ EtcdBackups exampleSpec.
Proof.
  assert (Hw : WriteableVFSPaths exampleSpec NodeRoleMaster
               = inr [S3Path "state" "c.example.com/backups/etcd/main";
                      S3Path "state" "c.example.com/backups/etcd/events"])
    by (vm_compute; reflexivity).
  split; [exact Hw|].
  exact (WriteableVFSPaths_stores exampleSpec NodeRoleMaster _ Hw).
Defined.

(** The hosted zone [Z1AFAKE1ZON3YO] of the example master. *)
Lemma AddDNSControllerPermissions_prefix_witness :
  let b := exampleRoleBuilder NodeRoleMaster "" false in
  let p := NewPolicy "c.example.com" in
  AddDNSControllerPermissions
    (withHostedZoneID b "/hostedzone/Z1AFAKE1ZON3YO") p
  = AddDNSControllerPermissions (withHostedZoneID b "Z1AFAKE1ZON3YO") p.
Proof.
  intros b p.
  apply (AddDNSControllerPermissions_prefix b p "Z1AFAKE1ZON3YO");
    [discriminate | reflexivity | reflexivity].
Defined.

(** The policy of the example node, with lifecycle hooks. *)
Lemma BuildAWSPolicy_allows_witness :
  let node := exampleRoleBuilder (NodeRoleNode true) "" false in
  let p := examplePolicy (NodeRoleNode true) "" false in
  let master := exampleRoleBuilder NodeRoleMaster "" false in
  let q := examplePolicy NodeRoleMaster "" false in
  (fst (BuildAWSPolicy (H := nodeRoleSubject exampleSpec) node)
   = (Some p, None)
   /\ clusterName p = ""
   /\ Version p = PolicyDefaultVersion
   /\ Forall allows (Statement_ p)
   /\ Forall allows (Statement_ (snd (AsJSON p))))
  /\ (fst (BuildAWSPolicy (H := nodeRoleSubject exampleSpec) master)
      = (Some q, None)
      /\ clusterName q = "c.example.com"
      /\ Version q = PolicyDefaultVersion
      /\ Forall allows (Statement_ q)
      /\ Forall allows (Statement_ (snd (AsJSON q)))).
Proof.
  intros node p master q.
  assert (Hp : fst (BuildAWSPolicy (H := nodeRoleSubject exampleSpec) node)
               = (Some p, None)).
  { assert (Hex : exists p',
              fst (BuildAWSPolicy (H := nodeRoleSubject exampleSpec) node)
              = (Some p', None)) by (eexists; reflexivity).
    destruct Hex as [p' Hp']. subst p. unfold examplePolicy. fold node.
    rewrite Hp'. reflexivity. }
  assert (Hq : fst (BuildAWSPolicy (H := nodeRoleSubject exampleSpec) master)
               = (Some q, None)).
  { assert (Hex : exists q',
              fst (BuildAWSPolicy (H := nodeRoleSubject exampleSpec) master)
              = (Some q', None)) by (eexists; reflexivity).
    destruct Hex as [q' Hq']. subst q. unfold examplePolicy. fold master.
    rewrite Hq'. reflexivity. }
  split.
  - split; [exact Hp|].
    exact (BuildAWSPolicy_allows exampleSpec node p Hp).
  - split; [exact Hq|].
    exact (BuildAWSPolicy_allows exampleSpec master q Hq).
Defined.

Lemma BuildAWSPolicy_DescribeRegions_witness :
  let b := exampleRoleBuilder (NodeRoleNode true) "" false in
  let p := examplePolicy (NodeRoleNode true) "" false in
  fst (BuildAWSPolicy (H := nodeRoleSubject exampleSpec) b) = (Some p, None)
  /\ "ec2:DescribeRegions" ∈ unconditionalAction p.
Proof.
  intros b p.
  assert (Hb : fst (BuildAWSPolicy (H := nodeRoleSubject exampleSpec) b)
               = (Some p, None)).
  { assert (Hex : exists p',
              fst (BuildAWSPolicy (H := nodeRoleSubject exampleSpec) b)
              = (Some p', None)) by (eexists; reflexivity).
    destruct Hex as [p' Hp']. subst p. unfold examplePolicy. fold b.
    rewrite Hp'. reflexivity. }
  split; [exact Hb|].
  exact (BuildAWSPolicy_DescribeRegions exampleSpec b p Hb).
Defined.

Lemma node_cluster_tagged_actions_witness :
  let b := exampleRoleBuilder (NodeRoleNode true) "" false in
  let p := examplePolicy (NodeRoleNode true) "" false in
  fst (BuildAWSPolicy (H := nodeRoleSubject exampleSpec) b) = (Some p, None)
  /\ ("autoscaling:CompleteLifecycleAction" ∈ clusterTaggedAction p
      <-> true = true
          /\ "autoscaling:CompleteLifecycleAction"
             = "autoscaling:CompleteLifecycleAction").
Proof.
  intros b p.
  assert (Hb : fst (BuildAWSPolicy (H := nodeRoleSubject exampleSpec) b)
               = (Some p, None)).
  { assert (Hex : exists p',
              fst (BuildAWSPolicy (H := nodeRoleSubject exampleSpec) b)
              = (Some p', None)) by (eexists; reflexivity).
    destruct Hex as [p' Hp']. subst p. unfold examplePolicy. fold b.
    rewrite Hp'. reflexivity. }
  split; [exact Hb|].
  exact (node_cluster_tagged_actions exampleSpec b true p _ eq_refl Hb).
Defined.

(** The policy of the example master, which does not use service
    accounts and has a hosted zone. *)
Lemma master_service_account_iam_witness :
  let b := exampleRoleBuilder NodeRoleMaster "Z1AFAKE1ZON3YO" false in
  let p := examplePolicy NodeRoleMaster "Z1AFAKE1ZON3YO" false in
  fst (BuildAWSPolicy (H := nodeRoleSubject exampleSpec) b) = (Some p, None)
  /\ "ec2:ModifyVolume" ∈ clusterTaggedAction p
  /\ "autoscaling:SetDesiredCapacity" ∈ clusterTaggedAction p
  /\ exists before after,
       Statement_ p
       = before
         ++ [allow (StringOrSlice.Of ["route53:ChangeResourceRecordSets";
                                      "route53:ListResourceRecordSets";
                                      "route53:GetHostedZone"])
                   (StringOrSlice.Slice
                      ["arn:aws:route53:::hostedzone/Z1AFAKE1ZON3YO"])
                   ∅;
             allow (StringOrSlice.Slice ["route53:GetChange"])
                   (StringOrSlice.Slice ["arn:aws:route53:::change/*"])
                   ∅;
             allow (StringOrSlice.Slice ["route53:ListHostedZones"])
                   (StringOrSlice.Slice ["*"]) ∅]
         ++ after.
Proof.
  intros b p.
  assert (Hb : fst (BuildAWSPolicy (H := nodeRoleSubject exampleSpec) b)
               = (Some p, None)).
  { assert (Hex : exists p',
              fst (BuildAWSPolicy (H := nodeRoleSubject exampleSpec) b)
              = (Some p', None)) by (eexists; reflexivity).
    destruct Hex as [p' Hp']. subst p. unfold examplePolicy. fold b.
    rewrite Hp'. reflexivity. }
  split; [exact Hb|].
  destruct (master_service_account_iam exampleSpec b p eq_refl Hb)
    as (Hvol & Hcap & Hdns).
  split; [apply Hvol; reflexivity|].
  split; [apply Hcap; reflexivity|].
  destruct Hdns as (before & after & Hst); [discriminate|].
  exists before, after. exact Hst.
Defined.

(** Two sets of keys for the example master. *)
Lemma BuildAWSPolicy_kms_keys_witness :
  let b := exampleRoleBuilder NodeRoleMaster "" false in
  fst (BuildAWSPolicy (H := nodeRoleSubject exampleSpec)
         (withKMSKeys b ["arn:aws:kms:us-test-1:1234:key/a"]))
  = fst (BuildAWSPolicy (H := nodeRoleSubject exampleSpec)
           (withKMSKeys b ["arn:aws:kms:us-test-1:1234:key/b";
                           "arn:aws:kms:us-test-1:1234:key/c"])).
Proof.
  intros b. apply (BuildAWSPolicy_kms_keys exampleSpec b).
  split; intros Heq; discriminate Heq.
Defined.

End IamPoliciesFacts.

Module CommandsFacts.
Import Go Commands.

Section Run.
Context `{Env}.

(** The loop over the instance groups keeps the last group with the
    name. *)
Lemma findInstanceGroup_last (name : string)
    (instanceGroups : list InstanceGroup) :
  forall (i : nat) (found : option (nat * InstanceGroup)),
    match findInstanceGroup name instanceGroups i found with
    | None =>
        found = None
        /\ forall g, g ∈ instanceGroups -> GetName g <> name
    | Some (j, g) =>
        (found = Some (j, g)
         /\ forall g', g' ∈ instanceGroups -> GetName g' <> name)
        \/ (exists k, j = i + k
              /\ instanceGroups !! k = Some g /\ GetName g = name
              /\ forall k' g', k < k' -> instanceGroups !! k' = Some g' ->
                               GetName g' <> name)
    end.
Proof.
  induction instanceGroups as [|g0 rest IH]; intros i found.
  - simpl. destruct found as [[j g]|].
    + left. split; [done|]. intros g' Hg'. by apply elem_of_nil in Hg'.
    + split; [done|]. intros g' Hg'. by apply elem_of_nil in Hg'.
  - simpl.
    specialize (IH (S i) (if String.eqb (GetName g0) name
                          then Some (i, g0) else found)).
    destruct (findInstanceGroup name rest (S i) _) as [[j g]|].
    + destruct IH as [[Hfound Hnone] | (k & -> & Hk & Hname & Hlast)].
      * destruct (String.eqb_spec (GetName g0) name) as [Heq|Hne].
        -- injection Hfound as <- <-. right. exists 0.
           split; [lia|]. split; [done|]. split; [done|].
           intros [|k'] g' Hlt Hk'; [lia|]. simpl in Hk'.
           apply Hnone. by eapply list_elem_of_lookup_2.
        -- left. split; [done|]. intros g' Hg'.
           apply elem_of_cons in Hg' as [-> | Hg']; [done | by apply Hnone].
      * right. exists (S k). split; [lia|]. split; [done|]. split; [done|].
        intros [|k'] g' Hlt Hk'; [lia|]. simpl in Hk'.
        apply (Hlast k'); [lia | done].
    + destruct IH as [Hfound Hnone].
      destruct (String.eqb_spec (GetName g0) name) as [Heq|Hne];
        [discriminate|].
      split; [done|]. intros g' Hg'.
      apply elem_of_cons in Hg' as [-> | Hg']; [done | by apply Hnone].
Qed.

(** X23: the instance group the command works on is the last one with
    the name given, wherever it is in the list; there is none exactly when
    no instance group has the name. *)
Theorem findInstanceGroup_spec (name : string)
    (instanceGroups : list InstanceGroup) :
  match findInstanceGroup name instanceGroups 0 None with
  | None => forall g, g ∈ instanceGroups -> GetName g <> name
  | Some (j, g) =>
      instanceGroups !! j = Some g /\ GetName g = name
      /\ forall k g', j < k -> instanceGroups !! k = Some g' ->
                      GetName g' <> name
  end.
Proof.
  pose proof (findInstanceGroup_last name instanceGroups 0 None) as Hlast.
  destruct (findInstanceGroup name instanceGroups 0 None) as [[j g]|].
  - destruct Hlast as [[Hfound _] | (k & -> & Hk)]; [discriminate | done].
  - by destruct Hlast.
Qed.

(** X24: the command checks before it acts.  With the feature flag off,
    or without a cluster name or an instance group name, it returns the
    error of the first check that fails and has made no call. *)
Theorem RunUnsetInstancegroup_validates (options : UnsetInstanceGroupOptions)
    (calls : list Call) :
  SpecOverrideFlag_Enabled = false \/ ClusterName options = ""
  \/ InstanceGroupName options = "" ->
  RunUnsetInstancegroup options calls
  = (inl (if negb SpecOverrideFlag_Enabled then
            Errorf ("unset instancegroup is currently feature gated; set "
                    +:+ "`export KOPS_FEATURE_FLAGS=SpecOverrideFlag`")
                   [] None
          else if String.eqb (ClusterName options) "" then
            field_Required "clusterName" "Cluster name is required"
          else
            field_Required "instancegroupName"
                           "Instance Group name is required"),
     calls).
Proof.
  intros Hinvalid. unfold RunUnsetInstancegroup.
  destruct SpecOverrideFlag_Enabled; [|reflexivity]. cbn [negb].
  destruct (String.eqb_spec (ClusterName options) ""); [reflexivity|].
  destruct (String.eqb_spec (InstanceGroupName options) ""); [reflexivity|].
  destruct Hinvalid as [? | [? | ?]]; done.
Qed.

(** X25: the command writes once, at the end, and only what it has
    fully changed.  If [UpdateInstanceGroup] is called, the checks have
    passed, the group handed over is the last group of that name with every
    field unset, and the list handed over holds that group in its place; if
    a check, the lookup or the unsetting of a field fails, there is no such
    call. *)
Theorem RunUnsetInstancegroup_update (options : UnsetInstanceGroupOptions)
    (calls : list Call) (cluster : Cluster)
    (instanceGroups : list InstanceGroup) (instanceGroup : InstanceGroup) :
  CallUpdateInstanceGroup cluster instanceGroups instanceGroup
    ∈ snd (RunUnsetInstancegroup options calls) ->
  CallUpdateInstanceGroup cluster instanceGroups instanceGroup ∉ calls ->
  SpecOverrideFlag_Enabled = true
  /\ ClusterName options <> "" /\ InstanceGroupName options <> ""
  /\ exists clientset read i found,
       Factory_Clientset = inr clientset
       /\ GetCluster clientset (ClusterName options) = inr cluster
       /\ ReadAllInstanceGroups clientset cluster = inr read
       /\ findInstanceGroup (InstanceGroupName options) read 0 None
          = Some (i, found)
       /\ UnsetInstancegroupFields (Fields options) found
          = (None, instanceGroup)
       /\ instanceGroups = <[i := instanceGroup]> read
       /\ snd (RunUnsetInstancegroup options calls)
          = calls ++ [CallClientset;
                      CallGetCluster (ClusterName options);
                      CallReadAllInstanceGroups cluster;
                      CallUpdateInstanceGroup cluster instanceGroups
                        instanceGroup].
Proof.
  unfold RunUnsetInstancegroup. intros Hin Hold.
  destruct SpecOverrideFlag_Enabled; [|done]. cbn [negb] in *.
  destruct (String.eqb_spec (ClusterName options) ""); [done|].
  destruct (String.eqb_spec (InstanceGroupName options) ""); [done|].
  unfold bind, call, fail in *.
  assert (Hnot : forall c l,
            (match c with CallUpdateInstanceGroup _ _ _ => False | _ => True end) ->
            CallUpdateInstanceGroup cluster instanceGroups instanceGroup ∈ l ++ [c] ->
            CallUpdateInstanceGroup cluster instanceGroups instanceGroup ∈ l).
  { intros c l Hc Hcl. apply elem_of_app in Hcl as [Hcl | Hcl]; [done|].
    apply list_elem_of_singleton in Hcl. subst c. destruct Hc. }
  destruct Factory_Clientset as [err|clientset] eqn:Hcs; cbn [snd] in Hin.
  { apply Hnot in Hin; [done | exact I]. }
  destruct (GetCluster clientset (ClusterName options)) as [err|cluster0]
    eqn:Hcl; cbn [snd] in Hin.
  { do 2 (apply Hnot in Hin; [|exact I]). done. }
  destruct (ReadAllInstanceGroups clientset cluster0) as [err|read] eqn:Hread;
    cbn [snd] in Hin.
  { do 3 (apply Hnot in Hin; [|exact I]). done. }
  destruct (findInstanceGroup (InstanceGroupName options) read 0 None)
    as [[i found]|] eqn:Hfind; cbn [snd] in Hin.
  2: { do 3 (apply Hnot in Hin; [|exact I]). done. }
  destruct (UnsetInstancegroupFields (Fields options) found) as [[err|] ig']
    eqn:Hunset; cbn [snd] in Hin.
  { do 3 (apply Hnot in Hin; [|exact I]). done. }
  apply elem_of_app in Hin as [Hin | Hin].
  { do 3 (apply Hnot in Hin; [|exact I]). done. }
  apply list_elem_of_singleton in Hin. injection Hin as -> -> ->.
  split; [done|]. split; [done|]. split; [done|].
  exists clientset, read, i, found. cbn [snd].
  repeat (split; [done|]). by rewrite <- !app_assoc.
Qed.

(** Unsetting fields one list after the other. *)
Lemma UnsetInstancegroupFields_app (fields1 fields2 : list string)
    (instanceGroup : InstanceGroup) :
  UnsetInstancegroupFields (fields1 ++ fields2) instanceGroup
  = match UnsetInstancegroupFields fields1 instanceGroup with
    | (Some err, instanceGroup') => (Some err, instanceGroup')
    | (None, instanceGroup') =>
        UnsetInstancegroupFields fields2 instanceGroup'
    end.
Proof.
  revert instanceGroup. induction fields1 as [|field rest IH];
    intros instanceGroup; [reflexivity|].
  simpl. destruct (reflectutils_Unset instanceGroup _) as [[err|] ig'];
    [reflexivity | apply IH].
Qed.

(** X26: a field may be given with or without the prefix
    [instancegroup.]: the prefix is taken off, once, before the field is
    unset. *)
Theorem UnsetInstancegroupFields_prefix (fields : list string)
    (instanceGroup : InstanceGroup) :
  Forall (fun field => String.prefix "instancegroup." field = false) fields ->
  UnsetInstancegroupFields (map (fun field => "instancegroup." +:+ field) fields)
    instanceGroup
  = UnsetInstancegroupFields fields instanceGroup.
Proof.
  intros Hfields. revert instanceGroup.
  induction Hfields as [|field rest Hfield _ IH]; intros instanceGroup;
    [reflexivity|].
  cbn [map UnsetInstancegroupFields].
  rewrite IamPoliciesFacts.TrimPrefix_app,
    (IamPoliciesFacts.TrimPrefix_none _ _ Hfield).
  destruct (reflectutils_Unset instanceGroup field) as [[err|] ig'];
    [reflexivity | apply IH].
Qed.

End Run.

(** With the feature flag off no call is made, whatever the options. *)
Lemma RunUnsetInstancegroup_validates_witness :
  RunUnsetInstancegroup (H := exampleEnv false)
    (mkUnsetInstanceGroupOptions ["spec.maxSize"] "c.example.com" "nodes") []
  = (inl (Errorf ("unset instancegroup is currently feature gated; set "
                  +:+ "`export KOPS_FEATURE_FLAGS=SpecOverrideFlag`")
                 [] None),
     []).
Proof.
  apply (RunUnsetInstancegroup_validates (H := exampleEnv false)).
  left. reflexivity.
Defined.

(** Unsetting the maximum size of [nodes]. *)
Lemma RunUnsetInstancegroup_update_witness :
  let options :=
    mkUnsetInstanceGroupOptions ["instancegroup.spec.maxSize"]
      "c.example.com" "nodes" in
  let groups := [("nodes", ["spec.minSize"]); ("master", ["spec.maxSize"])] in
  snd (RunUnsetInstancegroup (H := exampleEnv true) options [])
  = [CallClientset; CallGetCluster "c.example.com";
     CallReadAllInstanceGroups (H := exampleEnv true) "c.example.com";
     CallUpdateInstanceGroup (H := exampleEnv true) "c.example.com" groups
       ("nodes", ["spec.minSize"])].
Proof.
  intros options groups.
  destruct (RunUnsetInstancegroup_update (H := exampleEnv true) options []
              "c.example.com" groups ("nodes", ["spec.minSize"]))
    as (_ & _ & _ & _ & _ & _ & _ & _ & _ & _ & _ & _ & _ & Hcalls).
  - vm_compute. do 3 right. left.
  - intros Hin. apply elem_of_nil in Hin. destruct Hin.
  - exact Hcalls.
Defined.

Lemma UnsetInstancegroupFields_prefix_witness :
  UnsetInstancegroupFields (H := exampleEnv true)
    ["instancegroup.spec.maxSize"; "instancegroup.spec.minSize"]
    ("nodes", ["spec.maxSize"; "spec.minSize"])
  = UnsetInstancegroupFields (H := exampleEnv true)
      ["spec.maxSize"; "spec.minSize"]
      ("nodes", ["spec.maxSize"; "spec.minSize"]).
Proof.
  apply (UnsetInstancegroupFields_prefix (H := exampleEnv true)
           ["spec.maxSize"; "spec.minSize"]).
  repeat constructor.
Defined.

End CommandsFacts.

(** ** The containerd builder of nodeup *)

Module NodeupModelFacts.
Import Go NodeupModel NodeupModelViews.

(** Membership in a list that is written out. *)
Ltac in_list :=
  repeat first [apply list_elem_of_here | apply list_elem_of_further].

Section Build.
Context `{Externals} `{MapRange} (b : NodeupModelContext).

Lemma kubenet_true :
  kubenet b = true <->
  ContainerRuntime b = "containerd" /\ UsesKubenet (Networking b) = true.
Proof.
  unfold kubenet. rewrite andb_true_iff, String.eqb_eq. reflexivity.
Qed.

(** [Build] when the installation is skipped. *)
Lemma containerd_Build_skip :
  skipInstall b = true -> Build b = ([], None).
Proof. intros Hs. unfold Build. rewrite Hs. reflexivity. Qed.

(** [Build] when kubenet is used and no CIDR is set. *)
Lemma containerd_Build_cidr :
  skipInstall b = false -> kubenet b = true -> NonMasqueradeCIDR b = "" ->
  Build b = (overrides b ++ buildCNIConfigTemplateFile, Some cidrError).
Proof.
  intros Hs Hk Hc. unfold Build, overrides, buildIPMasqueradeRules.
  unfold kubenet in Hk. rewrite Hs, Hk, Hc. cbn [String.eqb].
  destruct (Distribution_ b); rewrite app_nil_r; reflexivity.
Qed.

(** [Build] in the other cases. *)
Lemma containerd_Build_configured :
  skipInstall b = false ->
  kubenet b = false \/ NonMasqueradeCIDR b <> "" ->
  Build b =
  let tasks :=
    overrides b
    ++ (if kubenet b
        then buildCNIConfigTemplateFile ++ fst (buildIPMasqueradeRules b)
        else [])
    ++ buildConfigFile b in
  if immutable b then (tasks, None)
  else (tasks ++ fst (installContainerd b), snd (installContainerd b)).
Proof.
  intros Hs Hk. unfold Build, overrides, immutable. rewrite Hs.
  fold (kubenet b).
  assert (Hm : kubenet b = true ->
               buildIPMasqueradeRules b
               = (fst (buildIPMasqueradeRules b), None)).
  { intros Hkt. destruct Hk as [Hk|Hk]; [congruence|].
    unfold buildIPMasqueradeRules.
    destruct (String.eqb_spec (NonMasqueradeCIDR b) ""); [contradiction|].
    reflexivity. }
  destruct (kubenet b).
  - rewrite (Hm eq_refl).
    destruct (Distribution_ b); destruct (installContainerd b);
      reflexivity.
  - destruct (Distribution_ b); destruct (installContainerd b);
      reflexivity.
Qed.

(** When the installation is not skipped, [Build] is in one of the two
    cases. *)
Lemma containerd_Build_cases :
  (kubenet b = true /\ NonMasqueradeCIDR b = "")
  \/ (kubenet b = false \/ NonMasqueradeCIDR b <> "").
Proof.
  destruct (kubenet b); [|by right; left].
  destruct (String.eqb_spec (NonMasqueradeCIDR b) ""); [by left|by right; right].
Qed.

(** The two paths of the configuration. *)
Lemma containerdConfigFilePath_cases :
  containerdConfigFilePath b = "/etc/containerd/config.toml"
  \/ containerdConfigFilePath b = "/etc/containerd/config-kops.toml".
Proof.
  unfold containerdConfigFilePath. destruct (Distribution_ b); auto.
Qed.

(** The tasks of the steps before [installContainerd] only configure. *)
Lemma overrides_configures (t : Task) :
  t ∈ overrides b -> configures b t.
Proof.
  unfold overrides. intros Hin.
  destruct (Distribution_ b).
  - destruct (String.eqb (ContainerRuntime b) "containerd").
    + apply list_elem_of_singleton in Hin. subst t.
      split; [in_list|eexists; reflexivity].
    + inversion Hin.
  - apply list_elem_of_singleton in Hin. subst t.
    split; [in_list|eexists; reflexivity].
  - inversion Hin.
Qed.

Lemma template_configures (t : Task) :
  t ∈ buildCNIConfigTemplateFile -> configures b t.
Proof.
  intros Hin. apply list_elem_of_singleton in Hin. subst t.
  split; [in_list|eexists; reflexivity].
Qed.

Lemma masquerade_configures (t : Task) :
  t ∈ fst (buildIPMasqueradeRules b) -> configures b t.
Proof.
  unfold buildIPMasqueradeRules.
  destruct (String.eqb (NonMasqueradeCIDR b) ""); cbn [fst]; intros Hin.
  - inversion Hin.
  - apply elem_of_cons in Hin. destruct Hin as [->|Hin].
    + split; [in_list|eexists; reflexivity].
    + apply list_elem_of_singleton in Hin. subst t. reflexivity.
Qed.

Lemma config_configures (t : Task) :
  t ∈ buildConfigFile b -> configures b t.
Proof.
  intros Hin. apply list_elem_of_singleton in Hin. subst t.
  split; [in_list|eexists; reflexivity].
Qed.

Lemma configured_configures (t : Task) :
  t ∈ overrides b
      ++ (if kubenet b
          then buildCNIConfigTemplateFile ++ fst (buildIPMasqueradeRules b)
          else [])
      ++ buildConfigFile b ->
  configures b t.
Proof.
  rewrite !elem_of_app. intros [Hin|[Hin|Hin]].
  - by apply overrides_configures.
  - destruct (kubenet b); [|inversion Hin].
    apply elem_of_app in Hin. destruct Hin as [Hin|Hin].
    + by apply template_configures.
    + by apply masquerade_configures.
  - by apply config_configures.
Qed.

(** A task that only configures is no file of an asset, and waits for
    no file but the configuration. *)
Lemma configures_contents (f : File Asset) (v : Asset) :
  configures b (TFile f) -> Contents f <> AssetResource v.
Proof. intros [_ [s Hs]]. rewrite Hs. discriminate. Qed.

(** The binaries are those of the first search, or of the second when the
    first finds none. *)
Lemma containerdBinaries_lookup (k : string) (v : Asset) :
  containerdBinaries b !! k = Some v <->
  localBinaries b !! k = Some v
  \/ (localBinaries b = ∅ /\ dockerBinaries b !! k = Some v).
Proof.
  unfold containerdBinaries. fold (localBinaries b). fold (dockerBinaries b).
  destruct (Nat.eqb_spec (size (localBinaries b)) 0) as [Hz|Hz].
  - apply map_size_empty_iff in Hz. split.
    + intros Hl. right. by split.
    + intros [Hl|[_ Hl]]; [|exact Hl].
      rewrite Hz, lookup_empty in Hl. discriminate.
  - split.
    + intros Hl. by left.
    + intros [Hl|[He _]]; [exact Hl|].
      exfalso. apply Hz. by apply map_size_empty_iff.
Qed.

(** The errors of [installContainerd] are its own. *)
Lemma installContainerd_error :
  snd (installContainerd b) <> Some cidrError.
Proof.
  unfold installContainerd, containerRuntimeVersion, buildSysconfigFile,
    cidrError.
  destruct (String.eqb (ContainerRuntime b) "containerd").
  - destruct (size (containerdBinaries b) =? 0)%nat; [discriminate|].
    destruct (Containerd b) as [c|]; [|discriminate].
    destruct (ParseTolerant _); [discriminate|].
    destruct (BuildFlags _); discriminate.
  - destruct (Docker b) as [d|]; [|discriminate].
    destruct (ParseTolerant _); [discriminate|].
    destruct (BuildFlags _); discriminate.
Qed.

(** The tasks of [installContainerd]. *)
Lemma installContainerd_tasks (t : Task) :
  t ∈ fst (installContainerd b) ->
  (exists f, t = TFile f /\ AfterFiles f = []
             /\ ((exists s, Contents f = NewStringResource s)
                 \/ ContainerRuntime b = "containerd"
                    /\ exists k v, containerdBinaries b !! k = Some v
                                   /\ t = binaryTask k v))
  \/ exists sv, t = TService (buildSystemdService b sv).
Proof.
  unfold installContainerd, containerRuntimeVersion, buildSysconfigFile,
    addCrictlConfig.
  set (P := fun t0 : Task =>
    exists f, t0 = TFile f /\ AfterFiles f = []
              /\ ((exists s, Contents f = NewStringResource s)
                  \/ ContainerRuntime b = "containerd"
                     /\ exists k v, containerdBinaries b !! k = Some v
                                    /\ t0 = binaryTask k v)).
  assert (Hstring : forall path s mode,
    P (TFile (mkFile path (NewStringResource s) FileType_File mode [] []))).
  { intros path s mode. eexists. split; [reflexivity|].
    split; [reflexivity|]. left. eexists. reflexivity. }
  assert (Hbin : ContainerRuntime b = "containerd" -> forall t0 : Task,
    t0 ∈ map (fun kv => binaryTask (fst kv) (snd kv))
             (range (containerdBinaries b)) -> P t0).
  { intros Hr t0 Hin.
    apply list_elem_of_fmap in Hin. destruct Hin as [[k v] [-> Hkv]].
    apply AwsModelFacts.range_lookup in Hkv.
    eexists. split; [reflexivity|]. split; [reflexivity|].
    right. split; [exact Hr|]. by exists k, v. }
  assert (Hservice : forall sv,
    exists sv', TService (buildSystemdService b sv)
                = TService (buildSystemdService b sv')).
  { intros sv. by exists sv. }
  fold (P t).
  destruct (String.eqb_spec (ContainerRuntime b) "containerd") as [Hr|Hr];
    [destruct (size (containerdBinaries b) =? 0)%nat;
     [|destruct (Containerd b) as [c|]]
    |destruct (Docker b) as [d|]];
    try destruct (ParseTolerant _) as [e|sv];
    try destruct (BuildFlags _) as [e'|flags];
    cbn [fst]; rewrite ?elem_of_app, ?elem_of_cons, ?elem_of_nil;
    intros Hin;
    repeat match goal with
           | Hor : _ \/ _ |- _ => destruct Hor as [Hor|Hor]
           end;
    first [ contradiction
          | left; subst t; apply Hstring
          | left; by apply Hbin
          | right; subst t; apply Hservice ].
Qed.

(** What a file of the steps before [installContainerd] waits for. *)
Lemma configured_after_files (f : File Asset) (p : string) :
  TFile f ∈ overrides b
            ++ (if kubenet b
                then buildCNIConfigTemplateFile
                     ++ fst (buildIPMasqueradeRules b)
                else [])
            ++ buildConfigFile b ->
  p ∈ AfterFiles f -> p = containerdConfigFilePath b.
Proof.
  unfold overrides, buildIPMasqueradeRules, buildCNIConfigTemplateFile,
    buildConfigFile, buildSystemdServiceOverrideFlatcar,
    buildSystemdServiceOverrideContainerOS.
  destruct (Distribution_ b); destruct (kubenet b);
    try destruct (String.eqb (ContainerRuntime b) "containerd");
    try destruct (String.eqb (NonMasqueradeCIDR b) "");
    cbn [fst]; rewrite ?elem_of_app, ?elem_of_cons, ?elem_of_nil;
    intros Hin Hp;
    repeat match goal with
           | Hor : _ \/ _ |- _ => destruct Hor as [Hor|Hor]
           end;
    first [ contradiction
          | discriminate
          | injection Hin as ->; cbn [AfterFiles] in Hp;
            first [ by apply list_elem_of_singleton in Hp
                  | inversion Hp ] ].
Qed.

(** The configuration is among the tasks of the steps before
    [installContainerd]. *)
Lemma configured_config :
  TFile (mkFile (containerdConfigFilePath b)
           (NewStringResource (NodeupConfig_ContainerdConfig b))
           FileType_File None [] [])
  ∈ overrides b
    ++ (if kubenet b
        then buildCNIConfigTemplateFile ++ fst (buildIPMasqueradeRules b)
        else [])
    ++ buildConfigFile b.
Proof.
  rewrite !elem_of_app. right. right. by apply list_elem_of_singleton.
Qed.

(** A file of the override and of the kubenet template is not the
    configuration. *)
Lemma cidr_paths (f : File Asset) :
  TFile f ∈ overrides b ++ buildCNIConfigTemplateFile ->
  Path f <> containerdConfigFilePath b.
Proof.
  intros Hin.
  assert (Hp : Path f
               = "/etc/systemd/system/containerd.service.d/10-kops.conf"
               \/ Path f = "/etc/containerd/config-cni.template").
  { apply elem_of_app in Hin. destruct Hin as [Hin|Hin].
    - left. unfold overrides in Hin.
      destruct (Distribution_ b);
        try destruct (String.eqb (ContainerRuntime b) "containerd");
        first [ inversion Hin; fail
              | apply list_elem_of_singleton in Hin;
                injection Hin as ->; reflexivity ].
    - right. apply list_elem_of_singleton in Hin.
      injection Hin as ->. reflexivity. }
  destruct containerdConfigFilePath_cases as [Hc|Hc]; rewrite Hc;
    destruct Hp as [Hp|Hp]; rewrite Hp; discriminate.
Qed.

(** When [installContainerd] succeeds it has added the service and the
    file of its options. *)
Lemma installContainerd_ok :
  snd (installContainerd b) = None ->
  exists sv flags,
    BuildFlags (match Containerd b with
                | Some c => c
                | None => mkContainerdConfig false None
                end) = inr flags
    /\ TService (buildSystemdService b sv) ∈ fst (installContainerd b)
    /\ TFile (mkFile "/etc/sysconfig/containerd"
                (NewStringResource ("CONTAINERD_OPTS=" +:+ flags))
                FileType_File None [] [])
       ∈ fst (installContainerd b).
Proof.
  unfold installContainerd, containerRuntimeVersion, buildSysconfigFile.
  assert (Hgoal : forall (tasks : list Task) v,
    snd (match ParseTolerant v with
         | inl err =>
             (tasks,
              Some (Errorf "error parsing container runtime version %q: %v"
                      [v] (Some err)))
         | inr sv =>
             let tasks := tasks ++ [TService (buildSystemdService b sv)] in
             let '(more, r) := buildSysconfigFile b in (tasks ++ more, r)
         end) = None ->
    exists sv flags,
      BuildFlags (match Containerd b with
                  | Some c => c
                  | None => mkContainerdConfig false None
                  end) = inr flags
      /\ TService (buildSystemdService b sv)
         ∈ fst (match ParseTolerant v with
                | inl err =>
                    (tasks,
                     Some (Errorf
                             "error parsing container runtime version %q: %v"
                             [v] (Some err)))
                | inr sv =>
                    let tasks :=
                      tasks ++ [TService (buildSystemdService b sv)] in
                    let '(more, r) := buildSysconfigFile b in
                    (tasks ++ more, r)
                end)
      /\ TFile (mkFile "/etc/sysconfig/containerd"
                  (NewStringResource ("CONTAINERD_OPTS=" +:+ flags))
                  FileType_File None [] [])
         ∈ fst (match ParseTolerant v with
                | inl err =>
                    (tasks,
                     Some (Errorf
                             "error parsing container runtime version %q: %v"
                             [v] (Some err)))
                | inr sv =>
                    let tasks :=
                      tasks ++ [TService (buildSystemdService b sv)] in
                    let '(more, r) := buildSysconfigFile b in
                    (tasks ++ more, r)
                end)).
  { intros tasks v. unfold buildSysconfigFile.
    destruct (ParseTolerant v) as [e|sv]; [discriminate|].
    destruct (BuildFlags _) as [e'|flags]; [discriminate|].
    intros _. exists sv, flags. split; [reflexivity|].
    cbn [fst]. rewrite !elem_of_app, !list_elem_of_singleton.
    split; [left; right; reflexivity|right; reflexivity]. }
  fold (buildSysconfigFile b).
  destruct (String.eqb (ContainerRuntime b) "containerd").
  - destruct (size (containerdBinaries b) =? 0)%nat; [discriminate|].
    destruct (Containerd b) as [c|] eqn:Hc; [|discriminate].
    apply Hgoal.
  - destruct (Docker b) as [d|]; [|discriminate].
    apply Hgoal.
Qed.

(** The entries of a manifest. *)
Lemma Manifest_Set_here (manifest : Manifest) (section key value : string) :
  (section, key, value) ∈ Manifest_Set manifest section key value.
Proof.
  unfold Manifest_Set. apply elem_of_app. right.
  by apply list_elem_of_singleton.
Qed.

Lemma Manifest_Set_keep (manifest : Manifest) (section key value : string)
    (e : string * string * string) :
  e ∈ manifest -> e ∈ Manifest_Set manifest section key value.
Proof. intros He. unfold Manifest_Set. apply elem_of_app. by left. Qed.

(** The service names the two files. *)
Lemma systemdManifest_files (sv : SemVersion) :
  ("Service", "ExecStart",
   "/usr/bin/containerd -c " +:+ containerdConfigFilePath b +:+ " "
   +:+ dq +:+ "$CONTAINERD_OPTS" +:+ dq) ∈ systemdManifest b sv
  /\ ("Service", "EnvironmentFile", "/etc/sysconfig/containerd")
     ∈ systemdManifest b sv.
Proof.
  unfold systemdManifest. cbv zeta.
  split; do 10 apply Manifest_Set_keep;
    (destruct (_ || _); [apply Manifest_Set_keep|]).
  1,2: apply Manifest_Set_here.
  1,2: do 3 apply Manifest_Set_keep; apply Manifest_Set_here.
Qed.

(** With the containerd runtime and binaries in the assets,
    [installContainerd] adds the binaries and the configuration of crictl
    after the license. *)
Lemma installContainerd_binaries :
  ContainerRuntime b = "containerd" ->
  (size (containerdBinaries b) =? 0)%nat = false ->
  exists rest,
    fst (installContainerd b)
    = [TFile (mkFile "/usr/share/doc/containerd/apache.txt"
                (NewStringResource ContainerdApache2License) FileType_File
                None [] [])]
      ++ (map (fun kv => binaryTask (fst kv) (snd kv))
              (range (containerdBinaries b))
          ++ addCrictlConfig)
      ++ rest.
Proof.
  intros Hr Hsize. unfold installContainerd, containerRuntimeVersion.
  apply String.eqb_eq in Hr. rewrite Hr, Hsize.
  destruct (Containerd b) as [c|].
  - destruct (ParseTolerant _) as [e|sv].
    + exists []. by rewrite app_nil_r.
    + destruct (buildSysconfigFile b) as [more r]. cbn [fst].
      eexists. rewrite <- !app_assoc. reflexivity.
  - exists []. by rewrite app_nil_r.
Qed.

(** X27: when the installation is skipped, or on Flatcar and on
    ContainerOS, [Build] adds nothing that [installContainerd] would add:
    every task is a file with literal contents at the path of the override
    of the service, of the kubenet template, of the iptables script or of
    the configuration, or is the iptables service; and the only error
    [Build] can return is the one of the missing CIDR. *)
Theorem Build_only_configures :
  skipInstall b = true
  \/ Distribution_ b = DistributionFlatcar
  \/ Distribution_ b = DistributionContainerOS ->
  (forall t, t ∈ fst (Build b) -> configures b t)
  /\ (snd (Build b) = None \/ snd (Build b) = Some cidrError).
Proof.
  intros Hcase. destruct (skipInstall b) eqn:Hs.
  - rewrite (containerd_Build_skip Hs). split; [|by left].
    intros t Hin. inversion Hin.
  - assert (Hi : immutable b = true).
    { unfold immutable.
      destruct Hcase as [Hd|[Hd|Hd]]; [discriminate| |]; by rewrite Hd. }
    destruct containerd_Build_cases as [[Hk Hc]|Hk].
    + rewrite (containerd_Build_cidr Hs Hk Hc). split; [|by right].
      intros t Hin. cbn [fst] in Hin. apply elem_of_app in Hin.
      destruct Hin as [Hin|Hin].
      * by apply overrides_configures.
      * by apply template_configures.
    + rewrite (containerd_Build_configured Hs Hk). cbv zeta. rewrite Hi.
      split; [|by left]. intros t Hin. by apply configured_configures.
Qed.

(** X28: [Build] returns the error [NonMasqueradeCIDR is not set] exactly
    when the installation is not skipped, the runtime is containerd, the
    networking uses kubenet and the cluster has no non-masquerade CIDR;
    and then no task writes the configuration of containerd. *)
Theorem Build_cidr_error :
  (snd (Build b) = Some cidrError <->
   skipInstall b = false /\ ContainerRuntime b = "containerd"
   /\ UsesKubenet (Networking b) = true /\ NonMasqueradeCIDR b = "")
  /\ (snd (Build b) = Some cidrError ->
      forall f, TFile f ∈ fst (Build b) ->
                Path f <> containerdConfigFilePath b).
Proof.
  assert (Hiff : snd (Build b) = Some cidrError ->
                 skipInstall b = false /\ kubenet b = true
                 /\ NonMasqueradeCIDR b = "").
  { intros He. destruct (skipInstall b) eqn:Hs.
    { rewrite (containerd_Build_skip Hs) in He. discriminate. }
    destruct containerd_Build_cases as [[Hk Hc]|Hk]; [by repeat split|].
    rewrite (containerd_Build_configured Hs Hk) in He. cbv zeta in He.
    destruct (immutable b); [discriminate|].
    cbn [snd] in He. by apply installContainerd_error in He. }
  split.
  - split.
    + intros He. destruct (Hiff He) as (Hs & Hk & Hc).
      apply kubenet_true in Hk. destruct Hk as [Hr Hu]. by repeat split.
    + intros (Hs & Hr & Hu & Hc).
      assert (Hk : kubenet b = true) by by apply kubenet_true.
      by rewrite (containerd_Build_cidr Hs Hk Hc).
  - intros He f Hin. destruct (Hiff He) as (Hs & Hk & Hc).
    rewrite (containerd_Build_cidr Hs Hk Hc) in Hin. cbn [fst] in Hin.
    by apply cidr_paths.
Qed.

(** X29: when [Build] succeeds, the files its tasks refer to are written
    by its tasks.  A file that a task waits for ([AfterFiles]) is the
    configuration of containerd, written with the contents of the nodeup
    configuration.  And where containerd is installed, the manifest of
    [containerd.service] starts the daemon with the path of that
    configuration and reads its options from the file
    [/etc/sysconfig/containerd], which holds the flags built from the
    cluster's containerd settings. *)
Theorem Build_referenced_files :
  snd (Build b) = None ->
  (forall f p, TFile f ∈ fst (Build b) -> p ∈ AfterFiles f ->
     exists g, TFile g ∈ fst (Build b) /\ Path g = p
               /\ Contents g
                  = NewStringResource (NodeupConfig_ContainerdConfig b))
  /\ (skipInstall b = false -> immutable b = false ->
      exists sv g e flags,
        BuildFlags (match Containerd b with
                    | Some c => c
                    | None => mkContainerdConfig false None
                    end) = inr flags
        /\ TService (buildSystemdService b sv) ∈ fst (Build b)
        /\ TFile g ∈ fst (Build b)
        /\ Contents g = NewStringResource (NodeupConfig_ContainerdConfig b)
        /\ ("Service", "ExecStart",
            "/usr/bin/containerd -c " +:+ Path g +:+ " "
            +:+ dq +:+ "$CONTAINERD_OPTS" +:+ dq) ∈ systemdManifest b sv
        /\ TFile e ∈ fst (Build b)
        /\ Contents e = NewStringResource ("CONTAINERD_OPTS=" +:+ flags)
        /\ ("Service", "EnvironmentFile", Path e) ∈ systemdManifest b sv).
Proof.
  intros Hok. destruct (skipInstall b) eqn:Hs.
  { rewrite (containerd_Build_skip Hs). split; [|discriminate].
    intros f p Hin. inversion Hin. }
  destruct containerd_Build_cases as [[Hk Hc]|Hk].
  { rewrite (containerd_Build_cidr Hs Hk Hc) in Hok. discriminate. }
  rewrite (containerd_Build_configured Hs Hk) in Hok |- *. cbv zeta in Hok |- *.
  pose proof configured_config as Hconfig.
  pose proof configured_after_files as Hafter.
  destruct (immutable b); cbn [fst snd] in Hok |- *.
  - split; [|discriminate]. intros f p Hin Hp.
    rewrite (Hafter f p Hin Hp). eexists. split; [exact Hconfig|]. by split.
  - split.
    + intros f p Hin Hp. apply elem_of_app in Hin.
      destruct Hin as [Hin|Hin].
      * rewrite (Hafter f p Hin Hp). eexists.
        split; [apply elem_of_app; left; exact Hconfig|]. by split.
      * apply installContainerd_tasks in Hin.
        destruct Hin as [(f' & Hf & Ha & _)|[sv Hsv]]; [|discriminate].
        injection Hf as ->. rewrite Ha in Hp. inversion Hp.
    + intros _ _.
      destruct (installContainerd_ok Hok) as (sv & flags & Hf & Hsv & He).
      destruct (systemdManifest_files sv) as [Hstart Henv].
      eexists sv, _, _, flags. split; [exact Hf|].
      split; [apply elem_of_app; right; exact Hsv|].
      split; [apply elem_of_app; left; exact Hconfig|].
      split; [reflexivity|]. split; [exact Hstart|].
      split; [apply elem_of_app; right; exact He|].
      split; [reflexivity|]. exact Henv.
Qed.

(** X30: the binaries.  A file task of [Build] whose contents is an asset
    exists only with the containerd runtime, and is the task of a binary:
    mode [0755], under [/usr/bin], for an entry of the first search in the
    assets, or of the second search when the first finds nothing.
    Conversely, where containerd is installed with the containerd runtime
    and the CIDR check does not stop [Build], every such entry has its
    task, and the configuration of crictl is written. *)
Theorem Build_binaries :
  (forall f v, TFile f ∈ fst (Build b) -> Contents f = AssetResource v ->
     ContainerRuntime b = "containerd"
     /\ exists k,
          (localBinaries b !! k = Some v
           \/ (localBinaries b = ∅ /\ dockerBinaries b !! k = Some v))
          /\ TFile f = binaryTask k v)
  /\ (skipInstall b = false -> immutable b = false ->
      ContainerRuntime b = "containerd" ->
      (UsesKubenet (Networking b) = true -> NonMasqueradeCIDR b <> "") ->
      forall k v,
        localBinaries b !! k = Some v
        \/ (localBinaries b = ∅ /\ dockerBinaries b !! k = Some v) ->
        binaryTask k v ∈ fst (Build b)
        /\ TFile (mkFile "/etc/crictl.yaml" (NewStringResource crictlConf)
                    FileType_File None [] []) ∈ fst (Build b)).
Proof.
  split.
  - intros f v Hin Hv. destruct (skipInstall b) eqn:Hs.
    { rewrite (containerd_Build_skip Hs) in Hin. inversion Hin. }
    destruct containerd_Build_cases as [[Hk Hc]|Hk].
    { rewrite (containerd_Build_cidr Hs Hk Hc) in Hin. cbn [fst] in Hin.
      exfalso. apply (configures_contents f v); [|exact Hv].
      apply elem_of_app in Hin. destruct Hin as [Hin|Hin].
      - by apply overrides_configures.
      - by apply template_configures. }
    rewrite (containerd_Build_configured Hs Hk) in Hin. cbv zeta in Hin.
    assert (Hpre : TFile f ∈ overrides b
                     ++ (if kubenet b
                         then buildCNIConfigTemplateFile
                              ++ fst (buildIPMasqueradeRules b)
                         else [])
                     ++ buildConfigFile b -> False).
    { intros Hin'. apply (configures_contents f v); [|exact Hv].
      by apply configured_configures. }
    destruct (immutable b); cbn [fst] in Hin; [by apply Hpre in Hin|].
    apply elem_of_app in Hin. destruct Hin as [Hin|Hin];
      [by apply Hpre in Hin|].
    apply installContainerd_tasks in Hin.
    destruct Hin as [(f' & Hf & _ & Hc)|[sv Hsv]]; [|discriminate].
    injection Hf as <-.
    destruct Hc as [[s Hs']|[Hr (k & v' & Hl & Ht)]]; [congruence|].
    split; [exact Hr|].
    assert (v' = v) as ->.
    { injection Ht as ->. cbn [Contents] in Hv. congruence. }
    exists k. split; [by apply containerdBinaries_lookup|exact Ht].
  - intros Hs Hi Hr Hcidr k v Hl.
    apply containerdBinaries_lookup in Hl.
    assert (Hk : kubenet b = false \/ NonMasqueradeCIDR b <> "").
    { destruct (kubenet b) eqn:Hk; [|by left].
      right. apply Hcidr. by apply kubenet_true in Hk as [_ Hk]. }
    rewrite (containerd_Build_configured Hs Hk). cbv zeta. rewrite Hi.
    cbn [fst].
    assert (Hsize : (size (containerdBinaries b) =? 0)%nat = false).
    { apply Nat.eqb_neq. intros Hz. apply map_size_empty_iff in Hz.
      rewrite Hz, lookup_empty in Hl. discriminate. }
    assert (Hin : binaryTask k v
                  ∈ map (fun kv => binaryTask (fst kv) (snd kv))
                        (range (containerdBinaries b))).
    { apply list_elem_of_fmap. exists (k, v). split; [reflexivity|].
      by apply AwsModelFacts.range_lookup. }
    destruct (installContainerd_binaries Hr Hsize) as [rest ->].
    unfold addCrictlConfig. rewrite !elem_of_app. split.
    + right. right. left. left. exact Hin.
    + right. right. left. right. by apply list_elem_of_singleton.
Qed.

End Build.

#[local] Existing Instance exampleNodeExternals.
#[local] Existing Instance canonicalRange.

Lemma Build_only_configures_witness :
  let b := exampleNode DistributionFlatcar true "100.64.0.0/10" in
  (forall t, t ∈ fst (Build b) -> configures b t)
  /\ (snd (Build b) = None \/ snd (Build b) = Some cidrError).
Proof.
  intros b. apply (Build_only_configures b). right. left. reflexivity.
Defined.

Lemma Build_cidr_error_witness :
  let b := exampleNode (DistributionOther "ubuntu") true "" in
  snd (Build b) = Some cidrError
  /\ forall f, TFile f ∈ fst (Build b) ->
               Path f <> containerdConfigFilePath b.
Proof.
  intros b. destruct (Build_cidr_error b) as [Hiff Hno].
  assert (He : snd (Build b) = Some cidrError).
  { apply Hiff. repeat split; reflexivity. }
  split; [exact He|exact (Hno He)].
Defined.

Lemma Build_referenced_files_witness :
  let flatcar := exampleNode DistributionFlatcar true "100.64.0.0/10" in
  let ubuntu := exampleNode (DistributionOther "ubuntu") true "100.64.0.0/10" in
  (forall f p, TFile f ∈ fst (Build flatcar) -> p ∈ AfterFiles f ->
     exists g, TFile g ∈ fst (Build flatcar) /\ Path g = p
               /\ Contents g = NewStringResource "version = 2")
  /\ exists sv g e,
       TService (buildSystemdService ubuntu sv) ∈ fst (Build ubuntu)
       /\ TFile g ∈ fst (Build ubuntu)
       /\ ("Service", "ExecStart",
           "/usr/bin/containerd -c " +:+ Path g +:+ " "
           +:+ dq +:+ "$CONTAINERD_OPTS" +:+ dq) ∈ systemdManifest ubuntu sv
       /\ TFile e ∈ fst (Build ubuntu)
       /\ ("Service", "EnvironmentFile", Path e) ∈ systemdManifest ubuntu sv.
Proof.
  intros flatcar ubuntu. split.
  - exact (proj1 (Build_referenced_files flatcar eq_refl)).
  - destruct (proj2 (Build_referenced_files ubuntu eq_refl) eq_refl eq_refl)
      as (sv & g & e & flags & _ & Hsv & Hg & _ & Hstart & He & _ & Henv).
    exists sv, g, e. repeat split; assumption.
Defined.

Lemma Build_binaries_witness :
  let b := exampleNode (DistributionOther "ubuntu") true "100.64.0.0/10" in
  binaryTask "containerd" "testing containerd content" ∈ fst (Build b)
  /\ TFile (mkFile "/etc/crictl.yaml" (NewStringResource crictlConf)
              FileType_File None [] []) ∈ fst (Build b).
Proof.
  intros b.
  apply (proj2 (Build_binaries b) eq_refl eq_refl eq_refl).
  - intros _. discriminate.
  - left. reflexivity.
Defined.

End NodeupModelFacts.
